(** * github-to-jira-action: the synchronization engine

  A shallow embedding of the TypeScript sources (github.ts, jira.ts,
  sync-repo.ts, sync.ts, throttle-queue.ts, config.ts) and the properties
  of the synchronization engine proved about it.

  Conventions of the embedding:
  - a JavaScript [number] that the code only uses as an integer is a [Z];
  - an optional field ([x?: T], or a value read through [?.]) is an [option];
  - an [async] method is a computation in the monad [M]: it threads the
    world (the calls made to the two trackers, the log, the objects' private
    fields) and either returns or throws;
  - a [for ... of] loop is a [Fixpoint] over the array;
  - builtins whose code is not part of the repository ([Date], moment,
    jira2md, case conversion, number formatting) are fields of [JsRuntime];
  - the requests of the two clients (octokit's [graphql], the jira.js
    clients) are the operations of [Backend];
  - log lines are kept without their decorative emoji.

  The first part of the file holds the definitions, the second part the
  lemmas and theorems. *)

From Stdlib Require Import ZArith String Ascii List Bool Lia DecimalString Permutation Setoid Morphisms.
From stdpp Require Import base option gmap strings.
Import ListNotations.

Local Open Scope list_scope.
Local Open Scope string_scope.

(** ** JavaScript array and string helpers *)

Module JS.

(** Truthiness of a string and of a number, as tested by [if (x)],
    [x && y] and [filter((x) => x)]. *)
Definition truthy_string (s : string) : bool := negb (String.eqb s "").
Definition truthy_number (n : Z) : bool := negb (Z.eqb n 0).

(** [labels.includes(x)] on an array of strings. *)
Definition includes (l : list string) (x : string) : bool :=
  existsb (String.eqb x) l.

(** [arr.findIndex(p)]: the index of the first element satisfying [p],
    [-1] when there is none. *)
Fixpoint findIndex_from {A : Type} (p : A -> bool) (l : list A) (i : Z) : Z :=
  match l with
  | [] => (-1)%Z
  | x :: r => if p x then i else findIndex_from p r (i + 1)%Z
  end.

Definition findIndex {A : Type} (p : A -> bool) (l : list A) : Z :=
  findIndex_from p l 0%Z.

(** [arr.filter((x, index) => p(x, index))]. *)
Fixpoint filter_index_from {A : Type} (p : A -> Z -> bool) (l : list A) (i : Z)
  : list A :=
  match l with
  | [] => []
  | x :: r =>
      if p x i then x :: filter_index_from p r (i + 1)%Z
      else filter_index_from p r (i + 1)%Z
  end.

Definition filter_index {A : Type} (p : A -> Z -> bool) (l : list A) : list A :=
  filter_index_from p l 0%Z.

(** [arr.find(p)]. *)
Definition find {A : Type} (p : A -> bool) (l : list A) : option A :=
  List.find p l.

(** [arr.slice(0, e)]: a negative [e] counts from the end of the array. *)
Definition slice0 {A : Type} (l : list A) (e : Z) : list A :=
  if (e <? 0)%Z
  then firstn (Z.to_nat (Z.max (Z.of_nat (length l) + e) 0)) l
  else firstn (Z.to_nat e) l.

(** [arr[i]]: [undefined] out of range. *)
Definition at_index {A : Type} (l : list A) (i : Z) : option A :=
  if (i <? 0)%Z then None else nth_error l (Z.to_nat i).

(** [s.split(c)[0]]: what precedes the first occurrence of [c]. *)
Fixpoint split_head (c : ascii) (s : string) : string :=
  match s with
  | EmptyString => EmptyString
  | String a r => if Ascii.eqb a c then EmptyString else String a (split_head c r)
  end.

(** [s.split(c)]. *)
Fixpoint split_from (c : ascii) (cur : string) (s : string) : list string :=
  match s with
  | EmptyString => [cur]
  | String a r =>
      if Ascii.eqb a c then cur :: split_from c EmptyString r
      else split_from c (cur ++ String a EmptyString) r
  end.

Definition split (c : ascii) (s : string) : list string :=
  split_from c EmptyString s.

(** [s.charAt(0)]. *)
Definition charAt0 (s : string) : string :=
  match s with
  | EmptyString => EmptyString
  | String a _ => String a EmptyString
  end.

(** [parts.join('')]. *)
Definition join_empty (parts : list string) : string :=
  fold_right String.append EmptyString parts.

(** [o === s] for an optional string [o] and a string [s]. *)
Definition opt_eqb (o : option string) (s : string) : bool :=
  match o with
  | Some x => String.eqb x s
  | None => false
  end.

(** Truthiness of an optional string and of an optional number. *)
Definition truthy_opt_string (o : option string) : bool :=
  match o with
  | Some s => truthy_string s
  | None => false
  end.

Definition truthy_opt_number (o : option Z) : bool :=
  match o with
  | Some n => truthy_number n
  | None => false
  end.

(** The double quote, for the messages that contain one. *)
Definition dquote : string := String (ascii_of_nat 34) EmptyString.

(** An optional string inside a template literal. *)
Definition show_opt (o : option string) : string :=
  match o with
  | Some s => s
  | None => "undefined"
  end.

End JS.

(** ** Errors and the outcome of a call *)

(** What a call can throw: the [HttpException] of jira.js, recognised by the
  upsert loop, and the [Error]s and [RangeError]s raised by the code and
  by [Date]. *)
Inductive JsError : Type :=
| HttpException (status : Z) (statusText code : string)
| Error (message : string)
| RangeError (message : string).

(** The outcome of running a computation: it returns, it throws, or the
  bound given to one of its unbounded loops (the recursion over cursor
  pages, the [do ... while] over sprint pages) was not enough. *)
Inductive Result (A : Type) : Type :=
| Ok (a : A)
| Throw (e : JsError)
| OutOfFuel.

Arguments Ok {A} a.
Arguments Throw {A} e.
Arguments OutOfFuel {A}.

(** ** Data model *)

(** *** Source records (github.ts) *)

Record GraphQLSearchIssuesNodeMilestone : Type := {
  milestone_id : string;
  milestone_dueOn : option string;
  milestone_closed : option bool;
  milestone_title : string
}.

Record GraphQLSearchIssuesNodeSprint : Type := {
  sprint_title : string;
  sprint_duration : Z;
  sprint_startDate : string
}.

(** One element of [projectItems.projects], seen through its [project]
  field.  [item_title] is [project.title?.name], [item_status] is
  [project.status?.name], [item_storyPoints] is
  [project.storyPoints?.value]. *)
Record ProjectItem : Type := {
  item_title : option string;
  item_status : option string;
  item_sprint : option GraphQLSearchIssuesNodeSprint;
  item_storyPoints : option Z
}.

Record GraphQLSearchIssuesNode : Type := {
  issue_url : string;
  issue_number : Z;
  issue_state : string;
  issue_updatedAt : string;
  issue_body : string;
  issue_title : string;
  issue_labels : list string;
  issue_milestone : option GraphQLSearchIssuesNodeMilestone;
  issue_projectItems : list ProjectItem
}.

Record PageInfo : Type := {
  startCursor : string;
  endCursor : string;
  hasNextPage : bool
}.

Record RateLimit : Type := {
  rl_cost : Z;
  rl_remaining : Z;
  rl_resetAt : string
}.

(** [search.edges] is an array of [{ node: GraphQLSearchIssuesNode[] }]. *)
Record GraphQLSearchIssuesResponse : Type := {
  rateLimit : RateLimit;
  search_pageInfo : PageInfo;
  search_edges : list (list GraphQLSearchIssuesNode)
}.

(** *** Project configuration (config.ts) *)

Inductive ProjectConfigurationFieldType : Type :=
| FieldNumber
| FieldSingleSelect
| FieldIteration.

Record ProjectConfigurationGitHubField : Type := {
  field_alias : string;
  field_fieldName : string;
  field_type : ProjectConfigurationFieldType
}.

(** A moment.js instant.  The engine only ever calls [toISOString()] on it. *)
Record Moment : Type := { toISOString : string }.

Record ProjectConfigurationGitHub : Type := {
  gh_readToken : string;
  gh_owner : string;
  gh_repo : string;
  gh_project : string;
  gh_startDate : Moment;
  gh_projectFields : list ProjectConfigurationGitHubField
}.

Record ProjectConfigurationJira : Type := {
  jira_host : string;
  jira_projectKey : string;
  jira_writeToken : string;
  jira_component : string;
  jira_globalIdPrefix : string;
  jira_sprintBoard : string
}.

Record SyncYamlIssuesTypeMappingDefinition : Type := {
  fromGithubLabel : string;
  issueType_toJira : string
}.

Record SyncYamStatusTypeMappingDefinition : Type := {
  fromGithub : string;
  status_toJira : string
}.

Record ProjectConfiguration : Type := {
  cfg_name : string;
  cfg_github : ProjectConfigurationGitHub;
  cfg_jira : ProjectConfigurationJira;
  issueTypeDefault : string;
  issueTypeMapping : list SyncYamlIssuesTypeMappingDefinition;
  statusTypeMapping : list SyncYamStatusTypeMappingDefinition;
  statusTypeDefault : string;
  maxBatchNumberIssues : Z
}.

(** ** Mapping Resolver (sync-repo.ts) *)

Module MappingResolver.

(** The body of [for (const mapping of issueTypeMapping)]: [Some t] when
    the loop returns [t], [None] when it runs to its end. *)
Fixpoint issueTypeLoop (mappings : list SyncYamlIssuesTypeMappingDefinition)
                       (labels : list string) : option string :=
  match mappings with
  | [] => None
  | mapping :: rest =>
      if JS.includes labels (fromGithubLabel mapping)
      then Some (issueType_toJira mapping)
      else issueTypeLoop rest labels
  end.

Definition getJiraIssueTypeFromGitHubLabels (cfg : ProjectConfiguration)
                                            (labels : list string) : string :=
  match issueTypeLoop (issueTypeMapping cfg) labels with
  | Some toJira => toJira
  | None => issueTypeDefault cfg
  end.

(** [githubStatus === mapping.fromGithub], where [githubStatus] may be
    [undefined]. *)
Definition status_equal (githubStatus : option string) (from : string) : bool :=
  JS.opt_eqb githubStatus from.

Fixpoint statusLoop (mappings : list SyncYamStatusTypeMappingDefinition)
                    (githubStatus : option string) : option string :=
  match mappings with
  | [] => None
  | mapping :: rest =>
      if status_equal githubStatus (fromGithub mapping)
      then Some (status_toJira mapping)
      else statusLoop rest githubStatus
  end.

Definition getJiraStatusFromGithubProject (cfg : ProjectConfiguration)
                                          (githubStatus : option string) : string :=
  match statusLoop (statusTypeMapping cfg) githubStatus with
  | Some toJira => toJira
  | None => statusTypeDefault cfg
  end.

End MappingResolver.

(** *** Destination records (the parts of the jira.js models the code reads) *)

Record IssueTypeDetails : Type := { issuetype_name : option string }.

Record Project : Type := {
  project_id : option string;
  project_issueTypes : option (list IssueTypeDetails)
}.

Record ProjectComponent : Type := {
  component_id : option string;
  component_name : option string
}.

Record FieldDetails : Type := {
  fielddetails_id : option string;
  fielddetails_name : option string
}.

Record Version : Type := {
  version_id : option string;
  version_name : option string;
  version_released : option bool;
  version_releaseDate : option string;
  version_projectId : option Z
}.

Record Board : Type := {
  board_id : option Z;
  board_name : option string
}.

Record Sprint : Type := {
  jsprint_id : Z;
  jsprint_name : string;
  jsprint_state : string;
  jsprint_startDate : option string;
  jsprint_endDate : option string
}.

Record PaginatedSprint : Type := {
  page_values : list Sprint;
  page_isLast : bool
}.

Record IssueTransition : Type := {
  transition_id : option string;
  transition_toName : option string
}.

(** *** Parameters of the destination calls (jira.ts) *)

Record CreateIssueParams : Type := {
  p_title : string;
  p_body : string;
  p_state : string;
  p_issuetype : string;
  p_status : string;
  p_storyPoints : option Z;
  p_fixVersionId : option string;
  p_sprintBoardId : option Z;
  p_jiraProjectKey : option string;
  p_globalId : string;
  p_remoteLinkUrl : string;
  p_remoteLinkTitle : string
}.

Record CreateReleaseParams : Type := {
  release_name : string;
  release_released : bool;
  release_releaseDate : option string
}.

Record CreateSprintParams : Type := {
  newsprint_name : string;
  newsprint_startDate : string;
  newsprint_endDate : string
}.

(** [{ ...jiraRelease, id: jiraRelease.id ?? '', name, released, releaseDate }] *)
Record UpdateReleaseParams : Type := {
  updrelease_spread : Version;
  updrelease_id : string;
  updrelease_name : string;
  updrelease_released : bool;
  updrelease_releaseDate : option string
}.

(** [{ ...jiraSprint, sprintId: jiraSprint.id ?? 0, name, startDate, endDate }] *)
Record UpdateSprintParams : Type := {
  updsprint_spread : Sprint;
  updsprint_sprintId : Z;
  updsprint_name : string;
  updsprint_startDate : string;
  updsprint_endDate : string
}.

Record CreateVersion : Type := {
  cv_projectId : Z;
  cv_name : string;
  cv_released : bool;
  cv_releaseDate : option string
}.

Record CreateSprint : Type := {
  csp_originBoardId : Z;
  csp_name : string;
  csp_startDate : string;
  csp_endDate : string
}.

(** [createParams.fields]: the optional epic-name custom field (its id and
  value), then summary, project key and issue type. *)
Record IssueCreateFields : Type := {
  fields_epicName : option (string * string);
  fields_summary : string;
  fields_projectKey : option string;
  fields_issuetype : string
}.

(** [updateFields]: the creation fields, the story-points custom field (its
  id and value), components, description and fix versions. *)
Record IssueEditFields : Type := {
  fields_create : IssueCreateFields;
  fields_storyPoints : option (string * Z);
  fields_components : option (list string);
  fields_description : string;
  fields_fixVersions : list string
}.

Record RemoteIssueLink : Type := {
  link_issueIdOrKey : string;
  link_globalId : string;
  link_url : string;
  link_title : string
}.

(** The search sent to the source: the values interpolated into the GraphQL
  text and the [cursorAfter] variable. *)
Record GitHubSearch : Type := {
  search_owner : string;
  search_repo : string;
  search_updatedAfter : string;
  search_projectFields : list ProjectConfigurationGitHubField;
  search_first : Z;
  search_cursorAfter : option string;
  search_token : string
}.

(** ** The world: calls, log and pauses *)

Inductive LogLevel : Type :=
| Info
| Debug
| Warning
| StartGroup
| EndGroup
| ConsoleError.

Inductive JiraCall : Type :=
| GetCurrentUser
| GetProject (projectIdOrKey : string)
| GetProjectComponents (projectIdOrKey : string)
| GetFields
| GetProjectVersions (projectIdOrKey : string)
| GetAllBoards (projectKeyOrId : string)
| GetAllSprints (boardId startAt maxResults : Z)
| CreateSprintCall (params : CreateSprint)
| UpdateSprintCall (params : UpdateSprintParams)
| CreateVersionCall (params : CreateVersion)
| UpdateVersionCall (params : UpdateReleaseParams)
| SearchForIssuesUsingJql (jql : string) (maxResults : Z)
| CreateIssue (fields : IssueCreateFields)
| CreateOrUpdateRemoteIssueLink (link : RemoteIssueLink)
| EditIssue (issueIdOrKey : string) (fields : IssueEditFields)
| GetIssue (issueIdOrKey : string)
| GetTransitions (issueIdOrKey : string)
| DoTransition (issueIdOrKey : string) (transitionId : string)
| MoveIssuesToSprintAndRank (sprintId : Z) (issues : list string).

Inductive Event : Type :=
| Log (level : LogLevel) (message : string)
| Pause (ms : Z)
| GitHubQuery (q : GitHubSearch)
| Jira (call : JiraCall).

(** Builtins and libraries the code calls and the repository does not
  contain. *)
Class JsRuntime : Type := {
  (** [new Date(s).toISOString()]; [None] when the date is invalid and
      [toISOString] throws a [RangeError] *)
  Date_toISOString : string -> option string;
  (** [moment(s).add(n, 'day').toISOString()] *)
  moment_add_days : string -> Z -> string;
  (** [jira2md.to_jira(s)] *)
  to_jira : string -> string;
  toUpperCase : string -> string;
  toLowerCase : string -> string;
  (** a number inside a template literal *)
  String_of_number : Z -> string;
  (** an error inside a template literal *)
  String_of_error : JsError -> string;
  (** [Number(s)] *)
  Number_of_string : option string -> Z
}.

(** The two external systems.  Each operation is one request; it reads and
  changes the state [Env] of the outside world and returns or throws. *)
Class Backend : Type := {
  Env : Type;
  graphql : GitHubSearch -> Env -> Result GraphQLSearchIssuesResponse * Env;
  myself_getCurrentUser : Env -> Result unit * Env;
  projects_getProject : string -> Env -> Result Project * Env;
  projectComponents_getProjectComponents :
    string -> Env -> Result (list ProjectComponent) * Env;
  issueFields_getFields : Env -> Result (list FieldDetails) * Env;
  projectVersions_getProjectVersions : string -> Env -> Result (list Version) * Env;
  projectVersions_createVersion : CreateVersion -> Env -> Result unit * Env;
  projectVersions_updateVersion : UpdateReleaseParams -> Env -> Result unit * Env;
  board_getAllBoards : string -> Env -> Result (option (list Board)) * Env;
  board_getAllSprints : Z -> Z -> Z -> Env -> Result PaginatedSprint * Env;
  sprint_createSprint : CreateSprint -> Env -> Result unit * Env;
  sprint_updateSprint : UpdateSprintParams -> Env -> Result unit * Env;
  sprint_moveIssuesToSprintAndRank : Z -> list string -> Env -> Result unit * Env;
  issueSearch_searchForIssuesUsingJql :
    string -> Z -> Env -> Result (option (list string)) * Env;
  issues_createIssue : IssueCreateFields -> Env -> Result string * Env;
  issueRemoteLinks_createOrUpdateRemoteIssueLink :
    RemoteIssueLink -> Env -> Result unit * Env;
  issues_editIssue : string -> IssueEditFields -> Env -> Result unit * Env;
  issues_getIssue : string -> Env -> Result (option string) * Env;
  issues_getTransitions : string -> Env -> Result (option (list IssueTransition)) * Env;
  issues_doTransition : string -> string -> Env -> Result unit * Env
}.

(** The private fields of a [Jira] object and of a [SyncRepository]. *)
Record JiraFields : Type := {
  storyPointsFieldId : option string;
  epicNameFieldId : option string;
  project : option Project;
  components : list ProjectComponent;
  boardId : option Z
}.

Record SyncRepositoryFields : Type := {
  fixVersions : gmap string (option string);
  sprints : gmap string Z
}.

Definition new_Jira : JiraFields :=
  {| storyPointsFieldId := None; epicNameFieldId := None; project := None;
     components := []; boardId := None |}.

Definition new_SyncRepository : SyncRepositoryFields :=
  {| fixVersions := ∅; sprints := ∅ |}.

Section Monad.

Context {be : Backend}.

Record World : Type := {
  trace : list Event;
  env : Env;
  jira : JiraFields;
  repo : SyncRepositoryFields
}.

Definition M (A : Type) : Type := World -> Result A * World.

Definition ret {A : Type} (a : A) : M A := fun w => (Ok a, w).

Definition bind {A B : Type} (c : M A) (k : A -> M B) : M B :=
  fun w =>
    match c w with
    | (Ok a, w') => k a w'
    | (Throw e, w') => (Throw e, w')
    | (OutOfFuel, w') => (OutOfFuel, w')
    end.

Definition throw {A : Type} (e : JsError) : M A := fun w => (Throw e, w).

Definition out_of_fuel {A : Type} : M A := fun w => (OutOfFuel, w).

(** [try { c } catch (error) { handler(error) }] *)
Definition try_catch {A : Type} (c : M A) (handler : JsError -> M A) : M A :=
  fun w =>
    match c w with
    | (Ok a, w') => (Ok a, w')
    | (Throw e, w') => handler e w'
    | (OutOfFuel, w') => (OutOfFuel, w')
    end.

(** A promise that is not awaited: the call is started, its result and its
  rejection are dropped. *)
Definition detached {A : Type} (c : M A) : M unit :=
  fun w =>
    match c w with
    | (OutOfFuel, w') => (OutOfFuel, w')
    | (_, w') => (Ok tt, w')
    end.

(** A partial builtin used inside an [async] method. *)
Definition lift {A : Type} (r : Result A) : M A := fun w => (r, w).

Definition emit (e : Event) : M unit :=
  fun w =>
    (Ok tt, {| trace := (trace w ++ [e])%list; env := env w; jira := jira w; repo := repo w |}).

(** One request to an external system: it is recorded, then answered. *)
Definition request {A : Type} (e : Event) (op : Env -> Result A * Env) : M A :=
  fun w =>
    let (r, env') := op (env w) in
    (r, {| trace := (trace w ++ [e])%list; env := env'; jira := jira w; repo := repo w |}).

Definition get_jira : M JiraFields := fun w => (Ok (jira w), w).

Definition set_jira (j : JiraFields) : M unit :=
  fun w => (Ok tt, {| trace := trace w; env := env w; jira := j; repo := repo w |}).

Definition get_repo : M SyncRepositoryFields := fun w => (Ok (repo w), w).

Definition set_repo (r : SyncRepositoryFields) : M unit :=
  fun w => (Ok tt, {| trace := trace w; env := env w; jira := jira w; repo := r |}).

(** [await new Promise((resolve) => setTimeout(resolve, ms))] *)
Definition sleep (ms : Z) : M unit := emit (Pause ms).

Definition log (level : LogLevel) (message : string) : M unit :=
  emit (Log level message).

End Monad.

Notation "'let*' x := c 'in' k" := (bind c (fun x => k))
  (at level 10, x name, c at level 100, k at level 200).
Notation "c ;;; k" := (bind c (fun _ => k))
  (at level 100, k at level 200, right associativity).

(** ** The destination client (jira.ts, class [Jira]) *)

Section JiraClass.

Context {rt : JsRuntime} {be : Backend}.

Variable projectConfiguration : ProjectConfiguration.

Definition checkJiraConnection : M bool :=
  try_catch
    (request (Jira GetCurrentUser) myself_getCurrentUser ;;;
     ret true)
    (fun e =>
       log ConsoleError ("Jira connection error " ++ String_of_error e) ;;;
       ret false).

(** The loop [for (const wantedIssueType of wantedIssueTypes)] of
  [initAndCheck]: the first wanted issue type that Jira does not have. *)
Fixpoint firstMissingIssueType (existingIssueTypes wantedIssueTypes : list string)
  : option string :=
  match wantedIssueTypes with
  | [] => None
  | wantedIssueType :: rest =>
      if negb (JS.includes existingIssueTypes wantedIssueType)
      then Some wantedIssueType
      else firstMissingIssueType existingIssueTypes rest
  end.

(** [fields.find((field) => field.name === wanted)], then the test
  [!field || !field.id]: the id when it is there and not empty. *)
Definition findFieldId (fields : list FieldDetails) (wanted : string) : option string :=
  match JS.find (fun field => JS.opt_eqb (fielddetails_name field) wanted) fields with
  | Some field =>
      if JS.truthy_opt_string (fielddetails_id field) then fielddetails_id field else None
  | None => None
  end.

Definition initAndCheck : M unit :=
  let* jiraConnected := checkJiraConnection in
  if negb jiraConnected then throw (Error "Jira connection error") else
  let projectKey := jira_projectKey (cfg_jira projectConfiguration) in
  let* p := request (Jira (GetProject projectKey)) (projects_getProject projectKey) in
  let* j := get_jira in
  set_jira {| storyPointsFieldId := storyPointsFieldId j;
              epicNameFieldId := epicNameFieldId j;
              project := Some p;
              components := components j;
              boardId := boardId j |} ;;;
  let existingIssueTypes :=
    omap issuetype_name (default [] (project_issueTypes p)) in
  let wantedIssueTypes := map issueType_toJira (issueTypeMapping projectConfiguration) in
  match firstMissingIssueType existingIssueTypes wantedIssueTypes with
  | Some wantedIssueType =>
      throw (Error ("Issue type " ++ JS.dquote ++ wantedIssueType ++ JS.dquote
                    ++ " not found in Jira to sync the project "
                    ++ cfg_name projectConfiguration))
  | None =>
     (let* cs := request (Jira (GetProjectComponents projectKey))
                    (projectComponents_getProjectComponents projectKey) in
      let* j := get_jira in
      set_jira {| storyPointsFieldId := storyPointsFieldId j;
                  epicNameFieldId := epicNameFieldId j;
                  project := project j;
                  components := cs;
                  boardId := boardId j |} ;;;
      let wantedComponent := jira_component (cfg_jira projectConfiguration) in
      match JS.find (fun component => JS.opt_eqb (component_name component) wantedComponent) cs with
      | None =>
          throw (Error ("Component " ++ JS.dquote ++ wantedComponent ++ JS.dquote
                        ++ " not found in Jira to sync the project "
                        ++ cfg_name projectConfiguration))
      | Some _ =>
         (let* fields := request (Jira GetFields) issueFields_getFields in
          match findFieldId fields "Story Points" with
          | None => throw (Error "Story Points field cannot be found")
          | Some storyPointsId =>
             (let* j := get_jira in
              set_jira {| storyPointsFieldId := Some storyPointsId;
                          epicNameFieldId := epicNameFieldId j;
                          project := project j;
                          components := components j;
                          boardId := boardId j |} ;;;
              match findFieldId fields "Epic Name" with
              | None => throw (Error "Epic Name field cannot be found")
              | Some epicNameId =>
                  (let* j := get_jira in
                   set_jira {| storyPointsFieldId := storyPointsFieldId j;
                               epicNameFieldId := Some epicNameId;
                               project := project j;
                               components := components j;
                               boardId := boardId j |})
              end)
          end)
      end)
  end.

Definition getReleases : M (list Version) :=
  let projectKey := jira_projectKey (cfg_jira projectConfiguration) in
  request (Jira (GetProjectVersions projectKey))
          (projectVersions_getProjectVersions projectKey).

(** The [do { ... } while (!response.isLast)] of [doGetAllSprintsByBoardId];
  [fuel] bounds the number of pages asked for. *)
Fixpoint doGetAllSprintsLoop (fuel : nat) (boardId : Z) (allSprints : list Sprint)
                             (startAt : Z) : M (list Sprint) :=
  match fuel with
  | O => out_of_fuel
  | S fuel' =>
      let* response := request (Jira (GetAllSprints boardId startAt 50))
                          (board_getAllSprints boardId startAt 50) in
      let allSprints := (allSprints ++ page_values response)%list in
      let startAt := (startAt + Z.of_nat (length (page_values response)))%Z in
      if negb (page_isLast response)
      then doGetAllSprintsLoop fuel' boardId allSprints startAt
      else ret allSprints
  end.

Definition doGetAllSprintsByBoardId (fuel : nat) (boardId : Z) : M (list Sprint) :=
  doGetAllSprintsLoop fuel boardId [] 0%Z.

Definition boardNotFound : JsError :=
  Error ("Board with name " ++ jira_sprintBoard (cfg_jira projectConfiguration)
         ++ " not found for project " ++ jira_projectKey (cfg_jira projectConfiguration)).

Definition getSprints (fuel : nat) : M (list Sprint) :=
  let projectKey := jira_projectKey (cfg_jira projectConfiguration) in
  let* boards := request (Jira (GetAllBoards projectKey)) (board_getAllBoards projectKey) in
  let board :=
    match boards with
    | Some values =>
        JS.find (fun b => JS.opt_eqb (board_name b)
                                     (jira_sprintBoard (cfg_jira projectConfiguration)))
                values
    | None => None
    end in
  match board with
  | Some b =>
      match board_id b with
      | Some id =>
          if JS.truthy_number id then
            let* j := get_jira in
            set_jira {| storyPointsFieldId := storyPointsFieldId j;
                        epicNameFieldId := epicNameFieldId j;
                        project := project j;
                        components := components j;
                        boardId := Some id |} ;;;
            doGetAllSprintsByBoardId fuel id
          else throw boardNotFound
      | None => throw boardNotFound
      end
  | None => throw boardNotFound
  end.

Definition createSprint (sprint : CreateSprintParams) : M unit :=
  let* j := get_jira in
  match boardId j with
  | Some id =>
      if JS.truthy_number id then
        let params := {| csp_originBoardId := id;
                         csp_name := newsprint_name sprint;
                         csp_startDate := newsprint_startDate sprint;
                         csp_endDate := newsprint_endDate sprint |} in
        request (Jira (CreateSprintCall params)) (sprint_createSprint params)
      else throw (Error "Board id not initialized, cannot create sprint")
  | None => throw (Error "Board id not initialized, cannot create sprint")
  end.

Definition updateSprint (params : UpdateSprintParams) : M unit :=
  request (Jira (UpdateSprintCall params)) (sprint_updateSprint params).

Definition createRelease (release : CreateReleaseParams) : M unit :=
  let* j := get_jira in
  match project j with
  | None => throw (Error "Project not initialized, cannot create release")
  | Some p =>
      let projectId := Number_of_string (project_id p) in
      let params := {| cv_projectId := projectId;
                       cv_name := release_name release;
                       cv_released := release_released release;
                       cv_releaseDate := release_releaseDate release |} in
      request (Jira (CreateVersionCall params)) (projectVersions_createVersion params)
  end.

Definition updateRelease (params : UpdateReleaseParams) : M unit :=
  request (Jira (UpdateVersionCall params)) (projectVersions_updateVersion params).

(** [issues.issues?.[0]?.key] *)
Definition findExistingGithubIssueInJira (remoteId : string) : M (option string) :=
  let jql := "issue in issuesWithRemoteLinksByGlobalId(" ++ JS.dquote ++ remoteId
             ++ JS.dquote ++ ") and project = " ++ JS.dquote
             ++ jira_projectKey (cfg_jira projectConfiguration) ++ JS.dquote in
  let* found := request (Jira (SearchForIssuesUsingJql jql 1))
                   (issueSearch_searchForIssuesUsingJql jql 1) in
  ret match found with
      | Some (key :: _) => Some key
      | _ => None
      end.

Definition getTransitionId (issueKey targetStatus : string) : M (option string) :=
  let* transitions := request (Jira (GetTransitions issueKey)) (issues_getTransitions issueKey) in
  let transition :=
    match transitions with
    | Some ts =>
        JS.find (fun t => JS.opt_eqb (option_map toLowerCase (transition_toName t))
                                     (toLowerCase targetStatus))
                ts
    | None => None
    end in
  ret match transition with
      | Some t => transition_id t
      | None => None
      end.

Definition updateIssueStatusTo (issueKey newStatus : string) : M unit :=
  let* transitionId := getTransitionId issueKey newStatus in
  match transitionId with
  | Some id =>
      if JS.truthy_string id
      then request (Jira (DoTransition issueKey id)) (issues_doTransition issueKey id)
      else throw (Error ("Transition to status " ++ JS.dquote ++ newStatus ++ JS.dquote
                         ++ " not found"))
  | None => throw (Error ("Transition to status " ++ JS.dquote ++ newStatus ++ JS.dquote
                          ++ " not found"))
  end.

(** [createParams.fields] of [createOrUpdateIssue]. *)
Definition createFields (j : JiraFields) (params : CreateIssueParams) : IssueCreateFields :=
  {| fields_epicName :=
       match epicNameFieldId j with
       | Some epicId =>
           if JS.truthy_string epicId && String.eqb (p_issuetype params) "Epic"
           then Some (epicId, p_title params)
           else None
       | None => None
       end;
     fields_summary := p_title params;
     fields_projectKey := p_jiraProjectKey params;
     fields_issuetype := p_issuetype params |}.

(** [updateFields] of [createOrUpdateIssue]. *)
Definition updateFields (j : JiraFields) (params : CreateIssueParams) : IssueEditFields :=
  {| fields_create := createFields j params;
     fields_storyPoints :=
       match storyPointsFieldId j with
       | Some spId =>
           if JS.truthy_string spId
           then Some (spId, match p_storyPoints params with
                            | Some storyPoints => storyPoints
                            | None => 1%Z
                            end)
           else None
       | None => None
       end;
     fields_components :=
       match JS.find (fun c => JS.opt_eqb (component_name c)
                                          (jira_component (cfg_jira projectConfiguration)))
                     (components j) with
       | Some findComponent =>
           match component_id findComponent with
           | Some id => if JS.truthy_string id then Some [id] else None
           | None => None
           end
       | None => None
       end;
     fields_description := p_body params;
     fields_fixVersions :=
       match p_fixVersionId params with
       | Some id => if JS.truthy_string id then [id] else []
       | None => []
       end |}.

Definition createOrUpdateIssue (params : CreateIssueParams) : M string :=
  let* j := get_jira in
  if negb (JS.truthy_opt_string (storyPointsFieldId j))
  then throw (Error "Story Points field not initialized, cannot create or update issue")
  else
  if negb (JS.truthy_opt_string (epicNameFieldId j)) && String.eqb (p_issuetype params) "Epic"
  then throw (Error "Epic Name field not initialized, cannot create or update issue")
  else
  log Debug ("  Creating issue in Jira Type/" ++ p_issuetype params
             ++ " status/" ++ p_status params
             ++ " state/" ++ p_state params
             ++ " fixVersionID " ++ JS.show_opt (p_fixVersionId params)
             ++ " sprintBoardId/"
             ++ JS.show_opt (option_map String_of_number (p_sprintBoardId params))) ;;;
  let createParams := createFields j params in
  let* existingKey := findExistingGithubIssueInJira (p_globalId params) in
  let* issueKey := (if negb (JS.truthy_opt_string existingKey)
               then request (Jira (CreateIssue createParams)) (issues_createIssue createParams)
               else ret (default "" existingKey)) in
  let link := {| link_issueIdOrKey := issueKey;
                 link_globalId := p_globalId params;
                 link_url := p_remoteLinkUrl params;
                 link_title := p_remoteLinkTitle params |} in
  request (Jira (CreateOrUpdateRemoteIssueLink link))
          (issueRemoteLinks_createOrUpdateRemoteIssueLink link) ;;;
  request (Jira (EditIssue issueKey (updateFields j params)))
          (issues_editIssue issueKey (updateFields j params)) ;;;
  let toStatus := p_status params in
  let* currentStatus := request (Jira (GetIssue issueKey)) (issues_getIssue issueKey) in
  (if negb (JS.opt_eqb (option_map toLowerCase currentStatus) (toLowerCase toStatus))
   then updateIssueStatusTo issueKey toStatus
   else log Debug ("  Issue " ++ issueKey ++ " already in status " ++ toStatus
                   ++ ", skipping")) ;;;
  (if JS.truthy_opt_number (p_sprintBoardId params)
   then request (Jira (MoveIssuesToSprintAndRank (default 0%Z (p_sprintBoardId params)) [issueKey]))
                (sprint_moveIssuesToSprintAndRank (default 0%Z (p_sprintBoardId params)) [issueKey])
   else ret tt) ;;;
  ret issueKey.

End JiraClass.

(** ** The batch fetcher (github.ts, class [GitHub]) *)

Record IssuesUpdatedAfter : Type := {
  fetched_owner : string;
  fetched_repo : string;
  afterDate : string;
  fetched_issues : list GraphQLSearchIssuesNode
}.

Section GitHubClass.

Context {rt : JsRuntime} {be : Backend}.

Variable projectConfiguration : ProjectConfiguration.

(** The search of [doGetIssuesUpdatedAfterBatch]: repository, the
  [updated:>] bound, the requested board fields, page size 50 and the cursor. *)
Definition searchQuery (cursor : option string) : GitHubSearch :=
  {| search_owner := gh_owner (cfg_github projectConfiguration);
     search_repo := gh_repo (cfg_github projectConfiguration);
     search_updatedAfter := toISOString (gh_startDate (cfg_github projectConfiguration));
     search_projectFields := gh_projectFields (cfg_github projectConfiguration);
     search_first := 50%Z;
     search_cursorAfter := cursor;
     search_token := gh_readToken (cfg_github projectConfiguration) |}.

(** The recursion of [doGetIssuesUpdatedAfterBatch] over the cursor pages;
  [fuel] bounds the number of pages asked for. *)
Fixpoint doGetIssuesUpdatedAfterBatch (fuel : nat) (cursor : option string)
    (previousIssues : option (list GraphQLSearchIssuesNode))
  : M (list GraphQLSearchIssuesNode) :=
  match fuel with
  | O => out_of_fuel
  | S fuel' =>
      let* graphQlResponse :=
        request (GitHubQuery (searchQuery cursor)) (graphql (searchQuery cursor)) in
      let currentEntries := concat (search_edges graphQlResponse) in
      let allGraphQlResponse :=
        match previousIssues with
        | Some previous => (previous ++ currentEntries)%list
        | None => currentEntries
        end in
      if (Z.of_nat (length allGraphQlResponse) >=? maxBatchNumberIssues projectConfiguration)%Z
      then ret (JS.slice0 allGraphQlResponse (maxBatchNumberIssues projectConfiguration))
      else
        log Debug ("Fetched additional "
                   ++ String_of_number (Z.of_nat (length currentEntries))
                   ++ ", current total "
                   ++ String_of_number (Z.of_nat (length allGraphQlResponse))
                   ++ " items") ;;;
        if hasNextPage (search_pageInfo graphQlResponse)
        then
          log Debug "Fetching additional issues..." ;;;
          doGetIssuesUpdatedAfterBatch fuel'
            (Some (endCursor (search_pageInfo graphQlResponse)))
            (Some allGraphQlResponse)
        else ret allGraphQlResponse
  end.

(** [nextStartDate] of [getIssuesUpdatedAfter]: the start date, replaced by
  the [updatedAt] of the last fetched issue when there is one. *)
Definition nextStartDate (issues : list GraphQLSearchIssuesNode) : string :=
  match JS.at_index issues (Z.of_nat (length issues) - 1)%Z with
  | Some lastItem => issue_updatedAt lastItem
  | None => toISOString (gh_startDate (cfg_github projectConfiguration))
  end.

Definition getIssuesUpdatedAfter (fuel : nat) : M IssuesUpdatedAfter :=
  let* issues := doGetIssuesUpdatedAfterBatch fuel None None in
  ret {| fetched_owner := gh_owner (cfg_github projectConfiguration);
         fetched_repo := gh_repo (cfg_github projectConfiguration);
         afterDate := nextStartDate issues;
         fetched_issues := issues |}.

End GitHubClass.

(** ** Reconciliation and upsert (sync-repo.ts, class [SyncRepository]) *)

Section SyncRepositoryClass.

Context {rt : JsRuntime} {be : Backend}.

Variable projectConfiguration : ProjectConfiguration.

(** [new Date(s).toISOString()], throwing when the date is invalid. *)
Definition dateToISO (s : string) : Result string :=
  match Date_toISOString s with
  | Some iso => Ok iso
  | None => Throw (RangeError "Invalid time value")
  end.

Definition fromGithubMilestoneToJiraRelease (githubMilestone : GraphQLSearchIssuesNodeMilestone)
  : Result CreateReleaseParams :=
  let build releaseDate :=
    {| release_name := milestone_title githubMilestone;
       release_released := default false (milestone_closed githubMilestone);
       release_releaseDate := releaseDate |} in
  if JS.truthy_opt_string (milestone_dueOn githubMilestone)
  then match dateToISO (default "" (milestone_dueOn githubMilestone)) with
       | Ok iso => Ok (build (Some (JS.split_head "T" iso)))
       | Throw e => Throw e
       | OutOfFuel => OutOfFuel
       end
  else Ok (build None).

(** The milestones of the fetched issues that have an id. *)
Definition githubReleases (issues : list GraphQLSearchIssuesNode)
  : list GraphQLSearchIssuesNodeMilestone :=
  List.filter (fun m => JS.truthy_string (milestone_id m))
    (omap issue_milestone issues).

(** The first milestone of each title. *)
Definition githubReleasesWithoutDuplicates (issues : list GraphQLSearchIssuesNode)
  : list GraphQLSearchIssuesNodeMilestone :=
  JS.filter_index
    (fun m index =>
       Z.eqb (JS.findIndex (fun m2 => String.eqb (milestone_title m2) (milestone_title m))
                           (githubReleases issues))
             index)
    (githubReleases issues).

Definition withProjectPrefix (release : GraphQLSearchIssuesNodeMilestone)
  : GraphQLSearchIssuesNodeMilestone :=
  {| milestone_id := milestone_id release;
     milestone_dueOn := milestone_dueOn release;
     milestone_closed := milestone_closed release;
     milestone_title := cfg_name projectConfiguration ++ " " ++ milestone_title release |}.

Definition githubReleasesWithProjectPrefix (issues : list GraphQLSearchIssuesNode)
  : list GraphQLSearchIssuesNodeMilestone :=
  map withProjectPrefix (githubReleasesWithoutDuplicates issues).

(** [jiraReleases.find((r) => r.name === title)] *)
Definition findJiraRelease (jiraReleases : list Version) (title : string) : option Version :=
  JS.find (fun r => JS.opt_eqb (version_name r) title) jiraReleases.

Definition releasesToCreate (jiraReleases : list Version)
    (issues : list GraphQLSearchIssuesNode) : list GraphQLSearchIssuesNodeMilestone :=
  List.filter (fun release =>
                 negb (bool_decide (is_Some (findJiraRelease jiraReleases (milestone_title release)))))
              (githubReleasesWithProjectPrefix issues).

(** The creation loop of [syncReleases]; [createRelease] is not awaited. *)
Fixpoint createReleases (releases : list GraphQLSearchIssuesNodeMilestone) : M unit :=
  match releases with
  | [] => ret tt
  | release :: rest =>
      let* jiraRelease := lift (fromGithubMilestoneToJiraRelease release) in
      detached (createRelease jiraRelease) ;;;
      createReleases rest
  end.

(** [a !== b] on the released flag and on the release date. *)
Definition released_differs (a : option bool) (b : bool) : bool :=
  match a with
  | Some x => negb (Bool.eqb x b)
  | None => true
  end.

Definition releaseDate_differs (a b : option string) : bool :=
  match a, b with
  | Some x, Some y => negb (String.eqb x y)
  | None, None => false
  | _, _ => true
  end.

Definition release_differs (jiraRelease : Version) (fromGithub : CreateReleaseParams) : bool :=
  negb (JS.opt_eqb (version_name jiraRelease) (release_name fromGithub))
  || released_differs (version_released jiraRelease) (release_released fromGithub)
  || releaseDate_differs (version_releaseDate jiraRelease) (release_releaseDate fromGithub).

Definition updatedRelease (jiraRelease : Version) (fromGithub : CreateReleaseParams)
  : UpdateReleaseParams :=
  {| updrelease_spread := jiraRelease;
     updrelease_id := default "" (version_id jiraRelease);
     updrelease_name := release_name fromGithub;
     updrelease_released := release_released fromGithub;
     updrelease_releaseDate := release_releaseDate fromGithub |}.

(** The update loop of [syncReleases]. *)
Fixpoint updateReleases (jiraReleases : list Version)
    (releases : list GraphQLSearchIssuesNodeMilestone) : M unit :=
  match releases with
  | [] => ret tt
  | release :: rest =>
      match findJiraRelease jiraReleases (milestone_title release) with
      | None => updateReleases jiraReleases rest
      | Some jiraRelease =>
          (let* fromGithub := lift (fromGithubMilestoneToJiraRelease release) in
           (if release_differs jiraRelease fromGithub
            then updateRelease (updatedRelease jiraRelease fromGithub)
            else ret tt) ;;;
           updateReleases jiraReleases rest)
      end
  end.

(** [release.name ?? release.id ?? 'unknown'] *)
Definition fixVersionKey (release : Version) : string :=
  match version_name release with
  | Some n => n
  | None => default "unknown" (version_id release)
  end.

Definition setFixVersions (releases : list Version) (m : gmap string (option string))
  : gmap string (option string) :=
  fold_left (fun acc release => <[fixVersionKey release := version_id release]> acc)
            releases m.

Definition syncReleases (issues : list GraphQLSearchIssuesNode) : M unit :=
  let* jiraReleases := getReleases projectConfiguration in
  createReleases (releasesToCreate jiraReleases issues) ;;;
  updateReleases jiraReleases (githubReleasesWithoutDuplicates issues) ;;;
  let* jiraReleasesAfterUpdate := getReleases projectConfiguration in
  let* r := get_repo in
  set_repo {| fixVersions := setFixVersions jiraReleasesAfterUpdate (fixVersions r);
              sprints := sprints r |}.

Definition fromGithubSprintToJiraSprint (githubSprint : GraphQLSearchIssuesNodeSprint)
  : Result CreateSprintParams :=
  match dateToISO (sprint_startDate githubSprint) with
  | Ok startDate =>
      Ok {| newsprint_name := sprint_title githubSprint;
            newsprint_startDate := startDate;
            newsprint_endDate := moment_add_days startDate (sprint_duration githubSprint) |}
  | Throw e => Throw e
  | OutOfFuel => OutOfFuel
  end.

(** The board entries of the fetched issues that carry a sprint and belong
  to the configured board. *)
Definition filteredGithubSprints (issues : list GraphQLSearchIssuesNode) : list ProjectItem :=
  List.filter (fun p => JS.opt_eqb (item_title p) (gh_project (cfg_github projectConfiguration)))
    (List.filter (fun p => bool_decide (is_Some (item_sprint p)))
       (flat_map issue_projectItems issues)).

(** Their sprints, those with a title. *)
Definition githubSprints (issues : list GraphQLSearchIssuesNode)
  : list GraphQLSearchIssuesNodeSprint :=
  List.filter (fun s => JS.truthy_string (sprint_title s))
    (omap item_sprint
       (List.filter (fun s => bool_decide (is_Some (item_sprint s)))
          (filteredGithubSprints issues))).

(** The first sprint of each title. *)
Definition githubSprintsWithoutDuplicates (issues : list GraphQLSearchIssuesNode)
  : list GraphQLSearchIssuesNodeSprint :=
  JS.filter_index
    (fun s index =>
       Z.eqb (JS.findIndex (fun s2 => String.eqb (sprint_title s2) (sprint_title s))
                           (githubSprints issues))
             index)
    (githubSprints issues).

(** [jiraSprints.find((j) => j.name === title)] *)
Definition findJiraSprint (jiraSprints : list Sprint) (title : string) : option Sprint :=
  JS.find (fun j => String.eqb (jsprint_name j) title) jiraSprints.

Definition sprintsToCreateInJira (jiraSprints : list Sprint)
    (issues : list GraphQLSearchIssuesNode) : list GraphQLSearchIssuesNodeSprint :=
  List.filter (fun s => JS.truthy_string (sprint_startDate s)
                        && JS.truthy_number (sprint_duration s))
    (List.filter (fun sprint =>
                    negb (bool_decide (is_Some (findJiraSprint jiraSprints (sprint_title sprint)))))
       (githubSprintsWithoutDuplicates issues)).

(** The creation loop of [syncSprints]. *)
Fixpoint createSprints (sprintsToCreate : list GraphQLSearchIssuesNodeSprint) : M unit :=
  match sprintsToCreate with
  | [] => ret tt
  | sprintToCreate :: rest =>
      let* jiraSprint := lift (fromGithubSprintToJiraSprint sprintToCreate) in
      createSprint jiraSprint ;;;
      createSprints rest
  end.

(** [a !== b] between the day of an optional Jira date and the day of a
  GitHub date. *)
Definition day_differs (jiraDate : option string) (githubDate : string) : bool :=
  negb (JS.opt_eqb (option_map (JS.split_head "T") jiraDate) (JS.split_head "T" githubDate)).

Definition sprint_differs (jiraSprint : Sprint) (fromGithub : CreateSprintParams) : bool :=
  negb (String.eqb (jsprint_name jiraSprint) (newsprint_name fromGithub))
  || day_differs (jsprint_startDate jiraSprint) (newsprint_startDate fromGithub)
  || day_differs (jsprint_endDate jiraSprint) (newsprint_endDate fromGithub).

Definition updatedSprint (jiraSprint : Sprint) (fromGithub : CreateSprintParams)
  : UpdateSprintParams :=
  {| updsprint_spread := jiraSprint;
     updsprint_sprintId := jsprint_id jiraSprint;
     updsprint_name := newsprint_name fromGithub;
     updsprint_startDate := newsprint_startDate fromGithub;
     updsprint_endDate := newsprint_endDate fromGithub |}.

(** The update loop of [syncSprints]. *)
Fixpoint updateSprints (jiraSprints : list Sprint)
    (githubSprintList : list GraphQLSearchIssuesNodeSprint) : M unit :=
  match githubSprintList with
  | [] => ret tt
  | githubSprint :: rest =>
      match findJiraSprint jiraSprints (sprint_title githubSprint) with
      | None => updateSprints jiraSprints rest
      | Some jiraSprint =>
          (let* fromGithub := lift (fromGithubSprintToJiraSprint githubSprint) in
           (if sprint_differs jiraSprint fromGithub
            then updateSprint (updatedSprint jiraSprint fromGithub)
            else ret tt) ;;;
           updateSprints jiraSprints rest)
      end
  end.

Definition setSprints (jiraSprints : list Sprint) (m : gmap string Z) : gmap string Z :=
  fold_left (fun acc sprint => <[jsprint_name sprint := jsprint_id sprint]> acc)
            jiraSprints m.

Definition syncSprints (fuel : nat) (issues : list GraphQLSearchIssuesNode) : M unit :=
  let* jiraSprints := getSprints projectConfiguration fuel in
  createSprints (sprintsToCreateInJira jiraSprints issues) ;;;
  updateSprints jiraSprints (githubSprintsWithoutDuplicates issues) ;;;
  let* jiraSprintsAfterUpdate := getSprints projectConfiguration fuel in
  let* r := get_repo in
  set_repo {| fixVersions := fixVersions r;
              sprints := setSprints jiraSprintsAfterUpdate (sprints r) |}.

(** [issue.projectItems.projects.find((p) => p.project.title?.name === project)] *)
Definition projectData (issue : GraphQLSearchIssuesNode) : option ProjectItem :=
  JS.find (fun p => JS.opt_eqb (item_title p) (gh_project (cfg_github projectConfiguration)))
          (issue_projectItems issue).

(** [projectData?.project.storyPoints?.value] *)
Definition sourceStoryPoints (issue : GraphQLSearchIssuesNode) : option Z :=
  match projectData issue with
  | Some p => item_storyPoints p
  | None => None
  end.

Definition remoteLinkTitle (issue : GraphQLSearchIssuesNode) : string :=
  JS.join_empty (map (fun w => toUpperCase (JS.charAt0 w))
                     (JS.split "-" (gh_repo (cfg_github projectConfiguration))))
  ++ " #" ++ String_of_number (issue_number issue).

(** The [issueToCreate] built for one issue by the loop of [start], after
  the conditional assignment of its story points. *)
Definition issueToCreate (r : SyncRepositoryFields) (issue : GraphQLSearchIssuesNode)
  : CreateIssueParams :=
  let globalId := jira_globalIdPrefix (cfg_jira projectConfiguration) ++ "-"
                  ++ String_of_number (issue_number issue) in
  let fixVersionId :=
    match issue_milestone issue with
    | Some m =>
        match fixVersions r !! (cfg_name projectConfiguration ++ " " ++ milestone_title m) with
        | Some v => v
        | None => None
        end
    | None => None
    end in
  let projectStatus :=
    match projectData issue with
    | Some p => item_status p
    | None => None
    end in
  let status := MappingResolver.getJiraStatusFromGithubProject projectConfiguration projectStatus in
  let storyPoints := sourceStoryPoints issue in
  let sprintName :=
    match projectData issue with
    | Some p => option_map sprint_title (item_sprint p)
    | None => None
    end in
  let sprintBoardId :=
    if JS.truthy_opt_string sprintName
    then sprints r !! default "" sprintName
    else None in
  {| p_title := issue_title issue;
     p_body := to_jira (issue_body issue);
     p_state := issue_state issue;
     p_issuetype :=
       MappingResolver.getJiraIssueTypeFromGitHubLabels projectConfiguration (issue_labels issue);
     p_status := status;
     p_storyPoints := if JS.truthy_opt_number storyPoints then storyPoints else None;
     p_fixVersionId := fixVersionId;
     p_sprintBoardId := sprintBoardId;
     p_jiraProjectKey := None;
     p_globalId := globalId;
     p_remoteLinkUrl := issue_url issue;
     p_remoteLinkTitle := remoteLinkTitle issue |}.

(** The test of the [catch] block: an [HttpException] with status 401,
  status text [Unauthorized] and code [ERR_BAD_REQUEST]. *)
Definition isThrottling (error : JsError) : bool :=
  match error with
  | HttpException status statusText code =>
      Z.eqb status 401 && String.eqb statusText "Unauthorized"
      && String.eqb code "ERR_BAD_REQUEST"
  | _ => false
  end.

(** The body of [for (const issue of recentIssuesSearch.issues)]. *)
Definition syncIssue (issue : GraphQLSearchIssuesNode) : M unit :=
  log Info ("Create or update issue " ++ issue_url issue ++ " in Jira...") ;;;
  let* r := get_repo in
  let params := issueToCreate r issue in
  try_catch
    (createOrUpdateIssue projectConfiguration params ;;; ret tt)
    (fun error =>
       log Debug ("Error creating issue in Jira " ++ String_of_error error) ;;;
       if isThrottling error
       then
         log Warning
           "Jira unauthorized/throttling rate limit reached, pausing for 30s before retrying" ;;;
         sleep 30000 ;;;
         createOrUpdateIssue projectConfiguration params ;;;
         ret tt
       else ret tt).

Fixpoint syncIssues (issues : list GraphQLSearchIssuesNode) : M unit :=
  match issues with
  | [] => ret tt
  | issue :: rest => syncIssue issue ;;; syncIssues rest
  end.

Definition SyncRepository_start (fuel : nat) : M string :=
  log StartGroup "Init and sync..." ;;;
  log Info "Check JIRA is available" ;;;
  initAndCheck projectConfiguration ;;;
  log Info "Grab recent issues being updated..." ;;;
  let* recentIssuesSearch := getIssuesUpdatedAfter projectConfiguration fuel in
  log Info "Sync releases..." ;;;
  syncReleases (fetched_issues recentIssuesSearch) ;;;
  log Info "Sync sprint..." ;;;
  syncSprints fuel (fetched_issues recentIssuesSearch) ;;;
  log EndGroup "" ;;;
  log StartGroup "Create or update issues in Jira..." ;;;
  syncIssues (fetched_issues recentIssuesSearch) ;;;
  log EndGroup "" ;;;
  ret (afterDate recentIssuesSearch).

End SyncRepositoryClass.

(** ** The orchestrator (sync.ts, class [Sync]) *)

Record SyncProjectResult : Type := {
  syncProjectName : string;
  result_afterDate : string
}.

Section SyncClass.

Context {rt : JsRuntime} {be : Backend}.

(** [new SyncRepository(projectConfiguration)]: fresh private fields. *)
Definition new_SyncRepository_object : M unit :=
  set_jira new_Jira ;;;
  set_repo new_SyncRepository.

(** The loop of [Sync.start] over the project configurations. *)
Fixpoint Sync_loop (fuel : nat) (projectConfigurations : list ProjectConfiguration)
    (results : list SyncProjectResult) : M (list SyncProjectResult) :=
  match projectConfigurations with
  | [] => ret results
  | projectConfiguration :: rest =>
      log StartGroup ("Sync project " ++ cfg_name projectConfiguration ++ " from "
                      ++ gh_owner (cfg_github projectConfiguration) ++ "/"
                      ++ gh_repo (cfg_github projectConfiguration)) ;;;
      new_SyncRepository_object ;;;
      let* projectResult := SyncRepository_start projectConfiguration fuel in
      let results :=
        (results ++ [{| syncProjectName := cfg_name projectConfiguration;
                        result_afterDate := projectResult |}])%list in
      log EndGroup "" ;;;
      Sync_loop fuel rest results
  end.

(** [Sync.start], given the project configurations that
  [getProjectConfigurations()] returned. *)
Definition Sync_start (fuel : nat) (projectConfigurations : list ProjectConfiguration)
  : M (list SyncProjectResult) :=
  Sync_loop fuel projectConfigurations [].

End SyncClass.

(** ** The call governor (throttle-queue.ts, class [ThrottleQueue])

  The class runs on the JavaScript event loop: [throttle] and the
  [setTimeout] callback run to completion one at a time, timers fire once
  their delay has elapsed, and the [async] closure pushed on the queue is
  suspended at [await fn()] until the wrapped call settles.  The machine
  below has one transition for each of these steps. *)

Module ThrottleQueue.

Section Governor.

(** The wrapped callables and the type of their results. *)
Variable Fn : Type.
Variable T : Type.

(** How a promise settles. *)
Inductive Settlement : Type :=
| Fulfilled (result : T)
| Rejected (err : JsError).

(** The closure pushed by [throttle]: it holds [fn] and the [resolve] and
  [reject] of the promise returned to the caller, named by its number. *)
Record Closure : Type := {
  closure_fn : Fn;
  closure_promise : nat
}.

Record State : Type := {
  (* the fields of the object *)
  intervalMs : Z;
  lastCallTime : Z;
  queue : list Closure;
  isProcessing : bool;
  (* the event loop *)
  clock : Z;                                 (* Date.now() *)
  timers : list Z;                           (* when each pending setTimeout is due *)
  running : list Closure;                    (* fn() was called, its promise is pending *)
  awaited : list (Closure * Settlement);     (* fn() settled, the closure has not resumed *)
  callers : list (nat * Settlement);         (* the callers' promises settled so far *)
  nextPromise : nat;
  (* history *)
  enqueued : list Closure;                   (* closures in the order of the throttle calls *)
  dispatched : list Closure;                 (* closures in the order fn() was called *)
  outcomes : list (nat * Settlement)         (* how the wrapped call of each promise settled *)
}.

(** [new ThrottleQueue(intervalMs)] at time [now]. *)
Definition new_ThrottleQueue (interval now : Z) : State :=
  {| intervalMs := interval; lastCallTime := 0; queue := []; isProcessing := false;
     clock := now; timers := []; running := []; awaited := []; callers := [];
     nextPromise := 0; enqueued := []; dispatched := []; outcomes := [] |}.

Definition processQueue (s : State) : State :=
  match queue s with
  | [] =>
      {| intervalMs := intervalMs s; lastCallTime := lastCallTime s; queue := queue s;
         isProcessing := false;
         clock := clock s; timers := timers s; running := running s; awaited := awaited s;
         callers := callers s; nextPromise := nextPromise s; enqueued := enqueued s;
         dispatched := dispatched s; outcomes := outcomes s |}
  | _ :: _ =>
      let now := clock s in
      let wait := Z.max 0 (lastCallTime s + intervalMs s - now) in
      {| intervalMs := intervalMs s; lastCallTime := lastCallTime s; queue := queue s;
         isProcessing := true;
         clock := clock s; timers := (timers s ++ [now + wait]%Z)%list;
         running := running s; awaited := awaited s;
         callers := callers s; nextPromise := nextPromise s; enqueued := enqueued s;
         dispatched := dispatched s; outcomes := outcomes s |}
  end.

(** [throttle(fn)]: the number of the promise returned and the new state. *)
Definition throttle (fn : Fn) (s : State) : nat * State :=
  let closure := {| closure_fn := fn; closure_promise := nextPromise s |} in
  let pushed :=
    {| intervalMs := intervalMs s; lastCallTime := lastCallTime s;
       queue := (queue s ++ [closure])%list;
       isProcessing := isProcessing s;
       clock := clock s; timers := timers s; running := running s; awaited := awaited s;
       callers := callers s; nextPromise := S (nextPromise s);
       enqueued := (enqueued s ++ [closure])%list;
       dispatched := dispatched s; outcomes := outcomes s |} in
  (nextPromise s, if negb (isProcessing pushed) then processQueue pushed else pushed).

(** The callback given to [setTimeout]. *)
Definition onTimeout (s : State) : State :=
  let shifted :=
    match queue s with
    | next :: rest =>
        {| intervalMs := intervalMs s; lastCallTime := clock s; queue := rest;
           isProcessing := isProcessing s;
           clock := clock s; timers := timers s;
           running := (running s ++ [next])%list; awaited := awaited s;
           callers := callers s; nextPromise := nextPromise s; enqueued := enqueued s;
           dispatched := (dispatched s ++ [next])%list; outcomes := outcomes s |}
    | [] =>
        {| intervalMs := intervalMs s; lastCallTime := clock s; queue := [];
           isProcessing := isProcessing s;
           clock := clock s; timers := timers s; running := running s; awaited := awaited s;
           callers := callers s; nextPromise := nextPromise s; enqueued := enqueued s;
           dispatched := dispatched s; outcomes := outcomes s |}
    end in
  processQueue shifted.

(** The rest of the closure after [await fn()]:
  [resolve(result)] in the [try], [reject(err)] in the [catch]. *)
Definition resume (c : Closure) (o : Settlement) : nat * Settlement :=
  match o with
  | Fulfilled result => (closure_promise c, Fulfilled result)
  | Rejected err => (closure_promise c, Rejected err)
  end.

(** Removing the [i]-th element of a list. *)
Fixpoint take_nth {A : Type} (i : nat) (l : list A) : option (A * list A) :=
  match l, i with
  | [], _ => None
  | x :: r, O => Some (x, r)
  | x :: r, S i' =>
      match take_nth i' r with
      | Some (y, r') => Some (y, x :: r')
      | None => None
      end
  end.

(** What can happen next. *)
Inductive Step : Type :=
| Call (fn : Fn)                      (* some caller runs [throttle(fn)] *)
| Elapse (ms : Z)                     (* time passes *)
| Timeout (i : nat)                   (* the [i]-th pending timer is due and fires *)
| Settle (i : nat) (o : Settlement)   (* the [i]-th running call settles *)
| Resume (i : nat).                   (* the closure of the [i]-th settled call resumes *)

Definition step (s : State) (e : Step) : option State :=
  match e with
  | Call fn => Some (snd (throttle fn s))
  | Elapse ms =>
      if (ms <? 0)%Z then None
      else Some {| intervalMs := intervalMs s; lastCallTime := lastCallTime s;
                   queue := queue s; isProcessing := isProcessing s;
                   clock := (clock s + ms)%Z; timers := timers s; running := running s;
                   awaited := awaited s; callers := callers s;
                   nextPromise := nextPromise s; enqueued := enqueued s;
                   dispatched := dispatched s; outcomes := outcomes s |}
  | Timeout i =>
      match take_nth i (timers s) with
      | Some (due, others) =>
          if (due <=? clock s)%Z
          then Some (onTimeout
                 {| intervalMs := intervalMs s; lastCallTime := lastCallTime s;
                    queue := queue s; isProcessing := isProcessing s;
                    clock := clock s; timers := others; running := running s;
                    awaited := awaited s; callers := callers s;
                    nextPromise := nextPromise s; enqueued := enqueued s;
                    dispatched := dispatched s; outcomes := outcomes s |})
          else None
      | None => None
      end
  | Settle i o =>
      match take_nth i (running s) with
      | Some (c, others) =>
          Some {| intervalMs := intervalMs s; lastCallTime := lastCallTime s;
                  queue := queue s; isProcessing := isProcessing s;
                  clock := clock s; timers := timers s; running := others;
                  awaited := (awaited s ++ [(c, o)])%list; callers := callers s;
                  nextPromise := nextPromise s; enqueued := enqueued s;
                  dispatched := dispatched s;
                  outcomes := (outcomes s ++ [(closure_promise c, o)])%list |}
      | None => None
      end
  | Resume i =>
      match take_nth i (awaited s) with
      | Some ((c, o), others) =>
          Some {| intervalMs := intervalMs s; lastCallTime := lastCallTime s;
                  queue := queue s; isProcessing := isProcessing s;
                  clock := clock s; timers := timers s; running := running s;
                  awaited := others; callers := (callers s ++ [resume c o])%list;
                  nextPromise := nextPromise s; enqueued := enqueued s;
                  dispatched := dispatched s; outcomes := outcomes s |}
      | None => None
      end
  end.

Fixpoint run (s : State) (es : list Step) : option State :=
  match es with
  | [] => Some s
  | e :: rest =>
      match step s e with
      | Some s' => run s' rest
      | None => None
      end
  end.

(** The states the governor can be in. *)
Definition reachable (s : State) : Prop :=
  exists interval now es, run (new_ThrottleQueue interval now) es = Some s.

End Governor.

Arguments Fulfilled {T} result.
Arguments Rejected {T} err.
Arguments closure_fn {Fn} c.
Arguments closure_promise {Fn} c.
Arguments intervalMs {Fn T} s.
Arguments lastCallTime {Fn T} s.
Arguments queue {Fn T} s.
Arguments isProcessing {Fn T} s.
Arguments clock {Fn T} s.
Arguments timers {Fn T} s.
Arguments running {Fn T} s.
Arguments awaited {Fn T} s.
Arguments callers {Fn T} s.
Arguments nextPromise {Fn T} s.
Arguments enqueued {Fn T} s.
Arguments dispatched {Fn T} s.
Arguments outcomes {Fn T} s.
Arguments processQueue {Fn T} s.
Arguments throttle {Fn T} fn s.
Arguments onTimeout {Fn T} s.
Arguments resume {Fn T} c o.
Arguments Call {Fn T} fn.
Arguments Elapse {Fn T} ms.
Arguments Timeout {Fn T} i.
Arguments Settle {Fn T} i o.
Arguments Resume {Fn T} i.
Arguments step {Fn T} s e.
Arguments run {Fn T} s es.
Arguments reachable {Fn T} s.

Section GovernorInvariant.

Variable Fn : Type.
Variable T : Type.

(** What the closure of a settled call delivers to the caller's promise. *)
Definition delivery (a : Closure Fn * Settlement T) : nat * Settlement T :=
  (closure_promise (fst a), snd a).

(** What holds of the governor at every moment: the closures enqueued are
  those dispatched followed by those still queued; promise numbers are
  fresh and distinct; a dispatched call is running or has settled; a settled
  call waits for its closure to resume or has been delivered; either the
  governor is idle with nothing queued and no timer, or it is processing
  with something queued and exactly one timer. *)
Record invariant (s : State Fn T) : Prop := {
  inv_fifo : enqueued s = (dispatched s ++ queue s)%list;
  inv_fresh : Forall (fun c => closure_promise c < nextPromise s) (enqueued s);
  inv_nodup : List.NoDup (map closure_promise (enqueued s));
  inv_flow :
    Permutation (map closure_promise (dispatched s))
                (map closure_promise (running s) ++ map fst (outcomes s));
  inv_outcomes :
    Permutation (outcomes s) (map delivery (awaited s) ++ callers s);
  inv_timer :
    (isProcessing s = false /\ timers s = [] /\ queue s = [])
    \/ (isProcessing s = true /\ (exists due, timers s = [due]) /\ queue s <> [])
}.

End GovernorInvariant.

Arguments delivery {Fn T} a.
Arguments invariant {Fn T} s.

End ThrottleQueue.

(** ** Vocabulary of the statements *)

Section Vocabulary.

Context {rt : JsRuntime} {be : Backend}.

(** The events a run added to the trace. *)
Definition added (w w' : World) (evs : list Event) : Prop :=
  trace w' = (trace w ++ evs)%list.

(** Every event a computation adds to the trace satisfies [P], whether the
  computation returns, throws or is cut short. *)
Definition emits {A : Type} (P : Event -> Prop) (c : M A) : Prop :=
  forall w, exists evs, added w (snd (c w)) evs /\ Forall P evs.

(** Run from any world whose objects have the private fields [j] and [r],
  the computation leaves these fields as they are and every event it adds
  to the trace satisfies [P]. *)
Definition steady {A : Type} (j : JiraFields) (r : SyncRepositoryFields)
    (P : Event -> Prop) (c : M A) : Prop :=
  forall w,
    jira w = j -> repo w = r ->
    jira (snd (c w)) = j /\ repo (snd (c w)) = r
    /\ exists evs, added w (snd (c w)) evs /\ Forall P evs.

(** The records of a sequence of pages, in order. *)
Definition records (pages : list GraphQLSearchIssuesResponse) : list GraphQLSearchIssuesNode :=
  concat (map (fun page => concat (search_edges page)) pages).

(** The number of searches sent to the source. *)
Definition queries (t : list Event) : nat :=
  length (List.filter (fun e => match e with GitHubQuery _ => true | _ => false end) t).

(** The source, in state [e], serves exactly the pages [pages] to the
  searches of a project, one after the other from [cursor] on: every page
  but the last announces a next page, whose cursor leads to the next one. *)
Inductive Serves (cfg : ProjectConfiguration)
  : Env -> option string -> list GraphQLSearchIssuesResponse -> Prop :=
| Serves_last (e e' : Env) (cursor : option string) (page : GraphQLSearchIssuesResponse) :
    graphql (searchQuery cfg cursor) e = (Ok page, e') ->
    hasNextPage (search_pageInfo page) = false ->
    Serves cfg e cursor [page]
| Serves_next (e e' : Env) (cursor : option string) (page : GraphQLSearchIssuesResponse)
              (pages : list GraphQLSearchIssuesResponse) :
    graphql (searchQuery cfg cursor) e = (Ok page, e') ->
    hasNextPage (search_pageInfo page) = true ->
    Serves cfg e' (Some (endCursor (search_pageInfo page))) pages ->
    Serves cfg e cursor (page :: pages).

(** A fetch result in ascending order of update time, for a reading
  [instant] of timestamps as points in time. *)
Definition ascending (instant : string -> Z) (issues : list GraphQLSearchIssuesNode) : Prop :=
  forall before a b after,
    issues = (before ++ a :: b :: after)%list ->
    (instant (issue_updatedAt a) <= instant (issue_updatedAt b))%Z.

(** The world after the search of a project for [cursor] was answered,
  leaving the source in state [e'], and the world after a line was logged. *)
Definition after_query (cfg : ProjectConfiguration) (w : World) (cursor : option string)
    (e' : Env) : World :=
  {| trace := (trace w ++ [GitHubQuery (searchQuery cfg cursor)])%list;
     env := e'; jira := jira w; repo := repo w |}.

Definition after_log (w : World) (level : LogLevel) (message : string) : World :=
  {| trace := (trace w ++ [Log level message])%list;
     env := env w; jira := jira w; repo := repo w |}.

(** The events that are not an update of an issue, or that update it with
  [fields]. *)
Definition edits_with (fields : IssueEditFields) (e : Event) : Prop :=
  forall key fields', e = Jira (EditIssue key fields') -> fields' = fields.

End Vocabulary.

(** ** A small tracker pair to run the engine on *)

Module Fixture.

(** Dates are kept as they are written, the empty string is not a date;
  adding days is symbolic. *)
Definition runtime : JsRuntime :=
  {| Date_toISOString := fun s => if JS.truthy_string s then Some s else None;
     moment_add_days := fun s n =>
       if Z.eqb n 0 then s
       else s ++ "+" ++ DecimalString.NilZero.string_of_int (Z.to_int n) ++ "d";
     to_jira := fun s => s;
     toUpperCase := fun s => s;
     toLowerCase := fun s => s;
     String_of_number := fun n => DecimalString.NilZero.string_of_int (Z.to_int n);
     String_of_error := fun e =>
       match e with
       | HttpException _ statusText _ => statusText
       | Error message => message
       | RangeError message => message
       end;
     Number_of_string := fun _ => 10000%Z |}.

Record Tracker : Type := {
  jira_up : bool;                   (* whether Jira answers at all *)
  throttled : nat;                  (* how many issue searches are still answered 401 *)
  versions : list Version;          (* the releases of the Jira project *)
  board_sprints : list Sprint;      (* the sprints of the Jira board *)
  github_pages : list (option string * GraphQLSearchIssuesResponse)
                                    (* the page GitHub serves for each cursor *)
}.

Definition cursor_eqb (a b : option string) : bool :=
  match a, b with
  | Some x, Some y => String.eqb x y
  | None, None => true
  | _, _ => false
  end.

Definition unauthorized : JsError := HttpException 401 "Unauthorized" "ERR_BAD_REQUEST".

Definition tracker : Backend :=
  {| Env := Tracker;
     graphql := fun q e =>
       match List.find (fun cp => cursor_eqb (fst cp) (search_cursorAfter q)) (github_pages e) with
       | Some cp => (Ok (snd cp), e)
       | None => (Throw (Error "unknown cursor"), e)
       end;
     myself_getCurrentUser := fun e =>
       (if jira_up e then Ok tt else Throw (Error "connect ECONNREFUSED"), e);
     projects_getProject := fun _ e =>
       (Ok {| project_id := Some "10000";
              project_issueTypes :=
                Some [ {| issuetype_name := Some "Task" |};
                       {| issuetype_name := Some "Bug" |};
                       {| issuetype_name := Some "Epic" |} ] |}, e);
     projectComponents_getProjectComponents := fun _ e =>
       (Ok [ {| component_id := Some "20"; component_name := Some "Core" |} ], e);
     issueFields_getFields := fun e =>
       (Ok [ {| fielddetails_id := Some "customfield_1"; fielddetails_name := Some "Story Points" |};
             {| fielddetails_id := Some "customfield_2"; fielddetails_name := Some "Epic Name" |} ], e);
     projectVersions_getProjectVersions := fun _ e => (Ok (versions e), e);
     projectVersions_createVersion := fun _ e => (Ok tt, e);
     projectVersions_updateVersion := fun _ e => (Ok tt, e);
     board_getAllBoards := fun _ e =>
       (Ok (Some [ {| board_id := Some 7%Z; board_name := Some "Board" |} ]), e);
     board_getAllSprints := fun _ _ _ e =>
       (Ok {| page_values := board_sprints e; page_isLast := true |}, e);
     sprint_createSprint := fun _ e => (Ok tt, e);
     sprint_updateSprint := fun _ e => (Ok tt, e);
     sprint_moveIssuesToSprintAndRank := fun _ _ e => (Ok tt, e);
     issueSearch_searchForIssuesUsingJql := fun _ _ e =>
       match throttled e with
       | O => (Ok None, e)
       | S n =>
           (Throw unauthorized,
            {| jira_up := jira_up e; throttled := n; versions := versions e;
               board_sprints := board_sprints e; github_pages := github_pages e |})
       end;
     issues_createIssue := fun _ e => (Ok "KEY-1", e);
     issueRemoteLinks_createOrUpdateRemoteIssueLink := fun _ e => (Ok tt, e);
     issues_editIssue := fun _ _ e => (Ok tt, e);
     issues_getIssue := fun _ e => (Ok (Some "Backlog"), e);
     issues_getTransitions := fun _ e => (Ok None, e);
     issues_doTransition := fun _ _ e => (Ok tt, e) |}.

(** A project configuration named [name] with batch cap [cap]. *)
Definition config (name : string) (cap : Z) : ProjectConfiguration :=
  {| cfg_name := name;
     cfg_github :=
       {| gh_readToken := "token"; gh_owner := "acme"; gh_repo := "pod-desk";
          gh_project := "Planning";
          gh_startDate := {| toISOString := "2024-01-01T00:00:00.000Z" |};
          gh_projectFields := [] |};
     cfg_jira :=
       {| jira_host := "https://jira.example"; jira_projectKey := "KEY";
          jira_writeToken := "secret"; jira_component := "Core";
          jira_globalIdPrefix := "PD"; jira_sprintBoard := "Board" |};
     issueTypeDefault := "Task";
     issueTypeMapping :=
       [ {| fromGithubLabel := "kind/epic"; issueType_toJira := "Epic" |};
         {| fromGithubLabel := "kind/bug"; issueType_toJira := "Bug" |} ];
     statusTypeMapping :=
       [ {| fromGithub := "Planned"; status_toJira := "Backlog" |};
         {| fromGithub := "In Progress"; status_toJira := "In Progress" |} ];
     statusTypeDefault := "Backlog";
     maxBatchNumberIssues := cap |}.

(** Issue number [n], updated at [updated], with the given milestone and
  board entries. *)
Definition issue (n : Z) (updated : string)
    (m : option GraphQLSearchIssuesNodeMilestone) (items : list ProjectItem)
  : GraphQLSearchIssuesNode :=
  {| issue_url := "https://github.example/acme/pod-desk/issues/"
                  ++ DecimalString.NilZero.string_of_int (Z.to_int n);
     issue_number := n; issue_state := "OPEN"; issue_updatedAt := updated;
     issue_body := "body"; issue_title := "title"; issue_labels := ["kind/bug"];
     issue_milestone := m; issue_projectItems := items |}.

Definition page (issues : list GraphQLSearchIssuesNode) (cursor : string) (more : bool)
  : GraphQLSearchIssuesResponse :=
  {| rateLimit := {| rl_cost := 1; rl_remaining := 4999; rl_resetAt := "" |};
     search_pageInfo := {| startCursor := ""; endCursor := cursor; hasNextPage := more |};
     search_edges := map (fun i => [i]) issues |}.

(** The timestamps of the fixture are all of January 2024: they are
  ordered by the last digit of their day. *)
Definition day_of_month (timestamp : string) : Z :=
  match String.get 9 timestamp with
  | Some digit => Z.of_nat (nat_of_ascii digit)
  | None => 0%Z
  end.

Definition issue1 : GraphQLSearchIssuesNode := issue 1 "2024-01-02T00:00:00Z" None [].
Definition issue2 : GraphQLSearchIssuesNode := issue 2 "2024-01-03T00:00:00Z" None [].
Definition issue3 : GraphQLSearchIssuesNode := issue 3 "2024-01-04T00:00:00Z" None [].

(** GitHub holding three issues on two pages. *)
Definition two_pages : list (option string * GraphQLSearchIssuesResponse) :=
  [ (None, page [issue1; issue2] "c1" true);
    (Some "c1", page [issue3] "c2" false) ].

Definition world (e : Tracker) : @World tracker :=
  @Build_World tracker [] e new_Jira new_SyncRepository.

(** The world once [initAndCheck] has found the custom fields. *)
Definition ready_world (e : Tracker) : @World tracker :=
  @Build_World tracker [] e
    {| storyPointsFieldId := Some "customfield_1";
       epicNameFieldId := Some "customfield_2";
       project := Some {| project_id := Some "10000"; project_issueTypes := None |};
       components := [ {| component_id := Some "20"; component_name := Some "Core" |} ];
       boardId := Some 7%Z |}
    new_SyncRepository.

Definition healthy (pages : list (option string * GraphQLSearchIssuesResponse)) : Tracker :=
  {| jira_up := true; throttled := 0; versions := []; board_sprints := [];
     github_pages := pages |}.

(** Jira refusing the connection. *)
Definition jira_down : Tracker :=
  {| jira_up := false; throttled := 0; versions := []; board_sprints := [];
     github_pages := two_pages |}.

(** Jira answering 401 to the next two issue searches. *)
Definition throttled_twice : Tracker :=
  {| jira_up := true; throttled := 2; versions := []; board_sprints := [];
     github_pages := two_pages |}.

(** Milestone [v1], closed, carried by issue 4; the Jira project of
  configuration [P] already has the release [P v1], not released. *)
Definition milestone_v1 : GraphQLSearchIssuesNodeMilestone :=
  {| milestone_id := "M_1"; milestone_dueOn := None; milestone_closed := Some true;
     milestone_title := "v1" |}.

Definition issue4 : GraphQLSearchIssuesNode :=
  issue 4 "2024-01-05T00:00:00Z" (Some milestone_v1) [].

Definition release_P_v1 : Version :=
  {| version_id := Some "100"; version_name := Some "P v1";
     version_released := Some false; version_releaseDate := None;
     version_projectId := Some 10000%Z |}.

Definition with_release : Tracker :=
  {| jira_up := true; throttled := 0; versions := [release_P_v1]; board_sprints := [];
     github_pages := [] |}.

(** Sprint [S1] of duration 0 and sprint [S2] without start date, carried
  by issues 5 and 6 on the configured board; story points 0 on issue 5 and
  5 on issue 6.  The Jira board already has a sprint [S1] starting a day
  later. *)
Definition sprint_S1 : GraphQLSearchIssuesNodeSprint :=
  {| sprint_title := "S1"; sprint_duration := 0; sprint_startDate := "2024-02-01" |}.

Definition sprint_S2 : GraphQLSearchIssuesNodeSprint :=
  {| sprint_title := "S2"; sprint_duration := 14; sprint_startDate := "" |}.

Definition issue5 : GraphQLSearchIssuesNode :=
  issue 5 "2024-01-06T00:00:00Z" None
    [ {| item_title := Some "Planning"; item_status := Some "In Progress";
         item_sprint := Some sprint_S1; item_storyPoints := Some 0%Z |} ].

Definition issue6 : GraphQLSearchIssuesNode :=
  issue 6 "2024-01-07T00:00:00Z" None
    [ {| item_title := Some "Planning"; item_status := None;
         item_sprint := Some sprint_S2; item_storyPoints := Some 5%Z |} ].

Definition jira_S1 : Sprint :=
  {| jsprint_id := 31; jsprint_name := "S1"; jsprint_state := "future";
     jsprint_startDate := Some "2024-02-02T00:00:00.000Z";
     jsprint_endDate := Some "2024-02-02T00:00:00.000Z" |}.

Definition with_sprint : Tracker :=
  {| jira_up := true; throttled := 0; versions := []; board_sprints := [jira_S1];
     github_pages := [] |}.

(** The Jira board with a sprint [S2] as well. *)
Definition jira_S2 : Sprint :=
  {| jsprint_id := 32; jsprint_name := "S2"; jsprint_state := "future";
     jsprint_startDate := None; jsprint_endDate := None |}.

Definition with_two_sprints : Tracker :=
  {| jira_up := true; throttled := 0; versions := []; board_sprints := [jira_S1; jira_S2];
     github_pages := [] |}.

End Fixture.

(** ** Configuration (sync-yaml-config-file.ts, config.ts, class [Configuration]) *)

(** [{ fieldName, type }]; [type] is read as a string by
  [getFieldTypeFromYaml]. *)
Record SyncYamlField : Type := {
  yaml_fieldName : string;
  yaml_type : string
}.

Record SyncYamlGitHubProject : Type := {
  githubProject_name : string;
  githubProject_storyPoints : option SyncYamlField;
  githubProject_status : option SyncYamlField;
  githubProject_sprint : option SyncYamlField
}.

Record SyncYamStatusTypeMapping : Type := {
  statusMapping_name : string;
  statusMapping_default : string;
  statusMapping_mapping : list SyncYamStatusTypeMappingDefinition
}.

Record SyncYamlIssuesTypeMapping : Type := {
  issuesMapping_name : string;
  issuesMapping_default : string;
  issuesMapping_mapping : list SyncYamlIssuesTypeMappingDefinition
}.

(** [{ name, github: {owner, repo, project, afterDate},
  useMapping: {issueType, statusType},
  jira: {projectKey, component, globalIdPrefix, sprintBoard}, maxBatchSize }] *)
Record SyncYamlSyncProject : Type := {
  syncProject_name : string;
  syncProject_owner : string;
  syncProject_repo : string;
  syncProject_project : string;
  syncProject_afterDate : string;
  syncProject_issueType : string;
  syncProject_statusType : string;
  syncProject_projectKey : string;
  syncProject_component : string;
  syncProject_globalIdPrefix : string;
  syncProject_sprintBoard : string;
  syncProject_maxBatchSize : Z
}.

Record SyncYaml : Type := {
  yaml_githubProjects : list SyncYamlGitHubProject;
  yaml_statusTypeMappings : list SyncYamStatusTypeMapping;
  yaml_issuesTypeMappings : list SyncYamlIssuesTypeMapping;
  yaml_syncProjects : list SyncYamlSyncProject
}.

(** [{ syncProjects: { syncProjectName, afterDate }[] }], the shape of the
  results of [Sync.start]. *)
Record SyncStateYaml : Type := {
  state_syncProjects : list SyncProjectResult
}.

(** The private fields of a [Configuration]. *)
Record Configuration : Type := {
  conf_githubReadToken : string;
  conf_jiraHost : string;
  conf_jiraWriteToken : string;
  conf_syncYaml : SyncYaml;
  conf_syncStateYaml : option SyncStateYaml;
  conf_statusTypeMappings : gmap string (list SyncYamStatusTypeMappingDefinition);
  conf_issueTypeMappings : gmap string (list SyncYamlIssuesTypeMappingDefinition);
  conf_githubProjects : gmap string SyncYamlGitHubProject
}.

(** [new Configuration(params)] *)
Definition new_Configuration (githubReadToken jiraHost jiraWriteToken : string)
    (syncYaml : SyncYaml) (syncStateYaml : option SyncStateYaml) : Configuration :=
  {| conf_githubReadToken := githubReadToken;
     conf_jiraHost := jiraHost;
     conf_jiraWriteToken := jiraWriteToken;
     conf_syncYaml := syncYaml;
     conf_syncStateYaml := syncStateYaml;
     conf_statusTypeMappings := ∅;
     conf_issueTypeMappings := ∅;
     conf_githubProjects := ∅ |}.

(** The project after [project.github.afterDate = afterDate]. *)
Definition withAfterDate (project : SyncYamlSyncProject) (afterDate : string)
  : SyncYamlSyncProject :=
  {| syncProject_name := syncProject_name project;
     syncProject_owner := syncProject_owner project;
     syncProject_repo := syncProject_repo project;
     syncProject_project := syncProject_project project;
     syncProject_afterDate := afterDate;
     syncProject_issueType := syncProject_issueType project;
     syncProject_statusType := syncProject_statusType project;
     syncProject_projectKey := syncProject_projectKey project;
     syncProject_component := syncProject_component project;
     syncProject_globalIdPrefix := syncProject_globalIdPrefix project;
     syncProject_sprintBoard := syncProject_sprintBoard project;
     syncProject_maxBatchSize := syncProject_maxBatchSize project |}.

(** The array of projects after that assignment on the project that
  [syncProjects.find((project) => project.name === name)] returns: the
  first project of that name, changed in place. *)
Fixpoint setAfterDate (name afterDate : string) (projects : list SyncYamlSyncProject)
  : list SyncYamlSyncProject :=
  match projects with
  | [] => []
  | project :: rest =>
      if String.eqb (syncProject_name project) name
      then withAfterDate project afterDate :: rest
      else project :: setAfterDate name afterDate rest
  end.

Definition getFieldTypeFromYaml (type : string) : Result ProjectConfigurationFieldType :=
  if String.eqb type "number" then Ok FieldNumber
  else if String.eqb type "singleSelect" then Ok FieldSingleSelect
  else if String.eqb type "iteration" then Ok FieldIteration
  else Throw (Error "Unknown field type").

(** One [projectFields.push({ alias, fieldName, type })], when the field
  is declared for the board. *)
Definition pushProjectField (alias : string) (declared : option SyncYamlField)
    (projectFields : list ProjectConfigurationGitHubField)
  : Result (list ProjectConfigurationGitHubField) :=
  match declared with
  | None => Ok projectFields
  | Some field =>
      match getFieldTypeFromYaml (yaml_type field) with
      | Ok type =>
          Ok (projectFields ++ [ {| field_alias := alias;
                                    field_fieldName := yaml_fieldName field;
                                    field_type := type |} ])%list
      | Throw e => Throw e
      | OutOfFuel => OutOfFuel
      end
  end.

(** [arr.map(f)] for a callback that can throw: the elements are converted
  in order, the first exception ends the conversion. *)
Fixpoint mapThrowing {A B : Type} (f : A -> Result B) (l : list A) : Result (list B) :=
  match l with
  | [] => Ok []
  | x :: rest =>
      match f x with
      | Ok y =>
          match mapThrowing f rest with
          | Ok ys => Ok (y :: ys)
          | Throw e => Throw e
          | OutOfFuel => OutOfFuel
          end
      | Throw e => Throw e
      | OutOfFuel => OutOfFuel
      end
  end.

Section ConfigurationClass.

Context {be : Backend}.

(** [moment(s)] *)
Variable moment : string -> Moment.

(** The loop [for (const syncProject of this.#syncStateYaml.syncProjects)]
  of [init]. *)
Fixpoint overrideAfterDates (entries : list SyncProjectResult)
    (projects : list SyncYamlSyncProject) : M (list SyncYamlSyncProject) :=
  match entries with
  | [] => ret projects
  | syncProject :: rest =>
      match JS.find (fun project => String.eqb (syncProject_name project)
                                               (syncProjectName syncProject))
                    projects with
      | Some project =>
          log Info ("Overriding afterDate for project " ++ syncProject_name project
                    ++ " from " ++ syncProject_afterDate project
                    ++ " to " ++ result_afterDate syncProject) ;;;
          overrideAfterDates rest
            (setAfterDate (syncProjectName syncProject) (result_afterDate syncProject)
                          projects)
      | None => overrideAfterDates rest projects
      end
  end.

(** [init()]: the three maps by name, then the start dates of the state
  file. *)
Definition init (c : Configuration) : M Configuration :=
  let statusTypeMappings :=
    fold_left (fun acc mappingObj =>
                 <[statusMapping_name mappingObj := statusMapping_mapping mappingObj]> acc)
              (yaml_statusTypeMappings (conf_syncYaml c)) (conf_statusTypeMappings c) in
  let issueTypeMappings :=
    fold_left (fun acc mappingObj =>
                 <[issuesMapping_name mappingObj := issuesMapping_mapping mappingObj]> acc)
              (yaml_issuesTypeMappings (conf_syncYaml c)) (conf_issueTypeMappings c) in
  let githubProjects :=
    fold_left (fun acc project => <[githubProject_name project := project]> acc)
              (yaml_githubProjects (conf_syncYaml c)) (conf_githubProjects c) in
  let* syncProjects :=
    match conf_syncStateYaml c with
    | Some state =>
        overrideAfterDates (state_syncProjects state) (yaml_syncProjects (conf_syncYaml c))
    | None => ret (yaml_syncProjects (conf_syncYaml c))
    end in
  ret {| conf_githubReadToken := conf_githubReadToken c;
         conf_jiraHost := conf_jiraHost c;
         conf_jiraWriteToken := conf_jiraWriteToken c;
         conf_syncYaml :=
           {| yaml_githubProjects := yaml_githubProjects (conf_syncYaml c);
              yaml_statusTypeMappings := yaml_statusTypeMappings (conf_syncYaml c);
              yaml_issuesTypeMappings := yaml_issuesTypeMappings (conf_syncYaml c);
              yaml_syncProjects := syncProjects |};
         conf_syncStateYaml := conf_syncStateYaml c;
         conf_statusTypeMappings := statusTypeMappings;
         conf_issueTypeMappings := issueTypeMappings;
         conf_githubProjects := githubProjects |}.

(** The requested board fields of a project: story points, status and
  sprint, in that order, for the fields its board declares. *)
Definition projectFieldsOf (agileProject : option SyncYamlGitHubProject)
  : Result (list ProjectConfigurationGitHubField) :=
  match agileProject with
  | None => Ok []
  | Some agile =>
      match pushProjectField "storyPoints" (githubProject_storyPoints agile) [] with
      | Ok fields1 =>
          match pushProjectField "status" (githubProject_status agile) fields1 with
          | Ok fields2 => pushProjectField "sprint" (githubProject_sprint agile) fields2
          | Throw e => Throw e
          | OutOfFuel => OutOfFuel
          end
      | Throw e => Throw e
      | OutOfFuel => OutOfFuel
      end
  end.

(** The callback of [this.#syncYaml.syncProjects.map] in
  [getProjectConfigurations]. *)
Definition projectConfigurationOf (c : Configuration) (project : SyncYamlSyncProject)
  : Result ProjectConfiguration :=
  match projectFieldsOf (conf_githubProjects c !! syncProject_project project) with
  | Throw e => Throw e
  | OutOfFuel => OutOfFuel
  | Ok projectFields =>
      let github :=
        {| gh_readToken := conf_githubReadToken c;
           gh_owner := syncProject_owner project;
           gh_repo := syncProject_repo project;
           gh_project := syncProject_project project;
           gh_startDate := moment (syncProject_afterDate project);
           gh_projectFields := projectFields |} in
      let jira :=
        {| jira_host := conf_jiraHost c;
           jira_projectKey := syncProject_projectKey project;
           jira_writeToken := conf_jiraWriteToken c;
           jira_component := syncProject_component project;
           jira_globalIdPrefix := syncProject_globalIdPrefix project;
           jira_sprintBoard := syncProject_sprintBoard project |} in
      let issueTypeDefault :=
        option_map issuesMapping_default
          (JS.find (fun mapping => String.eqb (issuesMapping_name mapping)
                                              (syncProject_issueType project))
                   (yaml_issuesTypeMappings (conf_syncYaml c))) in
      let statusTypeDefault :=
        option_map statusMapping_default
          (JS.find (fun mapping => String.eqb (statusMapping_name mapping)
                                              (syncProject_statusType project))
                   (yaml_statusTypeMappings (conf_syncYaml c))) in
      match conf_issueTypeMappings c !! syncProject_issueType project with
      | None => Throw (Error ("Issue type mapping not found for " ++ syncProject_name project))
      | Some issueTypeMapping =>
          match conf_statusTypeMappings c !! syncProject_statusType project with
          | None =>
              Throw (Error ("Status type mapping not found for " ++ syncProject_name project))
          | Some statusTypeMapping =>
              if negb (JS.truthy_opt_string statusTypeDefault)
              then Throw (Error ("Default status type not found for "
                                 ++ syncProject_name project))
              else if negb (JS.truthy_opt_string issueTypeDefault)
              then Throw (Error ("Default issue type type not found for "
                                 ++ syncProject_name project))
              else
                Ok {| cfg_name := syncProject_name project;
                      cfg_github := github;
                      cfg_jira := jira;
                      issueTypeDefault := default "" issueTypeDefault;
                      issueTypeMapping := issueTypeMapping;
                      statusTypeMapping := statusTypeMapping;
                      statusTypeDefault := default "" statusTypeDefault;
                      maxBatchNumberIssues := syncProject_maxBatchSize project |}
          end
      end
  end.

Definition getProjectConfigurations (c : Configuration) : Result (list ProjectConfiguration) :=
  mapThrowing (projectConfigurationOf c) (yaml_syncProjects (conf_syncYaml c)).

End ConfigurationClass.

(** ** The state file (main.ts, [Main.doStart])

  [const syncStateYamlToWrite: SyncStateYaml = { syncProjects: syncResult }]:
  the state that a run writes for the next one. *)
Definition syncStateYamlToWrite (syncResult : list SyncProjectResult) : SyncStateYaml :=
  {| state_syncProjects := syncResult |}.

(** ** Vocabulary of the further statements *)

Section FurtherVocabulary.

Context {rt : JsRuntime} {be : Backend}.

(** The world after a request recorded as [e] was answered, leaving the
  trackers in state [e']. *)
Definition after_call (w : World) (e : Event) (e' : Env) : World :=
  {| trace := (trace w ++ [e])%list; env := e'; jira := jira w; repo := repo w |}.

(** The search by which [findExistingGithubIssueInJira] looks for the
  issue linked to [remoteId]. *)
Definition searchByGlobalId (cfg : ProjectConfiguration) (remoteId : string) : string :=
  "issue in issuesWithRemoteLinksByGlobalId(" ++ JS.dquote ++ remoteId
  ++ JS.dquote ++ ") and project = " ++ JS.dquote
  ++ jira_projectKey (cfg_jira cfg) ++ JS.dquote.

(** The events that create no issue and whose request on an issue, if
  any, is on the issue [key]. *)
Definition targets (key : string) (e : Event) : Prop :=
  match e with
  | Jira (CreateIssue _) => False
  | Jira (CreateOrUpdateRemoteIssueLink link) => link_issueIdOrKey link = key
  | Jira (EditIssue k _) => k = key
  | Jira (GetIssue k) => k = key
  | Jira (GetTransitions k) => k = key
  | Jira (DoTransition k _) => k = key
  | Jira (MoveIssuesToSprintAndRank _ ks) => ks = [key]
  | _ => True
  end.

(** The Jira board [boardId], in state [e], serves exactly the pages
  [pages] of sprints from offset [startAt] on, 50 at most a page: each
  page but the last says it is not the last, and the next one is asked
  at the offset where it ended. *)
Inductive ServesSprints (boardId : Z) : Env -> Z -> list PaginatedSprint -> Prop :=
| ServesSprints_last (e e' : Env) (startAt : Z) (page : PaginatedSprint) :
    board_getAllSprints boardId startAt 50 e = (Ok page, e') ->
    page_isLast page = true ->
    ServesSprints boardId e startAt [page]
| ServesSprints_next (e e' : Env) (startAt : Z) (page : PaginatedSprint)
                     (pages : list PaginatedSprint) :
    board_getAllSprints boardId startAt 50 e = (Ok page, e') ->
    page_isLast page = false ->
    ServesSprints boardId e' (startAt + Z.of_nat (length (page_values page)))%Z pages ->
    ServesSprints boardId e startAt (page :: pages).

(** The offsets at which the pages of a listing that starts at [startAt]
  begin. *)
Fixpoint page_offsets (startAt : Z) (pages : list PaginatedSprint) : list Z :=
  match pages with
  | [] => []
  | page :: rest =>
      startAt :: page_offsets (startAt + Z.of_nat (length (page_values page)))%Z rest
  end.

(** The releases whose creation was requested, in the order of the
  requests. *)
Definition creations (evs : list Event) : list CreateVersion :=
  flat_map (fun e => match e with
                     | Jira (CreateVersionCall version) => [version]
                     | _ => []
                     end) evs.

(** The pauses taken, in milliseconds. *)
Definition pauses (evs : list Event) : list Z :=
  flat_map (fun e => match e with
                     | Pause ms => [ms]
                     | _ => []
                     end) evs.

(** The world after a pause. *)
Definition after_pause (w : World) (ms : Z) : World :=
  {| trace := (trace w ++ [Pause ms])%list; env := env w; jira := jira w; repo := repo w |}.

(** The searches sent to the source, in the order of the requests. *)
Definition searches (evs : list Event) : list GitHubSearch :=
  flat_map (fun e => match e with
                     | GitHubQuery search => [search]
                     | _ => []
                     end) evs.

(** The cursors with which the pages of a listing that starts at [cursor]
  are asked for: each page after the first with the end cursor of the
  page before. *)
Fixpoint page_cursors (cursor : option string) (pages : list GraphQLSearchIssuesResponse)
  : list (option string) :=
  match pages with
  | [] => []
  | page :: rest => cursor :: page_cursors (Some (endCursor (search_pageInfo page))) rest
  end.

(** A client whose field ids let [createOrUpdateIssue] pass its two
  checks for [params]. *)
Definition canWrite (j : JiraFields) (params : CreateIssueParams) : Prop :=
  JS.truthy_opt_string (storyPointsFieldId j) = true
  /\ (JS.truthy_opt_string (epicNameFieldId j) = true \/ p_issuetype params <> "Epic").

(** The line that [createOrUpdateIssue] logs before its requests, and the
  one it logs for an issue that is in the wanted status. *)
Definition creatingIssueLine (params : CreateIssueParams) : string :=
  "  Creating issue in Jira Type/" ++ p_issuetype params
  ++ " status/" ++ p_status params
  ++ " state/" ++ p_state params
  ++ " fixVersionID " ++ JS.show_opt (p_fixVersionId params)
  ++ " sprintBoardId/"
  ++ JS.show_opt (option_map String_of_number (p_sprintBoardId params)).

Definition skippingLine (issueKey toStatus : string) : string :=
  "  Issue " ++ issueKey ++ " already in status " ++ toStatus ++ ", skipping".

(** The remote link that [createOrUpdateIssue] sets on the issue
  [issueKey]. *)
Definition remoteLink (params : CreateIssueParams) (issueKey : string) : RemoteIssueLink :=
  {| link_issueIdOrKey := issueKey;
     link_globalId := p_globalId params;
     link_url := p_remoteLinkUrl params;
     link_title := p_remoteLinkTitle params |}.

(** The issue that [createOrUpdateIssue] writes to once the search by
  global id has answered [found], leaving Jira in state [e1]: the first
  issue found when its key is not empty, with no further request; or else
  the issue that Jira creates, which takes one request and leaves Jira in
  state [e2]. *)
Inductive WrittenIssue (j : JiraFields) (params : CreateIssueParams) (e1 : Env)
  : option (list string) -> string -> Env -> list Event -> Prop :=
| Written_found (key : string) (others : list string) :
    key <> "" ->
    WrittenIssue j params e1 (Some (key :: others)) key e1 []
| Written_created (found : option (list string)) (key : string) (e2 : Env) :
    (forall first others, found = Some (first :: others) -> first = "") ->
    issues_createIssue (createFields j params) e1 = (Ok key, e2) ->
    WrittenIssue j params e1 found key e2 [Jira (CreateIssue (createFields j params))].

(** The requests of [createOrUpdateIssue] for the issue [issueKey] up to
  the reading of its status, after the line it logs; [creation] is the
  request that created the issue, if any. *)
Definition upsertRequests (cfg : ProjectConfiguration) (j : JiraFields)
    (params : CreateIssueParams) (issueKey : string) (creation : list Event) : list Event :=
  ([ Log Debug (creatingIssueLine params);
     Jira (SearchForIssuesUsingJql (searchByGlobalId cfg (p_globalId params)) 1) ]
   ++ creation
   ++ [ Jira (CreateOrUpdateRemoteIssueLink (remoteLink params issueKey));
        Jira (EditIssue issueKey (updateFields cfg j params));
        Jira (GetIssue issueKey) ])%list.

(** The request that moves the issue to the sprint of [params], when
  there is one. *)
Definition moveRequests (params : CreateIssueParams) (issueKey : string) : list Event :=
  if JS.truthy_opt_number (p_sprintBoardId params)
  then [ Jira (MoveIssuesToSprintAndRank (default 0%Z (p_sprintBoardId params)) [issueKey]) ]
  else [].

(** The world in which the pass over a project starts: the line that
  opens the group of the project is logged and the [SyncRepository]
  object is new. *)
Definition pass_start (w : World) (cfg : ProjectConfiguration) : World :=
  {| trace := (trace w ++ [Log StartGroup ("Sync project " ++ cfg_name cfg ++ " from "
                                           ++ gh_owner (cfg_github cfg) ++ "/"
                                           ++ gh_repo (cfg_github cfg))])%list;
     env := env w; jira := new_Jira; repo := new_SyncRepository |}.

(** The passes of a run of the orchestrator over [cfgs] that starts in
  the world [w]: the pass over each project starts in the world that the
  pass before left, once its group was closed, and returns the date of
  the result of the project; the last pass leaves the world [w']. *)
Inductive Passes (fuel : nat)
  : World -> list ProjectConfiguration -> list SyncProjectResult -> World -> Prop :=
| Passes_done (w : World) : Passes fuel w [] [] w
| Passes_next (w : World) (cfg : ProjectConfiguration) (cfgs : list ProjectConfiguration)
              (date : string) (w1 : World) (results : list SyncProjectResult) (w' : World) :
    SyncRepository_start cfg fuel (pass_start w cfg) = (Ok date, w1) ->
    Passes fuel (after_log w1 EndGroup "") cfgs results w' ->
    Passes fuel w (cfg :: cfgs)
           ({| syncProjectName := cfg_name cfg; result_afterDate := date |} :: results) w'.

End FurtherVocabulary.

(** ** Further samples to run the engine on *)

Module Samples.

(** A Jira whose boards, pages of sprints and search results are given. *)
Record Desk : Type := {
  desk_boards : option (list Board);          (* the boards of the project *)
  desk_sprint_pages : list (Z * PaginatedSprint);
                                              (* the page of sprints served at each offset *)
  desk_found : option (list string)           (* the issues a search by global id finds *)
}.

Definition desk : Backend :=
  {| Env := Desk;
     graphql := fun _ e => (Throw (Error "no source"), e);
     myself_getCurrentUser := fun e => (Ok tt, e);
     projects_getProject := fun _ e =>
       (Ok {| project_id := Some "10000";
              project_issueTypes := Some [ {| issuetype_name := Some "Bug" |} ] |}, e);
     projectComponents_getProjectComponents := fun _ e =>
       (Ok [ {| component_id := Some "20"; component_name := Some "Core" |} ], e);
     issueFields_getFields := fun e => (Ok [], e);
     projectVersions_getProjectVersions := fun _ e => (Ok [], e);
     projectVersions_createVersion := fun _ e => (Ok tt, e);
     projectVersions_updateVersion := fun _ e => (Ok tt, e);
     board_getAllBoards := fun _ e => (Ok (desk_boards e), e);
     board_getAllSprints := fun _ startAt _ e =>
       match List.find (fun served => Z.eqb (fst served) startAt) (desk_sprint_pages e) with
       | Some served => (Ok (snd served), e)
       | None => (Throw (Error "no such page"), e)
       end;
     sprint_createSprint := fun _ e => (Ok tt, e);
     sprint_updateSprint := fun _ e => (Ok tt, e);
     sprint_moveIssuesToSprintAndRank := fun _ _ e => (Ok tt, e);
     issueSearch_searchForIssuesUsingJql := fun _ _ e => (Ok (desk_found e), e);
     issues_createIssue := fun _ e => (Ok "KEY-2", e);
     issueRemoteLinks_createOrUpdateRemoteIssueLink := fun _ e => (Ok tt, e);
     issues_editIssue := fun _ _ e => (Ok tt, e);
     issues_getIssue := fun _ e => (Ok (Some "Backlog"), e);
     issues_getTransitions := fun _ e => (Ok None, e);
     issues_doTransition := fun _ _ e => (Ok tt, e) |}.

Definition jira_sprint (id : Z) (name : string) : Sprint :=
  {| jsprint_id := id; jsprint_name := name; jsprint_state := "future";
     jsprint_startDate := None; jsprint_endDate := None |}.

(** Three sprints served on two pages, the second at offset 2. *)
Definition first_page : PaginatedSprint :=
  {| page_values := [jira_sprint 1 "S1"; jira_sprint 2 "S2"]; page_isLast := false |}.

Definition second_page : PaginatedSprint :=
  {| page_values := [jira_sprint 3 "S3"]; page_isLast := true |}.

Definition paged : Desk :=
  {| desk_boards := Some [ {| board_id := Some 7%Z; board_name := Some "Board" |} ];
     desk_sprint_pages := [ (0%Z, first_page); (2%Z, second_page) ];
     desk_found := None |}.

(** The only board of the configured name has id 0. *)
Definition without_board : Desk :=
  {| desk_boards := Some [ {| board_id := Some 8%Z; board_name := Some "Other" |};
                           {| board_id := Some 0%Z; board_name := Some "Board" |} ];
     desk_sprint_pages := [];
     desk_found := None |}.

(** The issue [KEY-7] is already linked to the source issue. *)
Definition linked : Desk :=
  {| desk_boards := None; desk_sprint_pages := []; desk_found := Some ["KEY-7"] |}.

Definition unlinked : Desk :=
  {| desk_boards := None; desk_sprint_pages := []; desk_found := None |}.

Definition desk_world (e : Desk) : @World desk :=
  @Build_World desk [] e
    {| storyPointsFieldId := Some "customfield_1";
       epicNameFieldId := Some "customfield_2";
       project := Some {| project_id := Some "10000"; project_issueTypes := None |};
       components := [ {| component_id := Some "20"; component_name := Some "Core" |} ];
       boardId := Some 7%Z |}
    new_SyncRepository.

(** Jira answering 401 to the next issue search only. *)
Definition throttled_once : Fixture.Tracker :=
  {| Fixture.jira_up := true; Fixture.throttled := 1; Fixture.versions := [];
     Fixture.board_sprints := []; Fixture.github_pages := [] |}.

(** Sprint [S3], two weeks from March 1st, carried by issue 7 on the
  configured board. *)
Definition sprint_S3 : GraphQLSearchIssuesNodeSprint :=
  {| sprint_title := "S3"; sprint_duration := 14; sprint_startDate := "2024-03-01" |}.

Definition issue7 : GraphQLSearchIssuesNode :=
  Fixture.issue 7 "2024-01-08T00:00:00Z" None
    [ {| item_title := Some "Planning"; item_status := Some "Planned";
         item_sprint := Some sprint_S3; item_storyPoints := Some 3%Z |} ].

(** Issue 8 carries the milestone of issue 4 as well. *)
Definition issue8 : GraphQLSearchIssuesNode :=
  Fixture.issue 8 "2024-01-09T00:00:00Z" (Some Fixture.milestone_v1) [].

(** A configuration file with two projects that use the same mappings,
  and a state file with a date for the second. *)
Definition syncProject (name afterDate : string) : SyncYamlSyncProject :=
  {| syncProject_name := name;
     syncProject_owner := "acme";
     syncProject_repo := "pod-desk";
     syncProject_project := "Planning";
     syncProject_afterDate := afterDate;
     syncProject_issueType := "types";
     syncProject_statusType := "statuses";
     syncProject_projectKey := "KEY";
     syncProject_component := "Core";
     syncProject_globalIdPrefix := "PD";
     syncProject_sprintBoard := "Board";
     syncProject_maxBatchSize := 10 |}.

Definition syncYaml : SyncYaml :=
  {| yaml_githubProjects :=
       [ {| githubProject_name := "Planning";
            githubProject_storyPoints :=
              Some {| yaml_fieldName := "Story Points"; yaml_type := "number" |};
            githubProject_status :=
              Some {| yaml_fieldName := "Status"; yaml_type := "singleSelect" |};
            githubProject_sprint :=
              Some {| yaml_fieldName := "Sprint"; yaml_type := "iteration" |} |} ];
     yaml_statusTypeMappings :=
       [ {| statusMapping_name := "statuses"; statusMapping_default := "Backlog";
            statusMapping_mapping :=
              [ {| fromGithub := "Planned"; status_toJira := "Backlog" |} ] |} ];
     yaml_issuesTypeMappings :=
       [ {| issuesMapping_name := "types"; issuesMapping_default := "Task";
            issuesMapping_mapping :=
              [ {| fromGithubLabel := "kind/bug"; issueType_toJira := "Bug" |} ] |} ];
     yaml_syncProjects :=
       [ syncProject "P" "2024-01-01T00:00:00.000Z";
         syncProject "Q" "2024-01-01T00:00:00.000Z" ] |}.

Definition syncStateYaml : SyncStateYaml :=
  {| state_syncProjects :=
       [ {| syncProjectName := "Q"; result_afterDate := "2024-01-03T00:00:00Z" |};
         {| syncProjectName := "Q"; result_afterDate := "2024-01-04T00:00:00Z" |} ] |}.

Definition configuration : Configuration :=
  new_Configuration "token" "https://jira.example" "secret" syncYaml (Some syncStateYaml).

(** [moment(s)] kept as the string it was given. *)
Definition moment (s : string) : Moment := {| toISOString := s |}.

End Samples.

(** * Properties *)

(** ** The monad and its traces *)

Ltac no_event :=
  intros w; exists []; split;
  [unfold added; simpl; now rewrite app_nil_r | constructor].

Section MonadFacts.

Context {rt : JsRuntime} {be : Backend}.

Lemma added_nil (w : World) : added w w [].
Proof. unfold added. now rewrite app_nil_r. Qed.

Lemma added_trans (w1 w2 w3 : World) (evs1 evs2 : list Event) :
  added w1 w2 evs1 -> added w2 w3 evs2 -> added w1 w3 (evs1 ++ evs2)%list.
Proof. unfold added. intros H1 H2. rewrite H2, H1. now rewrite app_assoc. Qed.

Lemma bind_Ok {A B : Type} (c : M A) (k : A -> M B) (w w' : World) (b : B) :
  bind c k w = (Ok b, w') ->
  exists a w1, c w = (Ok a, w1) /\ k a w1 = (Ok b, w').
Proof.
  unfold bind. destruct (c w) as [[a|e|] w1]; intros Hk; try discriminate.
  now exists a, w1.
Qed.

Lemma emits_ret {A : Type} (P : Event -> Prop) (a : A) : emits P (ret a).
Proof. no_event. Qed.

Lemma emits_throw {A : Type} (P : Event -> Prop) (e : JsError) : emits P (@throw _ A e).
Proof. no_event. Qed.

Lemma emits_out_of_fuel {A : Type} (P : Event -> Prop) : emits P (@out_of_fuel _ A).
Proof. no_event. Qed.

Lemma emits_lift {A : Type} (P : Event -> Prop) (r : Result A) : emits P (lift r).
Proof. no_event. Qed.

Lemma emits_get_jira (P : Event -> Prop) : emits P get_jira.
Proof. no_event. Qed.

Lemma emits_set_jira (P : Event -> Prop) (j : JiraFields) : emits P (set_jira j).
Proof. no_event. Qed.

Lemma emits_get_repo (P : Event -> Prop) : emits P get_repo.
Proof. no_event. Qed.

Lemma emits_set_repo (P : Event -> Prop) (r : SyncRepositoryFields) : emits P (set_repo r).
Proof. no_event. Qed.

Lemma emits_emit (P : Event -> Prop) (e : Event) : P e -> emits P (emit e).
Proof.
  intros He w. exists [e]. split; [reflexivity | now constructor].
Qed.

Lemma emits_log (P : Event -> Prop) (level : LogLevel) (message : string) :
  P (Log level message) -> emits P (log level message).
Proof. apply emits_emit. Qed.

Lemma emits_sleep (P : Event -> Prop) (ms : Z) : P (Pause ms) -> emits P (sleep ms).
Proof. apply emits_emit. Qed.

Lemma emits_request {A : Type} (P : Event -> Prop) (e : Event)
      (op : Env -> Result A * Env) :
  P e -> emits P (request e op).
Proof.
  intros He w. exists [e]. unfold request. destruct (op (env w)) as [r env'].
  split; [reflexivity | now constructor].
Qed.

Lemma emits_bind {A B : Type} (P : Event -> Prop) (c : M A) (k : A -> M B) :
  emits P c -> (forall a, emits P (k a)) -> emits P (bind c k).
Proof.
  intros Hc Hk w. destruct (Hc w) as [evs1 [Hadd1 Hall1]].
  unfold bind. destruct (c w) as [[a|e|] w1]; simpl in *.
  - destruct (Hk a w1) as [evs2 [Hadd2 Hall2]].
    exists (evs1 ++ evs2)%list. split.
    + eapply added_trans; eauto.
    + apply Forall_app. now split.
  - now exists evs1.
  - now exists evs1.
Qed.

Lemma emits_try_catch {A : Type} (P : Event -> Prop) (c : M A) (handler : JsError -> M A) :
  emits P c -> (forall e, emits P (handler e)) -> emits P (try_catch c handler).
Proof.
  intros Hc Hh w. destruct (Hc w) as [evs1 [Hadd1 Hall1]].
  unfold try_catch. destruct (c w) as [[a|e|] w1]; simpl in *.
  - now exists evs1.
  - destruct (Hh e w1) as [evs2 [Hadd2 Hall2]].
    exists (evs1 ++ evs2)%list. split.
    + eapply added_trans; eauto.
    + apply Forall_app. now split.
  - now exists evs1.
Qed.

Lemma emits_detached {A : Type} (P : Event -> Prop) (c : M A) :
  emits P c -> emits P (detached c).
Proof.
  intros Hc w. destruct (Hc w) as [evs1 [Hadd1 Hall1]].
  unfold detached. destruct (c w) as [[a|e|] w1]; simpl in *; now exists evs1.
Qed.

Lemma emits_if {A : Type} (P : Event -> Prop) (b : bool) (c1 c2 : M A) :
  emits P c1 -> emits P c2 -> emits P (if b then c1 else c2).
Proof. now destruct b. Qed.

Lemma queries_app (t1 t2 : list Event) : queries (t1 ++ t2) = queries t1 + queries t2.
Proof. unfold queries. now rewrite List.filter_app, length_app. Qed.

End MonadFacts.

(** ** Mapping Resolver *)

Lemma includes_In (labels : list string) (x : string) :
  JS.includes labels x = true <-> In x labels.
Proof.
  unfold JS.includes. rewrite existsb_exists. split.
  - intros [y [Hy Heq]]. apply String.eqb_eq in Heq. now subst.
  - intros Hin. exists x. split; [exact Hin | apply String.eqb_refl].
Qed.

Lemma opt_eqb_eq (o : option string) (s : string) :
  JS.opt_eqb o s = true <-> o = Some s.
Proof.
  unfold JS.opt_eqb. destruct o as [x|].
  - rewrite String.eqb_eq. split; congruence.
  - split; discriminate.
Qed.

Lemma issueTypeLoop_first pre m post labels :
  In (fromGithubLabel m) labels ->
  (forall m', In m' pre -> ~ In (fromGithubLabel m') labels) ->
  MappingResolver.issueTypeLoop (pre ++ m :: post) labels = Some (issueType_toJira m).
Proof.
  intros Hm. induction pre as [|p pre IH]; intros Hpre; simpl.
  - apply includes_In in Hm. now rewrite Hm.
  - destruct (JS.includes labels (fromGithubLabel p)) eqn:E.
    + apply includes_In in E. exfalso. apply (Hpre p); [now left | exact E].
    + apply IH. intros m' Hin. apply Hpre. now right.
Qed.

Lemma issueTypeLoop_none mappings labels :
  (forall m, In m mappings -> ~ In (fromGithubLabel m) labels) ->
  MappingResolver.issueTypeLoop mappings labels = None.
Proof.
  induction mappings as [|p rest IH]; intros Hno; simpl; [reflexivity|].
  destruct (JS.includes labels (fromGithubLabel p)) eqn:E.
  - apply includes_In in E. exfalso. apply (Hno p); [now left | exact E].
  - apply IH. intros m Hin. apply Hno. now right.
Qed.

Lemma statusLoop_first pre m post githubStatus :
  githubStatus = Some (fromGithub m) ->
  (forall m', In m' pre -> githubStatus <> Some (fromGithub m')) ->
  MappingResolver.statusLoop (pre ++ m :: post) githubStatus = Some (status_toJira m).
Proof.
  intros Hm. induction pre as [|p pre IH]; intros Hpre; simpl.
  - unfold MappingResolver.status_equal. apply opt_eqb_eq in Hm. now rewrite Hm.
  - unfold MappingResolver.status_equal at 1.
    destruct (JS.opt_eqb githubStatus (fromGithub p)) eqn:E.
    + apply opt_eqb_eq in E. exfalso. apply (Hpre p); [now left | exact E].
    + apply IH. intros m' Hin. apply Hpre. now right.
Qed.

Lemma statusLoop_none mappings githubStatus :
  (forall m, In m mappings -> githubStatus <> Some (fromGithub m)) ->
  MappingResolver.statusLoop mappings githubStatus = None.
Proof.
  induction mappings as [|p rest IH]; intros Hno; simpl; [reflexivity|].
  unfold MappingResolver.status_equal at 1.
  destruct (JS.opt_eqb githubStatus (fromGithub p)) eqn:E.
  - apply opt_eqb_eq in E. exfalso. apply (Hno p); [now left | exact E].
  - apply IH. intros m Hin. apply Hno. now right.
Qed.

(** C6 - Mapping resolution.  Both resolvers are total functions that read
    nothing but the table and the input.  For every table and input, the
    issue type is the result of the first rule, in table order, whose label
    is in the label set, and the status is the result of the first rule
    whose key equals the status string; when no rule matches, the result is
    the default of the table. *)
Theorem mapping_resolution_first_match_or_default (cfg : ProjectConfiguration) :
  (forall labels : list string,
      (forall pre m post,
          issueTypeMapping cfg = (pre ++ m :: post)%list ->
          In (fromGithubLabel m) labels ->
          (forall m', In m' pre -> ~ In (fromGithubLabel m') labels) ->
          MappingResolver.getJiraIssueTypeFromGitHubLabels cfg labels = issueType_toJira m)
      /\ ((forall m, In m (issueTypeMapping cfg) -> ~ In (fromGithubLabel m) labels) ->
          MappingResolver.getJiraIssueTypeFromGitHubLabels cfg labels = issueTypeDefault cfg))
  /\
  (forall githubStatus : option string,
      (forall pre m post,
          statusTypeMapping cfg = (pre ++ m :: post)%list ->
          githubStatus = Some (fromGithub m) ->
          (forall m', In m' pre -> githubStatus <> Some (fromGithub m')) ->
          MappingResolver.getJiraStatusFromGithubProject cfg githubStatus = status_toJira m)
      /\ ((forall m, In m (statusTypeMapping cfg) -> githubStatus <> Some (fromGithub m)) ->
          MappingResolver.getJiraStatusFromGithubProject cfg githubStatus
          = statusTypeDefault cfg)).
Proof.
  split.
  - intros labels. split.
    + intros pre m post Htable Hm Hpre.
      unfold MappingResolver.getJiraIssueTypeFromGitHubLabels.
      rewrite Htable. now rewrite (issueTypeLoop_first pre m post labels Hm Hpre).
    + intros Hnone. unfold MappingResolver.getJiraIssueTypeFromGitHubLabels.
      now rewrite (issueTypeLoop_none _ _ Hnone).
  - intros githubStatus. split.
    + intros pre m post Htable Hm Hpre.
      unfold MappingResolver.getJiraStatusFromGithubProject.
      rewrite Htable. now rewrite (statusLoop_first pre m post githubStatus Hm Hpre).
    + intros Hnone. unfold MappingResolver.getJiraStatusFromGithubProject.
      now rewrite (statusLoop_none _ _ Hnone).
Qed.

(** The table of the fixture: the label set [kind/bug; kind/epic] resolves
    to [Epic], the first rule in table order, no label resolves to the
    default; the status [In Progress] resolves by its rule, an absent status
    to the default. *)
Lemma mapping_resolution_witness :
  MappingResolver.getJiraIssueTypeFromGitHubLabels (Fixture.config "P" 10)
    ["kind/bug"; "kind/epic"] = "Epic"
  /\ MappingResolver.getJiraIssueTypeFromGitHubLabels (Fixture.config "P" 10) [] = "Task"
  /\ MappingResolver.getJiraStatusFromGithubProject (Fixture.config "P" 10)
       (Some "In Progress") = "In Progress"
  /\ MappingResolver.getJiraStatusFromGithubProject (Fixture.config "P" 10) None = "Backlog".
Proof.
  destruct (mapping_resolution_first_match_or_default (Fixture.config "P" 10))
    as [Htype Hstatus].
  destruct (Htype ["kind/bug"; "kind/epic"]) as [Hfirst _].
  destruct (Htype []) as [_ Hdefault].
  destruct (Hstatus (Some "In Progress")) as [Hsfirst _].
  destruct (Hstatus None) as [_ Hsdefault].
  split; [| split; [| split]].
  - apply (Hfirst [] {| fromGithubLabel := "kind/epic"; issueType_toJira := "Epic" |}
                  [ {| fromGithubLabel := "kind/bug"; issueType_toJira := "Bug" |} ]).
    + reflexivity.
    + simpl. right. now left.
    + intros m' [].
  - apply Hdefault. intros m _ [].
  - apply (Hsfirst [ {| fromGithub := "Planned"; status_toJira := "Backlog" |} ]
                   {| fromGithub := "In Progress"; status_toJira := "In Progress" |} []).
    + reflexivity.
    + reflexivity.
    + intros m' [<- | []]. simpl. discriminate.
  - apply Hsdefault. intros m _. discriminate.
Defined.

(** ** Batch Fetcher *)

Ltac count_queries :=
  simpl; rewrite ?queries_app; unfold queries; simpl; lia.

Section FetcherFacts.

Context {rt : JsRuntime} {be : Backend}.

Variable cfg : ProjectConfiguration.

(** One round of [doGetIssuesUpdatedAfterBatch], when the search is
    answered. *)
Lemma doGetIssuesUpdatedAfterBatch_round fuel cursor previousIssues w page e' :
  graphql (searchQuery cfg cursor) (env w) = (Ok page, e') ->
  let currentEntries := concat (search_edges page) in
  let allGraphQlResponse :=
    match previousIssues with
    | Some previous => (previous ++ currentEntries)%list
    | None => currentEntries
    end in
  let w1 := after_query cfg w cursor e' in
  let w2 := after_log w1 Debug
              ("Fetched additional "
               ++ String_of_number (Z.of_nat (length currentEntries))
               ++ ", current total "
               ++ String_of_number (Z.of_nat (length allGraphQlResponse))
               ++ " items") in
  doGetIssuesUpdatedAfterBatch cfg (S fuel) cursor previousIssues w =
  if (Z.of_nat (length allGraphQlResponse) >=? maxBatchNumberIssues cfg)%Z
  then (Ok (JS.slice0 allGraphQlResponse (maxBatchNumberIssues cfg)), w1)
  else if hasNextPage (search_pageInfo page)
       then doGetIssuesUpdatedAfterBatch cfg fuel
              (Some (endCursor (search_pageInfo page))) (Some allGraphQlResponse)
              (after_log w2 Debug "Fetching additional issues...")
       else (Ok allGraphQlResponse, w2).
Proof.
  intros Hq. simpl. unfold bind at 1. unfold request at 1. rewrite Hq.
  fold (after_query cfg w cursor e').
  destruct (Z.of_nat _ >=? maxBatchNumberIssues cfg)%Z; [reflexivity|].
  unfold bind at 1. unfold log at 1, emit at 1.
  destruct (hasNextPage (search_pageInfo page)); [|reflexivity].
  unfold bind at 1. unfold log at 1, emit at 1. reflexivity.
Qed.

Lemma slice0_positive {A : Type} (l : list A) (n : Z) :
  (0 <= n)%Z -> JS.slice0 l n = firstn (Z.to_nat n) l.
Proof.
  intros Hn. unfold JS.slice0. destruct (n <? 0)%Z eqn:E; [|reflexivity].
  apply Z.ltb_lt in E. lia.
Qed.

Lemma firstn_app_enough {A : Type} (n : nat) (l1 l2 : list A) :
  n <= length l1 -> firstn n (l1 ++ l2) = firstn n l1.
Proof.
  intros Hn. rewrite firstn_app.
  replace (n - length l1) with 0 by lia. simpl. apply app_nil_r.
Qed.

Lemma records_cons page pages :
  records (page :: pages) = (concat (search_edges page) ++ records pages)%list.
Proof. reflexivity. Qed.

Lemma records_app pages1 pages2 :
  records (pages1 ++ pages2) = (records pages1 ++ records pages2)%list.
Proof. unfold records. now rewrite map_app, concat_app. Qed.

(** The fetch against a source that serves [pages], with a positive cap:
    what it returns and how many searches it sends. *)
Lemma fetch_capped (N : Z) :
  maxBatchNumberIssues cfg = N -> (0 < N)%Z ->
  forall e cursor pages, Serves cfg e cursor pages ->
  forall fuel previousIssues w,
    env w = e -> length pages <= fuel ->
    let acc := default [] previousIssues in
    exists w',
      doGetIssuesUpdatedAfterBatch cfg fuel cursor previousIssues w
      = (Ok (firstn (Z.to_nat N) (acc ++ records pages)), w')
      /\ queries (trace w) < queries (trace w')
      /\ (forall pre p post,
             pages = (pre ++ p :: post)%list ->
             (N <= Z.of_nat (length (acc ++ records (pre ++ [p]))))%Z ->
             queries (trace w') <= queries (trace w) + length pre + 1).
Proof.
  intros HN Hpos e cursor pages Hserves.
  induction Hserves as [e e' cursor page Hq Hlast | e e' cursor page pages Hq Hmore Hrest IH];
    intros fuel previousIssues w Henv Hfuel acc.
  - destruct fuel as [|fuel]; [simpl in Hfuel; lia|].
    subst e. rewrite (doGetIssuesUpdatedAfterBatch_round _ _ _ _ _ _ Hq).
    rewrite HN, Hlast.
    assert (Hall : match previousIssues with
                   | Some previous => (previous ++ concat (search_edges page))%list
                   | None => concat (search_edges page)
                   end = (acc ++ concat (search_edges page))%list)
      by (unfold acc; now destruct previousIssues).
    rewrite Hall. rewrite records_cons. unfold records at 1. simpl concat at 2.
    rewrite app_nil_r.
    destruct (Z.geb_spec (Z.of_nat (length (acc ++ concat (search_edges page)))) N)
      as [Hge | Hlt].
    + eexists. split; [|split].
      * rewrite slice0_positive by lia. reflexivity.
      * count_queries.
      * intros pre p post _ _. count_queries.
    + eexists. split; [|split].
      * rewrite firstn_all2 by lia. reflexivity.
      * count_queries.
      * intros pre p post Hsplit Hreach. exfalso.
        destruct pre as [|x pre]; simpl in Hsplit.
        -- injection Hsplit as <- _. unfold records in Hreach. simpl in Hreach.
           rewrite app_nil_r in Hreach. lia.
        -- injection Hsplit as _ Hnil. now destruct pre.
  - destruct fuel as [|fuel]; [simpl in Hfuel; lia|].
    subst e. rewrite (doGetIssuesUpdatedAfterBatch_round _ _ _ _ _ _ Hq).
    rewrite HN, Hmore.
    assert (Hall : match previousIssues with
                   | Some previous => (previous ++ concat (search_edges page))%list
                   | None => concat (search_edges page)
                   end = (acc ++ concat (search_edges page))%list)
      by (unfold acc; now destruct previousIssues).
    rewrite Hall. rewrite records_cons.
    destruct (Z.geb_spec (Z.of_nat (length (acc ++ concat (search_edges page)))) N)
      as [Hge | Hlt].
    + eexists. split; [|split].
      * rewrite slice0_positive by lia. rewrite app_assoc.
        rewrite (firstn_app_enough _ (acc ++ concat (search_edges page)) (records pages))
          by lia.
        reflexivity.
      * count_queries.
      * intros pre p post _ _. count_queries.
    + match goal with
      | |- context [doGetIssuesUpdatedAfterBatch cfg fuel ?c ?p ?w1] =>
          destruct (IH fuel p w1) as [w' [Hrun [Hsome Hstop]]];
          [reflexivity | simpl in Hfuel; lia |]
      end.
      exists w'. simpl in Hrun, Hsome, Hstop. split; [|split].
      * rewrite Hrun. now rewrite app_assoc.
      * revert Hsome. count_queries.
      * intros pre p post Hsplit Hreach.
        destruct pre as [|x pre]; simpl in Hsplit.
        -- exfalso. injection Hsplit as <- _. unfold records in Hreach. simpl in Hreach.
           rewrite app_nil_r in Hreach. lia.
        -- injection Hsplit as <- Hpages.
           specialize (Hstop pre p post Hpages).
           assert (Hreach' : (N <= Z.of_nat (length ((acc ++ concat (search_edges page))
                                                     ++ records (pre ++ [p]))))%Z).
           { change (page :: pre ++ [p])%list with ((page :: pre) ++ [p])%list in Hreach.
             simpl in Hreach. rewrite records_cons in Hreach.
             now rewrite app_assoc in Hreach. }
           specialize (Hstop Hreach'). revert Hstop. count_queries.
Qed.

(** Whatever the source answers, a fetch that returns never returns more
    records than a non-negative cap. *)
Lemma fetch_never_exceeds_cap (N : Z) :
  maxBatchNumberIssues cfg = N -> (0 <= N)%Z ->
  forall fuel cursor previousIssues w issues w',
    doGetIssuesUpdatedAfterBatch cfg fuel cursor previousIssues w = (Ok issues, w') ->
    (Z.of_nat (length issues) <= N)%Z.
Proof.
  intros HN Hpos fuel.
  induction fuel as [|fuel IH]; intros cursor previousIssues w issues w' Hrun.
  - discriminate Hrun.
  - destruct (graphql (searchQuery cfg cursor) (env w)) as [[page|e|] e'] eqn:Hq.
    + rewrite (doGetIssuesUpdatedAfterBatch_round _ _ _ _ _ _ Hq) in Hrun.
      rewrite HN in Hrun.
      match type of Hrun with
      | context [(Z.of_nat (length ?all) >=? N)%Z] =>
          destruct (Z.geb_spec (Z.of_nat (length all)) N) as [Hge | Hlt]
      end.
      * injection Hrun as <- _. rewrite slice0_positive by lia.
        rewrite length_firstn. lia.
      * destruct (hasNextPage (search_pageInfo page)).
        -- eapply IH. exact Hrun.
        -- injection Hrun as <- _. lia.
    + simpl in Hrun. unfold bind at 1 in Hrun. unfold request at 1 in Hrun.
      rewrite Hq in Hrun. discriminate Hrun.
    + simpl in Hrun. unfold bind at 1 in Hrun. unfold request at 1 in Hrun.
      rewrite Hq in Hrun. discriminate Hrun.
Qed.

End FetcherFacts.

(** C1 - Batch size zero.  With [maxBatchSize = 0], as soon as the first
    search is answered the fetcher returns the empty array and stops: the
    test [length >= 0] always holds and [slice(0, 0)] keeps nothing,
    whatever the page holds and whether or not it announces a next page. *)
Theorem zero_cap_fetches_nothing {rt : JsRuntime} {be : Backend}
    (cfg : ProjectConfiguration) (fuel : nat) (w : World)
    (page : GraphQLSearchIssuesResponse) (e' : Env) :
  maxBatchNumberIssues cfg = 0%Z ->
  graphql (searchQuery cfg None) (env w) = (Ok page, e') ->
  exists w',
    doGetIssuesUpdatedAfterBatch cfg (S fuel) None None w = (Ok [], w')
    /\ added w w' [GitHubQuery (searchQuery cfg None)].
Proof.
  intros Hzero Hq. rewrite (doGetIssuesUpdatedAfterBatch_round _ _ _ _ _ _ _ Hq).
  rewrite Hzero.
  destruct (Z.geb_spec (Z.of_nat (length (concat (search_edges page)))) 0) as [_ | Hlt];
    [|lia].
  eexists. split; [reflexivity | reflexivity].
Qed.

(** GitHub holds three issues on two pages; with the cap set to 0 the
    fetcher returns none of them and asks for the first page only. *)
Lemma zero_cap_fetches_nothing_witness :
  records (map snd Fixture.two_pages) = [Fixture.issue1; Fixture.issue2; Fixture.issue3]
  /\ exists w',
       doGetIssuesUpdatedAfterBatch (rt:=Fixture.runtime) (be:=Fixture.tracker)
         (Fixture.config "P" 0) 5 None None (Fixture.world (Fixture.healthy Fixture.two_pages))
       = (Ok [], w')
       /\ queries (trace w') = 1.
Proof.
  split; [reflexivity|].
  destruct (zero_cap_fetches_nothing (rt:=Fixture.runtime) (be:=Fixture.tracker)
              (Fixture.config "P" 0) 4 (Fixture.world (Fixture.healthy Fixture.two_pages))
              (Fixture.page [Fixture.issue1; Fixture.issue2] "c1" true)
              (Fixture.healthy Fixture.two_pages) eq_refl eq_refl)
    as [w' [Hrun Hadded]].
  exists w'. split; [exact Hrun|]. rewrite Hadded. reflexivity.
Defined.

(** C7 - Batch cap.  With [maxBatchSize = N > 0], a fetch that returns never
    returns more than [N] records, whatever the source answers.  Against a
    source that serves the pages [pages], and given enough fuel for them, the
    fetch does return: its result is the first [N] records the pages hold;
    and if the records of the pages up to some page [p] already number [N]
    or more, the result has exactly [N] records and no search is sent for a
    page after [p]. *)
Theorem positive_cap_bounds_batch {rt : JsRuntime} {be : Backend}
    (cfg : ProjectConfiguration) (N : Z) :
  maxBatchNumberIssues cfg = N -> (0 < N)%Z ->
  (forall fuel cursor previousIssues w issues w',
      doGetIssuesUpdatedAfterBatch cfg fuel cursor previousIssues w = (Ok issues, w') ->
      (Z.of_nat (length issues) <= N)%Z)
  /\ (forall (pages : list GraphQLSearchIssuesResponse) (fuel : nat) (w : World),
         Serves cfg (env w) None pages ->
         length pages <= fuel ->
         exists issues w',
           doGetIssuesUpdatedAfterBatch cfg fuel None None w = (Ok issues, w')
           /\ issues = firstn (Z.to_nat N) (records pages)
           /\ (forall pre p post,
                  pages = (pre ++ p :: post)%list ->
                  (N <= Z.of_nat (length (records (pre ++ [p]))))%Z ->
                  Z.of_nat (length issues) = N
                  /\ queries (trace w') <= queries (trace w) + length pre + 1)).
Proof.
  intros HN Hpos. split.
  - apply (fetch_never_exceeds_cap cfg N HN). lia.
  - intros pages fuel w Hserves Hfuel.
    destruct (fetch_capped cfg N HN Hpos (env w) None pages Hserves fuel None w eq_refl Hfuel)
      as [w' [Hrun [_ Hstop]]].
    simpl in Hrun, Hstop.
    exists (firstn (Z.to_nat N) (records pages)), w'.
    split; [exact Hrun|]. split; [reflexivity|].
    intros pre p post Hsplit Hreach. split.
    + rewrite length_firstn. subst pages.
      replace (pre ++ p :: post)%list with ((pre ++ [p]) ++ post)%list
        by (now rewrite <- app_assoc).
      rewrite records_app, length_app. lia.
    + now apply (Hstop pre p post).
Qed.

(** The two pages of the fixture with the cap at 2: the first page already
    fills the batch, so two records come back after a single search. *)
Lemma positive_cap_bounds_batch_witness :
  exists issues w',
    doGetIssuesUpdatedAfterBatch (rt:=Fixture.runtime) (be:=Fixture.tracker)
      (Fixture.config "P" 2) 2 None None (Fixture.world (Fixture.healthy Fixture.two_pages))
    = (Ok issues, w')
    /\ issues = [Fixture.issue1; Fixture.issue2]
    /\ (Z.of_nat (length issues) <= 2)%Z
    /\ queries (trace w') <= 1.
Proof.
  assert (Hserves : Serves (be:=Fixture.tracker) (Fixture.config "P" 2)
                      (Fixture.healthy Fixture.two_pages) None (map snd Fixture.two_pages)).
  { eapply (Serves_next (be:=Fixture.tracker)); [reflexivity | reflexivity |].
    eapply (Serves_last (be:=Fixture.tracker)); reflexivity. }
  destruct (positive_cap_bounds_batch (rt:=Fixture.runtime) (be:=Fixture.tracker)
              (Fixture.config "P" 2) 2 eq_refl eq_refl)
    as [Hbound Hfetch].
  destruct (Hfetch (map snd Fixture.two_pages) 2
                   (Fixture.world (Fixture.healthy Fixture.two_pages)) Hserves (le_n 2))
    as [issues [w' [Hrun [Hissues Hstop]]]].
  exists issues, w'. split; [exact Hrun|]. split; [exact Hissues|]. split.
  - exact (Hbound _ _ _ _ _ _ Hrun).
  - destruct (Hstop [] (Fixture.page [Fixture.issue1; Fixture.issue2] "c1" true)
                    [Fixture.page [Fixture.issue3] "c2" false] eq_refl) as [_ Hq].
    + vm_compute. discriminate.
    + exact Hq.
Defined.

(** ** Watermark *)

Section WatermarkFacts.

Variable instant : string -> Z.

Lemma ascending_tail (a : GraphQLSearchIssuesNode) (l : list GraphQLSearchIssuesNode) :
  ascending instant (a :: l) -> ascending instant l.
Proof.
  intros Hasc before x y after Hl. apply (Hasc (a :: before) x y after).
  simpl. now rewrite Hl.
Qed.

Lemma ascending_below_last (pre : list GraphQLSearchIssuesNode) (x : GraphQLSearchIssuesNode) :
  ascending instant (pre ++ [x]) ->
  Forall (fun r => (instant (issue_updatedAt r) <= instant (issue_updatedAt x))%Z) (pre ++ [x]).
Proof.
  induction pre as [|a pre IH]; intros Hasc; simpl.
  - constructor; [lia | constructor].
  - pose proof (IH (ascending_tail _ _ Hasc)) as Hrest.
    constructor; [|exact Hrest].
    destruct pre as [|b pre]; simpl in *.
    + apply (Hasc [] a x []). reflexivity.
    + inversion Hrest as [|? ? Hb _]; subst.
      pose proof (Hasc [] a b (pre ++ [x])%list eq_refl). lia.
Qed.

Lemma at_index_last {A : Type} (pre : list A) (x : A) :
  JS.at_index (pre ++ [x]) (Z.of_nat (length (pre ++ [x])) - 1) = Some x.
Proof.
  unfold JS.at_index. rewrite length_app. simpl.
  destruct (Z.ltb_spec (Z.of_nat (length pre + 1) - 1) 0) as [Hneg | _]; [lia|].
  replace (Z.to_nat (Z.of_nat (length pre + 1) - 1)) with (length pre + 0) by lia.
  rewrite nth_error_app2 by lia.
  now replace (length pre + 0 - length pre) with 0 by lia.
Qed.

Lemma nextStartDate_last (cfg : ProjectConfiguration)
      (pre : list GraphQLSearchIssuesNode) (x : GraphQLSearchIssuesNode) :
  nextStartDate cfg (pre ++ [x]) = issue_updatedAt x.
Proof. unfold nextStartDate. now rewrite at_index_last. Qed.

End WatermarkFacts.

(** C4 - Watermark.  Reading timestamps as instants, if the fetched records
    are in ascending order of update time and none is older than the input
    watermark (the start date of the configuration), then the next start
    date is not older than the input watermark; when records were fetched it
    is the [updatedAt] of one of them and no record is more recent; when
    none was fetched it is the input watermark itself.  The [afterDate]
    returned by [getIssuesUpdatedAfter] is that next start date. *)
Theorem watermark_moves_forward {rt : JsRuntime} {be : Backend}
    (instant : string -> Z) (cfg : ProjectConfiguration)
    (issues : list GraphQLSearchIssuesNode) :
  let watermark := toISOString (gh_startDate (cfg_github cfg)) in
  ascending instant issues ->
  Forall (fun r => (instant watermark <= instant (issue_updatedAt r))%Z) issues ->
  (instant watermark <= instant (nextStartDate cfg issues))%Z
  /\ (issues <> [] ->
      (exists r, In r issues /\ nextStartDate cfg issues = issue_updatedAt r)
      /\ Forall (fun r => (instant (issue_updatedAt r)
                           <= instant (nextStartDate cfg issues))%Z) issues)
  /\ (issues = [] -> nextStartDate cfg issues = watermark)
  /\ (forall fuel w res w',
         getIssuesUpdatedAfter cfg fuel w = (Ok res, w') ->
         afterDate res = nextStartDate cfg (fetched_issues res)).
Proof.
  intros watermark Hasc Hnew.
  assert (Hmethod : forall fuel w res w',
             getIssuesUpdatedAfter cfg fuel w = (Ok res, w') ->
             afterDate res = nextStartDate cfg (fetched_issues res)).
  { intros fuel w res w' Hrun. unfold getIssuesUpdatedAfter in Hrun.
    apply bind_Ok in Hrun. destruct Hrun as [fetched [w1 [_ Hret]]].
    unfold ret in Hret. injection Hret as <- _. reflexivity. }
  destruct issues as [|first others].
  - split; [|split; [|split]].
    + unfold nextStartDate. simpl. fold watermark. lia.
    + intros Hne. now contradiction Hne.
    + reflexivity.
    + exact Hmethod.
  - destruct (@exists_last _ (first :: others)) as [pre [x Hsplit]]; [discriminate|].
    rewrite Hsplit in *. rewrite nextStartDate_last.
    split; [|split; [|split]].
    + rewrite List.Forall_forall in Hnew. apply Hnew. apply in_or_app. right. now left.
    + intros _. split.
      * exists x. split; [apply in_or_app; right; now left | reflexivity].
      * now apply ascending_below_last.
    + intros Hnil. now destruct pre.
    + exact Hmethod.
Qed.

(** Three issues updated on January 2nd, 3rd and 4th, after a watermark of
    January 1st: the next start date is the timestamp of the third issue, not
    older than the watermark, and no issue is more recent; without issues it
    is the watermark. *)
Lemma watermark_moves_forward_witness :
  let cfg := Fixture.config "P" 10 in
  let issues := [Fixture.issue1; Fixture.issue2; Fixture.issue3] in
  nextStartDate cfg issues = "2024-01-04T00:00:00Z"
  /\ (Fixture.day_of_month "2024-01-01T00:00:00.000Z"
      <= Fixture.day_of_month (nextStartDate cfg issues))%Z
  /\ Forall (fun r => (Fixture.day_of_month (issue_updatedAt r)
                       <= Fixture.day_of_month (nextStartDate cfg issues))%Z) issues
  /\ nextStartDate cfg [] = "2024-01-01T00:00:00.000Z".
Proof.
  intros cfg issues.
  destruct (watermark_moves_forward (rt:=Fixture.runtime) (be:=Fixture.tracker)
              Fixture.day_of_month cfg issues)
    as [Hforward [Hlatest _]].
  - intros before a b after Hsplit.
    destruct before as [|x before]; [injection Hsplit as <- <- _; vm_compute; discriminate|].
    destruct before as [|y before]; [injection Hsplit as _ <- <- _; vm_compute; discriminate|].
    destruct before as [|z before]; [discriminate|].
    destruct before; discriminate.
  - repeat constructor; vm_compute; discriminate.
  - destruct (watermark_moves_forward (rt:=Fixture.runtime) (be:=Fixture.tracker)
                Fixture.day_of_month cfg [])
      as [_ [_ [Hempty _]]].
    + intros before a b after Hsplit. destruct before; discriminate.
    + constructor.
    + destruct Hlatest as [_ Hmax]; [discriminate|].
      split; [reflexivity|]. split; [exact Hforward|]. split; [exact Hmax|].
      now apply Hempty.
Defined.

(** ** Sync Orchestrator *)

Section OrchestratorFacts.

Context {rt : JsRuntime} {be : Backend}.

(** The loop over a concatenation: the second part runs from the results
    and the world the first part leaves, if the first part completes. *)
Lemma Sync_loop_app (fuel : nat) (before rest : list ProjectConfiguration) :
  forall results w,
    Sync_loop fuel (before ++ rest) results w =
    match Sync_loop fuel before results w with
    | (Ok results', w') => Sync_loop fuel rest results' w'
    | (Throw e, w') => (Throw e, w')
    | (OutOfFuel, w') => (OutOfFuel, w')
    end.
Proof.
  induction before as [|p before IH]; intros results w; simpl.
  - reflexivity.
  - unfold bind.
    destruct (log StartGroup _ w) as [[[]|e|] w1]; try reflexivity.
    destruct (new_SyncRepository_object w1) as [[[]|e|] w2]; try reflexivity.
    destruct (SyncRepository_start p fuel w2) as [[projectResult|e|] w3]; try reflexivity.
    destruct (log EndGroup "" w3) as [[[]|e|] w4]; try reflexivity.
    apply IH.
Qed.

End OrchestratorFacts.

(** C2 (as stated, refuted) - Jira refuses the connection while project [P]
    is synchronized: the run ends with that error, and project [Q], next in
    the sequence, is never started. *)
Lemma failed_project_ends_the_run :
  let run := Sync_start (rt:=Fixture.runtime) (be:=Fixture.tracker) 5
               [Fixture.config "P" 10; Fixture.config "Q" 10]
               (Fixture.world Fixture.jira_down) in
  fst run = Throw (Error "Jira connection error")
  /\ trace (snd run)
     = [ Log StartGroup "Sync project P from acme/pod-desk";
         Log StartGroup "Init and sync...";
         Log Info "Check JIRA is available";
         Jira GetCurrentUser;
         Log ConsoleError "Jira connection error connect ECONNREFUSED" ]
  /\ ~ In (Log StartGroup "Sync project Q from acme/pod-desk") (trace (snd run)).
Proof.
  split; [vm_compute; reflexivity|]. split; [vm_compute; reflexivity|].
  vm_compute. intros Hin.
  repeat (destruct Hin as [Heq | Hin]; [discriminate Heq|]). exact Hin.
Qed.

(** C2 (amended) - If the projects before [p] are all synchronized and the
    pass of [p] throws [e], then the run over the whole sequence throws [e]
    in the world that the failed pass left: nothing is done for the
    projects after [p], and no list of results, hence no watermark of any
    project, is returned. *)
Theorem orchestrator_stops_at_first_failure {rt : JsRuntime} {be : Backend}
    (fuel : nat) (before after : list ProjectConfiguration) (p : ProjectConfiguration)
    (w w1 w2 : World) (results : list SyncProjectResult) (e : JsError) :
  Sync_loop fuel before [] w = (Ok results, w1) ->
  Sync_loop fuel [p] results w1 = (Throw e, w2) ->
  Sync_start fuel (before ++ p :: after) w = (Throw e, w2).
Proof.
  intros Hbefore Hp. unfold Sync_start.
  rewrite Sync_loop_app, Hbefore.
  change (p :: after) with ([p] ++ after)%list.
  rewrite Sync_loop_app, Hp. reflexivity.
Qed.

(** Project [P] is synchronized, then Jira answers 401 twice to project
    [Q]: the run over [P; Q; R] throws, and its trace is the trace of the run
    over [P; Q]. *)
Lemma orchestrator_stops_at_first_failure_witness :
  let start := Fixture.world Fixture.throttled_twice in
  let first := Sync_loop (rt:=Fixture.runtime) (be:=Fixture.tracker) 5
                 [Fixture.config "P" 0] [] start in
  let second := Sync_loop (rt:=Fixture.runtime) (be:=Fixture.tracker) 5
                  [Fixture.config "Q" 10]
                  [ {| syncProjectName := "P";
                       result_afterDate := "2024-01-01T00:00:00.000Z" |} ]
                  (snd first) in
  Sync_start (rt:=Fixture.runtime) (be:=Fixture.tracker) 5
    [Fixture.config "P" 0; Fixture.config "Q" 10; Fixture.config "R" 10] start
  = (Throw Fixture.unauthorized, snd second).
Proof.
  intros start first second.
  apply (orchestrator_stops_at_first_failure (rt:=Fixture.runtime) (be:=Fixture.tracker)
           5 [Fixture.config "P" 0] [Fixture.config "R" 10] (Fixture.config "Q" 10)
           start (snd first) (snd second)
           [ {| syncProjectName := "P"; result_afterDate := "2024-01-01T00:00:00.000Z" |} ]).
  - vm_compute. reflexivity.
  - vm_compute. reflexivity.
Defined.

(** ** Issue Upsert Engine *)

(** C3 - Jira answers 401 to the two searches made for issue 1, the first
    attempt and the retry after the pause: the error of the retry leaves
    the [catch] block and ends the loop, nothing is done for issue 2, and the
    run of the project, started from scratch against the same Jira, throws
    that error. *)
Theorem failed_retry_aborts_the_batch :
  let run := syncIssues (rt:=Fixture.runtime) (be:=Fixture.tracker) (Fixture.config "P" 10)
               [Fixture.issue1; Fixture.issue2]
               (Fixture.ready_world Fixture.throttled_twice) in
  let creating :=
    Log Debug ("  Creating issue in Jira Type/Bug status/Backlog state/OPEN"
               ++ " fixVersionID undefined sprintBoardId/undefined") in
  let search :=
    Jira (SearchForIssuesUsingJql
            ("issue in issuesWithRemoteLinksByGlobalId(" ++ JS.dquote ++ "PD-1" ++ JS.dquote
             ++ ") and project = " ++ JS.dquote ++ "KEY" ++ JS.dquote) 1) in
  fst run = Throw Fixture.unauthorized
  /\ trace (snd run)
     = [ Log Info "Create or update issue https://github.example/acme/pod-desk/issues/1 in Jira...";
         creating;
         search;
         Log Debug "Error creating issue in Jira Unauthorized";
         Log Warning
           "Jira unauthorized/throttling rate limit reached, pausing for 30s before retrying";
         Pause 30000;
         creating;
         search ]
  /\ fst (SyncRepository_start (rt:=Fixture.runtime) (be:=Fixture.tracker)
            (Fixture.config "P" 10) 5 (Fixture.world Fixture.throttled_twice))
     = Throw Fixture.unauthorized.
Proof.
  repeat split; vm_compute; reflexivity.
Qed.

(** ** Entity Reconciler: releases *)

(** C5 - The Jira project has the release [P v1], not released; issue 4 of
    project [P] carries the milestone [v1], closed.  The release derived
    from the milestone is found in Jira under its prefixed name and its
    released flag differs, yet [syncReleases] only lists the releases, twice:
    its update loop looks for a Jira release named [v1]. *)
Theorem prefixed_release_is_not_updated :
  let cfg := Fixture.config "P" 10 in
  let target := withProjectPrefix cfg Fixture.milestone_v1 in
  let run := syncReleases (rt:=Fixture.runtime) (be:=Fixture.tracker) cfg [Fixture.issue4]
               (Fixture.ready_world Fixture.with_release) in
  githubReleasesWithProjectPrefix cfg [Fixture.issue4] = [target]
  /\ findJiraRelease [Fixture.release_P_v1] (milestone_title target)
     = Some Fixture.release_P_v1
  /\ option_map (release_differs Fixture.release_P_v1)
       (match fromGithubMilestoneToJiraRelease (rt:=Fixture.runtime) target with
        | Ok r => Some r
        | _ => None
        end) = Some true
  /\ fst run = Ok tt
  /\ trace (snd run) = [ Jira (GetProjectVersions "KEY"); Jira (GetProjectVersions "KEY") ].
Proof.
  repeat split; vm_compute; reflexivity.
Qed.

(** ** Issue Upsert Engine: story points *)

Section SteadyFacts.

Context {rt : JsRuntime} {be : Backend}.

Variable j : JiraFields.
Variable r : SyncRepositoryFields.
Variable P : Event -> Prop.

Lemma steady_ret {A : Type} (a : A) : steady j r P (ret a).
Proof.
  intros w Hj Hr. simpl. repeat split; try assumption.
  exists []. split; [apply added_nil | constructor].
Qed.

Lemma steady_throw {A : Type} (e : JsError) : steady j r P (@throw _ A e).
Proof.
  intros w Hj Hr. simpl. repeat split; try assumption.
  exists []. split; [apply added_nil | constructor].
Qed.

Lemma steady_emit (e : Event) : P e -> steady j r P (emit e).
Proof.
  intros He w Hj Hr. simpl. repeat split; try assumption.
  exists [e]. split; [reflexivity | now constructor].
Qed.

Lemma steady_log (level : LogLevel) (message : string) :
  P (Log level message) -> steady j r P (log level message).
Proof. apply steady_emit. Qed.

Lemma steady_sleep (ms : Z) : P (Pause ms) -> steady j r P (sleep ms).
Proof. apply steady_emit. Qed.

Lemma steady_request {A : Type} (e : Event) (op : Env -> Result A * Env) :
  P e -> steady j r P (request e op).
Proof.
  intros He w Hj Hr. unfold request. destruct (op (env w)) as [res env']. simpl.
  repeat split; try assumption.
  exists [e]. split; [reflexivity | now constructor].
Qed.

Lemma steady_bind {A B : Type} (c : M A) (k : A -> M B) :
  steady j r P c -> (forall a, steady j r P (k a)) -> steady j r P (bind c k).
Proof.
  intros Hc Hk w Hj Hr. destruct (Hc w Hj Hr) as [Hj1 [Hr1 [evs1 [Hadd1 Hall1]]]].
  unfold bind. destruct (c w) as [[a|e|] w1]; simpl in *.
  - destruct (Hk a w1 Hj1 Hr1) as [Hj2 [Hr2 [evs2 [Hadd2 Hall2]]]].
    repeat split; try assumption.
    exists (evs1 ++ evs2)%list. split.
    + eapply added_trans; eauto.
    + apply Forall_app. now split.
  - repeat split; try assumption. now exists evs1.
  - repeat split; try assumption. now exists evs1.
Qed.

Lemma steady_get_jira {B : Type} (k : JiraFields -> M B) :
  steady j r P (k j) -> steady j r P (bind get_jira k).
Proof.
  intros Hk w Hj Hr. unfold bind, get_jira. rewrite Hj. now apply Hk.
Qed.

Lemma steady_get_repo {B : Type} (k : SyncRepositoryFields -> M B) :
  steady j r P (k r) -> steady j r P (bind get_repo k).
Proof.
  intros Hk w Hj Hr. unfold bind, get_repo. rewrite Hr. now apply Hk.
Qed.

Lemma steady_try_catch {A : Type} (c : M A) (handler : JsError -> M A) :
  steady j r P c -> (forall e, steady j r P (handler e)) -> steady j r P (try_catch c handler).
Proof.
  intros Hc Hh w Hj Hr. destruct (Hc w Hj Hr) as [Hj1 [Hr1 [evs1 [Hadd1 Hall1]]]].
  unfold try_catch. destruct (c w) as [[a|e|] w1]; simpl in *.
  - repeat split; try assumption. now exists evs1.
  - destruct (Hh e w1 Hj1 Hr1) as [Hj2 [Hr2 [evs2 [Hadd2 Hall2]]]].
    repeat split; try assumption.
    exists (evs1 ++ evs2)%list. split.
    + eapply added_trans; eauto.
    + apply Forall_app. now split.
  - repeat split; try assumption. now exists evs1.
Qed.

Lemma steady_if {A : Type} (b : bool) (c1 c2 : M A) :
  steady j r P c1 -> steady j r P c2 -> steady j r P (if b then c1 else c2).
Proof. now destruct b. Qed.

End SteadyFacts.

(** Decomposes a goal [steady j r P c] along the structure of [c]; what is
    left is [P e] for the events [e] of [c]. *)
Ltac steady_step :=
  first
    [ apply steady_ret
    | apply steady_throw
    | apply steady_get_jira
    | apply steady_get_repo
    | apply steady_log
    | apply steady_sleep
    | apply steady_request
    | apply steady_if
    | apply steady_try_catch; [| intros ?]
    | apply steady_bind; [| intros ?]
    | match goal with
      | |- steady _ _ _ (match ?x with _ => _ end) => destruct x
      end ].

Ltac steady_steps := repeat steady_step.

Section UpsertFacts.

Context {rt : JsRuntime} {be : Backend}.

Variable cfg : ProjectConfiguration.

Lemma createOrUpdateIssue_steady j r params :
  steady j r (edits_with (updateFields cfg j params)) (createOrUpdateIssue cfg params).
Proof.
  unfold createOrUpdateIssue, findExistingGithubIssueInJira.
  steady_steps;
    try (intros key fields' Heq; discriminate Heq);
    try (intros key fields' Heq; injection Heq as _ <-; reflexivity).
Qed.

Lemma syncIssue_steady j r issue :
  steady j r (edits_with (updateFields cfg j (issueToCreate cfg r issue)))
         (syncIssue cfg issue).
Proof.
  unfold syncIssue.
  repeat first [ apply createOrUpdateIssue_steady | steady_step ];
    intros key fields' Heq; discriminate Heq.
Qed.

Lemma storyPoints_of_update j r issue fid :
  storyPointsFieldId j = Some fid -> JS.truthy_string fid = true ->
  fields_storyPoints (updateFields cfg j (issueToCreate cfg r issue))
  = Some (fid, match sourceStoryPoints cfg issue with
               | Some v => if Z.eqb v 0 then 1%Z else v
               | None => 1%Z
               end).
Proof.
  intros Hfid Htruthy. unfold updateFields. rewrite Hfid, Htruthy. simpl.
  destruct (sourceStoryPoints cfg issue) as [v|]; simpl; [|reflexivity].
  unfold JS.truthy_number. now destruct (Z.eqb v 0).
Qed.

Lemma emits_added {A : Type} (P : Event -> Prop) (c : M A) w res w' :
  emits P c -> c w = (res, w') -> exists evs, added w w' evs /\ Forall P evs.
Proof. intros Hc Hrun. specialize (Hc w). now rewrite Hrun in Hc. Qed.

Lemma steady_added {A : Type} j r (P : Event -> Prop) (c : M A) w res w' :
  steady j r P c -> jira w = j -> repo w = r -> c w = (res, w') ->
  jira w' = j /\ repo w' = r /\ exists evs, added w w' evs /\ Forall P evs.
Proof. intros Hc Hj Hr Hrun. specialize (Hc w Hj Hr). now rewrite Hrun in Hc. Qed.

Lemma run_only_adds {A : Type} (c : M A) w res w' :
  c w = (res, w') -> steady (jira w) (repo w) (fun _ => True) c ->
  exists evs, added w w' evs.
Proof.
  intros Hrun Hc.
  destruct (steady_added _ _ _ _ _ _ _ Hc eq_refl eq_refl Hrun) as [_ [_ [evs [Hadd _]]]].
  now exists evs.
Qed.

(** A write that completes has sent the update of the issue. *)
Lemma createOrUpdateIssue_edits params w key w' :
  createOrUpdateIssue cfg params w = (Ok key, w') ->
  exists evs, added w w' evs
              /\ In (Jira (EditIssue key (updateFields cfg (jira w) params))) evs.
Proof.
  unfold createOrUpdateIssue. intros Hrun.
  unfold bind at 1 in Hrun. unfold get_jira at 1 in Hrun.
  destruct (negb (JS.truthy_opt_string (storyPointsFieldId (jira w)))); [discriminate|].
  destruct (negb (JS.truthy_opt_string (epicNameFieldId (jira w))) && _)%bool; [discriminate|].
  apply bind_Ok in Hrun. destruct Hrun as [[] [w1 [Hlog Hrun]]].
  apply bind_Ok in Hrun. destruct Hrun as [existingKey [w2 [Hfind Hrun]]].
  apply bind_Ok in Hrun. destruct Hrun as [issueKey [w3 [Hkey Hrun]]].
  apply bind_Ok in Hrun. destruct Hrun as [[] [w4 [Hlink Hrun]]].
  apply bind_Ok in Hrun. destruct Hrun as [[] [w5 [Hedit Hrun]]].
  apply bind_Ok in Hrun. destruct Hrun as [currentStatus [w6 [Hget Hrun]]].
  apply bind_Ok in Hrun. destruct Hrun as [[] [w7 [Hstatus Hrun]]].
  apply bind_Ok in Hrun. destruct Hrun as [[] [w8 [Hmove Hrun]]].
  unfold ret in Hrun. injection Hrun as <- <-.
  assert (exists evs1, added w w1 evs1) as [evs1 Hadd1].
  { eapply run_only_adds; [exact Hlog|]. steady_steps; exact I. }
  assert (exists evs2, added w1 w2 evs2) as [evs2 Hadd2].
  { eapply run_only_adds; [exact Hfind|].
    unfold findExistingGithubIssueInJira. steady_steps; exact I. }
  assert (exists evs3, added w2 w3 evs3) as [evs3 Hadd3].
  { eapply run_only_adds; [exact Hkey|]. steady_steps; exact I. }
  assert (exists evs4, added w3 w4 evs4) as [evs4 Hadd4].
  { eapply run_only_adds; [exact Hlink|]. steady_steps; exact I. }
  assert (Hadd5 : added w4 w5 [Jira (EditIssue issueKey (updateFields cfg (jira w) params))]).
  { unfold request in Hedit. destruct (issues_editIssue _ _ _). now injection Hedit as _ <-. }
  assert (exists evs6, added w5 w6 evs6) as [evs6 Hadd6].
  { eapply run_only_adds; [exact Hget|]. steady_steps; exact I. }
  assert (exists evs7, added w6 w7 evs7) as [evs7 Hadd7].
  { eapply run_only_adds; [exact Hstatus|]. steady_steps; exact I. }
  assert (exists evs8, added w7 w8 evs8) as [evs8 Hadd8].
  { eapply run_only_adds; [exact Hmove|]. steady_steps; exact I. }
  eexists. split.
  - eapply added_trans; [exact Hadd1|].
    eapply added_trans; [exact Hadd2|].
    eapply added_trans; [exact Hadd3|].
    eapply added_trans; [exact Hadd4|].
    eapply added_trans; [exact Hadd5|].
    eapply added_trans; [exact Hadd6|].
    eapply added_trans; [exact Hadd7|]. exact Hadd8.
  - apply in_or_app. right. apply in_or_app. right. apply in_or_app. right.
    apply in_or_app. right. apply in_or_app. left. now left.
Qed.

End UpsertFacts.

(** C9 - Story points.  While a record is processed by an initialised
    client (the story-points custom field is [fid]), every update of the
    destination issue carries, in that field, 1 when the source value is 0
    or absent and the source value itself when it is not 0; and every write
    that completes has sent such an update. *)
Theorem zero_or_absent_story_points_become_one {rt : JsRuntime} {be : Backend}
    (cfg : ProjectConfiguration) (issue : GraphQLSearchIssuesNode) (w : World)
    (fid : string) :
  storyPointsFieldId (jira w) = Some fid ->
  JS.truthy_string fid = true ->
  let carries (fields : IssueEditFields) :=
    (sourceStoryPoints cfg issue = Some 0%Z \/ sourceStoryPoints cfg issue = None ->
     fields_storyPoints fields = Some (fid, 1%Z))
    /\ (forall v, sourceStoryPoints cfg issue = Some v -> v <> 0%Z ->
                  fields_storyPoints fields = Some (fid, v)) in
  (exists evs,
      added w (snd (syncIssue cfg issue w)) evs
      /\ forall key fields, In (Jira (EditIssue key fields)) evs -> carries fields)
  /\ (forall w0 key w',
         jira w0 = jira w ->
         createOrUpdateIssue cfg (issueToCreate cfg (repo w) issue) w0 = (Ok key, w') ->
         exists evs fields,
           added w0 w' evs /\ In (Jira (EditIssue key fields)) evs /\ carries fields).
Proof.
  intros Hfid Htruthy carries.
  assert (Hcarries : carries (updateFields cfg (jira w) (issueToCreate cfg (repo w) issue))).
  { unfold carries. rewrite (storyPoints_of_update cfg _ _ _ _ Hfid Htruthy). split.
    - intros [-> | ->]; reflexivity.
    - intros v -> Hv. destruct (Z.eqb_spec v 0); [contradiction | reflexivity]. }
  split.
  - destruct (syncIssue_steady cfg (jira w) (repo w) issue w eq_refl eq_refl)
      as [_ [_ [evs [Hadd Hall]]]].
    exists evs. split; [exact Hadd|].
    intros key fields Hin. rewrite List.Forall_forall in Hall.
    now rewrite (Hall _ Hin key fields eq_refl).
  - intros w0 key w' Hj Hrun.
    destruct (createOrUpdateIssue_edits cfg _ _ _ _ Hrun) as [evs [Hadd Hin]].
    exists evs, (updateFields cfg (jira w) (issueToCreate cfg (repo w) issue)).
    rewrite Hj in Hin. split; [exact Hadd | split; [exact Hin | exact Hcarries]].
Qed.

(** Issue 5 of the fixture has 0 story points on the configured board: the
    update sent to Jira sets the story-points field to 1. *)
Lemma zero_or_absent_story_points_become_one_witness :
  exists fields,
    In (Jira (EditIssue "KEY-1" fields))
       (trace (snd (syncIssue (rt:=Fixture.runtime) (be:=Fixture.tracker)
                      (Fixture.config "P" 10) Fixture.issue5
                      (Fixture.ready_world (Fixture.healthy [])))))
    /\ sourceStoryPoints (Fixture.config "P" 10) Fixture.issue5 = Some 0%Z
    /\ fields_storyPoints fields = Some ("customfield_1", 1%Z).
Proof.
  destruct (zero_or_absent_story_points_become_one (rt:=Fixture.runtime) (be:=Fixture.tracker)
              (Fixture.config "P" 10) Fixture.issue5
              (Fixture.ready_world (Fixture.healthy [])) "customfield_1" eq_refl eq_refl)
    as [[evs [Hadd Hall]] _].
  unfold added in Hadd. simpl in Hadd.
  eexists. split; [|split; [reflexivity|]].
  - vm_compute. do 5 right. left. reflexivity.
  - match goal with
    | |- fields_storyPoints ?f = _ =>
        assert (Hin : In (Jira (EditIssue "KEY-1" f)) evs)
    end.
    { rewrite <- Hadd. vm_compute. do 5 right. left. reflexivity. }
    destruct (Hall _ _ Hin) as [Hzero _]. apply Hzero. left. reflexivity.
Defined.

(** ** Entity Reconciler: sprints *)

Ltac emits_step :=
  first
    [ apply emits_ret
    | apply emits_throw
    | apply emits_out_of_fuel
    | apply emits_lift
    | apply emits_get_jira
    | apply emits_set_jira
    | apply emits_get_repo
    | apply emits_set_repo
    | apply emits_log
    | apply emits_sleep
    | apply emits_request
    | apply emits_if
    | apply emits_detached
    | apply emits_try_catch; [| intros ?]
    | apply emits_bind; [| intros ?]
    | match goal with
      | |- emits _ (match ?x with _ => _ end) => destruct x
      end ].

Section JSArrayFacts.

Context {A : Type}.

Lemma filter_index_from_In (p : A -> Z -> bool) (l : list A) (i : Z) (x : A) :
  In x (JS.filter_index_from p l i) ->
  exists k, nth_error l k = Some x /\ p x (i + Z.of_nat k)%Z = true.
Proof.
  revert i. induction l as [|y l IH]; intros i Hin; simpl in Hin; [contradiction|].
  destruct (p y i) eqn:Hp.
  - destruct Hin as [<- | Hin].
    + exists 0. split; [reflexivity|]. now rewrite Z.add_0_r.
    + destruct (IH _ Hin) as [k [Hk Hpk]]. exists (S k). split; [exact Hk|].
      now replace (i + Z.of_nat (S k))%Z with (i + 1 + Z.of_nat k)%Z by lia.
  - destruct (IH _ Hin) as [k [Hk Hpk]]. exists (S k). split; [exact Hk|].
    now replace (i + Z.of_nat (S k))%Z with (i + 1 + Z.of_nat k)%Z by lia.
Qed.

(** Two elements kept by [filter((x, index) => findIndex(same key) === index)]
    that have the same key are the same element. *)
Lemma first_occurrences_unique (key : A -> string) (l : list A) (x y : A) :
  let keep := fun (m : A) (index : Z) =>
                Z.eqb (JS.findIndex (fun m2 => String.eqb (key m2) (key m)) l) index in
  In x (JS.filter_index keep l) -> In y (JS.filter_index keep l) ->
  key x = key y -> x = y.
Proof.
  intros keep Hx Hy Hkey.
  destruct (filter_index_from_In _ _ _ _ Hx) as [kx [Hnx Hpx]].
  destruct (filter_index_from_In _ _ _ _ Hy) as [ky [Hny Hpy]].
  unfold keep in Hpx, Hpy. rewrite Hkey in Hpx.
  apply Z.eqb_eq in Hpx, Hpy. rewrite Hpx in Hpy.
  assert (kx = ky) by lia. subst ky. congruence.
Qed.

Lemma filter_index_from_subset (p : A -> Z -> bool) (l : list A) (i : Z) (x : A) :
  In x (JS.filter_index_from p l i) -> In x l.
Proof.
  intros Hin. destruct (filter_index_from_In _ _ _ _ Hin) as [k [Hk _]].
  eapply nth_error_In; eauto.
Qed.

End JSArrayFacts.

Section SprintFacts.

Context {rt : JsRuntime} {be : Backend}.

Variable cfg : ProjectConfiguration.

Lemma githubSprints_unique issues s1 s2 :
  In s1 (githubSprintsWithoutDuplicates cfg issues) ->
  In s2 (githubSprintsWithoutDuplicates cfg issues) ->
  sprint_title s1 = sprint_title s2 -> s1 = s2.
Proof. apply (first_occurrences_unique sprint_title). Qed.

Lemma fromGithubSprintToJiraSprint_name s g :
  fromGithubSprintToJiraSprint s = Ok g -> newsprint_name g = sprint_title s.
Proof.
  unfold fromGithubSprintToJiraSprint.
  destruct (dateToISO (sprint_startDate s)); intros Heq; try discriminate.
  now injection Heq as <-.
Qed.

Lemma emits_bind_lift {A B : Type} (P : Event -> Prop) (res : Result A) (k : A -> M B) :
  (forall a, res = Ok a -> emits P (k a)) -> emits P (bind (lift res) k).
Proof.
  intros Hk w. unfold bind, lift. destruct res as [a|e|].
  - now apply Hk.
  - exists []. split; [apply added_nil | constructor].
  - exists []. split; [apply added_nil | constructor].
Qed.

Lemma doGetAllSprintsLoop_emits (P : Event -> Prop) fuel boardId allSprints startAt :
  (forall a b c, P (Jira (GetAllSprints a b c))) ->
  emits P (doGetAllSprintsLoop fuel boardId allSprints startAt).
Proof.
  intros HP. revert allSprints startAt.
  induction fuel as [|fuel IH]; intros allSprints startAt; simpl.
  - apply emits_out_of_fuel.
  - apply emits_bind; [apply emits_request, HP | intros response].
    destruct (negb (page_isLast response)); [apply IH | apply emits_ret].
Qed.

Lemma getSprints_emits (P : Event -> Prop) fuel :
  (forall k, P (Jira (GetAllBoards k))) ->
  (forall a b c, P (Jira (GetAllSprints a b c))) ->
  emits P (getSprints cfg fuel).
Proof.
  intros Hboards Hsprints. unfold getSprints, doGetAllSprintsByBoardId.
  repeat first [ apply doGetAllSprintsLoop_emits; exact Hsprints | emits_step ].
  apply Hboards.
Qed.

(** The creation loop only creates sprints named after the sprints it is
    given. *)
Lemma createSprints_emits (P : Event -> Prop) (l : list GraphQLSearchIssuesNodeSprint) :
  (forall s p, In s l -> csp_name p = sprint_title s -> P (Jira (CreateSprintCall p))) ->
  emits P (createSprints l).
Proof.
  induction l as [|s l IH]; intros HP; simpl.
  - apply emits_ret.
  - apply emits_bind_lift. intros g Hg.
    apply emits_bind; [| intros _; apply IH; intros s' p Hin; apply HP; now right].
    unfold createSprint. repeat emits_step.
    apply (HP s); [now left|]. simpl. now apply fromGithubSprintToJiraSprint_name.
Qed.

Lemma updateSprints_emits (P : Event -> Prop) jiraSprints
      (l : list GraphQLSearchIssuesNodeSprint) :
  (forall u, P (Jira (UpdateSprintCall u))) ->
  emits P (updateSprints jiraSprints l).
Proof.
  intros HP. induction l as [|s l IH]; simpl.
  - apply emits_ret.
  - destruct (findJiraSprint jiraSprints (sprint_title s)); [|exact IH].
    apply emits_bind; [apply emits_lift | intros g].
    apply emits_bind; [| intros _; exact IH].
    unfold updateSprint. repeat emits_step. apply HP.
Qed.

(** What an update loop that completes has sent: an update for every
    sprint that has a Jira sprint of its name and differs from it, and
    nothing else. *)
Lemma updateSprints_Ok jiraSprints (l : list GraphQLSearchIssuesNodeSprint) w w' :
  updateSprints jiraSprints l w = (Ok tt, w') ->
  exists evs,
    added w w' evs
    /\ (forall s j, In s l -> findJiraSprint jiraSprints (sprint_title s) = Some j ->
          exists g, fromGithubSprintToJiraSprint s = Ok g
                    /\ (sprint_differs j g = true ->
                        In (Jira (UpdateSprintCall (updatedSprint j g))) evs))
    /\ (forall e, In e evs ->
          exists s j g, In s l /\ findJiraSprint jiraSprints (sprint_title s) = Some j
                        /\ fromGithubSprintToJiraSprint s = Ok g
                        /\ sprint_differs j g = true
                        /\ e = Jira (UpdateSprintCall (updatedSprint j g))).
Proof.
  revert w. induction l as [|s l IH]; intros w Hrun; simpl in Hrun.
  - unfold ret in Hrun. injection Hrun as <-. exists []. split; [apply added_nil|].
    split; [intros s j [] | intros e []].
  - destruct (findJiraSprint jiraSprints (sprint_title s)) as [j|] eqn:Hfind.
    + apply bind_Ok in Hrun. destruct Hrun as [g [w1 [Hconv Hrun]]].
      unfold lift in Hconv. injection Hconv as Hconv <-.
      apply bind_Ok in Hrun. destruct Hrun as [[] [w2 [Hupd Hrun]]].
      destruct (IH _ Hrun) as [evs [Hadd [Hsent Honly]]].
      destruct (sprint_differs j g) eqn:Hdiff.
      * exists (Jira (UpdateSprintCall (updatedSprint j g)) :: evs). split; [|split].
        -- unfold updateSprint, request in Hupd. destruct (sprint_updateSprint _ _).
           injection Hupd as _ <-. unfold added in *. simpl in *. rewrite Hadd.
           now rewrite <- app_assoc.
        -- intros s' j' [<- | Hin] Hfind'.
           ++ rewrite Hfind in Hfind'. injection Hfind' as <-.
              exists g. split; [exact Hconv | intros _; now left].
           ++ destruct (Hsent s' j' Hin Hfind') as [g' [Hconv' Hin']].
              exists g'. split; [exact Hconv' | intros Hd; right; now apply Hin'].
        -- intros e [<- | Hin].
           ++ exists s, j, g. repeat split; try assumption. now left.
           ++ destruct (Honly e Hin) as [s' [j' [g' [Hin' Hrest]]]].
              exists s', j', g'. split; [now right | exact Hrest].
      * exists evs. unfold ret in Hupd. injection Hupd as <-. split; [exact Hadd|split].
        -- intros s' j' [<- | Hin] Hfind'.
           ++ rewrite Hfind in Hfind'. injection Hfind' as <-.
              exists g. split; [exact Hconv | intros Hd; congruence].
           ++ now apply Hsent.
        -- intros e Hin. destruct (Honly e Hin) as [s' [j' [g' [Hin' Hrest]]]].
           exists s', j', g'. split; [now right | exact Hrest].
    + destruct (IH _ Hrun) as [evs [Hadd [Hsent Honly]]].
      exists evs. split; [exact Hadd|split].
      * intros s' j' [<- | Hin] Hfind'; [congruence | now apply Hsent].
      * intros e Hin. destruct (Honly e Hin) as [s' [j' [g' [Hin' Hrest]]]].
        exists s', j', g'. split; [now right | exact Hrest].
Qed.

End SprintFacts.

Section SprintComparison.

Context {rt : JsRuntime} {be : Backend}.

Variable cfg : ProjectConfiguration.

Lemma fromGithubSprintToJiraSprint_Ok s start :
  Date_toISOString (sprint_startDate s) = Some start ->
  fromGithubSprintToJiraSprint s
  = Ok {| newsprint_name := sprint_title s;
          newsprint_startDate := start;
          newsprint_endDate := moment_add_days start (sprint_duration s) |}.
Proof. intros Hstart. unfold fromGithubSprintToJiraSprint, dateToISO. now rewrite Hstart. Qed.

Lemma fromGithubSprintToJiraSprint_throws s :
  Date_toISOString (sprint_startDate s) = None ->
  fromGithubSprintToJiraSprint s = Throw (RangeError "Invalid time value").
Proof. intros Hstart. unfold fromGithubSprintToJiraSprint, dateToISO. now rewrite Hstart. Qed.

(** The update loop only sends updates that carry the name of a sprint it
    was given and could convert. *)
Lemma updateSprints_emits_named (P : Event -> Prop) jiraSprints
      (l : list GraphQLSearchIssuesNodeSprint) :
  (forall s j g, In s l -> fromGithubSprintToJiraSprint s = Ok g ->
                 P (Jira (UpdateSprintCall (updatedSprint j g)))) ->
  emits P (updateSprints jiraSprints l).
Proof.
  induction l as [|s l IH]; intros HP; simpl.
  - apply emits_ret.
  - assert (Hrest : emits P (updateSprints jiraSprints l)).
    { apply IH. intros s' j g Hin. apply HP. now right. }
    destruct (findJiraSprint jiraSprints (sprint_title s)) as [j|]; [|exact Hrest].
    apply emits_bind_lift. intros g Hg.
    apply emits_bind; [| intros _; exact Hrest].
    unfold updateSprint. repeat emits_step. apply (HP s); [now left | exact Hg].
Qed.

(** The update loop stops at the first sprint that Jira has under its name
    and whose start date is not a date. *)
Lemma updateSprints_stops jiraSprints (before : list GraphQLSearchIssuesNodeSprint) :
  forall s after j w w',
    findJiraSprint jiraSprints (sprint_title s) = Some j ->
    Date_toISOString (sprint_startDate s) = None ->
    updateSprints jiraSprints before w = (Ok tt, w') ->
    updateSprints jiraSprints (before ++ s :: after) w
    = (Throw (RangeError "Invalid time value"), w').
Proof.
  induction before as [|b before IH]; intros s after j w w' Hfind Hdate Hbefore; simpl.
  - simpl in Hbefore. unfold ret in Hbefore. injection Hbefore as <-.
    rewrite Hfind. unfold bind, lift. now rewrite fromGithubSprintToJiraSprint_throws.
  - simpl in Hbefore.
    destruct (findJiraSprint jiraSprints (sprint_title b)) as [jb|]; [|now apply (IH _ _ j)].
    unfold bind at 1 in Hbefore. unfold bind at 1.
    destruct (lift (fromGithubSprintToJiraSprint b) w) as [[g|err|] w0]; try discriminate.
    unfold bind at 1 in Hbefore. unfold bind at 1.
    destruct ((if sprint_differs jb g then updateSprint (updatedSprint jb g) else ret tt) w0)
      as [[[]|err|] w1]; try discriminate.
    now apply (IH _ _ j).
Qed.

End SprintComparison.

(** C10 - Sprints without a start date or with duration 0.  Let [s] be one
    of the deduplicated source sprints, with an empty start date or a
    duration of 0.  No run of the sprint reconciliation, complete or not,
    sends a creation for a sprint of its name.  When its start date is a
    date, as for a sprint of duration 0, a run that completes has compared
    [s] with the destination sprint of its name, if the first listing has
    one: the update of that destination sprint was sent exactly when the
    name or one of the two days differ.  When its start date is not a
    date, as the empty string in JavaScript, and the first listing has a
    destination sprint of its name, [s] is not compared: the conversion
    throws, so the reconciliation never completes and sends no update
    under the name of [s]; when the creations and the updates of the
    sprints before [s] went through, it ends there with the [RangeError]
    of [toISOString], without the second listing. *)
Theorem dateless_sprint_aborts_the_reconciliation {rt : JsRuntime} {be : Backend}
    (cfg : ProjectConfiguration) (fuel : nat) (issues : list GraphQLSearchIssuesNode)
    (s : GraphQLSearchIssuesNodeSprint) :
  In s (githubSprintsWithoutDuplicates cfg issues) ->
  sprint_startDate s = "" \/ sprint_duration s = 0%Z ->
  (forall w, exists evs,
        added w (snd (syncSprints cfg fuel issues w)) evs
        /\ forall p, In (Jira (CreateSprintCall p)) evs -> csp_name p <> sprint_title s)
  /\ (forall start w w',
         Date_toISOString (sprint_startDate s) = Some start ->
         syncSprints cfg fuel issues w = (Ok tt, w') ->
         exists jiraSprints w1 evs,
           getSprints cfg fuel w = (Ok jiraSprints, w1)
           /\ added w w' evs
           /\ forall j,
               findJiraSprint jiraSprints (sprint_title s) = Some j ->
               let g := {| newsprint_name := sprint_title s;
                           newsprint_startDate := start;
                           newsprint_endDate := moment_add_days start (sprint_duration s) |} in
               sprint_differs j g = true
               <-> In (Jira (UpdateSprintCall (updatedSprint j g))) evs)
  /\ (forall w jiraSprints w1 j,
         Date_toISOString (sprint_startDate s) = None ->
         getSprints cfg fuel w = (Ok jiraSprints, w1) ->
         findJiraSprint jiraSprints (sprint_title s) = Some j ->
         (forall w', syncSprints cfg fuel issues w <> (Ok tt, w'))
         /\ (exists evs,
               added w (snd (syncSprints cfg fuel issues w)) evs
               /\ forall u, In (Jira (UpdateSprintCall u)) evs ->
                            updsprint_name u <> sprint_title s)
         /\ forall before after w2 w3,
              githubSprintsWithoutDuplicates cfg issues = (before ++ s :: after)%list ->
              createSprints (sprintsToCreateInJira cfg jiraSprints issues) w1 = (Ok tt, w2) ->
              updateSprints jiraSprints before w2 = (Ok tt, w3) ->
              syncSprints cfg fuel issues w = (Throw (RangeError "Invalid time value"), w3)).
Proof.
  intros Hs Hfalsy. split; [|split].
  - intros w.
    assert (Hemits : emits (fun e => forall p, e = Jira (CreateSprintCall p) ->
                                               csp_name p <> sprint_title s)
                           (syncSprints cfg fuel issues)).
    { unfold syncSprints.
      apply emits_bind; [apply getSprints_emits; intros; discriminate | intros jiraSprints].
      apply emits_bind.
      { apply createSprints_emits. intros s' p Hin Hname p' Heq Hsame.
        injection Heq as <-. unfold sprintsToCreateInJira in Hin.
        apply filter_In in Hin. destruct Hin as [Hin Htruthy].
        apply filter_In in Hin. destruct Hin as [Hin _].
        assert (s' = s) by (apply (githubSprints_unique cfg issues); congruence).
        subst s'. apply andb_prop in Htruthy. destruct Htruthy as [Hstart Hduration].
        destruct Hfalsy as [Hempty | Hzero].
        - rewrite Hempty in Hstart. discriminate.
        - rewrite Hzero in Hduration. discriminate. }
      intros _.
      apply emits_bind; [apply updateSprints_emits; intros; discriminate | intros _].
      apply emits_bind; [apply getSprints_emits; intros; discriminate | intros after].
      repeat emits_step. }
    destruct (Hemits w) as [evs [Hadd Hall]]. exists evs. split; [exact Hadd|].
    intros p Hin. rewrite List.Forall_forall in Hall. now apply (Hall _ Hin p).
  - intros start w w' Hstart Hrun. unfold syncSprints in Hrun.
    apply bind_Ok in Hrun. destruct Hrun as [jiraSprints [w1 [Hget Hrun]]].
    apply bind_Ok in Hrun. destruct Hrun as [[] [w2 [Hcreate Hrun]]].
    apply bind_Ok in Hrun. destruct Hrun as [[] [w3 [Hupdate Hrun]]].
    apply bind_Ok in Hrun. destruct Hrun as [after [w4 [Hget' Hrun]]].
    unfold bind, get_repo, set_repo in Hrun. injection Hrun as <-.
    pose (quiet := fun e : Event => forall u, e <> Jira (UpdateSprintCall u)).
    destruct (emits_added quiet _ _ _ _
                (getSprints_emits cfg quiet fuel ltac:(intros; discriminate)
                                  ltac:(intros; discriminate)) Hget)
      as [evs1 [Hadd1 Hquiet1]].
    destruct (emits_added quiet _ _ _ _
                (createSprints_emits quiet _ ltac:(intros; discriminate)) Hcreate)
      as [evs2 [Hadd2 Hquiet2]].
    destruct (updateSprints_Ok _ _ _ _ Hupdate) as [evs3 [Hadd3 [Hsent Honly]]].
    destruct (emits_added quiet _ _ _ _
                (getSprints_emits cfg quiet fuel ltac:(intros; discriminate)
                                  ltac:(intros; discriminate)) Hget')
      as [evs4 [Hadd4 Hquiet4]].
    exists jiraSprints, w1, (evs1 ++ evs2 ++ evs3 ++ evs4)%list.
    split; [exact Hget|]. split.
    { unfold added in *. simpl. rewrite Hadd4, Hadd3, Hadd2, Hadd1.
      now rewrite <- !app_assoc. }
    intros j Hfind g. destruct (Hsent s j Hs Hfind) as [g' [Hconv Hin]].
    rewrite (fromGithubSprintToJiraSprint_Ok _ _ Hstart) in Hconv.
    injection Hconv as Hg. fold g in Hg. subst g'. split.
    + intros Hdiff. apply in_or_app. right. apply in_or_app. right.
      apply in_or_app. left. now apply Hin.
    + intros Hin'. rewrite List.Forall_forall in Hquiet1, Hquiet2, Hquiet4.
      apply in_app_or in Hin'. destruct Hin' as [Hin' | Hin'];
        [exfalso; now apply (Hquiet1 _ Hin' (updatedSprint j g))|].
      apply in_app_or in Hin'. destruct Hin' as [Hin' | Hin'];
        [exfalso; now apply (Hquiet2 _ Hin' (updatedSprint j g))|].
      apply in_app_or in Hin'. destruct Hin' as [Hin' | Hin'];
        [|exfalso; now apply (Hquiet4 _ Hin' (updatedSprint j g))].
      destruct (Honly _ Hin') as [s' [j' [g' [Hs' [Hfind' [Hconv' [Hdiff' Heq]]]]]]].
      injection Heq as Hj Hid Hname Hstart' Hend.
      assert (s' = s).
      { apply (githubSprints_unique cfg issues); try assumption.
        rewrite <- (fromGithubSprintToJiraSprint_name _ _ Hconv'). now rewrite <- Hname. }
      subst s'. rewrite (fromGithubSprintToJiraSprint_Ok _ _ Hstart) in Hconv'.
      injection Hconv' as Hg'. fold g in Hg'. congruence.
  - intros w jiraSprints w1 j Hdate Hget Hfind. split; [|split].
    + intros w' Hrun. unfold syncSprints in Hrun.
      apply bind_Ok in Hrun. destruct Hrun as [jiraSprints' [w1' [Hget' Hrun]]].
      rewrite Hget in Hget'. injection Hget' as <- <-.
      apply bind_Ok in Hrun. destruct Hrun as [[] [w2 [_ Hrun]]].
      apply bind_Ok in Hrun. destruct Hrun as [[] [w3 [Hupdate _]]].
      destruct (updateSprints_Ok _ _ _ _ Hupdate) as [evs [_ [Hsent _]]].
      destruct (Hsent s j Hs Hfind) as [g [Hconv _]].
      rewrite (fromGithubSprintToJiraSprint_throws _ Hdate) in Hconv. discriminate.
    + assert (Hemits : emits (fun e => forall u, e = Jira (UpdateSprintCall u) ->
                                                 updsprint_name u <> sprint_title s)
                             (syncSprints cfg fuel issues)).
      { unfold syncSprints.
        apply emits_bind; [apply getSprints_emits; intros; discriminate | intros listed].
        apply emits_bind; [apply createSprints_emits; intros; discriminate | intros _].
        apply emits_bind.
        { apply updateSprints_emits_named. intros s' j' g Hin Hconv u Heq Hsame.
          injection Heq as <-. simpl in Hsame.
          rewrite (fromGithubSprintToJiraSprint_name _ _ Hconv) in Hsame.
          assert (s' = s) by (apply (githubSprints_unique cfg issues); assumption).
          subst s'. rewrite (fromGithubSprintToJiraSprint_throws _ Hdate) in Hconv.
          discriminate. }
        intros _.
        apply emits_bind; [apply getSprints_emits; intros; discriminate | intros after].
        repeat emits_step. }
      destruct (Hemits w) as [evs [Hadd Hall]]. exists evs. split; [exact Hadd|].
      intros u Hin. rewrite List.Forall_forall in Hall. now apply (Hall _ Hin u).
    + intros before after w2 w3 Hsplit Hcreate Hupdate.
      unfold syncSprints. unfold bind at 1. rewrite Hget.
      unfold bind at 1. rewrite Hcreate.
      unfold bind at 1. rewrite Hsplit.
      now rewrite (updateSprints_stops jiraSprints before s after j w2 w3 Hfind Hdate Hupdate).
Qed.

(** The fixture: sprint [S1] has duration 0 and sprint [S2] has no start
    date, which is not a date for the [Date] of the fixture, as in
    JavaScript.  On a board that has a sprint [S1] starting a day later,
    no sprint named [S1] is created and the update of the Jira sprint [S1]
    is sent.  On a board that has a sprint [S2] as well, the
    reconciliation sends the update of [S1] and ends with the
    [RangeError]: [S2] is not compared. *)
Lemma dateless_sprint_aborts_the_reconciliation_witness :
  let cfg := Fixture.config "P" 10 in
  let issues := [Fixture.issue5; Fixture.issue6] in
  let update_S1 :=
    Jira (UpdateSprintCall
            (updatedSprint Fixture.jira_S1
               {| newsprint_name := "S1"; newsprint_startDate := "2024-02-01";
                  newsprint_endDate := "2024-02-01" |})) in
  let run := syncSprints (rt:=Fixture.runtime) (be:=Fixture.tracker) cfg 3 issues
               (Fixture.ready_world Fixture.with_sprint) in
  let aborted := syncSprints (rt:=Fixture.runtime) (be:=Fixture.tracker) cfg 3 issues
                   (Fixture.ready_world Fixture.with_two_sprints) in
  ((forall p, In (Jira (CreateSprintCall p)) (trace (snd run)) -> csp_name p <> "S1")
   /\ In update_S1 (trace (snd run)))
  /\ fst aborted = Throw (RangeError "Invalid time value")
  /\ trace (snd aborted)
     = [ Jira (GetAllBoards "KEY"); Jira (GetAllSprints 7 0 50); update_S1 ].
Proof.
  intros cfg issues update_S1 run aborted. split.
  - destruct (dateless_sprint_aborts_the_reconciliation
                (rt:=Fixture.runtime) (be:=Fixture.tracker) cfg 3 issues Fixture.sprint_S1)
      as [Hnever [Hcompared _]].
    + vm_compute. left. reflexivity.
    + right. reflexivity.
    + split.
      * destruct (Hnever (Fixture.ready_world Fixture.with_sprint)) as [evs [Hadd Hno]].
        assert (Hevs : evs = trace (snd run)) by (symmetry; exact Hadd).
        rewrite <- Hevs. exact Hno.
      * destruct (Hcompared "2024-02-01" (Fixture.ready_world Fixture.with_sprint) (snd run)
                    eq_refl)
          as [jiraSprints [w1 [evs [Hget [Hadd Hcmp]]]]].
        { vm_compute. reflexivity. }
        vm_compute in Hget. injection Hget as <- _.
        assert (Hevs : evs = trace (snd run)) by (symmetry; exact Hadd).
        rewrite <- Hevs. apply (Hcmp Fixture.jira_S1 eq_refl). reflexivity.
  - destruct (dateless_sprint_aborts_the_reconciliation
                (rt:=Fixture.runtime) (be:=Fixture.tracker) cfg 3 issues Fixture.sprint_S2)
      as [_ [_ Haborted]].
    + vm_compute. right. left. reflexivity.
    + left. reflexivity.
    + destruct (Haborted (Fixture.ready_world Fixture.with_two_sprints)
                  [Fixture.jira_S1; Fixture.jira_S2]
                  (snd (getSprints (be:=Fixture.tracker) cfg 3
                          (Fixture.ready_world Fixture.with_two_sprints)))
                  Fixture.jira_S2 eq_refl)
        as [_ [_ Hthrows]].
      { vm_compute. reflexivity. }
      { reflexivity. }
      unfold aborted.
      rewrite (Hthrows [Fixture.sprint_S1] []
                 (snd (getSprints (be:=Fixture.tracker) cfg 3
                         (Fixture.ready_world Fixture.with_two_sprints)))
                 (snd (updateSprints (rt:=Fixture.runtime) (be:=Fixture.tracker)
                         [Fixture.jira_S1; Fixture.jira_S2] [Fixture.sprint_S1]
                         (snd (getSprints (be:=Fixture.tracker) cfg 3
                                 (Fixture.ready_world Fixture.with_two_sprints)))))).
      * split; [reflexivity|]. vm_compute. reflexivity.
      * vm_compute. reflexivity.
      * vm_compute. reflexivity.
      * vm_compute. reflexivity.
Defined.

(** ** Call Governor *)

Section GovernorFacts.

Import ThrottleQueue.

Variable Fn : Type.
Variable T : Type.

Lemma take_nth_Permutation {A : Type} (i : nat) (l : list A) (x : A) (rest : list A) :
  take_nth i l = Some (x, rest) -> Permutation l (x :: rest).
Proof.
  revert i x rest. induction l as [|y l IH]; intros i x rest Htake; simpl in Htake.
  - destruct i; discriminate.
  - destruct i as [|i]; simpl in Htake.
    + injection Htake as <- <-. reflexivity.
    + destruct (take_nth i l) as [[z rest']|] eqn:Hrec; [|discriminate].
      injection Htake as <- <-. rewrite (IH _ _ _ Hrec). apply perm_swap.
Qed.

Lemma take_nth_singleton {A : Type} (i : nat) (a x : A) (rest : list A) :
  take_nth i [a] = Some (x, rest) -> x = a /\ rest = [].
Proof.
  destruct i as [|i]; simpl; intros Htake.
  - now injection Htake as <- <-.
  - destruct i; discriminate.
Qed.

Lemma resume_delivery (c : Closure Fn) (o : Settlement T) :
  resume c o = delivery (c, o).
Proof. now destruct o. Qed.

Lemma invariant_new (interval now : Z) : invariant (new_ThrottleQueue Fn T interval now).
Proof.
  constructor; simpl.
  - reflexivity.
  - constructor.
  - constructor.
  - constructor.
  - constructor.
  - left. now repeat split.
Qed.

Lemma invariant_processQueue (s : State Fn T) :
  enqueued s = (dispatched s ++ queue s)%list ->
  Forall (fun c => closure_promise c < nextPromise s) (enqueued s) ->
  List.NoDup (map closure_promise (enqueued s)) ->
  Permutation (map closure_promise (dispatched s))
              (map closure_promise (running s) ++ map fst (outcomes s)) ->
  Permutation (outcomes s) (map delivery (awaited s) ++ callers s) ->
  timers s = [] ->
  invariant (processQueue s).
Proof.
  intros Hfifo Hfresh Hnodup Hflow Hout Htimers. unfold processQueue.
  destruct (queue s) as [|next rest] eqn:Hqueue; constructor; simpl;
    try rewrite Hqueue; try assumption.
  - left. now repeat split.
  - right. rewrite Htimers. repeat split; [eexists; reflexivity | discriminate].
Qed.

Lemma invariant_step (s s' : State Fn T) (e : Step Fn T) :
  invariant s -> step s e = Some s' -> invariant s'.
Proof.
  intros [Hfifo Hfresh Hnodup Hflow Hout Htimer] Hstep.
  destruct e as [fn | ms | i | i o | i]; simpl in Hstep.
  - (* throttle(fn) *)
    injection Hstep as <-. unfold throttle. simpl.
    set (closure := {| closure_fn := fn; closure_promise := nextPromise s |}).
    assert (Hfifo' : (enqueued s ++ [closure] = dispatched s ++ queue s ++ [closure])%list)
      by (rewrite Hfifo; now rewrite <- app_assoc).
    assert (Hfresh' : Forall (fun c => closure_promise c < S (nextPromise s))
                             (enqueued s ++ [closure])).
    { apply Forall_app. split.
      - eapply List.Forall_impl; [|exact Hfresh]. simpl. intros c Hc. lia.
      - constructor; [simpl; lia | constructor]. }
    assert (Hnodup' : List.NoDup (map closure_promise (enqueued s ++ [closure]))).
    { rewrite map_app. simpl. apply List.NoDup_app; [exact Hnodup | | ].
      - constructor; [intros [] | constructor].
      - intros p Hin [<- | []]. rewrite List.Forall_forall in Hfresh.
        apply in_map_iff in Hin. destruct Hin as [c [Hc Hin]].
        specialize (Hfresh c Hin). simpl in Hfresh. lia. }
    destruct Htimer as [[Hidle [Hnone Hempty]] | [Hbusy [Hone Hsome]]].
    + rewrite Hidle. simpl. apply invariant_processQueue; simpl; assumption.
    + rewrite Hbusy. simpl. constructor; simpl; try assumption.
      right. repeat split; try assumption. now destruct (queue s).
  - (* time passes *)
    destruct (ms <? 0)%Z; [discriminate|]. injection Hstep as <-.
    constructor; simpl; assumption.
  - (* a timer fires *)
    destruct (take_nth i (timers s)) as [[due others]|] eqn:Htake; [|discriminate].
    destruct (due <=? clock s)%Z; [|discriminate]. injection Hstep as <-.
    destruct Htimer as [[Hidle [Hnone Hempty]] | [Hbusy [[due' Hone] Hsome]]].
    { rewrite Hnone in Htake. destruct i; discriminate. }
    rewrite Hone in Htake. apply take_nth_singleton in Htake. destruct Htake as [-> ->].
    unfold onTimeout. simpl.
    destruct (queue s) as [|next rest] eqn:Hqueue; [contradiction|].
    apply invariant_processQueue; simpl; try assumption; try reflexivity.
    + rewrite Hfifo. now rewrite <- app_assoc.
    + rewrite !map_app. simpl. rewrite Hflow.
      rewrite <- !app_assoc. apply Permutation_app_head. apply Permutation_app_comm.
  - (* a running call settles *)
    destruct (take_nth i (running s)) as [[c others]|] eqn:Htake; [|discriminate].
    injection Hstep as <-. apply take_nth_Permutation in Htake.
    constructor; simpl; try assumption.
    + rewrite Hflow, Htake. rewrite !map_app. simpl.
      rewrite app_assoc. apply Permutation_cons_append.
    + rewrite !map_app. simpl. rewrite Hout. rewrite <- !app_assoc.
      apply Permutation_app_head. apply Permutation_app_comm.
  - (* the closure of a settled call resumes *)
    destruct (take_nth i (awaited s)) as [[[c o] others]|] eqn:Htake; [|discriminate].
    injection Hstep as <-. apply take_nth_Permutation in Htake.
    constructor; simpl; try assumption.
    rewrite Hout, Htake. simpl. rewrite resume_delivery.
    rewrite app_assoc. apply Permutation_cons_append.
Qed.

Lemma invariant_run (es : list (Step Fn T)) :
  forall s s', invariant s -> run s es = Some s' -> invariant s'.
Proof.
  induction es as [|e es IH]; intros s s' Hinv Hrun; simpl in Hrun.
  - now injection Hrun as <-.
  - destruct (step s e) as [s1|] eqn:Hstep; [|discriminate].
    eapply IH; [|exact Hrun]. eapply invariant_step; eauto.
Qed.

Lemma invariant_reachable (s : State Fn T) : reachable s -> invariant s.
Proof.
  intros [interval [now [es Hrun]]].
  eapply invariant_run; [apply invariant_new | exact Hrun].
Qed.

End GovernorFacts.

Section GovernorDelivery.

Import ThrottleQueue.

Variable Fn : Type.
Variable T : Type.

Lemma take_nth_In {A : Type} (x : A) (l : list A) :
  In x l -> exists i rest, take_nth i l = Some (x, rest).
Proof.
  induction l as [|y l IH]; intros Hin; [contradiction|].
  destruct Hin as [-> | Hin].
  - now exists 0, l.
  - destruct (IH Hin) as [i [rest Htake]]. exists (S i), (y :: rest).
    simpl. now rewrite Htake.
Qed.

Lemma take_nth_last {A : Type} (l : list A) (x : A) :
  take_nth (length l) (l ++ [x]) = Some (x, l).
Proof.
  induction l as [|y l IH]; [reflexivity|]. simpl. now rewrite IH.
Qed.

Lemma run_app (es1 es2 : list (Step Fn T)) :
  forall s s1, run s es1 = Some s1 -> run s (es1 ++ es2) = run s1 es2.
Proof.
  induction es1 as [|e es1 IH]; intros s s1 Hrun; simpl in *.
  - now injection Hrun as <-.
  - destruct (step s e) as [s0|]; [|discriminate]. now apply IH.
Qed.

(** The closure of a settled call can resume, and delivers the settlement
    of the call to the caller's promise. *)
Lemma settled_call_is_delivered (s : State Fn T) (c : Closure Fn) (o : Settlement T) :
  In (c, o) (awaited s) ->
  exists i s',
    step s (Resume i) = Some s'
    /\ callers s' = (callers s ++ [(closure_promise c, o)])%list
    /\ outcomes s' = outcomes s.
Proof.
  intros Hin. destruct (take_nth_In _ _ Hin) as [i [rest Htake]].
  exists i. simpl. rewrite Htake. eexists. split; [reflexivity|].
  simpl. now rewrite resume_delivery.
Qed.

(** A running call can settle either way, and its closure then delivers
    that settlement. *)
Lemma running_call_is_delivered (s : State Fn T) (c : Closure Fn) (o : Settlement T) :
  In c (running s) ->
  exists i j s',
    run s [Settle i o; Resume j] = Some s'
    /\ outcomes s' = (outcomes s ++ [(closure_promise c, o)])%list
    /\ callers s' = (callers s ++ [(closure_promise c, o)])%list.
Proof.
  intros Hin. destruct (take_nth_In _ _ Hin) as [i [rest Htake]].
  exists i, (length (awaited s)). simpl. rewrite Htake. simpl.
  rewrite take_nth_last. eexists. split; [reflexivity|].
  simpl. now rewrite resume_delivery.
Qed.

(** A queued call gets dispatched: the timer fires once for each call
    queued before it and once for the call itself. *)
Lemma queued_call_is_dispatched (before : list (Closure Fn)) :
  forall (s : State Fn T) (c : Closure Fn) (after : list (Closure Fn)),
    invariant s ->
    queue s = (before ++ c :: after)%list ->
    exists es s',
      run s es = Some s' /\ invariant s' /\ In c (running s') /\ callers s' = callers s.
Proof.
  induction before as [|b before IH]; intros s c after Hinv Hqueue.
  - destruct (inv_timer _ _ s Hinv) as [[_ [_ Hempty]] | [_ [[due Hone] _]]];
      [rewrite Hqueue in Hempty; discriminate|].
    pose (ms := Z.max 0 (due - clock s)).
    assert (Hrun : exists s', run s [Elapse ms; Timeout 0] = Some s'
                              /\ In c (running s') /\ callers s' = callers s).
    { simpl. destruct (ms <? 0)%Z eqn:Hneg; [apply Z.ltb_lt in Hneg; unfold ms in Hneg; lia|].
      simpl. rewrite Hone. simpl.
      destruct (due <=? clock s + ms)%Z eqn:Hdue;
        [|apply Z.leb_gt in Hdue; unfold ms in Hdue; lia].
      eexists. split; [reflexivity|].
      unfold onTimeout, processQueue. simpl. rewrite Hqueue. simpl.
      destruct after; simpl; (split; [apply in_or_app; right; now left | reflexivity]). }
    destruct Hrun as [s' [Hrun [Hin Hcallers]]].
    exists [Elapse ms; Timeout 0], s'. split; [exact Hrun|]. split; [|now split].
    eapply invariant_run; [exact Hinv | exact Hrun].
  - destruct (inv_timer _ _ s Hinv) as [[_ [_ Hempty]] | [_ [[due Hone] _]]];
      [rewrite Hqueue in Hempty; discriminate|].
    pose (ms := Z.max 0 (due - clock s)).
    assert (Hrun : exists s1, run s [Elapse ms; Timeout 0] = Some s1
                              /\ queue s1 = (before ++ c :: after)%list
                              /\ callers s1 = callers s).
    { simpl. destruct (ms <? 0)%Z eqn:Hneg; [apply Z.ltb_lt in Hneg; unfold ms in Hneg; lia|].
      simpl. rewrite Hone. simpl.
      destruct (due <=? clock s + ms)%Z eqn:Hdue;
        [|apply Z.leb_gt in Hdue; unfold ms in Hdue; lia].
      eexists. split; [reflexivity|].
      unfold onTimeout, processQueue. simpl. rewrite Hqueue. simpl.
      destruct (before ++ c :: after)%list; simpl; now split. }
    destruct Hrun as [s1 [Hrun [Hqueue1 Hcallers1]]].
    assert (Hinv1 : invariant s1) by (eapply invariant_run; [exact Hinv | exact Hrun]).
    destruct (IH s1 c after Hinv1 Hqueue1) as [es [s' [Hrun' [Hinv' [Hin Hcallers']]]]].
    exists ([Elapse ms; Timeout 0] ++ es)%list, s'.
    split; [now rewrite (run_app _ _ _ _ Hrun)|]. split; [exact Hinv'|].
    split; [exact Hin | congruence].
Qed.

(** A queued call is dispatched and, whichever way it settles, that
    settlement reaches the caller's promise. *)
Lemma queued_call_is_delivered (s : State Fn T) (c : Closure Fn) (o : Settlement T) :
  invariant s ->
  In c (queue s) ->
  exists es s', run s es = Some s' /\ In (closure_promise c, o) (callers s').
Proof.
  intros Hinv Hin. apply in_split in Hin. destruct Hin as [before [after Hqueue]].
  destruct (queued_call_is_dispatched before s c after Hinv Hqueue)
    as [es [s1 [Hrun [_ [Hrunning _]]]]].
  destruct (running_call_is_delivered s1 c o Hrunning) as [i [j [s' [Hrun' [_ Hcallers]]]]].
  exists (es ++ [Settle i o; Resume j])%list, s'.
  split; [now rewrite (run_app _ _ _ _ Hrun)|].
  rewrite Hcallers. apply in_or_app. right. now left.
Qed.

Lemma throttle_queues (fn : Fn) (s : State Fn T) :
  queue (snd (throttle fn s))
  = (queue s ++ [{| closure_fn := fn; closure_promise := fst (throttle fn s) |}])%list.
Proof.
  unfold throttle. simpl. destruct (negb (isProcessing s)); [|reflexivity].
  unfold processQueue. simpl. now destruct (queue s ++ _)%list.
Qed.

End GovernorDelivery.

(** C8 - Call Governor.  In every state the governor can reach: the
    closures enqueued are, in order, those already dispatched followed by
    those still queued, so calls are dispatched in the order they were
    submitted and none is skipped or repeated; a caller's promise settles
    only with the settlement of its own wrapped call, fulfilled with its
    result or rejected with its error; the settlement of every wrapped call
    has reached the caller's promise or waits for its closure to resume;
    no call settles twice and no promise is settled twice; and whenever a
    closure is queued the governor is processing, with a timer pending.
    Moreover the settlement of a call does reach its caller, whether it is
    a result or an error: the closure of a settled call can resume, and
    then settles the caller's promise the way the call settled, fulfilled
    with the result or rejected with the error; a running call can settle
    either way and that settlement is delivered in the same way; a queued
    call, and so any call submitted, can be dispatched, and whichever way
    it then settles, the caller's promise can be settled that way. *)
Theorem governor_keeps_outcomes_and_order (Fn T : Type) (s : ThrottleQueue.State Fn T) :
  ThrottleQueue.reachable s ->
  ThrottleQueue.enqueued s = (ThrottleQueue.dispatched s ++ ThrottleQueue.queue s)%list
  /\ (forall p o, In (p, o) (ThrottleQueue.callers s) -> In (p, o) (ThrottleQueue.outcomes s))
  /\ (forall p o,
         In (p, o) (ThrottleQueue.outcomes s) ->
         In (p, o) (ThrottleQueue.callers s)
         \/ exists c, In (c, o) (ThrottleQueue.awaited s)
                      /\ ThrottleQueue.closure_promise c = p)
  /\ List.NoDup (map fst (ThrottleQueue.outcomes s))
  /\ List.NoDup (map fst (ThrottleQueue.callers s))
  /\ (ThrottleQueue.queue s <> [] ->
      ThrottleQueue.isProcessing s = true /\ exists due, ThrottleQueue.timers s = [due])
  /\ (forall c o,
         In (c, o) (ThrottleQueue.awaited s) ->
         exists i s',
           ThrottleQueue.step s (ThrottleQueue.Resume i) = Some s'
           /\ ThrottleQueue.callers s'
              = (ThrottleQueue.callers s ++ [(ThrottleQueue.closure_promise c, o)])%list
           /\ ThrottleQueue.outcomes s' = ThrottleQueue.outcomes s)
  /\ (forall c o,
         In c (ThrottleQueue.running s) ->
         exists i j s',
           ThrottleQueue.run s [ThrottleQueue.Settle i o; ThrottleQueue.Resume j] = Some s'
           /\ ThrottleQueue.outcomes s'
              = (ThrottleQueue.outcomes s ++ [(ThrottleQueue.closure_promise c, o)])%list
           /\ ThrottleQueue.callers s'
              = (ThrottleQueue.callers s ++ [(ThrottleQueue.closure_promise c, o)])%list)
  /\ (forall c o,
         In c (ThrottleQueue.queue s) ->
         exists es s',
           ThrottleQueue.run s es = Some s'
           /\ In (ThrottleQueue.closure_promise c, o) (ThrottleQueue.callers s'))
  /\ (forall fn o,
         exists es s',
           ThrottleQueue.run s (ThrottleQueue.Call fn :: es) = Some s'
           /\ In (fst (ThrottleQueue.throttle fn s), o) (ThrottleQueue.callers s')).
Proof.
  intros Hreach. apply invariant_reachable in Hreach.
  assert (Hinv : ThrottleQueue.invariant s) by exact Hreach.
  destruct Hreach as [Hfifo Hfresh Hnodup Hflow Hout Htimer].
  assert (Hcalls : List.NoDup (map fst (ThrottleQueue.outcomes s))).
  { rewrite Hfifo, map_app in Hnodup. apply List.NoDup_app_remove_r in Hnodup.
    eapply Permutation_NoDup in Hnodup; [|exact Hflow].
    now apply List.NoDup_app_remove_l in Hnodup. }
  split; [exact Hfifo|]. split; [|split; [|split; [|split; [|split; [|split; [|split; [|split]]]]]]].
  - intros p o Hin. eapply Permutation_in; [symmetry; exact Hout|].
    apply in_or_app. now right.
  - intros p o Hin. eapply Permutation_in in Hin; [|exact Hout].
    apply in_app_or in Hin. destruct Hin as [Hin | Hin]; [right | now left].
    apply in_map_iff in Hin. destruct Hin as [[c o'] [Heq Hin]].
    unfold ThrottleQueue.delivery in Heq. simpl in Heq. injection Heq as <- <-.
    now exists c.
  - exact Hcalls.
  - eapply Permutation_NoDup in Hcalls; [|apply Permutation_map; exact Hout].
    rewrite map_app in Hcalls. now apply List.NoDup_app_remove_l in Hcalls.
  - intros Hqueued.
    destruct Htimer as [[_ [_ Hempty]] | [Hbusy [Hone _]]]; [contradiction | now split].
  - intros c o. apply settled_call_is_delivered.
  - intros c o. apply running_call_is_delivered.
  - intros c o. now apply queued_call_is_delivered.
  - intros fn o.
    assert (Hinv1 : ThrottleQueue.invariant (snd (ThrottleQueue.throttle fn s))).
    { exact (invariant_step Fn T s _ (ThrottleQueue.Call fn) Hinv eq_refl). }
    destruct (queued_call_is_delivered Fn T _
                {| ThrottleQueue.closure_fn := fn;
                   ThrottleQueue.closure_promise := fst (ThrottleQueue.throttle fn s) |}
                o Hinv1) as [es [s' [Hrun Hin]]].
    { rewrite throttle_queues. apply in_or_app. right. now left. }
    exists es, s'. split; [exact Hrun | exact Hin].
Qed.

(** Two calls are submitted; the timer fires and dispatches the first,
    which succeeds, and its closure resumes; the timer fires again and
    dispatches the second, which fails, and its closure resumes: the first
    caller's promise is fulfilled with the result of the first call and
    the second caller's promise is rejected with the error of the second
    call. *)
Lemma governor_keeps_outcomes_and_order_witness :
  let steps : list (ThrottleQueue.Step string Z) :=
    [ ThrottleQueue.Call "createIssue"; ThrottleQueue.Call "editIssue";
      ThrottleQueue.Elapse 1000; ThrottleQueue.Timeout 0;
      ThrottleQueue.Settle 0 (ThrottleQueue.Fulfilled 42%Z) ] in
  let rest : list (ThrottleQueue.Step string Z) :=
    [ ThrottleQueue.Resume 0;
      ThrottleQueue.Elapse 1000; ThrottleQueue.Timeout 0;
      ThrottleQueue.Settle 0 (ThrottleQueue.Rejected (Error "boom"));
      ThrottleQueue.Resume 0 ] in
  exists s s' : ThrottleQueue.State string Z,
    ThrottleQueue.run (ThrottleQueue.new_ThrottleQueue string Z 1000 0) steps = Some s
    /\ ThrottleQueue.callers s = []
    /\ (exists i s1,
          ThrottleQueue.step s (ThrottleQueue.Resume i) = Some s1
          /\ ThrottleQueue.callers s1 = [ (0, ThrottleQueue.Fulfilled 42%Z) ])
    /\ ThrottleQueue.run s rest = Some s'
    /\ ThrottleQueue.callers s'
       = [ (0, ThrottleQueue.Fulfilled 42%Z); (1, ThrottleQueue.Rejected (Error "boom")) ]
    /\ In (0, ThrottleQueue.Fulfilled 42%Z) (ThrottleQueue.outcomes s')
    /\ In (1, ThrottleQueue.Rejected (Error "boom")) (ThrottleQueue.outcomes s')
    /\ map ThrottleQueue.closure_fn (ThrottleQueue.dispatched s') = ["createIssue"; "editIssue"].
Proof.
  intros steps rest.
  assert (Hrun : exists (s s' : ThrottleQueue.State string Z) c,
             ThrottleQueue.run (ThrottleQueue.new_ThrottleQueue string Z 1000 0) steps = Some s
             /\ ThrottleQueue.callers s = []
             /\ ThrottleQueue.awaited s = [ (c, ThrottleQueue.Fulfilled 42%Z) ]
             /\ ThrottleQueue.closure_promise c = 0
             /\ ThrottleQueue.run s rest = Some s'
             /\ ThrottleQueue.callers s'
                = [ (0, ThrottleQueue.Fulfilled 42%Z);
                    (1, ThrottleQueue.Rejected (Error "boom")) ]
             /\ map ThrottleQueue.closure_fn (ThrottleQueue.dispatched s')
                = ["createIssue"; "editIssue"]).
  { eexists. eexists. eexists. split; [vm_compute; reflexivity|].
    split; [reflexivity|]. split; [reflexivity|]. split; [reflexivity|].
    split; [vm_compute; reflexivity|]. split; reflexivity. }
  destruct Hrun as (s & s' & c & Hrun & Hnone & Hawaited & Hpromise & Hrest & Hcallers
                    & Hdispatched).
  assert (Hreach : ThrottleQueue.reachable s) by (exists 1000%Z, 0%Z, steps; exact Hrun).
  assert (Hreach' : ThrottleQueue.reachable s').
  { exists 1000%Z, 0%Z, (steps ++ rest)%list.
    now rewrite (run_app _ _ _ _ _ _ Hrun). }
  destruct (governor_keeps_outcomes_and_order string Z s Hreach)
    as (_ & _ & _ & _ & _ & _ & Hresume & _).
  destruct (governor_keeps_outcomes_and_order string Z s' Hreach') as (_ & Hown & _).
  exists s, s'. split; [exact Hrun|]. split; [exact Hnone|]. split; [|split; [exact Hrest|]].
  - destruct (Hresume c (ThrottleQueue.Fulfilled 42%Z)) as [i [s1 [Hstep [Hdelivered _]]]].
    { rewrite Hawaited. now left. }
    exists i, s1. split; [exact Hstep|]. now rewrite Hdelivered, Hnone, Hpromise.
  - split; [exact Hcallers|]. split; [|split; [|exact Hdispatched]].
    + apply Hown. rewrite Hcallers. now left.
    + apply Hown. rewrite Hcallers. right. now left.
Defined.

(** ** Further properties: the destination client *)

Section ClientFacts.

Context {rt : JsRuntime} {be : Backend}.

Variable cfg : ProjectConfiguration.

Lemma request_run {A : Type} (e : Event) (op : Env -> Result A * Env) (w : World)
      (r : Result A) (e' : Env) :
  op (env w) = (r, e') -> request e op w = (r, after_call w e e').
Proof. intros Hop. unfold request. now rewrite Hop. Qed.

Lemma request_inv {A : Type} (e : Event) (op : Env -> Result A * Env) (w w' : World)
      (r : Result A) :
  request e op w = (r, w') ->
  exists e', op (env w) = (r, e') /\ w' = after_call w e e'.
Proof.
  unfold request. destruct (op (env w)) as [r0 e'] eqn:Hop.
  intros Hrun. injection Hrun as <- <-. now exists e'.
Qed.

Lemma firstMissingIssueType_none existing wanted :
  firstMissingIssueType existing wanted = None ->
  forall x, In x wanted -> In x existing.
Proof.
  induction wanted as [|y wanted IH]; simpl; [now intros _ x []|].
  destruct (JS.includes existing y) eqn:Hin; simpl; [|discriminate].
  intros Hnone x [<-|Hx]; [now apply includes_In|now apply IH].
Qed.

Lemma find_Some {A : Type} (p : A -> bool) (l : list A) (x : A) :
  JS.find p l = Some x -> In x l /\ p x = true.
Proof.
  induction l as [|y l IH]; simpl; [discriminate|].
  destruct (p y) eqn:Hp.
  - intros Heq. injection Heq as <-. split; [now left|exact Hp].
  - intros Hfind. destruct (IH Hfind) as [Hin Hx]. split; [now right|exact Hx].
Qed.

Lemma findFieldId_truthy fields wanted fid :
  findFieldId fields wanted = Some fid -> JS.truthy_string fid = true.
Proof.
  unfold findFieldId.
  destruct (JS.find _ fields) as [field|]; [|discriminate].
  destruct (JS.truthy_opt_string (fielddetails_id field)) eqn:Htruthy; [|discriminate].
  intros Heq. rewrite Heq in Htruthy. exact Htruthy.
Qed.

End ClientFacts.

Section ClientRuns.

Context {rt : JsRuntime} {be : Backend}.

Variable cfg : ProjectConfiguration.

Lemma initAndCheck_inv w w' :
  initAndCheck cfg w = (Ok tt, w') ->
  exists p cs fields sp ep,
    firstMissingIssueType (omap issuetype_name (default [] (project_issueTypes p)))
                          (map issueType_toJira (issueTypeMapping cfg)) = None
    /\ is_Some (JS.find (fun component => JS.opt_eqb (component_name component)
                                                      (jira_component (cfg_jira cfg))) cs)
    /\ findFieldId fields "Story Points" = Some sp
    /\ findFieldId fields "Epic Name" = Some ep
    /\ jira w' = {| storyPointsFieldId := Some sp; epicNameFieldId := Some ep;
                    project := Some p; components := cs; boardId := boardId (jira w) |}
    /\ repo w' = repo w.
Proof.
  unfold initAndCheck, checkJiraConnection, try_catch, bind, request, log, emit, ret,
    throw, get_jira, set_jira. simpl.
  destruct (myself_getCurrentUser (env w)) as [[[]|e|] e1]; simpl; try discriminate.
  destruct (projects_getProject _ e1) as [[p|e|] e2]; simpl; try discriminate.
  destruct (firstMissingIssueType _ _) eqn:Hmissing; simpl; try discriminate.
  destruct (projectComponents_getProjectComponents _ e2) as [[cs|e|] e3]; simpl;
    try discriminate.
  destruct (JS.find _ cs) eqn:Hcomponent; simpl; try discriminate.
  destruct (issueFields_getFields e3) as [[fields|e|] e4]; simpl; try discriminate.
  destruct (findFieldId fields "Story Points") as [sp|] eqn:Hsp; simpl; try discriminate.
  destruct (findFieldId fields "Epic Name") as [ep|] eqn:Hep; simpl; try discriminate.
  intros Hrun. injection Hrun as <-. simpl.
  exists p, cs, fields, sp, ep. repeat split; try assumption; eauto.
Qed.

End ClientRuns.

(** X1 - Connection check.  When Jira rejects the request for the current
    user, [initAndCheck] logs the cause on the error console and throws
    the fixed error "Jira connection error" in its place: it has sent no
    other request and has set no field of the client. *)
Theorem unreachable_jira_stops_the_check {rt : JsRuntime} {be : Backend}
    (cfg : ProjectConfiguration) (w : World) (cause : JsError) (e' : Env) :
  myself_getCurrentUser (env w) = (Throw cause, e') ->
  initAndCheck cfg w
  = (Throw (Error "Jira connection error"),
     after_log (after_call w (Jira GetCurrentUser) e') ConsoleError
       ("Jira connection error " ++ String_of_error cause)).
Proof.
  intros Hdown.
  unfold initAndCheck, checkJiraConnection, try_catch, bind, request.
  rewrite Hdown. reflexivity.
Qed.

Lemma unreachable_jira_stops_the_check_witness :
  initAndCheck (rt:=Fixture.runtime) (be:=Fixture.tracker) (Fixture.config "P" 10)
    (Fixture.world Fixture.jira_down)
  = (Throw (Error "Jira connection error"),
     after_log (after_call (Fixture.world Fixture.jira_down) (Jira GetCurrentUser)
                           Fixture.jira_down)
       ConsoleError "Jira connection error connect ECONNREFUSED").
Proof.
  apply (unreachable_jira_stops_the_check (rt:=Fixture.runtime) (be:=Fixture.tracker)
           (Fixture.config "P" 10) (Fixture.world Fixture.jira_down)
           (Error "connect ECONNREFUSED") Fixture.jira_down).
  reflexivity.
Defined.

(** X2 - Initialisation.  When [initAndCheck] returns, the client holds a
    non-empty id for the Story Points field and for the Epic Name field,
    the Jira project, in which every issue type the mapping table can
    produce exists, and the components of the project, among them the
    configured one; the board id and the fields of the repository object
    are as before. *)
Theorem successful_check_initialises_the_client {rt : JsRuntime} {be : Backend}
    (cfg : ProjectConfiguration) (w w' : World) :
  initAndCheck cfg w = (Ok tt, w') ->
  JS.truthy_opt_string (storyPointsFieldId (jira w')) = true
  /\ JS.truthy_opt_string (epicNameFieldId (jira w')) = true
  /\ (exists p,
         project (jira w') = Some p
         /\ forall m, In m (issueTypeMapping cfg) ->
              exists t, In t (default [] (project_issueTypes p))
                        /\ issuetype_name t = Some (issueType_toJira m))
  /\ (exists c, In c (components (jira w'))
                /\ component_name c = Some (jira_component (cfg_jira cfg)))
  /\ boardId (jira w') = boardId (jira w)
  /\ repo w' = repo w.
Proof.
  intros Hrun.
  destruct (initAndCheck_inv cfg w w' Hrun)
    as (p & cs & fields & sp & ep & Htypes & Hcomponent & Hsp & Hep & Hjira & Hrepo).
  rewrite Hjira. simpl.
  split; [eapply findFieldId_truthy; exact Hsp|].
  split; [eapply findFieldId_truthy; exact Hep|].
  split.
  - exists p. split; [reflexivity|]. intros m Hm.
    assert (Hin : In (issueType_toJira m)
                     (omap issuetype_name (default [] (project_issueTypes p)))).
    { eapply firstMissingIssueType_none; [exact Htypes|]. now apply in_map. }
    apply list_elem_of_In, list_elem_of_omap in Hin.
    destruct Hin as [t [Ht Hname]]. exists t. split; [now apply list_elem_of_In|exact Hname].
  - split; [|split; [reflexivity|exact Hrepo]].
    destruct Hcomponent as [c Hc]. apply find_Some in Hc. destruct Hc as [Hin Hname].
    exists c. split; [exact Hin|]. now apply opt_eqb_eq.
Qed.

Lemma successful_check_initialises_the_client_witness :
  let w' := snd (initAndCheck (rt:=Fixture.runtime) (be:=Fixture.tracker)
                   (Fixture.config "P" 10) (Fixture.world (Fixture.healthy []))) in
  storyPointsFieldId (jira w') = Some "customfield_1"
  /\ JS.truthy_opt_string (storyPointsFieldId (jira w')) = true
  /\ JS.truthy_opt_string (epicNameFieldId (jira w')) = true.
Proof.
  split; [reflexivity|].
  pose proof (successful_check_initialises_the_client (rt:=Fixture.runtime)
                (be:=Fixture.tracker) (Fixture.config "P" 10)
                (Fixture.world (Fixture.healthy []))
                (snd (initAndCheck (rt:=Fixture.runtime) (be:=Fixture.tracker)
                        (Fixture.config "P" 10) (Fixture.world (Fixture.healthy []))))
                eq_refl) as H.
  split; [exact (proj1 H)|exact (proj1 (proj2 H))].
Defined.

Section IssueTypeCheck.

Context {rt : JsRuntime} {be : Backend}.

Lemma firstMissingIssueType_first existing (before after : list string) (wanted : string) :
  (forall x, In x before -> In x existing) ->
  ~ In wanted existing ->
  firstMissingIssueType existing (before ++ wanted :: after) = Some wanted.
Proof.
  intros Hbefore Hmissing. induction before as [|y before IH]; simpl.
  - destruct (JS.includes existing wanted) eqn:Hin; [|reflexivity].
    apply includes_In in Hin. contradiction.
  - destruct (JS.includes existing y) eqn:Hin; simpl.
    + apply IH. intros x Hx. apply Hbefore. now right.
    + assert (Hy : In y existing) by (apply Hbefore; now left).
      apply includes_In in Hy. congruence.
Qed.

End IssueTypeCheck.

(** X3 - Issue types.  When the Jira project lacks the issue type that a
    rule of the mapping table produces, [initAndCheck] throws "Issue type
    ... not found in Jira to sync the project ..." for the first such
    rule of the table, right after the request for the project: neither
    the components nor the fields are asked for. *)
Theorem missing_issue_type_stops_the_check {rt : JsRuntime} {be : Backend}
    (cfg : ProjectConfiguration) (w : World) (e1 e2 : Env) (p : Project)
    (before after : list SyncYamlIssuesTypeMappingDefinition)
    (rule : SyncYamlIssuesTypeMappingDefinition) :
  myself_getCurrentUser (env w) = (Ok tt, e1) ->
  projects_getProject (jira_projectKey (cfg_jira cfg)) e1 = (Ok p, e2) ->
  issueTypeMapping cfg = (before ++ rule :: after)%list ->
  (forall earlier, In earlier before ->
     exists t, In t (default [] (project_issueTypes p))
               /\ issuetype_name t = Some (issueType_toJira earlier)) ->
  (forall t, In t (default [] (project_issueTypes p)) ->
             issuetype_name t <> Some (issueType_toJira rule)) ->
  exists w',
    initAndCheck cfg w
    = (Throw (Error ("Issue type " ++ JS.dquote ++ issueType_toJira rule ++ JS.dquote
                     ++ " not found in Jira to sync the project " ++ cfg_name cfg)),
       w')
    /\ added w w' [Jira GetCurrentUser; Jira (GetProject (jira_projectKey (cfg_jira cfg)))]
    /\ storyPointsFieldId (jira w') = storyPointsFieldId (jira w)
    /\ epicNameFieldId (jira w') = epicNameFieldId (jira w).
Proof.
  intros Hup Hproject Hmapping Hbefore Hmissing.
  unfold initAndCheck, checkJiraConnection, try_catch, bind, request, ret, get_jira, set_jira.
  rewrite Hup. simpl. rewrite Hproject. simpl.
  rewrite Hmapping, map_app. simpl.
  rewrite firstMissingIssueType_first.
  - eexists. split; [reflexivity|]. split; [|now split].
    unfold added. simpl. now rewrite <- app_assoc.
  - intros x Hx. apply in_map_iff in Hx. destruct Hx as [earlier [<- Hearlier]].
    destruct (Hbefore earlier Hearlier) as [t [Ht Hname]].
    apply list_elem_of_In, list_elem_of_omap. exists t. split; [now apply list_elem_of_In|exact Hname].
  - intros Hin. apply list_elem_of_In, list_elem_of_omap in Hin.
    destruct Hin as [t [Ht Hname]]. apply list_elem_of_In in Ht. exact (Hmissing t Ht Hname).
Qed.

Lemma missing_issue_type_stops_the_check_witness :
  let cfg :=
    {| cfg_name := "P";
       cfg_github := cfg_github (Fixture.config "P" 10);
       cfg_jira := cfg_jira (Fixture.config "P" 10);
       issueTypeDefault := "Task";
       issueTypeMapping :=
         [ {| fromGithubLabel := "kind/bug"; issueType_toJira := "Bug" |};
           {| fromGithubLabel := "kind/spike"; issueType_toJira := "Spike" |} ];
       statusTypeMapping := [];
       statusTypeDefault := "Backlog";
       maxBatchNumberIssues := 10 |} in
  exists w',
    initAndCheck (rt:=Fixture.runtime) (be:=Fixture.tracker) cfg
                 (Fixture.world (Fixture.healthy []))
    = (Throw (Error ("Issue type " ++ JS.dquote ++ "Spike" ++ JS.dquote
                     ++ " not found in Jira to sync the project P")),
       w')
    /\ added (Fixture.world (Fixture.healthy [])) w'
             [Jira GetCurrentUser; Jira (GetProject "KEY")].
Proof.
  intros cfg.
  destruct (missing_issue_type_stops_the_check (rt:=Fixture.runtime) (be:=Fixture.tracker)
              cfg (Fixture.world (Fixture.healthy [])) (Fixture.healthy []) (Fixture.healthy [])
              {| project_id := Some "10000";
                 project_issueTypes :=
                   Some [ {| issuetype_name := Some "Task" |};
                          {| issuetype_name := Some "Bug" |};
                          {| issuetype_name := Some "Epic" |} ] |}
              [ {| fromGithubLabel := "kind/bug"; issueType_toJira := "Bug" |} ] []
              {| fromGithubLabel := "kind/spike"; issueType_toJira := "Spike" |})
    as [w' [Hrun [Hadd _]]].
  - reflexivity.
  - reflexivity.
  - reflexivity.
  - intros earlier [<- | []]. exists {| issuetype_name := Some "Bug" |}.
    split; [simpl; tauto | reflexivity].
  - intros t [<- | [<- | [<- | []]]]; discriminate.
  - exists w'. split; [exact Hrun | exact Hadd].
Defined.

Section SprintListing.

Context {rt : JsRuntime} {be : Backend}.

Lemma find_none {A : Type} (p : A -> bool) (l : list A) :
  (forall x, In x l -> p x = false) -> JS.find p l = None.
Proof.
  induction l as [|y l IH]; simpl; [reflexivity|]. intros Hall.
  rewrite (Hall y (or_introl eq_refl)). apply IH. intros x Hx. apply Hall. now right.
Qed.

Lemma doGetAllSprintsLoop_pages (boardId : Z) :
  forall e startAt pages, ServesSprints boardId e startAt pages ->
  forall fuel allSprints w,
    env w = e -> length pages <= fuel ->
    exists w',
      doGetAllSprintsLoop fuel boardId allSprints startAt w
      = (Ok (allSprints ++ concat (map page_values pages))%list, w')
      /\ added w w' (map (fun offset => Jira (GetAllSprints boardId offset 50))
                         (page_offsets startAt pages))
      /\ jira w' = jira w /\ repo w' = repo w.
Proof.
  intros e startAt pages Hserves.
  induction Hserves as [e e' startAt page Hpage Hlast
                       |e e' startAt page pages Hpage Hlast Hserves IH];
    intros fuel allSprints w Henv Hfuel.
  - destruct fuel as [|fuel]; [simpl in Hfuel; lia|]. subst e.
    simpl. unfold bind. rewrite (request_run _ _ _ _ _ Hpage). rewrite Hlast. simpl.
    eexists. split; [unfold ret; rewrite app_nil_r; reflexivity|].
    repeat split.
  - destruct fuel as [|fuel]; [simpl in Hfuel; lia|]. subst e.
    simpl. unfold bind. rewrite (request_run _ _ _ _ _ Hpage). rewrite Hlast. simpl.
    destruct (IH fuel (allSprints ++ page_values page)%list
                 (after_call w (Jira (GetAllSprints boardId startAt 50)) e') eq_refl)
      as [w' [Hrun [Hadd [Hjira Hrepo]]]]; [simpl in Hfuel; lia|].
    exists w'. rewrite Hrun, <- app_assoc. split; [reflexivity|].
    split; [|split; [exact Hjira|exact Hrepo]].
    unfold added in *. rewrite Hadd. simpl. now rewrite <- app_assoc.
Qed.

End SprintListing.

(** X4 - Sprint listing.  When the board serves its sprints on several
    pages, [doGetAllSprintsByBoardId] returns the sprints of all the
    pages, in order; it asks for each page once, the first at offset 0 and
    each next one at the offset where the previous page ended. *)
Theorem sprints_of_all_pages_are_listed {be : Backend}
    (boardId : Z) (pages : list PaginatedSprint) (fuel : nat) (w : World) :
  ServesSprints boardId (env w) 0 pages ->
  length pages <= fuel ->
  exists w',
    doGetAllSprintsByBoardId fuel boardId w = (Ok (concat (map page_values pages)), w')
    /\ added w w' (map (fun offset => Jira (GetAllSprints boardId offset 50))
                       (page_offsets 0 pages)).
Proof.
  intros Hserves Hfuel.
  destruct (doGetAllSprintsLoop_pages boardId _ _ _ Hserves fuel [] w eq_refl Hfuel)
    as [w' [Hrun [Hadd _]]].
  exists w'. split; [exact Hrun|exact Hadd].
Qed.

Lemma sprints_of_all_pages_are_listed_witness :
  exists w',
    doGetAllSprintsByBoardId (be:=Samples.desk) 2 7 (Samples.desk_world Samples.paged)
    = (Ok [Samples.jira_sprint 1 "S1"; Samples.jira_sprint 2 "S2"; Samples.jira_sprint 3 "S3"],
       w')
    /\ added (Samples.desk_world Samples.paged) w'
             [Jira (GetAllSprints 7 0 50); Jira (GetAllSprints 7 2 50)].
Proof.
  apply (sprints_of_all_pages_are_listed (be:=Samples.desk) 7
           [Samples.first_page; Samples.second_page] 2 (Samples.desk_world Samples.paged)).
  - eapply (ServesSprints_next (be:=Samples.desk)); [reflexivity | reflexivity |].
    eapply (ServesSprints_last (be:=Samples.desk)); reflexivity.
  - simpl. lia.
Defined.

(** X5 - Sprint board.  When no board of the project that carries the
    configured name has an id (an id of 0 counts as none), [getSprints]
    throws "Board with name ... not found for project ..." after the
    request for the boards: it asks for no sprint and leaves the board id
    of the client as it was. *)
Theorem missing_board_stops_the_sprint_listing {be : Backend}
    (cfg : ProjectConfiguration) (fuel : nat) (w : World)
    (boards : option (list Board)) (e' : Env) :
  board_getAllBoards (jira_projectKey (cfg_jira cfg)) (env w) = (Ok boards, e') ->
  (forall b, In b (default [] boards) ->
             board_name b = Some (jira_sprintBoard (cfg_jira cfg)) ->
             JS.truthy_opt_number (board_id b) = false) ->
  getSprints cfg fuel w
  = (Throw (boardNotFound cfg),
     after_call w (Jira (GetAllBoards (jira_projectKey (cfg_jira cfg)))) e').
Proof.
  intros Hboards Hnone.
  unfold getSprints, bind. rewrite (request_run _ _ _ _ _ Hboards).
  destruct boards as [values|]; [|reflexivity].
  destruct (JS.find _ values) as [b|] eqn:Hfind; [|reflexivity].
  apply find_Some in Hfind. destruct Hfind as [Hin Hname].
  apply opt_eqb_eq in Hname. specialize (Hnone b Hin Hname).
  destruct (board_id b) as [id|]; [|reflexivity].
  simpl in Hnone. now rewrite Hnone.
Qed.

Lemma missing_board_stops_the_sprint_listing_witness :
  getSprints (be:=Samples.desk) (Fixture.config "P" 10) 3
    (Samples.desk_world Samples.without_board)
  = (Throw (Error "Board with name Board not found for project KEY"),
     after_call (Samples.desk_world Samples.without_board) (Jira (GetAllBoards "KEY"))
                Samples.without_board).
Proof.
  apply (missing_board_stops_the_sprint_listing (be:=Samples.desk) (Fixture.config "P" 10) 3
           (Samples.desk_world Samples.without_board)
           (Some [ {| board_id := Some 8%Z; board_name := Some "Other" |};
                   {| board_id := Some 0%Z; board_name := Some "Board" |} ])
           Samples.without_board).
  - reflexivity.
  - intros b [<- | [<- | []]] Hname; [discriminate Hname | reflexivity].
Defined.



Section UpsertRuns.

Context {rt : JsRuntime} {be : Backend}.

Variable cfg : ProjectConfiguration.

Lemma nothing_added (P : Event -> Prop) (w : World) :
  exists evs, added w w evs /\ Forall P evs.
Proof. exists []. split; [apply added_nil|constructor]. Qed.

Lemma added_after_log w level message : added w (after_log w level message) [Log level message].
Proof. reflexivity. Qed.

Lemma added_after_call w e e' : added w (after_call w e e') [e].
Proof. reflexivity. Qed.

End UpsertRuns.

Section UpsertSteps.

Context {rt : JsRuntime} {be : Backend}.

Variable cfg : ProjectConfiguration.

Lemma canWrite_checks (j : JiraFields) (params : CreateIssueParams) :
  canWrite j params ->
  negb (JS.truthy_opt_string (storyPointsFieldId j)) = false
  /\ (negb (JS.truthy_opt_string (epicNameFieldId j))
      && String.eqb (p_issuetype params) "Epic")%bool = false.
Proof.
  intros [Hsp Hep]. rewrite Hsp. split; [reflexivity|].
  destruct Hep as [-> | Hep]; [reflexivity|].
  apply String.eqb_neq in Hep. rewrite Hep. apply andb_false_r.
Qed.

Lemma checks_canWrite (j : JiraFields) (params : CreateIssueParams) :
  negb (JS.truthy_opt_string (storyPointsFieldId j)) = false ->
  (negb (JS.truthy_opt_string (epicNameFieldId j))
   && String.eqb (p_issuetype params) "Epic")%bool = false ->
  canWrite j params.
Proof.
  intros Hsp Hep. split; [now apply negb_false_iff|].
  apply andb_false_iff in Hep. destruct Hep as [Hep | Hep].
  - left. now apply negb_false_iff.
  - right. now apply String.eqb_neq.
Qed.

(** The run of [createOrUpdateIssue] up to the reading of the status, when
    its requests are answered. *)
Lemma createOrUpdateIssue_reads_status (params : CreateIssueParams) (w : World)
      (found : option (list string)) (e1 : Env) (key : string) (e2 : Env)
      (creation : list Event) (e3 e4 : Env) (status : option string) (e5 : Env) :
  canWrite (jira w) params ->
  issueSearch_searchForIssuesUsingJql (searchByGlobalId cfg (p_globalId params)) 1 (env w)
  = (Ok found, e1) ->
  WrittenIssue (jira w) params e1 found key e2 creation ->
  issueRemoteLinks_createOrUpdateRemoteIssueLink (remoteLink params key) e2 = (Ok tt, e3) ->
  issues_editIssue key (updateFields cfg (jira w) params) e3 = (Ok tt, e4) ->
  issues_getIssue key e4 = (Ok status, e5) ->
  createOrUpdateIssue cfg params w
  = ((if negb (JS.opt_eqb (option_map toLowerCase status) (toLowerCase (p_status params)))
      then updateIssueStatusTo key (p_status params)
      else log Debug (skippingLine key (p_status params))) ;;;
     (if JS.truthy_opt_number (p_sprintBoardId params)
      then request (Jira (MoveIssuesToSprintAndRank (default 0%Z (p_sprintBoardId params))
                            [key]))
                   (sprint_moveIssuesToSprintAndRank (default 0%Z (p_sprintBoardId params))
                      [key])
      else ret tt) ;;;
     ret key)
      {| trace := (trace w ++ upsertRequests cfg (jira w) params key creation)%list;
         env := e5; jira := jira w; repo := repo w |}.
Proof.
  intros Hcan Hsearch Hwritten Hlink Hedit Hget.
  destruct (canWrite_checks _ _ Hcan) as [Hsp Hep].
  unfold createOrUpdateIssue.
  unfold bind at 1. unfold get_jira at 1. rewrite Hsp, Hep.
  unfold bind at 1. unfold log at 1, emit at 1.
  unfold bind at 1. unfold findExistingGithubIssueInJira.
  fold (searchByGlobalId cfg (p_globalId params)).
  unfold bind at 1. unfold request at 1. simpl env. rewrite Hsearch.
  unfold ret at 1.
  unfold bind at 1.
  destruct Hwritten as [key others Hkey | found key e2 Hfound Hcreate].
  - assert (Htruthy : JS.truthy_string key = true).
    { unfold JS.truthy_string. apply negb_true_iff. now apply String.eqb_neq. }
    change (JS.truthy_opt_string (Some key)) with (JS.truthy_string key).
    rewrite Htruthy. change (negb true) with false. cbv beta iota.
    unfold ret at 1. change (default "" (Some key)) with key.
    fold (remoteLink params key).
    unfold bind at 1. unfold request at 1. simpl env. rewrite Hlink.
    unfold bind at 1. unfold request at 1. simpl env. simpl jira. rewrite Hedit.
    unfold bind at 1. unfold request at 1. simpl env. rewrite Hget.
    unfold upsertRequests. simpl trace. simpl jira. simpl repo.
    rewrite <- !app_assoc. reflexivity.
  - assert (Hnone : JS.truthy_opt_string
                      match found with Some (k :: _) => Some k | _ => None end = false).
    { destruct found as [[|first others]|]; try reflexivity.
      now rewrite (Hfound first others eq_refl). }
    rewrite Hnone. change (negb false) with true. cbv beta iota.
    unfold request at 1. simpl env. simpl jira. rewrite Hcreate.
    fold (remoteLink params key).
    unfold bind at 1. unfold request at 1. simpl env. rewrite Hlink.
    unfold bind at 1. unfold request at 1. simpl env. simpl jira. rewrite Hedit.
    unfold bind at 1. unfold request at 1. simpl env. rewrite Hget.
    unfold upsertRequests. simpl trace. simpl jira. simpl repo.
    rewrite <- !app_assoc. reflexivity.
Qed.

(** A run of [createOrUpdateIssue] that returns had its requests
    answered. *)
Lemma createOrUpdateIssue_Ok (params : CreateIssueParams) (w w' : World) (returned : string) :
  createOrUpdateIssue cfg params w = (Ok returned, w') ->
  exists found e1 key e2 creation e3 e4 status e5,
    canWrite (jira w) params
    /\ issueSearch_searchForIssuesUsingJql (searchByGlobalId cfg (p_globalId params)) 1 (env w)
       = (Ok found, e1)
    /\ WrittenIssue (jira w) params e1 found key e2 creation
    /\ issueRemoteLinks_createOrUpdateRemoteIssueLink (remoteLink params key) e2 = (Ok tt, e3)
    /\ issues_editIssue key (updateFields cfg (jira w) params) e3 = (Ok tt, e4)
    /\ issues_getIssue key e4 = (Ok status, e5).
Proof.
  intros Hrun. unfold createOrUpdateIssue in Hrun.
  unfold bind at 1 in Hrun. unfold get_jira at 1 in Hrun.
  destruct (negb (JS.truthy_opt_string (storyPointsFieldId (jira w)))) eqn:Hsp;
    [discriminate|].
  destruct (negb (JS.truthy_opt_string (epicNameFieldId (jira w))) && _)%bool eqn:Hep;
    [discriminate|].
  apply bind_Ok in Hrun. destruct Hrun as [[] [w0 [Hlog Hrun]]].
  unfold log, emit in Hlog. injection Hlog as <-.
  apply bind_Ok in Hrun. destruct Hrun as [existingKey [w1 [Hfind Hrun]]].
  unfold findExistingGithubIssueInJira in Hfind.
  fold (searchByGlobalId cfg (p_globalId params)) in Hfind.
  apply bind_Ok in Hfind. destruct Hfind as [found [w1' [Hsearch Hfind]]].
  apply request_inv in Hsearch. destruct Hsearch as [e1 [Hsearch ->]].
  unfold ret in Hfind. injection Hfind as <- <-.
  apply bind_Ok in Hrun. destruct Hrun as [key [w2 [Hkey Hrun]]].
  apply bind_Ok in Hrun. destruct Hrun as [[] [w3 [Hlink Hrun]]].
  apply bind_Ok in Hrun. destruct Hrun as [[] [w4 [Hedit Hrun]]].
  apply bind_Ok in Hrun. destruct Hrun as [status [w5 [Hget _]]].
  assert (Hwritten : exists e2 creation,
             WrittenIssue (jira w) params e1 found key e2 creation /\ env w2 = e2).
  { destruct (negb (JS.truthy_opt_string
                      match found with Some (k :: _) => Some k | _ => None end)) eqn:Hexisting.
    - apply request_inv in Hkey. destruct Hkey as [e2 [Hcreate ->]].
      exists e2, [Jira (CreateIssue (createFields (jira w) params))]. split; [|reflexivity].
      apply Written_created; [|exact Hcreate].
      intros first others ->. apply negb_true_iff in Hexisting.
      unfold JS.truthy_opt_string, JS.truthy_string in Hexisting.
      apply negb_false_iff in Hexisting. now apply String.eqb_eq in Hexisting.
    - unfold ret in Hkey. injection Hkey as <- <-.
      destruct found as [[|first others]|]; try discriminate.
      exists e1, []. split; [|reflexivity]. simpl. apply Written_found.
      apply negb_false_iff in Hexisting.
      unfold JS.truthy_opt_string, JS.truthy_string in Hexisting.
      apply negb_true_iff in Hexisting. now apply String.eqb_neq in Hexisting. }
  destruct Hwritten as [e2 [creation [Hwritten He2]]].
  assert (Hjira2 : jira w2 = jira w).
  { destruct (negb _) in Hkey.
    - apply request_inv in Hkey. now destruct Hkey as [e2' [_ ->]].
    - unfold ret in Hkey. now injection Hkey as _ <-. }
  fold (remoteLink params key) in Hlink.
  apply request_inv in Hlink. destruct Hlink as [e3 [Hlink ->]].
  apply request_inv in Hedit. destruct Hedit as [e4 [Hedit ->]].
  apply request_inv in Hget. destruct Hget as [e5 [Hget ->]].
  simpl env in *. rewrite He2 in Hlink.
  exists found, e1, key, e2, creation, e3, e4, status, e5.
  split; [now apply checks_canWrite|].
  now repeat split.
Qed.

End UpsertSteps.

Section UpsertTail.

Context {rt : JsRuntime} {be : Backend}.

Variable cfg : ProjectConfiguration.

Lemma updateIssueStatusTo_Ok (issueKey newStatus : string) (w w' : World) :
  updateIssueStatusTo issueKey newStatus w = (Ok tt, w') ->
  exists id, added w w' [Jira (GetTransitions issueKey); Jira (DoTransition issueKey id)].
Proof.
  intros Hrun. unfold updateIssueStatusTo in Hrun.
  apply bind_Ok in Hrun. destruct Hrun as [transitionId [w1 [Hid Hrun]]].
  unfold getTransitionId in Hid.
  apply bind_Ok in Hid. destruct Hid as [transitions [w0 [Hasked Hid]]].
  apply request_inv in Hasked. destruct Hasked as [e1 [_ ->]].
  unfold ret in Hid. injection Hid as _ <-.
  destruct transitionId as [id|]; [|discriminate].
  destruct (JS.truthy_string id); [|discriminate].
  apply request_inv in Hrun. destruct Hrun as [e2 [_ ->]].
  exists id. unfold added. simpl. now rewrite <- app_assoc.
Qed.

(** What a run of [createOrUpdateIssue] that returns does once the status
    of the issue has been read: it logs that the status is the wanted one,
    or asks for the transitions and performs one; then it moves the issue
    to its sprint, if any; the key of the issue is returned. *)
Lemma upsert_tail_Ok (params : CreateIssueParams) (key : string) (status : option string)
      (w5 w' : World) (returned : string) :
  ((if negb (JS.opt_eqb (option_map toLowerCase status) (toLowerCase (p_status params)))
    then updateIssueStatusTo key (p_status params)
    else log Debug (skippingLine key (p_status params))) ;;;
   (if JS.truthy_opt_number (p_sprintBoardId params)
    then request (Jira (MoveIssuesToSprintAndRank (default 0%Z (p_sprintBoardId params))
                          [key]))
                 (sprint_moveIssuesToSprintAndRank (default 0%Z (p_sprintBoardId params))
                    [key])
    else ret tt) ;;;
   ret key) w5 = (Ok returned, w') ->
  returned = key
  /\ exists statusEvents,
       added w5 w' (statusEvents ++ moveRequests params key)
       /\ (statusEvents = [Log Debug (skippingLine key (p_status params))]
           \/ exists id, statusEvents = [Jira (GetTransitions key); Jira (DoTransition key id)]).
Proof.
  intros Hrun.
  apply bind_Ok in Hrun. destruct Hrun as [[] [w6 [Hstatus Hrun]]].
  apply bind_Ok in Hrun. destruct Hrun as [[] [w7 [Hmove Hrun]]].
  unfold ret in Hrun. injection Hrun as <- <-. split; [reflexivity|].
  assert (Hmoved : added w6 w7 (moveRequests params key)).
  { unfold moveRequests. destruct (JS.truthy_opt_number (p_sprintBoardId params)).
    - apply request_inv in Hmove. destruct Hmove as [e [_ ->]]. reflexivity.
    - unfold ret in Hmove. injection Hmove as <-. apply added_nil. }
  destruct (negb _) in Hstatus.
  - apply updateIssueStatusTo_Ok in Hstatus. destruct Hstatus as [id Hadded].
    eexists. split; [eapply added_trans; [exact Hadded|exact Hmoved]|].
    right. now exists id.
  - unfold log, emit in Hstatus. injection Hstatus as <-.
    eexists. split; [eapply added_trans; [|exact Hmoved]|]; [reflexivity|]. now left.
Qed.

(** Whatever the answers, what [createOrUpdateIssue] does once the status
    has been read is sent for the issue written. *)
Lemma upsert_tail_emits (params : CreateIssueParams) (key : string) (status : option string) :
  emits (targets key)
    ((if negb (JS.opt_eqb (option_map toLowerCase status) (toLowerCase (p_status params)))
      then updateIssueStatusTo key (p_status params)
      else log Debug (skippingLine key (p_status params))) ;;;
     (if JS.truthy_opt_number (p_sprintBoardId params)
      then request (Jira (MoveIssuesToSprintAndRank (default 0%Z (p_sprintBoardId params))
                            [key]))
                   (sprint_moveIssuesToSprintAndRank (default 0%Z (p_sprintBoardId params))
                      [key])
      else ret tt) ;;;
     ret key).
Proof.
  unfold updateIssueStatusTo, getTransitionId. repeat emits_step; simpl; auto.
Qed.

(** When its requests are answered up to the reading of the status,
    [createOrUpdateIssue] has sent them all, and what follows is sent for
    the issue written. *)
Lemma createOrUpdateIssue_answered (params : CreateIssueParams) (w : World)
      (found : option (list string)) (e1 : Env) (key : string) (e2 : Env)
      (creation : list Event) (e3 e4 : Env) (status : option string) (e5 : Env) :
  canWrite (jira w) params ->
  issueSearch_searchForIssuesUsingJql (searchByGlobalId cfg (p_globalId params)) 1 (env w)
  = (Ok found, e1) ->
  WrittenIssue (jira w) params e1 found key e2 creation ->
  issueRemoteLinks_createOrUpdateRemoteIssueLink (remoteLink params key) e2 = (Ok tt, e3) ->
  issues_editIssue key (updateFields cfg (jira w) params) e3 = (Ok tt, e4) ->
  issues_getIssue key e4 = (Ok status, e5) ->
  exists tail,
    added w (snd (createOrUpdateIssue cfg params w))
          (upsertRequests cfg (jira w) params key creation ++ tail)
    /\ Forall (targets key) tail.
Proof.
  intros Hcan Hsearch Hwritten Hlink Hedit Hget.
  rewrite (createOrUpdateIssue_reads_status cfg _ _ _ _ _ _ _ _ _ _ _
             Hcan Hsearch Hwritten Hlink Hedit Hget).
  match goal with
  | |- exists tail, added _ (snd (_ ?w5)) _ /\ _ =>
      destruct (upsert_tail_emits params key status w5) as [tail [Hadded Htail]]
  end.
  exists tail. split; [|exact Htail].
  unfold added in *. rewrite Hadded. simpl. now rewrite <- app_assoc.
Qed.

End UpsertTail.

(** X7 - Idempotent upsert.  When the search by global id finds an issue,
    [createOrUpdateIssue] creates none, in any run, and every request it
    sends on an issue is on the issue found.  On a client that passes its
    checks, once the link, the update and the reading of the status are
    answered, the run has sent them for the issue found, right after the
    search, and what it sends next is for that issue.  A run that returns
    has sent, after the search and in this order, the link, the update and
    the reading of the status for the issue found, then either logged that
    the status is the wanted one or asked for the transitions and
    performed one, then moved the issue to the sprint of the record if it
    has one; the key returned is the one found.  When the search finds nothing, a
    run that returns has sent the creation right after the search, and the
    same requests follow for the key that Jira answered, which is the one
    returned. *)
Theorem found_issue_is_updated_in_place {rt : JsRuntime} {be : Backend}
    (cfg : ProjectConfiguration) (params : CreateIssueParams) (w : World) :
  (forall key others e1,
      issueSearch_searchForIssuesUsingJql (searchByGlobalId cfg (p_globalId params)) 1 (env w)
      = (Ok (Some (key :: others)), e1) ->
      key <> "" ->
      (exists evs, added w (snd (createOrUpdateIssue cfg params w)) evs
                   /\ Forall (targets key) evs)
      /\ (forall e2 e3 status e4,
            canWrite (jira w) params ->
            issueRemoteLinks_createOrUpdateRemoteIssueLink (remoteLink params key) e1
            = (Ok tt, e2) ->
            issues_editIssue key (updateFields cfg (jira w) params) e2 = (Ok tt, e3) ->
            issues_getIssue key e3 = (Ok status, e4) ->
            exists tail,
              added w (snd (createOrUpdateIssue cfg params w))
                    (upsertRequests cfg (jira w) params key [] ++ tail)
              /\ Forall (targets key) tail)
      /\ forall returned w',
           createOrUpdateIssue cfg params w = (Ok returned, w') ->
           returned = key
           /\ exists statusEvents,
                added w w' (upsertRequests cfg (jira w) params key []
                            ++ statusEvents ++ moveRequests params key)
                /\ (statusEvents = [Log Debug (skippingLine key (p_status params))]
                    \/ exists id,
                         statusEvents = [Jira (GetTransitions key);
                                         Jira (DoTransition key id)]))
  /\ (forall found e1 created e2,
         issueSearch_searchForIssuesUsingJql (searchByGlobalId cfg (p_globalId params)) 1 (env w)
         = (Ok found, e1) ->
         found = None \/ found = Some [] ->
         issues_createIssue (createFields (jira w) params) e1 = (Ok created, e2) ->
         (forall e3 e4 status e5,
             canWrite (jira w) params ->
             issueRemoteLinks_createOrUpdateRemoteIssueLink (remoteLink params created) e2
             = (Ok tt, e3) ->
             issues_editIssue created (updateFields cfg (jira w) params) e3 = (Ok tt, e4) ->
             issues_getIssue created e4 = (Ok status, e5) ->
             exists tail,
               added w (snd (createOrUpdateIssue cfg params w))
                     (upsertRequests cfg (jira w) params created
                        [Jira (CreateIssue (createFields (jira w) params))] ++ tail)
               /\ Forall (targets created) tail)
         /\ forall returned w',
           createOrUpdateIssue cfg params w = (Ok returned, w') ->
           returned = created
           /\ exists statusEvents,
                added w w' (upsertRequests cfg (jira w) params created
                              [Jira (CreateIssue (createFields (jira w) params))]
                            ++ statusEvents ++ moveRequests params created)
                /\ (statusEvents = [Log Debug (skippingLine created (p_status params))]
                    \/ exists id,
                         statusEvents = [Jira (GetTransitions created);
                                         Jira (DoTransition created id)])).
Proof.
  split.
  - intros key others e1 Hsearch Hkey. split; [|split].
    + assert (Htruthy : JS.truthy_string key = true).
      { unfold JS.truthy_string. apply negb_true_iff. now apply String.eqb_neq. }
      destruct (createOrUpdateIssue cfg params w) as [res wf] eqn:Hrun. simpl.
      unfold createOrUpdateIssue in Hrun.
      unfold bind at 1 in Hrun. unfold get_jira at 1 in Hrun.
      destruct (negb (JS.truthy_opt_string (storyPointsFieldId (jira w)))).
      { injection Hrun as <- <-. apply nothing_added. }
      destruct (negb (JS.truthy_opt_string (epicNameFieldId (jira w))) && _)%bool.
      { injection Hrun as <- <-. apply nothing_added. }
      unfold bind at 1 in Hrun. unfold log at 1, emit at 1 in Hrun.
      unfold bind at 1 in Hrun.
      unfold findExistingGithubIssueInJira in Hrun.
      fold (searchByGlobalId cfg (p_globalId params)) in Hrun.
      unfold bind at 1 in Hrun. unfold request at 1 in Hrun. simpl env in Hrun.
      rewrite Hsearch in Hrun. unfold ret at 1 in Hrun.
      unfold bind at 1 in Hrun.
      change (JS.truthy_opt_string (Some key)) with (JS.truthy_string key) in Hrun.
      rewrite Htruthy in Hrun. change (negb true) with false in Hrun.
      unfold ret at 1 in Hrun. change (default "" (Some key)) with key in Hrun.
      cbv beta iota in Hrun.
      match type of Hrun with
      | ?c ?w2 = _ => assert (Htail : emits (targets key) c)
      end.
      { unfold updateIssueStatusTo, getTransitionId.
        repeat emits_step; simpl; auto. }
      destruct (emits_added _ _ _ _ _ Htail Hrun) as [evs [Hadd Hevs]].
      eexists. split.
      * eapply added_trans; [|exact Hadd].
        unfold added. simpl. rewrite <- app_assoc. reflexivity.
      * simpl. repeat constructor; exact Hevs.
    + intros e2 e3 status e4 Hcan Hlink Hedit Hget.
      exact (createOrUpdateIssue_answered cfg _ _ _ _ _ _ _ _ _ _ _ Hcan Hsearch
               (Written_found _ _ _ key others Hkey) Hlink Hedit Hget).
    + intros returned w' Hrun.
      destruct (createOrUpdateIssue_Ok cfg _ _ _ _ Hrun)
        as (found & e1' & key' & e2 & creation & e3 & e4 & status & e5
            & Hcan & Hsearch' & Hwritten & Hlink & Hedit & Hget).
      rewrite (createOrUpdateIssue_reads_status cfg _ _ _ _ _ _ _ _ _ _ _
                 Hcan Hsearch' Hwritten Hlink Hedit Hget) in Hrun.
      rewrite Hsearch in Hsearch'. injection Hsearch' as <- <-.
      assert (key' = key /\ creation = []) as [-> ->].
      { inversion Hwritten as [k o Hk | f k e Hempty Hcreate]; subst.
        - now split.
        - exfalso. apply Hkey. exact (Hempty key others eq_refl). }
      apply upsert_tail_Ok in Hrun. destruct Hrun as [-> [statusEvents [Hadded Hshape]]].
      split; [reflexivity|]. exists statusEvents. split; [|exact Hshape].
      unfold added in *. simpl in Hadded. rewrite Hadded. now rewrite <- !app_assoc.
  - intros found e1 created e2 Hsearch Hfound Hcreate. split.
    { intros e3 e4 status e5 Hcan Hlink Hedit Hget.
      refine (createOrUpdateIssue_answered cfg _ _ _ _ _ _ _ _ _ _ _ Hcan Hsearch
                (Written_created _ _ _ found created e2 _ Hcreate) Hlink Hedit Hget).
      intros first others Heq. destruct Hfound as [-> | ->]; discriminate Heq. }
    intros returned w' Hrun.
    destruct (createOrUpdateIssue_Ok cfg _ _ _ _ Hrun)
      as (found' & e1' & key' & e2' & creation & e3 & e4 & status & e5
          & Hcan & Hsearch' & Hwritten & Hlink & Hedit & Hget).
    rewrite (createOrUpdateIssue_reads_status cfg _ _ _ _ _ _ _ _ _ _ _
               Hcan Hsearch' Hwritten Hlink Hedit Hget) in Hrun.
    rewrite Hsearch in Hsearch'. injection Hsearch' as <- <-.
    assert (key' = created
            /\ creation = [Jira (CreateIssue (createFields (jira w) params))]) as [-> ->].
    { inversion Hwritten as [k o Hk | f k e Hempty Hcreate']; subst.
      - destruct Hfound; discriminate.
      - rewrite Hcreate in Hcreate'. injection Hcreate' as <- _. now split. }
    apply upsert_tail_Ok in Hrun. destruct Hrun as [-> [statusEvents [Hadded Hshape]]].
    split; [reflexivity|]. exists statusEvents. split; [|exact Hshape].
    unfold added in *. simpl in Hadded. rewrite Hadded. now rewrite <- !app_assoc.
Qed.

(** On a Jira where the search finds [KEY-7]: the run returns [KEY-7]
    after the link, the update and the reading of the status of [KEY-7];
    on a Jira where the search finds nothing, the issue [KEY-2] is created
    and written. *)
Lemma found_issue_is_updated_in_place_witness :
  let cfg := Fixture.config "P" 10 in
  let params := issueToCreate (rt:=Fixture.runtime) cfg new_SyncRepository Fixture.issue1 in
  let linked := createOrUpdateIssue (rt:=Fixture.runtime) (be:=Samples.desk) cfg params
                  (Samples.desk_world Samples.linked) in
  let unlinked := createOrUpdateIssue (rt:=Fixture.runtime) (be:=Samples.desk) cfg params
                    (Samples.desk_world Samples.unlinked) in
  (fst linked = Ok "KEY-7"
   /\ exists statusEvents,
        trace (snd linked)
        = (upsertRequests (rt:=Fixture.runtime) cfg
             (jira (Samples.desk_world Samples.linked)) params "KEY-7" []
           ++ statusEvents)%list)
  /\ (fst unlinked = Ok "KEY-2"
      /\ exists statusEvents,
           trace (snd unlinked)
           = (upsertRequests (rt:=Fixture.runtime) cfg
                (jira (Samples.desk_world Samples.unlinked)) params "KEY-2"
                [Jira (CreateIssue (createFields (jira (Samples.desk_world Samples.unlinked))
                                      params))]
              ++ statusEvents)%list).
Proof.
  intros cfg params linked unlinked.
  pose proof (found_issue_is_updated_in_place (rt:=Fixture.runtime) (be:=Samples.desk)
                cfg params (Samples.desk_world Samples.linked)) as [Hfound _].
  pose proof (found_issue_is_updated_in_place (rt:=Fixture.runtime) (be:=Samples.desk)
                cfg params (Samples.desk_world Samples.unlinked)) as [_ Hcreated].
  split.
  - split; [vm_compute; reflexivity|].
    destruct (Hfound "KEY-7" [] Samples.linked eq_refl ltac:(discriminate))
      as [_ [_ Hreturned]].
    destruct (Hreturned "KEY-7" (snd linked)) as [_ [statusEvents [Hadded _]]].
    { vm_compute. reflexivity. }
    exists (statusEvents ++ moveRequests params "KEY-7")%list.
    unfold added in Hadded. rewrite Hadded. reflexivity.
  - split; [vm_compute; reflexivity|].
    destruct (proj2 (Hcreated None Samples.unlinked "KEY-2" Samples.unlinked eq_refl
                       (or_introl eq_refl) eq_refl) "KEY-2" (snd unlinked))
      as [_ [statusEvents [Hadded _]]].
    { vm_compute. reflexivity. }
    exists (statusEvents ++ moveRequests params "KEY-2")%list.
    unfold added in Hadded. rewrite Hadded. reflexivity.
Defined.

(** X8 - Initialisation.  Once [initAndCheck] has returned, the writes of
    the client reach Jira: [createOrUpdateIssue] sends the search by
    global id instead of throwing "... field not initialized", and
    [createRelease] sends the creation of the release, under the name it
    was given, instead of throwing "Project not initialized". *)
Theorem checked_client_sends_its_writes {rt : JsRuntime} {be : Backend}
    (cfg : ProjectConfiguration) (w w' : World) :
  initAndCheck cfg w = (Ok tt, w') ->
  forall w2 : World,
    jira w2 = jira w' ->
    (forall params, exists evs,
        added w2 (snd (createOrUpdateIssue cfg params w2)) evs
        /\ In (Jira (SearchForIssuesUsingJql (searchByGlobalId cfg (p_globalId params)) 1)) evs)
    /\ (forall release, exists version,
           added w2 (snd (createRelease release w2)) [Jira (CreateVersionCall version)]
           /\ cv_name version = release_name release
           /\ cv_released version = release_released release
           /\ cv_releaseDate version = release_releaseDate release).
Proof.
  intros Hcheck w2 Hw2.
  destruct (initAndCheck_inv cfg w w' Hcheck)
    as (p & cs & fields & sp & ep & _ & _ & Hsp & Hep & Hjira & _).
  apply findFieldId_truthy in Hsp. apply findFieldId_truthy in Hep.
  rewrite Hjira in Hw2. split.
  - intros params.
    destruct (createOrUpdateIssue cfg params w2) as [res wf] eqn:Hrun. simpl.
    unfold createOrUpdateIssue in Hrun.
    unfold bind at 1 in Hrun. unfold get_jira at 1 in Hrun.
    rewrite Hw2 in Hrun. simpl in Hrun. rewrite Hsp, Hep in Hrun. simpl in Hrun.
    unfold bind at 1 in Hrun. unfold log at 1, emit at 1 in Hrun.
    unfold findExistingGithubIssueInJira in Hrun.
    fold (searchByGlobalId cfg (p_globalId params)) in Hrun.
    unfold bind at 1 in Hrun. unfold bind at 1 in Hrun. unfold request at 1 in Hrun.
    destruct (issueSearch_searchForIssuesUsingJql _ _ _) as [[found|err|] e1].
    + unfold ret at 1 in Hrun.
      match type of Hrun with
      | ?c ?w3 = _ => assert (Htail : emits (fun _ => True) c)
      end.
      { unfold updateIssueStatusTo, getTransitionId. repeat emits_step; exact I. }
      destruct (emits_added _ _ _ _ _ Htail Hrun) as [evs [Hadd _]].
      eexists. split.
      * eapply added_trans; [|exact Hadd]. unfold added. simpl.
        rewrite <- app_assoc. reflexivity.
      * apply in_or_app. left. right. now left.
    + injection Hrun as _ <-. eexists. split.
      * unfold added. simpl. rewrite <- app_assoc. reflexivity.
      * right. now left.
    + injection Hrun as _ <-. eexists. split.
      * unfold added. simpl. rewrite <- app_assoc. reflexivity.
      * right. now left.
  - intros release. unfold createRelease, bind, get_jira. rewrite Hw2. simpl.
    unfold request. destruct (projectVersions_createVersion _ _) as [answer e1]. simpl.
    eexists. split; [reflexivity|]. now repeat split.
Qed.

Lemma checked_client_sends_its_writes_witness :
  let w' := snd (initAndCheck (rt:=Fixture.runtime) (be:=Fixture.tracker)
                   (Fixture.config "P" 10) (Fixture.world (Fixture.healthy []))) in
  let release := {| release_name := "P v1"; release_released := false;
                    release_releaseDate := None |} in
  exists version,
    added w' (snd (createRelease (rt:=Fixture.runtime) release w'))
          [Jira (CreateVersionCall version)]
    /\ cv_name version = "P v1"
    /\ cv_released version = false
    /\ cv_releaseDate version = None.
Proof.
  intros w' release.
  exact (proj2 (checked_client_sends_its_writes (rt:=Fixture.runtime) (be:=Fixture.tracker)
                  (Fixture.config "P" 10) (Fixture.world (Fixture.healthy [])) w'
                  eq_refl w' eq_refl) release).
Defined.

(** X9 - Status.  Take a run of [createOrUpdateIssue] on a client that
    passes its checks, in which the search, the creation if the search
    found no issue, the link and the update are answered, and Jira then
    reports the issue written in the wanted status, compared without
    regard to case.  The run logs that the issue is already in that status
    and goes on to the move to the sprint: after the reading of the status
    it adds that line and the move, if the record has a sprint, and nothing
    else, so no transition is asked for and none is performed; without a
    sprint it returns the key of the issue. *)
Theorem status_is_left_when_it_matches {rt : JsRuntime} {be : Backend}
    (cfg : ProjectConfiguration) (params : CreateIssueParams) (w : World)
    (found : option (list string)) (e1 : Env) (key : string) (e2 : Env)
    (creation : list Event) (e3 e4 : Env) (current : string) (e5 : Env) :
  canWrite (jira w) params ->
  issueSearch_searchForIssuesUsingJql (searchByGlobalId cfg (p_globalId params)) 1 (env w)
  = (Ok found, e1) ->
  WrittenIssue (jira w) params e1 found key e2 creation ->
  issueRemoteLinks_createOrUpdateRemoteIssueLink (remoteLink params key) e2 = (Ok tt, e3) ->
  issues_editIssue key (updateFields cfg (jira w) params) e3 = (Ok tt, e4) ->
  issues_getIssue key e4 = (Ok (Some current), e5) ->
  toLowerCase current = toLowerCase (p_status params) ->
  let run := createOrUpdateIssue cfg params w in
  let evs := (upsertRequests cfg (jira w) params key creation
              ++ Log Debug (skippingLine key (p_status params))
                 :: moveRequests params key)%list in
  added w (snd run) evs
  /\ Forall (fun e => forall k id, e <> Jira (GetTransitions k)
                                   /\ e <> Jira (DoTransition k id)) evs
  /\ (forall returned w', run = (Ok returned, w') -> returned = key)
  /\ (JS.truthy_opt_number (p_sprintBoardId params) = false ->
      run = (Ok key, {| trace := (trace w ++ evs)%list; env := e5;
                        jira := jira w; repo := repo w |})).
Proof.
  intros Hcan Hsearch Hwritten Hlink Hedit Hget Hsame run evs.
  assert (Hrun : run
                 = ((if JS.truthy_opt_number (p_sprintBoardId params)
                     then request (Jira (MoveIssuesToSprintAndRank
                                           (default 0%Z (p_sprintBoardId params)) [key]))
                                  (sprint_moveIssuesToSprintAndRank
                                     (default 0%Z (p_sprintBoardId params)) [key])
                     else ret tt) ;;; ret key)
                     {| trace := (trace w ++ upsertRequests cfg (jira w) params key creation
                                  ++ [Log Debug (skippingLine key (p_status params))])%list;
                        env := e5; jira := jira w; repo := repo w |}).
  { unfold run.
    rewrite (createOrUpdateIssue_reads_status cfg _ _ _ _ _ _ _ _ _ _ _
               Hcan Hsearch Hwritten Hlink Hedit Hget).
    simpl option_map. rewrite Hsame.
    replace (JS.opt_eqb (Some (toLowerCase (p_status params)))
                        (toLowerCase (p_status params))) with true
      by (symmetry; now apply opt_eqb_eq).
    change (negb true) with false. cbv iota.
    unfold bind at 1. unfold log, emit. simpl. now rewrite <- app_assoc. }
  assert (Hquiet : Forall (fun e => forall k id, e <> Jira (GetTransitions k)
                                                 /\ e <> Jira (DoTransition k id)) evs).
  { unfold evs, upsertRequests, moveRequests.
    destruct Hwritten; destruct (JS.truthy_opt_number (p_sprintBoardId params)); simpl;
      repeat constructor; discriminate. }
  unfold evs, moveRequests in *.
  destruct (JS.truthy_opt_number (p_sprintBoardId params)) eqn:Hsprint.
  - unfold bind, request in Hrun. simpl env in Hrun.
    destruct (sprint_moveIssuesToSprintAndRank _ _ e5) as [[[]|err|] e6] eqn:Hmove;
      rewrite Hrun; unfold ret; cbn [snd trace].
    + split; [unfold added; now rewrite <- !app_assoc|]. split; [exact Hquiet|].
      split; [|discriminate]. intros returned w' Heq. now injection Heq as <-.
    + split; [unfold added; now rewrite <- !app_assoc|]. split; [exact Hquiet|].
      split; [|discriminate]. intros returned w' Heq. discriminate.
    + split; [unfold added; now rewrite <- !app_assoc|]. split; [exact Hquiet|].
      split; [|discriminate]. intros returned w' Heq. discriminate.
  - unfold bind, ret in Hrun. rewrite Hrun. cbn [snd trace].
    split; [reflexivity|]. split; [exact Hquiet|].
    split.
    + intros returned w' Heq. now injection Heq as <-.
    + intros _. reflexivity.
Qed.

(** Issue 1 is wanted in the status [Backlog], which is the one the Jira
    of the fixture reports for [KEY-1]: the run ends with the line that
    says so. *)
Lemma status_is_left_when_it_matches_witness :
  let cfg := Fixture.config "P" 10 in
  let params := issueToCreate (rt:=Fixture.runtime) cfg new_SyncRepository Fixture.issue1 in
  let w := Fixture.ready_world (Fixture.healthy []) in
  let run := createOrUpdateIssue (rt:=Fixture.runtime) (be:=Fixture.tracker) cfg params w in
  fst run = Ok "KEY-1"
  /\ trace (snd run)
     = [ Log Debug (creatingIssueLine (rt:=Fixture.runtime) params);
         Jira (SearchForIssuesUsingJql (searchByGlobalId cfg (p_globalId params)) 1);
         Jira (CreateIssue (createFields (jira w) params));
         Jira (CreateOrUpdateRemoteIssueLink (remoteLink params "KEY-1"));
         Jira (EditIssue "KEY-1" (updateFields cfg (jira w) params));
         Jira (GetIssue "KEY-1");
         Log Debug (skippingLine "KEY-1" "Backlog") ].
Proof.
  intros cfg params w run.
  edestruct (status_is_left_when_it_matches (rt:=Fixture.runtime) (be:=Fixture.tracker)
               cfg params w) as [Hadded [_ [_ Hreturns]]].
  - split; [reflexivity|]. left. reflexivity.
  - vm_compute. reflexivity.
  - apply Written_created; [intros first others Hfound; discriminate Hfound|].
    vm_compute. reflexivity.
  - vm_compute. reflexivity.
  - vm_compute. reflexivity.
  - vm_compute. reflexivity.
  - reflexivity.
  - split.
    + fold run in Hreturns. rewrite Hreturns by reflexivity. reflexivity.
    + unfold added in Hadded. fold run in Hadded. rewrite Hadded. reflexivity.
Defined.

(** X10 - Status.  Take a run of [createOrUpdateIssue] on a client that
    passes its checks, in which the search, the creation if the search
    found no issue, the link and the update are answered, Jira then
    reports for the issue written a status that is not the wanted one, and
    the transitions it lists for that issue have none to the wanted
    status.  The run throws "Transition to status ... not found" right
    after the request for the transitions: no transition is performed and
    the issue is not moved to its sprint, whatever sprint the record
    carries. *)
Theorem missing_transition_fails_the_write {rt : JsRuntime} {be : Backend}
    (cfg : ProjectConfiguration) (params : CreateIssueParams) (w : World)
    (found : option (list string)) (e1 : Env) (key : string) (e2 : Env)
    (creation : list Event) (e3 e4 : Env) (status : option string) (e5 : Env)
    (transitions : option (list IssueTransition)) (e6 : Env) :
  canWrite (jira w) params ->
  issueSearch_searchForIssuesUsingJql (searchByGlobalId cfg (p_globalId params)) 1 (env w)
  = (Ok found, e1) ->
  WrittenIssue (jira w) params e1 found key e2 creation ->
  issueRemoteLinks_createOrUpdateRemoteIssueLink (remoteLink params key) e2 = (Ok tt, e3) ->
  issues_editIssue key (updateFields cfg (jira w) params) e3 = (Ok tt, e4) ->
  issues_getIssue key e4 = (Ok status, e5) ->
  JS.opt_eqb (option_map toLowerCase status) (toLowerCase (p_status params)) = false ->
  issues_getTransitions key e5 = (Ok transitions, e6) ->
  (forall t, In t (default [] transitions) ->
             JS.opt_eqb (option_map toLowerCase (transition_toName t))
                        (toLowerCase (p_status params)) = false) ->
  let evs := (upsertRequests cfg (jira w) params key creation
              ++ [Jira (GetTransitions key)])%list in
  createOrUpdateIssue cfg params w
  = (Throw (Error ("Transition to status " ++ JS.dquote ++ p_status params ++ JS.dquote
                   ++ " not found")),
     {| trace := (trace w ++ evs)%list; env := e6; jira := jira w; repo := repo w |})
  /\ Forall (fun e => forall k id sprint keys,
                        e <> Jira (DoTransition k id)
                        /\ e <> Jira (MoveIssuesToSprintAndRank sprint keys)) evs.
Proof.
  intros Hcan Hsearch Hwritten Hlink Hedit Hget Hdiffers Hlisted Hnone evs. split.
  - rewrite (createOrUpdateIssue_reads_status cfg _ _ _ _ _ _ _ _ _ _ _
               Hcan Hsearch Hwritten Hlink Hedit Hget).
    rewrite Hdiffers. change (negb false) with true. cbv iota.
    unfold bind at 1. unfold updateIssueStatusTo, getTransitionId.
    unfold bind at 1. unfold bind at 1. unfold request at 1. simpl env. rewrite Hlisted.
    unfold ret at 1.
    assert (Hfind : match transitions with
                    | Some ts =>
                        JS.find (fun t => JS.opt_eqb (option_map toLowerCase (transition_toName t))
                                                     (toLowerCase (p_status params))) ts
                    | None => None
                    end = None).
    { destruct transitions as [ts|]; [|reflexivity].
      apply find_none. intros t Ht. now apply Hnone. }
    rewrite Hfind. unfold throw. cbn [trace jira repo].
    unfold evs. now rewrite <- !app_assoc.
  - unfold evs, upsertRequests.
    destruct Hwritten; simpl; repeat constructor; discriminate.
Qed.

(** Issue 5 is wanted in the status [In Progress]; the Jira of the
    fixture reports [Backlog] for the issue it creates and lists no
    transition: the run throws after asking for the transitions, although
    the record carries the sprint 31. *)
Lemma missing_transition_fails_the_write_witness :
  let cfg := Fixture.config "P" 10 in
  let params := issueToCreate (rt:=Fixture.runtime) cfg
                  {| fixVersions := ∅; sprints := {["S1" := 31%Z]} |} Fixture.issue5 in
  let w := Fixture.ready_world (Fixture.healthy []) in
  let run := createOrUpdateIssue (rt:=Fixture.runtime) (be:=Fixture.tracker) cfg params w in
  p_sprintBoardId params = Some 31%Z
  /\ fst run = Throw (Error ("Transition to status " ++ JS.dquote ++ "In Progress" ++ JS.dquote
                             ++ " not found"))
  /\ trace (snd run)
     = [ Log Debug (creatingIssueLine (rt:=Fixture.runtime) params);
         Jira (SearchForIssuesUsingJql (searchByGlobalId cfg (p_globalId params)) 1);
         Jira (CreateIssue (createFields (jira w) params));
         Jira (CreateOrUpdateRemoteIssueLink (remoteLink params "KEY-1"));
         Jira (EditIssue "KEY-1" (updateFields cfg (jira w) params));
         Jira (GetIssue "KEY-1");
         Jira (GetTransitions "KEY-1") ].
Proof.
  intros cfg params w run. split; [vm_compute; reflexivity|].
  edestruct (missing_transition_fails_the_write (rt:=Fixture.runtime) (be:=Fixture.tracker)
               cfg params w) as [Hrun _].
  - split; [reflexivity|]. left. reflexivity.
  - vm_compute. reflexivity.
  - apply Written_created; [intros first others Hfound; discriminate Hfound|].
    vm_compute. reflexivity.
  - vm_compute. reflexivity.
  - vm_compute. reflexivity.
  - vm_compute. reflexivity.
  - vm_compute. reflexivity.
  - vm_compute. reflexivity.
  - intros t Ht. exact (match Ht with end).
  - fold run in Hrun. rewrite Hrun. split; reflexivity.
Defined.

(** X11 - Sprint of an issue.  Whatever happens to the write of an issue,
    the issue is moved to a sprint only if its entry on the configured
    board names a sprint that the reconciliation of the sprints has
    recorded under that name, and only to the id recorded, which is not
    0. *)
Theorem issue_moves_only_to_its_recorded_sprint {rt : JsRuntime} {be : Backend}
    (cfg : ProjectConfiguration) (r : SyncRepositoryFields)
    (issue : GraphQLSearchIssuesNode) (w : World) :
  exists evs,
    added w (snd (createOrUpdateIssue cfg (issueToCreate cfg r issue) w)) evs
    /\ forall sprintId keys,
         In (Jira (MoveIssuesToSprintAndRank sprintId keys)) evs ->
         sprintId <> 0%Z
         /\ exists entry sprint,
              projectData cfg issue = Some entry
              /\ item_sprint entry = Some sprint
              /\ sprints r !! sprint_title sprint = Some sprintId.
Proof.
  assert (Hemits : forall params,
             emits (fun e => forall sprintId keys,
                        e = Jira (MoveIssuesToSprintAndRank sprintId keys) ->
                        sprintId <> 0%Z /\ p_sprintBoardId params = Some sprintId)
                   (createOrUpdateIssue cfg params)).
  { intros params.
    unfold createOrUpdateIssue, findExistingGithubIssueInJira, updateIssueStatusTo,
      getTransitionId.
    destruct (p_sprintBoardId params) as [z|]; simpl JS.truthy_opt_number;
      [destruct (JS.truthy_number z) eqn:Htruthy|];
      repeat emits_step;
      intros sprintId keys Heq; try discriminate Heq.
    injection Heq as <- _. split; [|reflexivity].
    unfold JS.truthy_number in Htruthy. intros ->. discriminate. }
  set (params := issueToCreate cfg r issue).
  specialize (Hemits params).
  destruct (Hemits w) as [evs [Hadd Hevs]].
  exists evs. split; [exact Hadd|].
  intros sprintId keys Hin.
  rewrite List.Forall_forall in Hevs.
  destruct (Hevs _ Hin sprintId keys eq_refl) as [Hnot0 Hid].
  split; [exact Hnot0|].
  unfold params, issueToCreate in Hid. simpl in Hid.
  destruct (projectData cfg issue) as [entry|]; [|discriminate].
  destruct (option_map sprint_title (item_sprint entry)) as [name|] eqn:Hname;
    [|discriminate].
  simpl in Hid. destruct (JS.truthy_string name); [|discriminate].
  destruct (item_sprint entry) as [sprint|] eqn:Hsprint; [|discriminate].
  injection Hname as <-.
  exists entry, sprint. now repeat split.
Qed.

Lemma issue_moves_only_to_its_recorded_sprint_witness :
  let r := {| fixVersions := ∅; sprints := {["S3" := 33%Z]} |} in
  exists evs,
    added (Fixture.ready_world (Fixture.healthy []))
          (snd (createOrUpdateIssue (rt:=Fixture.runtime) (be:=Fixture.tracker)
                  (Fixture.config "P" 10)
                  (issueToCreate (rt:=Fixture.runtime) (Fixture.config "P" 10) r Samples.issue7)
                  (Fixture.ready_world (Fixture.healthy [])))) evs
    /\ In (Jira (MoveIssuesToSprintAndRank 33 ["KEY-1"])) evs
    /\ forall sprintId keys,
         In (Jira (MoveIssuesToSprintAndRank sprintId keys)) evs -> sprintId <> 0%Z.
Proof.
  intros r.
  destruct (issue_moves_only_to_its_recorded_sprint (rt:=Fixture.runtime) (be:=Fixture.tracker)
              (Fixture.config "P" 10) r Samples.issue7 (Fixture.ready_world (Fixture.healthy [])))
    as [evs [Hadd Hmoves]].
  exists evs. split; [exact Hadd|]. split.
  - assert (Hevs : evs = trace (snd (createOrUpdateIssue (rt:=Fixture.runtime)
                                       (be:=Fixture.tracker) (Fixture.config "P" 10)
                                       (issueToCreate (rt:=Fixture.runtime)
                                          (Fixture.config "P" 10) r Samples.issue7)
                                       (Fixture.ready_world (Fixture.healthy [])))))
      by (symmetry; exact Hadd).
    rewrite Hevs. vm_compute. tauto.
  - intros sprintId keys Hin. exact (proj1 (Hmoves sprintId keys Hin)).
Defined.

(** ** Further properties: reconciliation *)

Section FirstOccurrences.

Context {A : Type}.

Variable key : A -> string.

Lemma findIndex_from_skip (p : A -> bool) (pre rest : list A) (i : Z) :
  (forall y, In y pre -> p y = false) ->
  JS.findIndex_from p (pre ++ rest) i
  = JS.findIndex_from p rest (i + Z.of_nat (length pre))%Z.
Proof.
  revert i. induction pre as [|y pre IH]; intros i Hpre; simpl.
  - f_equal. lia.
  - rewrite (Hpre y (or_introl eq_refl)). rewrite IH by (intros z Hz; apply Hpre; now right).
    f_equal. lia.
Qed.

Lemma findIndex_from_early (p : A -> bool) (pre rest : list A) (i : Z) :
  (exists y, In y pre /\ p y = true) ->
  (JS.findIndex_from p (pre ++ rest) i < i + Z.of_nat (length pre))%Z.
Proof.
  revert i. induction pre as [|y pre IH]; intros i [z [Hz Hp]]; [destruct Hz|].
  simpl. destruct (p y) eqn:Hy; [lia|].
  destruct Hz as [-> | Hz]; [congruence|].
  specialize (IH (i + 1)%Z (ex_intro _ z (conj Hz Hp))). lia.
Qed.

(** An element is kept by the filter on first occurrences when no
  element before it has its key. *)
Lemma first_occurrence_kept (pre rest : list A) (x : A) :
  Z.eqb (JS.findIndex (fun y => String.eqb (key y) (key x)) (pre ++ x :: rest))
        (Z.of_nat (length pre))
  = negb (existsb (fun y => String.eqb (key y) (key x)) pre).
Proof.
  unfold JS.findIndex.
  destruct (existsb (fun y => String.eqb (key y) (key x)) pre) eqn:Hex; simpl.
  - apply existsb_exists in Hex.
    pose proof (findIndex_from_early _ pre (x :: rest) 0 Hex). apply Z.eqb_neq. lia.
  - rewrite findIndex_from_skip.
    + simpl. rewrite String.eqb_refl. apply Z.eqb_eq. lia.
    + intros y Hy. destruct (String.eqb (key y) (key x)) eqn:Hk; [|reflexivity].
      assert (existsb (fun y => String.eqb (key y) (key x)) pre = true)
        by (apply existsb_exists; now exists y).
      congruence.
Qed.

Lemma first_occurrences_from (l : list A) :
  let keep := fun (m : A) (index : Z) =>
                Z.eqb (JS.findIndex (fun m2 => String.eqb (key m2) (key m)) l) index in
  forall rest pre,
    l = (pre ++ rest)%list ->
    let kept := JS.filter_index_from keep rest (Z.of_nat (length pre)) in
    List.NoDup (map key kept)
    /\ (forall y, In y kept ->
          exists before after,
            rest = (before ++ y :: after)%list
            /\ forall x, In x (pre ++ before)%list -> key x <> key y)
    /\ (forall x, In x rest ->
          In (key x) (map key pre) \/ exists y, In y kept /\ key y = key x).
Proof.
  intros keep rest. induction rest as [|x rest IH]; intros pre Hl kept.
  - split; [constructor|]. split; [intros y []|intros x []].
  - assert (Hl' : l = ((pre ++ [x]) ++ rest)%list) by (now rewrite <- app_assoc).
    specialize (IH (pre ++ [x])%list Hl').
    cbv zeta in IH. rewrite length_app in IH. simpl length in IH.
    replace (Z.of_nat (length pre + 1)) with (Z.of_nat (length pre) + 1)%Z in IH by lia.
    destruct IH as [Hnodup [Hfirst Hcover]].
    assert (Hkeep : keep x (Z.of_nat (length pre))
                    = negb (existsb (fun y => String.eqb (key y) (key x)) pre)).
    { unfold keep. rewrite Hl. apply first_occurrence_kept. }
    unfold kept. simpl. rewrite Hkeep.
    destruct (existsb (fun y => String.eqb (key y) (key x)) pre) eqn:Hex; simpl.
    + split; [exact Hnodup|]. split.
      * intros y Hy. destruct (Hfirst y Hy) as [before [after [Hrest Hbefore]]].
        exists (x :: before), after. split; [simpl; now rewrite Hrest|].
        intros z Hz. apply Hbefore. rewrite <- app_assoc. exact Hz.
      * intros z [<- | Hz].
        -- left. apply existsb_exists in Hex. destruct Hex as [y [Hy Hk]].
           apply String.eqb_eq in Hk. rewrite <- Hk. now apply in_map.
        -- destruct (Hcover z Hz) as [Hin | Hin]; [|now right].
           rewrite map_app in Hin. apply in_app_or in Hin. destruct Hin as [Hin | [Hin | []]].
           ++ now left.
           ++ left. apply existsb_exists in Hex. destruct Hex as [y [Hy Hk]].
              apply String.eqb_eq in Hk. rewrite <- Hin, <- Hk. now apply in_map.
    + assert (Hfresh : forall y, In y pre -> key y <> key x).
      { intros y Hy Hk.
        assert (existsb (fun y => String.eqb (key y) (key x)) pre = true).
        { apply existsb_exists. exists y. split; [exact Hy|now apply String.eqb_eq]. }
        congruence. }
      split; [|split].
      * constructor; [|exact Hnodup].
        intros Hin. apply in_map_iff in Hin. destruct Hin as [y [Hk Hy]].
        destruct (Hfirst y Hy) as [before [after [_ Hbefore]]].
        apply (Hbefore x); [|now symmetry].
        apply in_or_app. left. apply in_or_app. right. now left.
      * intros y [<- | Hy].
        -- exists [], rest. split; [reflexivity|]. rewrite app_nil_r. exact Hfresh.
        -- destruct (Hfirst y Hy) as [before [after [Hrest Hbefore]]].
           exists (x :: before), after. split; [simpl; now rewrite Hrest|].
           intros z Hz. apply Hbefore. rewrite <- app_assoc. exact Hz.
      * intros z [<- | Hz].
        -- right. exists x. split; [now left|reflexivity].
        -- destruct (Hcover z Hz) as [Hin | [y [Hy Hk]]].
           ++ rewrite map_app in Hin. apply in_app_or in Hin. destruct Hin as [Hin | [Hin | []]].
              ** now left.
              ** right. exists x. split; [now left|exact Hin].
           ++ right. exists y. split; [now right|exact Hk].
Qed.

Lemma first_occurrences (l : list A) :
  let kept :=
    JS.filter_index
      (fun (m : A) (index : Z) =>
         Z.eqb (JS.findIndex (fun m2 => String.eqb (key m2) (key m)) l) index) l in
  List.NoDup (map key kept)
  /\ (forall y, In y kept ->
        exists before after,
          l = (before ++ y :: after)%list /\ forall x, In x before -> key x <> key y)
  /\ (forall x, In x l -> exists y, In y kept /\ key y = key x).
Proof.
  intros kept.
  destruct (first_occurrences_from l l [] eq_refl) as [Hnodup [Hfirst Hcover]].
  split; [exact Hnodup|]. split; [exact Hfirst|].
  intros x Hx. destruct (Hcover x Hx) as [[] | Hy]. exact Hy.
Qed.

End FirstOccurrences.

(** X12 - Deduplication.  Among the milestones of the fetched issues, and
    among the sprints of their entries on the configured board, the
    reconciliation keeps exactly one of each title, the first in the order
    of the fetch: the titles kept are pairwise distinct, each one kept is
    preceded by none of its title, and every title fetched is kept. *)
Theorem deduplication_keeps_the_first_of_each_title
    (cfg : ProjectConfiguration) (issues : list GraphQLSearchIssuesNode) :
  (List.NoDup (map milestone_title (githubReleasesWithoutDuplicates issues))
   /\ (forall kept, In kept (githubReleasesWithoutDuplicates issues) ->
         exists before after,
           githubReleases issues = (before ++ kept :: after)%list
           /\ forall m, In m before -> milestone_title m <> milestone_title kept)
   /\ (forall m, In m (githubReleases issues) ->
         exists kept, In kept (githubReleasesWithoutDuplicates issues)
                      /\ milestone_title kept = milestone_title m))
  /\ (List.NoDup (map sprint_title (githubSprintsWithoutDuplicates cfg issues))
      /\ (forall kept, In kept (githubSprintsWithoutDuplicates cfg issues) ->
            exists before after,
              githubSprints cfg issues = (before ++ kept :: after)%list
              /\ forall s, In s before -> sprint_title s <> sprint_title kept)
      /\ (forall s, In s (githubSprints cfg issues) ->
            exists kept, In kept (githubSprintsWithoutDuplicates cfg issues)
                         /\ sprint_title kept = sprint_title s)).
Proof.
  split.
  - exact (first_occurrences milestone_title (githubReleases issues)).
  - exact (first_occurrences sprint_title (githubSprints cfg issues)).
Qed.

Lemma deduplication_keeps_the_first_of_each_title_witness :
  githubReleasesWithoutDuplicates [Fixture.issue4; Fixture.issue1; Samples.issue8]
  = [Fixture.milestone_v1]
  /\ List.NoDup (map milestone_title
                     (githubReleasesWithoutDuplicates
                        [Fixture.issue4; Fixture.issue1; Samples.issue8]))
  /\ exists kept,
       In kept (githubReleasesWithoutDuplicates
                  [Fixture.issue4; Fixture.issue1; Samples.issue8])
       /\ milestone_title kept = "v1".
Proof.
  destruct (deduplication_keeps_the_first_of_each_title (Fixture.config "P" 10)
              [Fixture.issue4; Fixture.issue1; Samples.issue8])
    as [[Hdistinct [_ Hcover]] _].
  split; [reflexivity|]. split; [exact Hdistinct|].
  apply (Hcover Fixture.milestone_v1). vm_compute. left. reflexivity.
Defined.

Section ReleaseFacts.

Context {rt : JsRuntime} {be : Backend}.

Variable cfg : ProjectConfiguration.

Lemma creations_app (evs1 evs2 : list Event) :
  creations (evs1 ++ evs2) = (creations evs1 ++ creations evs2)%list.
Proof. unfold creations. apply flat_map_app. Qed.

Lemma creations_none (evs : list Event) :
  Forall (fun e => forall version, e <> Jira (CreateVersionCall version)) evs ->
  creations evs = [].
Proof.
  induction 1 as [|e evs He _ IH]; [reflexivity|].
  simpl. rewrite IH, app_nil_r.
  destruct e as [level message|ms|search|call]; try reflexivity.
  destruct call; try reflexivity. exfalso. eapply He. reflexivity.
Qed.

Lemma append_inj_r (prefix a b : string) : prefix ++ a = prefix ++ b -> a = b.
Proof.
  induction prefix as [|c prefix IH]; simpl; [easy|].
  intros Heq. injection Heq as Heq. now apply IH.
Qed.

Lemma NoDup_map_filter {A B : Type} (f : A -> B) (p : A -> bool) (l : list A) :
  List.NoDup (map f l) -> List.NoDup (map f (List.filter p l)).
Proof.
  induction l as [|x l IH]; simpl; [easy|].
  intros Hnodup. apply List.NoDup_cons_iff in Hnodup. destruct Hnodup as [Hx Hnodup].
  destruct (p x); simpl; [|now apply IH].
  constructor; [|now apply IH].
  intros Hin. apply Hx. apply in_map_iff in Hin. destruct Hin as [y [Hy Hin]].
  apply filter_In in Hin. rewrite <- Hy. apply in_map. tauto.
Qed.

Lemma fromGithubMilestoneToJiraRelease_name m g :
  fromGithubMilestoneToJiraRelease m = Ok g ->
  release_name g = milestone_title m
  /\ release_released g = default false (milestone_closed m).
Proof.
  unfold fromGithubMilestoneToJiraRelease. intros Hconv.
  destruct (JS.truthy_opt_string (milestone_dueOn m));
    [destruct (dateToISO _); try discriminate|];
    injection Hconv as <-; now split.
Qed.

(** The creation loop asks for the creation of releases named after the
  milestones it is given, once each at most. *)
Lemma createReleases_creations (l : list GraphQLSearchIssuesNodeMilestone) :
  forall w, exists evs,
    added w (snd (createReleases l w)) evs
    /\ (List.NoDup (map milestone_title l) -> List.NoDup (map cv_name (creations evs)))
    /\ forall version, In version (creations evs) ->
         exists m, In m l /\ cv_name version = milestone_title m
                   /\ cv_released version = default false (milestone_closed m).
Proof.
  induction l as [|m l IH]; intros w.
  - exists []. split; [apply added_nil|]. split; [constructor|intros version []].
  - simpl. unfold bind at 1. unfold lift.
    destruct (fromGithubMilestoneToJiraRelease m) as [g|e|] eqn:Hconv;
      try (exists []; split; [apply added_nil|]; split; [constructor|intros version []]).
    destruct (fromGithubMilestoneToJiraRelease_name m g Hconv) as [Hname Hreleased].
    unfold bind. unfold detached, createRelease, bind, get_jira.
    destruct (project (jira w)) as [p|].
    + unfold request. destruct (projectVersions_createVersion _ (env w)) as [answer e1].
      set (version := {| cv_projectId := Number_of_string (project_id p);
                         cv_name := release_name g;
                         cv_released := release_released g;
                         cv_releaseDate := release_releaseDate g |}).
      set (w1 := {| trace := (trace w ++ [Jira (CreateVersionCall version)])%list;
                    env := e1; jira := jira w; repo := repo w |}).
      destruct (IH w1) as [evs [Hadd [Hnodup Hin]]].
      assert (Hhere : exists m0, In m0 (m :: l) /\ cv_name version = milestone_title m0
                                 /\ cv_released version = default false (milestone_closed m0)).
      { exists m. split; [now left|]. now split. }
      assert (Hall : added w (snd (createReleases l w1)) (Jira (CreateVersionCall version) :: evs)
                     /\ (List.NoDup (map milestone_title (m :: l)) ->
                         List.NoDup (map cv_name (creations (Jira (CreateVersionCall version) :: evs))))
                     /\ forall v, In v (creations (Jira (CreateVersionCall version) :: evs)) ->
                          exists m0, In m0 (m :: l) /\ cv_name v = milestone_title m0
                                     /\ cv_released v = default false (milestone_closed m0)).
      { split; [|split].
        - unfold added in *. rewrite Hadd. simpl. now rewrite <- app_assoc.
        - intros Hl. simpl in Hl. apply List.NoDup_cons_iff in Hl. destruct Hl as [Hm Hl].
          simpl. constructor; [|now apply Hnodup].
          intros Hdup. apply in_map_iff in Hdup. destruct Hdup as [v [Hv Hdup]].
          destruct (Hin v Hdup) as [m' [Hm' [Hname' _]]].
          apply Hm. rewrite <- Hname. simpl in Hv. rewrite <- Hv, Hname'. now apply in_map.
        - intros v [<- | Hv]; [exact Hhere|].
          destruct (Hin v Hv) as [m' [Hm' Hrest]]. exists m'. split; [now right|exact Hrest]. }
      destruct answer as [[]|e|].
      * eexists. exact Hall.
      * eexists. exact Hall.
      * exists [Jira (CreateVersionCall version)]. split; [reflexivity|]. split.
        -- intros _. simpl. constructor; [intros []|constructor].
        -- intros v [<- | []]. exact Hhere.
    + destruct (IH w) as [evs [Hadd [Hnodup Hin]]].
      exists evs. split; [exact Hadd|]. split.
      * intros Hl. simpl in Hl. apply List.NoDup_cons_iff in Hl. now apply Hnodup.
      * intros v Hv. destruct (Hin v Hv) as [m' [Hm' Hrest]].
        exists m'. split; [now right|exact Hrest].
Qed.

Lemma updateReleases_emits (P : Event -> Prop) jiraReleases
      (l : list GraphQLSearchIssuesNodeMilestone) :
  (forall u, P (Jira (UpdateVersionCall u))) ->
  emits P (updateReleases jiraReleases l).
Proof.
  intros HP. induction l as [|m l IH]; simpl.
  - apply emits_ret.
  - destruct (findJiraRelease jiraReleases (milestone_title m)); [|exact IH].
    apply emits_bind; [apply emits_lift | intros g].
    apply emits_bind; [|intros _; exact IH].
    unfold updateRelease. repeat emits_step. apply HP.
Qed.

Lemma releasesToCreate_titles jiraReleases issues :
  List.NoDup (map milestone_title (releasesToCreate cfg jiraReleases issues))
  /\ forall m', In m' (releasesToCreate cfg jiraReleases issues) ->
       (exists m, In m (githubReleasesWithoutDuplicates issues)
                  /\ milestone_title m' = cfg_name cfg ++ " " ++ milestone_title m
                  /\ milestone_closed m' = milestone_closed m)
       /\ forall release, In release jiraReleases ->
                          version_name release <> Some (milestone_title m').
Proof.
  unfold releasesToCreate, githubReleasesWithProjectPrefix. split.
  - apply NoDup_map_filter. rewrite map_map. simpl.
    destruct (first_occurrences milestone_title (githubReleases issues)) as [Hnodup _].
    fold (githubReleasesWithoutDuplicates issues) in Hnodup.
    induction (githubReleasesWithoutDuplicates issues) as [|m l IH]; [constructor|].
    simpl in *. apply List.NoDup_cons_iff in Hnodup. destruct Hnodup as [Hm Hnodup].
    constructor; [|now apply IH].
    intros Hin. apply in_map_iff in Hin. destruct Hin as [m2 [Heq Hin]].
    apply append_inj_r in Heq. apply append_inj_r in Heq.
    apply Hm. rewrite <- Heq. now apply in_map.
  - intros m' Hin. apply filter_In in Hin. destruct Hin as [Hin Hmissing].
    apply in_map_iff in Hin. destruct Hin as [m [<- Hin]]. split.
    + exists m. now repeat split.
    + intros release Hrelease Hname.
      apply negb_true_iff, bool_decide_eq_false in Hmissing. apply Hmissing.
      unfold findJiraRelease, JS.find.
      destruct (List.find _ jiraReleases) eqn:Hfind; [now eexists|].
      pose proof (List.find_none _ _ Hfind release Hrelease) as Hno.
      simpl in Hno. apply opt_eqb_eq in Hname. simpl in Hname. congruence.
Qed.

End ReleaseFacts.

(** X13 - Releases.  In every run of the reconciliation of the releases,
    complete or not, the releases whose creation is requested have
    pairwise distinct names; each is named "<project name> <title>" after
    one of the deduplicated milestones, with the released flag of that
    milestone (false when the milestone does not say), and no release of
    the first listing of the Jira project has that name. *)
Theorem releases_are_created_once_under_the_project_name {rt : JsRuntime} {be : Backend}
    (cfg : ProjectConfiguration) (issues : list GraphQLSearchIssuesNode) (w : World) :
  exists evs,
    added w (snd (syncReleases cfg issues w)) evs
    /\ List.NoDup (map cv_name (creations evs))
    /\ forall version, In version (creations evs) ->
         (exists m, In m (githubReleasesWithoutDuplicates issues)
                    /\ cv_name version = cfg_name cfg ++ " " ++ milestone_title m
                    /\ cv_released version = default false (milestone_closed m))
         /\ forall listed e',
              projectVersions_getProjectVersions (jira_projectKey (cfg_jira cfg)) (env w)
              = (Ok listed, e') ->
              forall release, In release listed ->
                              version_name release <> Some (cv_name version).
Proof.
  unfold syncReleases, getReleases.
  unfold bind at 1. unfold request at 1.
  destruct (projectVersions_getProjectVersions _ (env w)) as [[listed|e|] e1] eqn:Hlisted;
    try (exists [Jira (GetProjectVersions (jira_projectKey (cfg_jira cfg)))];
         split; [reflexivity|]; split; [constructor|intros version []]).
  set (first := Jira (GetProjectVersions (jira_projectKey (cfg_jira cfg)))).
  set (w1 := {| trace := (trace w ++ [first])%list;
                env := e1; jira := jira w; repo := repo w |}).
  destruct (createReleases_creations (releasesToCreate cfg listed issues) w1)
    as [evs1 [Hadd1 [Hnodup1 Hin1]]].
  destruct (releasesToCreate_titles cfg listed issues) as [Htitles Hfrom].
  pose (quiet := fun e : Event => forall version, e <> Jira (CreateVersionCall version)).
  assert (Hresult :
            forall evs2, Forall quiet evs2 ->
              List.NoDup (map cv_name (creations (first :: evs1 ++ evs2)))
              /\ forall version, In version (creations (first :: evs1 ++ evs2)) ->
                   (exists m, In m (githubReleasesWithoutDuplicates issues)
                              /\ cv_name version = cfg_name cfg ++ " " ++ milestone_title m
                              /\ cv_released version = default false (milestone_closed m))
                   /\ forall listed0 e',
                        (Ok listed, e1) = (Ok listed0, e') ->
                        forall release, In release listed0 ->
                                        version_name release <> Some (cv_name version)).
  { intros evs2 Hquiet. simpl. rewrite creations_app, (creations_none evs2 Hquiet), app_nil_r.
    split; [now apply Hnodup1|].
    intros version Hversion. destruct (Hin1 version Hversion) as [m' [Hm' [Hname Hreleased]]].
    destruct (Hfrom m' Hm') as [[m [Hm [Htitle Hclosed]]] Habsent].
    split.
    - exists m. split; [exact Hm|]. split; [congruence|]. now rewrite Hreleased, Hclosed.
    - intros listed0 e' Heq release Hrelease. injection Heq as <- _.
      rewrite Hname. now apply Habsent. }
  unfold bind at 1.
  destruct (createReleases (releasesToCreate cfg listed issues) w1) as [[[]|e|] w2] eqn:Hcreate;
    simpl in Hadd1.
  - match goal with
    | |- context [snd (?c w2)] => assert (Hrest : emits quiet c)
    end.
    { apply emits_bind; [apply updateReleases_emits; intros u v; discriminate|].
      intros _. repeat emits_step. intros v. discriminate. }
    destruct (Hrest w2) as [evs2 [Hadd2 Hquiet2]].
    exists (first :: evs1 ++ evs2)%list. split; [|now apply Hresult].
    unfold added in *. rewrite Hadd2, Hadd1. simpl. now rewrite <- !app_assoc.
  - exists (first :: evs1 ++ [])%list. split; [|apply Hresult; constructor].
    unfold added in *. simpl. rewrite Hadd1. simpl. now rewrite app_nil_r, <- !app_assoc.
  - exists (first :: evs1 ++ [])%list. split; [|apply Hresult; constructor].
    unfold added in *. simpl. rewrite Hadd1. simpl. now rewrite app_nil_r, <- !app_assoc.
Qed.

Lemma releases_are_created_once_under_the_project_name_witness :
  let run := syncReleases (rt:=Fixture.runtime) (be:=Fixture.tracker) (Fixture.config "P" 10)
               [Fixture.issue4; Samples.issue8] (Fixture.ready_world (Fixture.healthy [])) in
  map cv_name (creations (trace (snd run))) = ["P v1"]
  /\ List.NoDup (map cv_name (creations (trace (snd run)))).
Proof.
  intros run. split; [vm_compute; reflexivity|].
  destruct (releases_are_created_once_under_the_project_name
              (rt:=Fixture.runtime) (be:=Fixture.tracker) (Fixture.config "P" 10)
              [Fixture.issue4; Samples.issue8] (Fixture.ready_world (Fixture.healthy [])))
    as [evs [Hadd [Hdistinct _]]].
  assert (Hevs : evs = trace (snd run)) by (symmetry; exact Hadd).
  rewrite <- Hevs. exact Hdistinct.
Defined.

Section SprintCreation.

Context {rt : JsRuntime} {be : Backend}.

Variable cfg : ProjectConfiguration.

(** A creation loop that completes has asked for the creation of every
  sprint it was given, on the board of the client. *)
Lemma createSprints_Ok (l : list GraphQLSearchIssuesNodeSprint) :
  forall w w',
    createSprints l w = (Ok tt, w') ->
    exists evs,
      added w w' evs
      /\ forall s, In s l ->
           exists start id,
             Date_toISOString (sprint_startDate s) = Some start
             /\ boardId (jira w) = Some id
             /\ In (Jira (CreateSprintCall
                            {| csp_originBoardId := id;
                               csp_name := sprint_title s;
                               csp_startDate := start;
                               csp_endDate := moment_add_days start (sprint_duration s) |}))
                   evs.
Proof.
  induction l as [|s l IH]; intros w w' Hrun; simpl in Hrun.
  - unfold ret in Hrun. injection Hrun as <-. exists []. split; [apply added_nil|intros s []].
  - apply bind_Ok in Hrun. destruct Hrun as [g [w1 [Hconv Hrun]]].
    unfold lift in Hconv. injection Hconv as Hconv <-.
    apply bind_Ok in Hrun. destruct Hrun as [[] [w2 [Hcreate Hrun]]].
    unfold fromGithubSprintToJiraSprint, dateToISO in Hconv.
    destruct (Date_toISOString (sprint_startDate s)) as [start|] eqn:Hstart; [|discriminate].
    injection Hconv as <-.
    unfold createSprint in Hcreate. unfold bind, get_jira in Hcreate.
    destruct (boardId (jira w)) as [id|] eqn:Hboard; [|discriminate].
    destruct (JS.truthy_number id); [|discriminate].
    apply request_inv in Hcreate. destruct Hcreate as [e' [_ ->]].
    destruct (IH _ _ Hrun) as [evs [Hadd Hsent]].
    eexists. split; [eapply added_trans; [apply added_after_call|exact Hadd]|].
    intros s' [<- | Hs'].
    + exists start, id. split; [exact Hstart|]. split; [reflexivity|]. now left.
    + destruct (Hsent s' Hs') as [start' [id' [Hstart' [Hboard' Hin]]]].
      simpl in Hboard'. exists start', id'. split; [exact Hstart'|].
      split; [congruence|]. now right.
Qed.

End SprintCreation.

(** X14 - Sprints.  In a run of the reconciliation of the sprints that
    completes, every deduplicated source sprint that has a start date and
    a duration other than 0, and whose title no sprint of the first
    listing of the board carries, has been created on that board, under
    its title, from its start date to that date plus its duration in
    days. *)
Theorem startable_missing_sprint_is_created {rt : JsRuntime} {be : Backend}
    (cfg : ProjectConfiguration) (fuel : nat) (issues : list GraphQLSearchIssuesNode)
    (w w' : World) :
  syncSprints cfg fuel issues w = (Ok tt, w') ->
  exists listed w1 evs,
    getSprints cfg fuel w = (Ok listed, w1)
    /\ added w w' evs
    /\ forall s,
         In s (githubSprintsWithoutDuplicates cfg issues) ->
         sprint_startDate s <> "" ->
         sprint_duration s <> 0%Z ->
         (forall j, In j listed -> jsprint_name j <> sprint_title s) ->
         exists start id,
           Date_toISOString (sprint_startDate s) = Some start
           /\ boardId (jira w1) = Some id
           /\ In (Jira (CreateSprintCall
                          {| csp_originBoardId := id;
                             csp_name := sprint_title s;
                             csp_startDate := start;
                             csp_endDate := moment_add_days start (sprint_duration s) |}))
                 evs.
Proof.
  intros Hrun. unfold syncSprints in Hrun.
  apply bind_Ok in Hrun. destruct Hrun as [listed [w1 [Hget Hrun]]].
  apply bind_Ok in Hrun. destruct Hrun as [[] [w2 [Hcreate Hrun]]].
  apply bind_Ok in Hrun. destruct Hrun as [[] [w3 [Hupdate Hrun]]].
  apply bind_Ok in Hrun. destruct Hrun as [after [w4 [Hget' Hrun]]].
  unfold bind, get_repo, set_repo in Hrun. injection Hrun as <-.
  pose (any := fun _ : Event => True).
  destruct (emits_added any _ _ _ _
              (getSprints_emits cfg any fuel ltac:(intros; exact I) ltac:(intros; exact I)) Hget)
    as [evs1 [Hadd1 _]].
  destruct (createSprints_Ok _ _ _ Hcreate) as [evs2 [Hadd2 Hsent]].
  destruct (emits_added any _ _ _ _
              (updateSprints_emits any _ _ ltac:(intros; exact I)) Hupdate)
    as [evs3 [Hadd3 _]].
  destruct (emits_added any _ _ _ _
              (getSprints_emits cfg any fuel ltac:(intros; exact I) ltac:(intros; exact I)) Hget')
    as [evs4 [Hadd4 _]].
  exists listed, w1, (evs1 ++ evs2 ++ evs3 ++ evs4)%list.
  split; [exact Hget|]. split.
  { unfold added in *. simpl. rewrite Hadd4, Hadd3, Hadd2, Hadd1. now rewrite <- !app_assoc. }
  intros s Hs Hstart Hduration Hmissing.
  destruct (Hsent s) as [start [id [Hiso [Hboard Hin]]]].
  { unfold sprintsToCreateInJira. apply filter_In. split.
    - apply filter_In. split; [exact Hs|].
      apply negb_true_iff, bool_decide_eq_false. intros [j Hfind].
      apply find_Some in Hfind. destruct Hfind as [Hj Hname].
      apply String.eqb_eq in Hname. now apply (Hmissing j).
    - apply andb_true_intro. split.
      + unfold JS.truthy_string. apply negb_true_iff. now apply String.eqb_neq.
      + unfold JS.truthy_number. apply negb_true_iff. now apply Z.eqb_neq. }
  exists start, id. split; [exact Hiso|]. split; [exact Hboard|].
  apply in_or_app. right. apply in_or_app. now left.
Qed.

Lemma startable_missing_sprint_is_created_witness :
  In (Jira (CreateSprintCall {| csp_originBoardId := 7;
                                csp_name := "S3";
                                csp_startDate := "2024-03-01";
                                csp_endDate := "2024-03-01+14d" |}))
     (trace (snd (syncSprints (rt:=Fixture.runtime) (be:=Fixture.tracker)
                    (Fixture.config "P" 10) 3 [Samples.issue7]
                    (Fixture.ready_world (Fixture.healthy []))))).
Proof.
  destruct (startable_missing_sprint_is_created (rt:=Fixture.runtime) (be:=Fixture.tracker)
              (Fixture.config "P" 10) 3 [Samples.issue7]
              (Fixture.ready_world (Fixture.healthy []))
              (snd (syncSprints (rt:=Fixture.runtime) (be:=Fixture.tracker)
                      (Fixture.config "P" 10) 3 [Samples.issue7]
                      (Fixture.ready_world (Fixture.healthy []))))
              eq_refl)
    as [listed [w1 [evs [Hget [Hadd Hcreated]]]]].
  vm_compute in Hget. injection Hget as <- <-.
  destruct (Hcreated Samples.sprint_S3) as [start [id [Hstart [Hboard Hin]]]].
  - vm_compute. left. reflexivity.
  - discriminate.
  - discriminate.
  - intros j [].
  - vm_compute in Hstart. injection Hstart as <-.
    vm_compute in Hboard. injection Hboard as <-.
    assert (Hevs : evs = trace (snd (syncSprints (rt:=Fixture.runtime) (be:=Fixture.tracker)
                                       (Fixture.config "P" 10) 3 [Samples.issue7]
                                       (Fixture.ready_world (Fixture.healthy [])))))
      by (symmetry; exact Hadd).
    rewrite <- Hevs. exact Hin.
Defined.

Section RecordFacts.

Context {rt : JsRuntime} {be : Backend}.

Variable cfg : ProjectConfiguration.

Lemma pauses_app (evs1 evs2 : list Event) :
  pauses (evs1 ++ evs2) = (pauses evs1 ++ pauses evs2)%list.
Proof. unfold pauses. apply flat_map_app. Qed.

Lemma pauses_none (evs : list Event) :
  Forall (fun e => forall ms, e <> Pause ms) evs -> pauses evs = [].
Proof.
  induction 1 as [|e evs He _ IH]; [reflexivity|].
  simpl. rewrite IH, app_nil_r.
  destruct e as [level message|ms|search|call]; try reflexivity.
  exfalso. eapply He. reflexivity.
Qed.

Lemma createOrUpdateIssue_no_pause params :
  emits (fun e => forall ms, e <> Pause ms) (createOrUpdateIssue cfg params).
Proof.
  unfold createOrUpdateIssue, findExistingGithubIssueInJira, updateIssueStatusTo,
    getTransitionId.
  repeat emits_step; intros ms; discriminate.
Qed.

(** One record takes one pause of 30 s at most. *)
Lemma syncIssue_pauses issue w :
  exists evs,
    added w (snd (syncIssue cfg issue w)) evs
    /\ (pauses evs = [] \/ pauses evs = [30000%Z]).
Proof.
  unfold syncIssue. unfold bind at 1. unfold log at 1, emit at 1.
  unfold bind at 1. unfold get_repo at 1. cbv beta iota. simpl repo.
  set (params := issueToCreate cfg (repo w) issue).
  set (w0 := {| trace := _; env := env w; jira := jira w; repo := repo w |}).
  unfold try_catch. unfold bind at 1.
  destruct (createOrUpdateIssue cfg params w0) as [[key|cause|] w1] eqn:Hfirst;
    destruct (emits_added _ _ _ _ _ (createOrUpdateIssue_no_pause params) Hfirst)
      as [evs1 [Hadd1 Hquiet1]];
    apply pauses_none in Hquiet1.
  - eexists. split.
    + eapply added_trans; [apply (added_after_log w)|exact Hadd1].
    + left. simpl. exact Hquiet1.
  - unfold bind at 1. unfold log at 1, emit at 1. cbv beta iota.
    destruct (isThrottling cause).
    + unfold bind at 1. unfold log at 1, emit at 1. cbv beta iota.
      unfold bind at 1. unfold sleep at 1, emit at 1. cbv beta iota.
      unfold bind at 1.
      match goal with
      | |- context [createOrUpdateIssue cfg params ?w2] =>
          destruct (createOrUpdateIssue cfg params w2) as [res w3] eqn:Hretry;
          destruct (emits_added _ _ _ _ _ (createOrUpdateIssue_no_pause params) Hretry)
            as [evs2 [Hadd2 Hquiet2]]
      end.
      apply pauses_none in Hquiet2.
      exists ([Log Info ("Create or update issue " ++ issue_url issue ++ " in Jira...")]
              ++ evs1
              ++ [Log Debug ("Error creating issue in Jira " ++ String_of_error cause);
                  Log Warning
                    "Jira unauthorized/throttling rate limit reached, pausing for 30s before retrying";
                  Pause 30000]
              ++ evs2)%list.
      split.
      * assert (Hw3 : added w w3
                        ([Log Info ("Create or update issue " ++ issue_url issue ++ " in Jira...")]
                         ++ evs1
                         ++ [Log Debug ("Error creating issue in Jira " ++ String_of_error cause);
                             Log Warning
                               "Jira unauthorized/throttling rate limit reached, pausing for 30s before retrying";
                             Pause 30000]
                         ++ evs2)%list).
        { unfold added in *. rewrite Hadd2. simpl. rewrite Hadd1. simpl.
          now rewrite <- !app_assoc. }
        now destruct res.
      * right. rewrite !pauses_app, Hquiet1, Hquiet2. reflexivity.
    + eexists. split.
      * eapply added_trans; [apply (added_after_log w)|].
        eapply added_trans; [exact Hadd1|]. apply added_after_log.
      * left. rewrite !pauses_app, Hquiet1. reflexivity.
  - eexists. split.
    + eapply added_trans; [apply (added_after_log w)|exact Hadd1].
    + left. simpl. exact Hquiet1.
Qed.

End RecordFacts.

(** X15 - Failed write.  When the write of a record fails with an error
    that is not the throttling signal (HTTP 401, Unauthorized,
    ERR_BAD_REQUEST), the error is logged at debug level and nothing is
    thrown: the loop over the batch goes on with the next record, from the
    state the failed write has left. *)
Theorem failed_write_is_logged_and_skipped {rt : JsRuntime} {be : Backend}
    (cfg : ProjectConfiguration) (issue : GraphQLSearchIssuesNode) (w w1 : World)
    (cause : JsError) :
  createOrUpdateIssue cfg (issueToCreate cfg (repo w) issue)
    (after_log w Info ("Create or update issue " ++ issue_url issue ++ " in Jira..."))
  = (Throw cause, w1) ->
  isThrottling cause = false ->
  let logged := after_log w1 Debug ("Error creating issue in Jira " ++ String_of_error cause) in
  syncIssue cfg issue w = (Ok tt, logged)
  /\ forall rest, syncIssues cfg (issue :: rest) w = syncIssues cfg rest logged.
Proof.
  intros Hfirst Hother logged.
  assert (Hrun : syncIssue cfg issue w = (Ok tt, logged)).
  { unfold syncIssue, bind, log, emit, get_repo, try_catch. simpl.
    unfold after_log in Hfirst. rewrite Hfirst. rewrite Hother. reflexivity. }
  split; [exact Hrun|].
  intros rest. simpl. unfold bind at 1. now rewrite Hrun.
Qed.

Lemma failed_write_is_logged_and_skipped_witness :
  fst (syncIssue (rt:=Fixture.runtime) (be:=Fixture.tracker) (Fixture.config "P" 10)
         Fixture.issue5 (Fixture.ready_world (Fixture.healthy [])))
  = Ok tt
  /\ In (Log Debug ("Error creating issue in Jira Transition to status " ++ JS.dquote
                    ++ "In Progress" ++ JS.dquote ++ " not found"))
        (trace (snd (syncIssue (rt:=Fixture.runtime) (be:=Fixture.tracker)
                       (Fixture.config "P" 10) Fixture.issue5
                       (Fixture.ready_world (Fixture.healthy []))))).
Proof.
  pose (w := Fixture.ready_world (Fixture.healthy [])).
  pose (first := createOrUpdateIssue (rt:=Fixture.runtime) (be:=Fixture.tracker)
                   (Fixture.config "P" 10)
                   (issueToCreate (rt:=Fixture.runtime) (Fixture.config "P" 10) (repo w)
                                  Fixture.issue5)
                   (after_log w Info ("Create or update issue " ++ issue_url Fixture.issue5
                                      ++ " in Jira..."))).
  destruct (failed_write_is_logged_and_skipped (rt:=Fixture.runtime) (be:=Fixture.tracker)
              (Fixture.config "P" 10) Fixture.issue5 w (snd first)
              (Error ("Transition to status " ++ JS.dquote ++ "In Progress" ++ JS.dquote
                      ++ " not found")))
    as [Hrun _].
  - vm_compute. reflexivity.
  - reflexivity.
  - fold w. rewrite Hrun. split; [reflexivity|]. vm_compute. tauto.
Defined.

(** X16 - Throttled write.  When the write of a record fails with the
    throttling signal, the error and a warning are logged, 30 s are waited
    and the same write is sent once more; when this second attempt
    succeeds, the record is done and the loop goes on with the next
    record. *)
Theorem throttled_write_is_retried_after_the_pause {rt : JsRuntime} {be : Backend}
    (cfg : ProjectConfiguration) (issue : GraphQLSearchIssuesNode) (w w1 w2 : World)
    (cause : JsError) (key : string) :
  let params := issueToCreate cfg (repo w) issue in
  createOrUpdateIssue cfg params
    (after_log w Info ("Create or update issue " ++ issue_url issue ++ " in Jira..."))
  = (Throw cause, w1) ->
  isThrottling cause = true ->
  createOrUpdateIssue cfg params
    (after_pause
       (after_log
          (after_log w1 Debug ("Error creating issue in Jira " ++ String_of_error cause))
          Warning
          "Jira unauthorized/throttling rate limit reached, pausing for 30s before retrying")
       30000)
  = (Ok key, w2) ->
  syncIssue cfg issue w = (Ok tt, w2)
  /\ forall rest, syncIssues cfg (issue :: rest) w = syncIssues cfg rest w2.
Proof.
  intros params Hfirst Hthrottled Hretry.
  assert (Hrun : syncIssue cfg issue w = (Ok tt, w2)).
  { unfold syncIssue, bind, log, sleep, emit, get_repo, try_catch. simpl.
    unfold after_log in Hfirst. fold params. rewrite Hfirst. rewrite Hthrottled.
    unfold after_pause, after_log in Hretry. simpl in Hretry. simpl.
    rewrite Hretry. reflexivity. }
  split; [exact Hrun|].
  intros rest. simpl. unfold bind at 1. now rewrite Hrun.
Qed.

Lemma throttled_write_is_retried_after_the_pause_witness :
  fst (syncIssue (rt:=Fixture.runtime) (be:=Fixture.tracker) (Fixture.config "P" 10)
         Fixture.issue1 (Fixture.ready_world Samples.throttled_once))
  = Ok tt
  /\ pauses (trace (snd (syncIssue (rt:=Fixture.runtime) (be:=Fixture.tracker)
                           (Fixture.config "P" 10) Fixture.issue1
                           (Fixture.ready_world Samples.throttled_once))))
     = [30000%Z].
Proof.
  pose (w := Fixture.ready_world Samples.throttled_once).
  pose (params := issueToCreate (rt:=Fixture.runtime) (Fixture.config "P" 10) (repo w)
                                Fixture.issue1).
  pose (first := createOrUpdateIssue (rt:=Fixture.runtime) (be:=Fixture.tracker)
                   (Fixture.config "P" 10) params
                   (after_log w Info ("Create or update issue " ++ issue_url Fixture.issue1
                                      ++ " in Jira..."))).
  pose (second := createOrUpdateIssue (rt:=Fixture.runtime) (be:=Fixture.tracker)
                    (Fixture.config "P" 10) params
                    (after_pause
                       (after_log
                          (after_log (snd first) Debug
                             ("Error creating issue in Jira "
                              ++ String_of_error (JsRuntime:=Fixture.runtime)
                                   Fixture.unauthorized))
                          Warning
                          "Jira unauthorized/throttling rate limit reached, pausing for 30s before retrying")
                       30000)).
  destruct (throttled_write_is_retried_after_the_pause
              (rt:=Fixture.runtime) (be:=Fixture.tracker)
              (Fixture.config "P" 10) Fixture.issue1 w (snd first) (snd second)
              Fixture.unauthorized "KEY-1")
    as [Hrun _].
  - vm_compute. reflexivity.
  - reflexivity.
  - vm_compute. reflexivity.
  - fold w. rewrite Hrun. split; [reflexivity|]. vm_compute. reflexivity.
Defined.

(** X17 - Pauses.  Whatever the trackers answer, the loop over a batch
    pauses at most once per record, and every pause lasts 30 000 ms. *)
Theorem batch_pauses_at_most_once_per_record {rt : JsRuntime} {be : Backend}
    (cfg : ProjectConfiguration) (issues : list GraphQLSearchIssuesNode) (w : World) :
  exists evs,
    added w (snd (syncIssues cfg issues w)) evs
    /\ Forall (fun ms => ms = 30000%Z) (pauses evs)
    /\ length (pauses evs) <= length issues.
Proof.
  revert w. induction issues as [|issue rest IH]; intros w.
  - exists []. split; [apply added_nil|]. split; [constructor|simpl; lia].
  - simpl. unfold bind.
    destruct (syncIssue_pauses cfg issue w) as [evs1 [Hadd1 Hpauses1]].
    assert (Hone : Forall (fun ms => ms = 30000%Z) (pauses evs1) /\ length (pauses evs1) <= 1).
    { destruct Hpauses1 as [-> | ->]; split; simpl; try lia; repeat constructor. }
    destruct Hone as [Hall1 Hlen1].
    destruct (syncIssue cfg issue w) as [[[]|e|] w1]; simpl in Hadd1.
    + destruct (IH w1) as [evs2 [Hadd2 [Hall2 Hlen2]]].
      exists (evs1 ++ evs2)%list. split; [eapply added_trans; eassumption|].
      rewrite pauses_app. split; [now apply Forall_app|]. rewrite length_app. simpl. lia.
    + exists evs1. split; [exact Hadd1|]. split; [exact Hall1|simpl; lia].
    + exists evs1. split; [exact Hadd1|]. split; [exact Hall1|simpl; lia].
Qed.

(** X18 - Record off the board.  A record that has no entry on the
    configured board is written with the default status, whatever the
    status table holds, with no story points of its own and with no
    sprint. *)
Theorem record_off_the_board_gets_the_defaults {rt : JsRuntime}
    (cfg : ProjectConfiguration) (r : SyncRepositoryFields)
    (issue : GraphQLSearchIssuesNode) :
  (forall entry, In entry (issue_projectItems issue) ->
                 item_title entry <> Some (gh_project (cfg_github cfg))) ->
  p_status (issueToCreate cfg r issue) = statusTypeDefault cfg
  /\ p_storyPoints (issueToCreate cfg r issue) = None
  /\ p_sprintBoardId (issueToCreate cfg r issue) = None.
Proof.
  intros Hoff.
  assert (Hnone : projectData cfg issue = None).
  { unfold projectData. apply find_none. intros entry Hentry.
    destruct (JS.opt_eqb (item_title entry) (gh_project (cfg_github cfg))) eqn:Heq;
      [|reflexivity].
    apply opt_eqb_eq in Heq. now destruct (Hoff entry Hentry). }
  unfold issueToCreate, sourceStoryPoints. simpl. rewrite Hnone. simpl.
  split; [|now split].
  unfold MappingResolver.getJiraStatusFromGithubProject.
  now rewrite statusLoop_none by (intros m _; discriminate).
Qed.

Lemma record_off_the_board_gets_the_defaults_witness :
  p_status (issueToCreate (rt:=Fixture.runtime) (Fixture.config "P" 10) new_SyncRepository
                          Fixture.issue1) = "Backlog"
  /\ p_storyPoints (issueToCreate (rt:=Fixture.runtime) (Fixture.config "P" 10)
                                  new_SyncRepository Fixture.issue1) = None
  /\ p_sprintBoardId (issueToCreate (rt:=Fixture.runtime) (Fixture.config "P" 10)
                                    new_SyncRepository Fixture.issue1) = None.
Proof.
  apply (record_off_the_board_gets_the_defaults (rt:=Fixture.runtime) (Fixture.config "P" 10)
           new_SyncRepository Fixture.issue1).
  intros entry [].
Defined.

Section FixVersionFacts.

Context {rt : JsRuntime} {be : Backend}.



End FixVersionFacts.



Section PassFacts.

Context {rt : JsRuntime} {be : Backend}.

Variable cfg : ProjectConfiguration.

(** A loop over the batch that completes has announced every record. *)
Lemma syncIssues_Ok (issues : list GraphQLSearchIssuesNode) :
  forall w w',
    syncIssues cfg issues w = (Ok tt, w') ->
    exists evs,
      added w w' evs
      /\ forall issue, In issue issues ->
           In (Log Info ("Create or update issue " ++ issue_url issue ++ " in Jira...")) evs.
Proof.
  induction issues as [|issue rest IH]; intros w w' Hrun; simpl in Hrun.
  - unfold ret in Hrun. injection Hrun as <-. exists []. split; [apply added_nil|intros i []].
  - apply bind_Ok in Hrun. destruct Hrun as [[] [w1 [Hissue Hrun]]].
    destruct (IH _ _ Hrun) as [evs2 [Hadd2 Hin2]].
    unfold syncIssue in Hissue.
    apply bind_Ok in Hissue. destruct Hissue as [[] [w0 [Hlog Hissue]]].
    unfold log, emit in Hlog. injection Hlog as <-.
    assert (exists evs1, added (after_log w Info ("Create or update issue "
                                                  ++ issue_url issue ++ " in Jira...")) w1 evs1)
      as [evs1 Hadd1].
    { eapply run_only_adds; [exact Hissue|].
      repeat first [ apply createOrUpdateIssue_steady | steady_step ]; exact I. }
    eexists. split.
    + eapply added_trans; [apply (added_after_log w)|].
      eapply added_trans; [exact Hadd1|exact Hadd2].
    + intros i [<- | Hi]; [now left|].
      apply in_or_app. right. apply in_or_app. right. now apply Hin2.
Qed.

End PassFacts.

(** X20 - Watermark of a project.  A pass over a project that completes
    has checked Jira, fetched the records, reconciled the releases and the
    sprints and written the records, each step from the world the one
    before left, with the lines logged in between.  The date it returns is
    the one computed from the records of that fetch: the update time of the
    last of them, or the start date when none was fetched.  The write of
    every fetched record has been announced, but the date does not depend
    on what became of the writes.  Conversely, when these steps go
    through, the pass completes and returns that date. *)
Theorem returned_watermark_is_the_one_of_the_fetch {rt : JsRuntime} {be : Backend}
    (cfg : ProjectConfiguration) (fuel : nat) (w w' : World) (returned : string) :
  (SyncRepository_start cfg fuel w = (Ok returned, w') ->
   exists w1 fetched w2 w3 w4 w5,
    initAndCheck cfg (after_log (after_log w StartGroup "Init and sync...")
                                Info "Check JIRA is available")
    = (Ok tt, w1)
    /\ getIssuesUpdatedAfter cfg fuel (after_log w1 Info "Grab recent issues being updated...")
       = (Ok fetched, w2)
    /\ syncReleases cfg (fetched_issues fetched) (after_log w2 Info "Sync releases...")
       = (Ok tt, w3)
    /\ syncSprints cfg fuel (fetched_issues fetched) (after_log w3 Info "Sync sprint...")
       = (Ok tt, w4)
    /\ syncIssues cfg (fetched_issues fetched)
         (after_log (after_log w4 EndGroup "") StartGroup "Create or update issues in Jira...")
       = (Ok tt, w5)
    /\ w' = after_log w5 EndGroup ""
    /\ returned = nextStartDate cfg (fetched_issues fetched)
    /\ forall issue, In issue (fetched_issues fetched) ->
         In (Log Info ("Create or update issue " ++ issue_url issue ++ " in Jira..."))
            (trace w'))
  /\ (forall w1 fetched w2 w3 w4 w5,
         initAndCheck cfg (after_log (after_log w StartGroup "Init and sync...")
                                     Info "Check JIRA is available")
         = (Ok tt, w1) ->
         getIssuesUpdatedAfter cfg fuel
           (after_log w1 Info "Grab recent issues being updated...")
         = (Ok fetched, w2) ->
         syncReleases cfg (fetched_issues fetched) (after_log w2 Info "Sync releases...")
         = (Ok tt, w3) ->
         syncSprints cfg fuel (fetched_issues fetched) (after_log w3 Info "Sync sprint...")
         = (Ok tt, w4) ->
         syncIssues cfg (fetched_issues fetched)
           (after_log (after_log w4 EndGroup "") StartGroup
                      "Create or update issues in Jira...")
         = (Ok tt, w5) ->
         SyncRepository_start cfg fuel w
         = (Ok (nextStartDate cfg (fetched_issues fetched)), after_log w5 EndGroup "")).
Proof.
  split.
  2: { intros w1 fetched w2 w3 w4 w5 Hcheck Hfetch Hreleases Hsprints Hissues.
       assert (Hdate : afterDate fetched = nextStartDate cfg (fetched_issues fetched)).
       { unfold getIssuesUpdatedAfter in Hfetch.
         apply bind_Ok in Hfetch. destruct Hfetch as [issues [wj [_ Hfetch]]].
         unfold ret in Hfetch. now injection Hfetch as <- _. }
       unfold SyncRepository_start.
       unfold bind at 1. unfold log at 1, emit at 1.
       unfold bind at 1. unfold log at 1, emit at 1.
       fold (after_log w StartGroup "Init and sync...").
       fold (after_log (after_log w StartGroup "Init and sync...") Info
                       "Check JIRA is available").
       unfold bind at 1. rewrite Hcheck.
       unfold bind at 1. unfold log at 1, emit at 1.
       fold (after_log w1 Info "Grab recent issues being updated...").
       unfold bind at 1. rewrite Hfetch.
       unfold bind at 1. unfold log at 1, emit at 1.
       fold (after_log w2 Info "Sync releases...").
       unfold bind at 1. rewrite Hreleases.
       unfold bind at 1. unfold log at 1, emit at 1.
       fold (after_log w3 Info "Sync sprint...").
       unfold bind at 1. rewrite Hsprints.
       unfold bind at 1. unfold log at 1, emit at 1.
       unfold bind at 1. unfold log at 1, emit at 1.
       fold (after_log w4 EndGroup "").
       fold (after_log (after_log w4 EndGroup "") StartGroup
                       "Create or update issues in Jira...").
       unfold bind at 1. rewrite Hissues.
       unfold bind, log, emit, ret. now rewrite Hdate. }
  intros Hrun. unfold SyncRepository_start in Hrun.
  apply bind_Ok in Hrun. destruct Hrun as [[] [wa [Hlog Hrun]]].
  unfold log, emit in Hlog. injection Hlog as <-.
  apply bind_Ok in Hrun. destruct Hrun as [[] [wb [Hlog Hrun]]].
  unfold log, emit in Hlog. injection Hlog as <-.
  apply bind_Ok in Hrun. destruct Hrun as [[] [w1 [Hcheck Hrun]]].
  apply bind_Ok in Hrun. destruct Hrun as [[] [wc [Hlog Hrun]]].
  unfold log, emit in Hlog. injection Hlog as <-.
  apply bind_Ok in Hrun. destruct Hrun as [fetched [w2 [Hfetch Hrun]]].
  apply bind_Ok in Hrun. destruct Hrun as [[] [wd [Hlog Hrun]]].
  unfold log, emit in Hlog. injection Hlog as <-.
  apply bind_Ok in Hrun. destruct Hrun as [[] [w3 [Hreleases Hrun]]].
  apply bind_Ok in Hrun. destruct Hrun as [[] [we [Hlog Hrun]]].
  unfold log, emit in Hlog. injection Hlog as <-.
  apply bind_Ok in Hrun. destruct Hrun as [[] [w4 [Hsprints Hrun]]].
  apply bind_Ok in Hrun. destruct Hrun as [[] [wf [Hlog Hrun]]].
  unfold log, emit in Hlog. injection Hlog as <-.
  apply bind_Ok in Hrun. destruct Hrun as [[] [wg [Hlog Hrun]]].
  unfold log, emit in Hlog. injection Hlog as <-.
  apply bind_Ok in Hrun. destruct Hrun as [[] [w5 [Hissues Hrun]]].
  apply bind_Ok in Hrun. destruct Hrun as [[] [wh [Hlog Hrun]]].
  unfold log, emit in Hlog. injection Hlog as <-.
  unfold ret in Hrun. injection Hrun as <- <-.
  exists w1, fetched, w2, w3, w4, w5.
  split; [exact Hcheck|]. split; [exact Hfetch|]. split; [exact Hreleases|].
  split; [exact Hsprints|]. split; [exact Hissues|]. split; [reflexivity|]. split.
  - unfold getIssuesUpdatedAfter in Hfetch.
    apply bind_Ok in Hfetch. destruct Hfetch as [issues [wj [_ Hfetch]]].
    unfold ret in Hfetch. now injection Hfetch as <- _.
  - intros issue Hin.
    destruct (syncIssues_Ok cfg _ _ _ Hissues) as [evs [Hadd Hannounced]].
    simpl. unfold added in Hadd. rewrite Hadd.
    apply in_or_app. left. apply in_or_app. right. now apply Hannounced.
Qed.

(** The source of the fixture serves issue 5, updated on January 6th,
    whose write fails for want of a transition: the pass announces the
    write of issue 5 and returns its update time. *)
Lemma returned_watermark_is_the_one_of_the_fetch_witness :
  let cfg := Fixture.config "P" 10 in
  let w := Fixture.world (Fixture.healthy
                            [ (None, Fixture.page [Fixture.issue5] "c1" false) ]) in
  let run := SyncRepository_start (rt:=Fixture.runtime) (be:=Fixture.tracker) cfg 3 w in
  fst run = Ok (issue_updatedAt Fixture.issue5)
  /\ In (Log Debug ("Error creating issue in Jira Transition to status " ++ JS.dquote
                    ++ "In Progress" ++ JS.dquote ++ " not found"))
        (trace (snd run))
  /\ In (Log Info ("Create or update issue " ++ issue_url Fixture.issue5 ++ " in Jira..."))
        (trace (snd run)).
Proof.
  intros cfg w run.
  assert (Hrun : run = (Ok "2024-01-06T00:00:00Z", snd run)) by (vm_compute; reflexivity).
  destruct (proj1 (returned_watermark_is_the_one_of_the_fetch (rt:=Fixture.runtime)
                     (be:=Fixture.tracker) cfg 3 w (snd run) "2024-01-06T00:00:00Z") Hrun)
    as (w1 & fetched & w2 & w3 & w4 & w5 & Hcheck & Hfetch & _ & _ & _ & _ & Hdate
        & Hannounced).
  vm_compute in Hcheck. injection Hcheck as <-.
  vm_compute in Hfetch. injection Hfetch as <- _.
  split; [|split].
  - rewrite Hrun. simpl fst. rewrite Hdate. reflexivity.
  - vm_compute. tauto.
  - apply Hannounced. left. reflexivity.
Defined.

Section OrchestratorResults.

Context {rt : JsRuntime} {be : Backend}.

Lemma Sync_loop_results (fuel : nat) (cfgs : list ProjectConfiguration) :
  forall acc w results w',
    Sync_loop fuel cfgs acc w = (Ok results, w') ->
    exists added_results,
      results = (acc ++ added_results)%list
      /\ Forall2 (fun cfg result =>
                    syncProjectName result = cfg_name cfg
                    /\ exists w0 w1,
                         SyncRepository_start cfg fuel w0 = (Ok (result_afterDate result), w1))
                 cfgs added_results.
Proof.
  induction cfgs as [|cfg cfgs IH]; intros acc w results w' Hrun; simpl in Hrun.
  - unfold ret in Hrun. injection Hrun as <- _. exists []. split; [now rewrite app_nil_r|].
    constructor.
  - apply bind_Ok in Hrun. destruct Hrun as [[] [wa [_ Hrun]]].
    apply bind_Ok in Hrun. destruct Hrun as [[] [w0 [_ Hrun]]].
    apply bind_Ok in Hrun. destruct Hrun as [date [w1 [Hstart Hrun]]].
    apply bind_Ok in Hrun. destruct Hrun as [[] [wb [_ Hrun]]].
    destruct (IH _ _ _ _ Hrun) as [more [-> Hmore]].
    exists ({| syncProjectName := cfg_name cfg; result_afterDate := date |} :: more).
    split; [now rewrite <- app_assoc|].
    constructor; [|exact Hmore]. split; [reflexivity|]. now exists w0, w1.
Qed.

End OrchestratorResults.

Section OrchestratorPasses.

Context {rt : JsRuntime} {be : Backend}.

Lemma Sync_loop_passes (fuel : nat) (cfgs : list ProjectConfiguration) :
  forall acc w results w',
    Sync_loop fuel cfgs acc w = (Ok results, w') ->
    exists more, results = (acc ++ more)%list /\ Passes fuel w cfgs more w'.
Proof.
  induction cfgs as [|cfg cfgs IH]; intros acc w results w' Hrun; simpl in Hrun.
  - unfold ret in Hrun. injection Hrun as <- <-. exists []. split; [now rewrite app_nil_r|].
    constructor.
  - apply bind_Ok in Hrun. destruct Hrun as [[] [wa [Hlog Hrun]]].
    unfold log, emit in Hlog. injection Hlog as <-.
    apply bind_Ok in Hrun. destruct Hrun as [[] [w0 [Hnew Hrun]]].
    unfold new_SyncRepository_object, bind, set_jira, set_repo in Hnew.
    injection Hnew as <-.
    apply bind_Ok in Hrun. destruct Hrun as [date [w1 [Hstart Hrun]]].
    apply bind_Ok in Hrun. destruct Hrun as [[] [wb [Hlog Hrun]]].
    unfold log, emit in Hlog. injection Hlog as <-.
    destruct (IH _ _ _ _ Hrun) as [more [-> Hmore]].
    exists ({| syncProjectName := cfg_name cfg; result_afterDate := date |} :: more).
    split; [now rewrite <- app_assoc|].
    econstructor; [exact Hstart|exact Hmore].
Qed.

Lemma Passes_names (fuel : nat) (w : World) (cfgs : list ProjectConfiguration)
      (results : list SyncProjectResult) (w' : World) :
  Passes fuel w cfgs results w' -> map syncProjectName results = map cfg_name cfgs.
Proof.
  induction 1 as [|w cfg cfgs date w1 results w' _ _ IH]; [reflexivity|].
  simpl. now rewrite IH.
Qed.

Lemma Passes_Sync_loop (fuel : nat) (w : World) (cfgs : list ProjectConfiguration)
      (results : list SyncProjectResult) (w' : World) :
  Passes fuel w cfgs results w' ->
  forall acc, Sync_loop fuel cfgs acc w = (Ok (acc ++ results)%list, w').
Proof.
  induction 1 as [w|w cfg cfgs date w1 results w' Hstart _ IH]; intros acc; simpl.
  - unfold ret. now rewrite app_nil_r.
  - unfold bind at 1. unfold log at 1, emit at 1.
    unfold bind at 1. unfold new_SyncRepository_object at 1.
    unfold bind at 1. unfold set_jira at 1, set_repo at 1. cbn [trace env jira repo].
    fold (pass_start w cfg).
    unfold bind at 1. rewrite Hstart.
    unfold bind at 1. unfold log at 1, emit at 1.
    fold (after_log w1 EndGroup "").
    rewrite IH. now rewrite <- app_assoc.
Qed.

Lemma Passes_inv (fuel : nat) (w : World) (cfg : ProjectConfiguration)
      (cfgs : list ProjectConfiguration) (results : list SyncProjectResult) (w' : World) :
  Passes fuel w (cfg :: cfgs) results w' ->
  exists date w1 rest,
    results = {| syncProjectName := cfg_name cfg; result_afterDate := date |} :: rest
    /\ SyncRepository_start cfg fuel (pass_start w cfg) = (Ok date, w1)
    /\ Passes fuel (after_log w1 EndGroup "") cfgs rest w'.
Proof.
  intros Hpasses. inversion Hpasses as [|w0 cfg0 cfgs0 date w1 rest w0' Hstart Hrest]; subst.
  now exists date, w1, rest.
Qed.

End OrchestratorPasses.

(** X21 - Results of a run.  When the orchestrator completes, it has made
    one pass per configured project, in the order of the configuration,
    each on a new [SyncRepository] object and from the world that the pass
    before left.  It returns one result per project, in that order: each
    carries the name of its project and the date that the pass over that
    project returned in this run.  Conversely, when every pass completes,
    so does the orchestrator, with these results. *)
Theorem completed_run_reports_every_project {rt : JsRuntime} {be : Backend}
    (fuel : nat) (cfgs : list ProjectConfiguration) (w w' : World)
    (results : list SyncProjectResult) :
  (Sync_start fuel cfgs w = (Ok results, w') ->
   Passes fuel w cfgs results w'
   /\ map syncProjectName results = map cfg_name cfgs)
  /\ (Passes fuel w cfgs results w' -> Sync_start fuel cfgs w = (Ok results, w')).
Proof.
  split; [|intros Hpasses; exact (Passes_Sync_loop _ _ _ _ _ Hpasses [])].
  intros Hrun. unfold Sync_start in Hrun.
  destruct (Sync_loop_passes fuel cfgs _ _ _ _ Hrun) as [more [-> Hmore]].
  simpl. split; [exact Hmore|]. exact (Passes_names _ _ _ _ _ Hmore).
Qed.

(** A run over the projects [P] and [Q] on the fixture: the date of [P]
    is the one its pass returns from the initial world, the update time of
    issue 3, and the date of [Q] is the one its pass returns from the world
    that the pass over [P] left. *)
Lemma completed_run_reports_every_project_witness :
  let P := Fixture.config "P" 10 in
  let Q := Fixture.config "Q" 10 in
  let w := Fixture.world (Fixture.healthy Fixture.two_pages) in
  let run := Sync_start (rt:=Fixture.runtime) (be:=Fixture.tracker) 3 [P; Q] w in
  fst run = Ok [ {| syncProjectName := "P"; result_afterDate := "2024-01-04T00:00:00Z" |};
                 {| syncProjectName := "Q"; result_afterDate := "2024-01-04T00:00:00Z" |} ]
  /\ exists w1 w2,
       SyncRepository_start (rt:=Fixture.runtime) (be:=Fixture.tracker) P 3 (pass_start w P)
       = (Ok (issue_updatedAt Fixture.issue3), w1)
       /\ SyncRepository_start (rt:=Fixture.runtime) (be:=Fixture.tracker) Q 3
            (pass_start (after_log w1 EndGroup "") Q)
          = (Ok (issue_updatedAt Fixture.issue3), w2).
Proof.
  intros P Q w run.
  assert (Hrun : run = (Ok [ {| syncProjectName := "P";
                                result_afterDate := "2024-01-04T00:00:00Z" |};
                             {| syncProjectName := "Q";
                                result_afterDate := "2024-01-04T00:00:00Z" |} ],
                        snd run)).
  { vm_compute. reflexivity. }
  split; [now rewrite Hrun|].
  destruct (proj1 (completed_run_reports_every_project (rt:=Fixture.runtime)
                     (be:=Fixture.tracker) 3 [P; Q] w (snd run) _) Hrun) as [Hpasses _].
  destruct (Passes_inv _ _ _ _ _ _ Hpasses) as (dateP & w1 & rest & Hresults & HP & Hrest).
  injection Hresults as <- <-.
  destruct (Passes_inv _ _ _ _ _ _ Hrest) as (dateQ & w2 & rest' & Hresults & HQ & _).
  injection Hresults as <- _.
  exists w1, w2. split; [exact HP | exact HQ].
Defined.

(** ** Further properties: the call governor *)

Section GovernorPace.

Import ThrottleQueue.

Variable Fn : Type.
Variable T : Type.

(** Every pending timer is due no earlier than one interval after the
  last dispatch. *)
Lemma pace_step (s s' : State Fn T) (e : Step Fn T) :
  invariant s ->
  Forall (fun due => (lastCallTime s + intervalMs s <= due)%Z) (timers s) ->
  step s e = Some s' ->
  intervalMs s' = intervalMs s
  /\ Forall (fun due => (lastCallTime s' + intervalMs s' <= due)%Z) (timers s').
Proof.
  intros [_ _ _ _ _ Htimer] Hpace Hstep.
  destruct e as [fn | ms | i | i o | i]; simpl in Hstep.
  - injection Hstep as <-. unfold throttle. simpl.
    destruct (isProcessing s); simpl; [split; [reflexivity|exact Hpace]|].
    unfold processQueue. simpl.
    destruct (queue s ++ _)%list; simpl; [split; [reflexivity|exact Hpace]|]. split; [reflexivity|].
    apply Forall_app. split; [exact Hpace|]. constructor; [lia|constructor].
  - destruct (ms <? 0)%Z; [discriminate|]. injection Hstep as <-. simpl. split; [reflexivity|exact Hpace].
  - destruct (take_nth i (timers s)) as [[due others]|] eqn:Htake; [|discriminate].
    destruct (due <=? clock s)%Z; [|discriminate]. injection Hstep as <-.
    destruct Htimer as [[_ [Hnone _]] | [_ [[due' Hone] _]]].
    { rewrite Hnone in Htake. destruct i; discriminate. }
    rewrite Hone in Htake. apply take_nth_singleton in Htake. destruct Htake as [-> ->].
    unfold onTimeout, processQueue. simpl.
    destruct (queue s) as [|next [|next' rest]]; simpl; split; try reflexivity;
      repeat constructor; lia.
  - destruct (take_nth i (running s)) as [[c others]|]; [|discriminate].
    injection Hstep as <-. simpl. split; [reflexivity|exact Hpace].
  - destruct (take_nth i (awaited s)) as [[[c o] others]|]; [|discriminate].
    injection Hstep as <-. simpl. split; [reflexivity|exact Hpace].
Qed.

Lemma pace_run (es : list (Step Fn T)) :
  forall s s',
    invariant s ->
    Forall (fun due => (lastCallTime s + intervalMs s <= due)%Z) (timers s) ->
    run s es = Some s' ->
    invariant s'
    /\ intervalMs s' = intervalMs s
    /\ Forall (fun due => (lastCallTime s' + intervalMs s' <= due)%Z) (timers s').
Proof.
  induction es as [|e es IH]; intros s s' Hinv Hpace Hrun; simpl in Hrun.
  - injection Hrun as <-. split; [exact Hinv|]. split; [reflexivity|exact Hpace].
  - destruct (step s e) as [s1|] eqn:Hstep; [|discriminate].
    destruct (pace_step _ _ _ Hinv Hpace Hstep) as [Hinterval Hpace1].
    destruct (IH s1 s' (invariant_step _ _ _ _ _ Hinv Hstep) Hpace1 Hrun)
      as [Hinv' [Hinterval' Hpace']].
    split; [exact Hinv'|]. split; [congruence|exact Hpace'].
Qed.

Lemma pace_reachable (s : State Fn T) :
  reachable s ->
  invariant s
  /\ Forall (fun due => (lastCallTime s + intervalMs s <= due)%Z) (timers s).
Proof.
  intros [interval [now [es Hrun]]].
  destruct (pace_run es _ _ (invariant_new Fn T interval now) ltac:(constructor) Hrun)
    as [Hinv [_ Hpace]].
  now split.
Qed.

End GovernorPace.

(** X22 - Pace of the governor.  Whenever the timer of the governor
    fires, in any state it can reach, the call at the head of the queue,
    and no other, is dispatched, and at least one interval has elapsed
    since the previous dispatch (since time 0 for the first one); the
    time of this dispatch is recorded as the last. *)
Theorem dispatches_are_one_interval_apart (Fn T : Type) (s s' : ThrottleQueue.State Fn T)
    (i : nat) :
  ThrottleQueue.reachable s ->
  ThrottleQueue.step s (ThrottleQueue.Timeout i) = Some s' ->
  (exists next rest,
      ThrottleQueue.queue s = next :: rest
      /\ ThrottleQueue.queue s' = rest
      /\ ThrottleQueue.dispatched s' = (ThrottleQueue.dispatched s ++ [next])%list
      /\ ThrottleQueue.running s' = (ThrottleQueue.running s ++ [next])%list)
  /\ (ThrottleQueue.lastCallTime s + ThrottleQueue.intervalMs s <= ThrottleQueue.clock s)%Z
  /\ ThrottleQueue.lastCallTime s' = ThrottleQueue.clock s.
Proof.
  intros Hreach Hstep. apply pace_reachable in Hreach.
  destruct Hreach as [[_ _ _ _ _ Htimer] Hpace]. simpl in Hstep.
  destruct (ThrottleQueue.take_nth i (ThrottleQueue.timers s)) as [[due others]|] eqn:Htake;
    [|discriminate].
  destruct (due <=? ThrottleQueue.clock s)%Z eqn:Hdue; [|discriminate].
  injection Hstep as <-.
  destruct Htimer as [[_ [Hnone _]] | [_ [[due' Hone] Hqueue]]].
  { rewrite Hnone in Htake. destruct i; discriminate. }
  rewrite Hone in Htake, Hpace. apply take_nth_singleton in Htake. destruct Htake as [-> ->].
  apply List.Forall_inv in Hpace. apply Z.leb_le in Hdue.
  unfold ThrottleQueue.onTimeout, ThrottleQueue.processQueue. simpl.
  destruct (ThrottleQueue.queue s) as [|next rest]; [contradiction|].
  split; [|split].
  - exists next, rest. destruct rest; simpl; now repeat split.
  - lia.
  - now destruct rest.
Qed.

Lemma dispatches_are_one_interval_apart_witness :
  let steps : list (ThrottleQueue.Step string Z) :=
    [ ThrottleQueue.Call "createIssue"; ThrottleQueue.Call "editIssue";
      ThrottleQueue.Elapse 1000; ThrottleQueue.Timeout 0;
      ThrottleQueue.Elapse 1000 ] in
  exists s s' : ThrottleQueue.State string Z,
    ThrottleQueue.run (ThrottleQueue.new_ThrottleQueue string Z 1000 0) steps = Some s
    /\ ThrottleQueue.step s (ThrottleQueue.Timeout 0) = Some s'
    /\ map ThrottleQueue.closure_fn (ThrottleQueue.dispatched s') = ["createIssue"; "editIssue"]
    /\ (ThrottleQueue.lastCallTime s + 1000 <= ThrottleQueue.lastCallTime s')%Z.
Proof.
  intros steps.
  assert (Hrun : exists s s' : ThrottleQueue.State string Z,
             ThrottleQueue.run (ThrottleQueue.new_ThrottleQueue string Z 1000 0) steps = Some s
             /\ ThrottleQueue.step s (ThrottleQueue.Timeout 0) = Some s'
             /\ map ThrottleQueue.closure_fn (ThrottleQueue.dispatched s')
                = ["createIssue"; "editIssue"]
             /\ ThrottleQueue.intervalMs s = 1000%Z).
  { eexists. eexists. split; [vm_compute; reflexivity|].
    split; [vm_compute; reflexivity|]. split; reflexivity. }
  destruct Hrun as [s [s' [Hrun [Hstep [Hdispatched Hinterval]]]]].
  exists s, s'. split; [exact Hrun|]. split; [exact Hstep|]. split; [exact Hdispatched|].
  destruct (dispatches_are_one_interval_apart string Z s s' 0) as [_ [Hpace Hlast]].
  - exists 1000%Z, 0%Z, steps. exact Hrun.
  - exact Hstep.
  - rewrite Hlast, <- Hinterval. exact Hpace.
Defined.

(** X23 - Progress of the governor.  In any state the governor can reach
    with a call queued, exactly one timer is pending, and once time has
    passed its due date the timer can fire: it dispatches the call at the
    head of the queue. *)
Theorem queued_call_is_dispatched_when_the_timer_is_due (Fn T : Type)
    (s : ThrottleQueue.State Fn T) (next : ThrottleQueue.Closure Fn)
    (rest : list (ThrottleQueue.Closure Fn)) :
  ThrottleQueue.reachable s ->
  ThrottleQueue.queue s = next :: rest ->
  exists due,
    ThrottleQueue.timers s = [due]
    /\ forall ms,
         (0 <= ms)%Z -> (due <= ThrottleQueue.clock s + ms)%Z ->
         exists s',
           ThrottleQueue.run s [ThrottleQueue.Elapse ms; ThrottleQueue.Timeout 0] = Some s'
           /\ ThrottleQueue.queue s' = rest
           /\ ThrottleQueue.dispatched s' = (ThrottleQueue.dispatched s ++ [next])%list
           /\ ThrottleQueue.lastCallTime s' = (ThrottleQueue.clock s + ms)%Z.
Proof.
  intros Hreach Hqueue. apply invariant_reachable in Hreach.
  destruct Hreach as [_ _ _ _ _ Htimer].
  destruct Htimer as [[_ [_ Hempty]] | [_ [[due Hone] _]]]; [congruence|].
  exists due. split; [exact Hone|].
  intros ms Hms Hdue. simpl.
  destruct (ms <? 0)%Z eqn:Hneg; [apply Z.ltb_lt in Hneg; lia|].
  simpl. rewrite Hone. simpl.
  destruct (due <=? ThrottleQueue.clock s + ms)%Z eqn:Hle; [|apply Z.leb_gt in Hle; lia].
  eexists. split; [reflexivity|].
  unfold ThrottleQueue.onTimeout, ThrottleQueue.processQueue. simpl. rewrite Hqueue.
  destruct rest; simpl; now repeat split.
Qed.

Lemma queued_call_is_dispatched_when_the_timer_is_due_witness :
  let steps : list (ThrottleQueue.Step string Z) :=
    [ ThrottleQueue.Call "createIssue"; ThrottleQueue.Call "editIssue" ] in
  exists s s' : ThrottleQueue.State string Z,
    ThrottleQueue.run (ThrottleQueue.new_ThrottleQueue string Z 1000 0) steps = Some s
    /\ ThrottleQueue.run s [ThrottleQueue.Elapse 1000; ThrottleQueue.Timeout 0] = Some s'
    /\ map ThrottleQueue.closure_fn (ThrottleQueue.queue s') = ["editIssue"].
Proof.
  intros steps.
  assert (Hrun : exists (s : ThrottleQueue.State string Z) next rest,
             ThrottleQueue.run (ThrottleQueue.new_ThrottleQueue string Z 1000 0) steps = Some s
             /\ ThrottleQueue.queue s = next :: rest
             /\ map ThrottleQueue.closure_fn rest = ["editIssue"]
             /\ ThrottleQueue.timers s = [1000%Z]
             /\ ThrottleQueue.clock s = 0%Z).
  { eexists. eexists. eexists. split; [vm_compute; reflexivity|].
    split; [reflexivity|]. repeat split. }
  destruct Hrun as [s [next [rest [Hrun [Hqueue [Hrest [Htimers Hclock]]]]]]].
  destruct (queued_call_is_dispatched_when_the_timer_is_due string Z s next rest)
    as [due [Hdue Hfires]].
  - exists 1000%Z, 0%Z, steps. exact Hrun.
  - exact Hqueue.
  - rewrite Htimers in Hdue. injection Hdue as <-.
    destruct (Hfires 1000%Z) as [s' [Hstep [Hqueue' _]]].
    + lia.
    + rewrite Hclock. lia.
    + exists s, s'. split; [exact Hrun|]. split; [exact Hstep|]. now rewrite Hqueue'.
Defined.

(** ** Further properties: the configuration *)

Section ConfigurationFacts.

Context {be : Backend}.

Lemma withAfterDate_same (project : SyncYamlSyncProject) :
  withAfterDate project (syncProject_afterDate project) = project.
Proof. now destruct project. Qed.

Lemma setAfterDate_names name afterDate projects :
  map syncProject_name (setAfterDate name afterDate projects)
  = map syncProject_name projects.
Proof.
  induction projects as [|project rest IH]; simpl; [reflexivity|].
  destruct (String.eqb (syncProject_name project) name); simpl; [reflexivity|].
  now rewrite IH.
Qed.

Lemma setAfterDate_absent name afterDate projects :
  ~ In name (map syncProject_name projects) ->
  setAfterDate name afterDate projects = projects.
Proof.
  induction projects as [|project rest IH]; simpl; [reflexivity|]. intros Habsent.
  destruct (String.eqb (syncProject_name project) name) eqn:Heq.
  - apply String.eqb_eq in Heq. tauto.
  - rewrite IH; [reflexivity|tauto].
Qed.

(** With distinct project names, the assignment changes the date of the
  project of that name and nothing else. *)
Lemma setAfterDate_spec name afterDate projects :
  List.NoDup (map syncProject_name projects) ->
  Forall2 (fun project project1 =>
             project1 = withAfterDate project
                          (if String.eqb (syncProject_name project) name
                           then afterDate else syncProject_afterDate project))
          projects (setAfterDate name afterDate projects).
Proof.
  induction projects as [|project rest IH]; simpl; intros Hnodup; [constructor|].
  apply List.NoDup_cons_iff in Hnodup. destruct Hnodup as [Hfresh Hnodup].
  destruct (String.eqb (syncProject_name project) name) eqn:Heq.
  - constructor; [now rewrite Heq|].
    apply String.eqb_eq in Heq. subst name. clear IH Hnodup.
    induction rest as [|other rest IH]; [constructor|].
    constructor.
    + destruct (String.eqb (syncProject_name other) (syncProject_name project)) eqn:Hother.
      * apply String.eqb_eq in Hother. exfalso. apply Hfresh. left. exact Hother.
      * now rewrite withAfterDate_same.
    + apply IH. intros Hin. apply Hfresh. now right.
  - constructor; [now rewrite Heq, withAfterDate_same|]. now apply IH.
Qed.

Lemma find_project_absent name projects :
  JS.find (fun project => String.eqb (syncProject_name project) name) projects = None ->
  ~ In name (map syncProject_name projects).
Proof.
  intros Hfind Hin. apply in_map_iff in Hin. destruct Hin as [project [Hname Hin]].
  pose proof (List.find_none _ _ Hfind project Hin) as Hno. simpl in Hno.
  apply String.eqb_neq in Hno. contradiction.
Qed.

(** How the date of a project relates to the entries of the state file:
  the date of the last entry under its name, its own date when there is
  none. *)
Lemma overrideAfterDates_Ok (entries : list SyncProjectResult) :
  forall projects w,
    List.NoDup (map syncProject_name projects) ->
    exists projects' w',
      overrideAfterDates entries projects w = (Ok projects', w')
      /\ env w' = env w /\ jira w' = jira w /\ repo w' = repo w
      /\ Forall2 (fun project project' =>
                    exists afterDate,
                      project' = withAfterDate project afterDate
                      /\ (forall before entry after,
                             entries = (before ++ entry :: after)%list ->
                             syncProjectName entry = syncProject_name project ->
                             (forall later, In later after ->
                                            syncProjectName later <> syncProject_name project) ->
                             afterDate = result_afterDate entry)
                      /\ ((forall entry, In entry entries ->
                                         syncProjectName entry <> syncProject_name project) ->
                          afterDate = syncProject_afterDate project))
                 projects projects'.
Proof.
  induction entries as [|e rest IH]; intros projects w Hnodup.
  - exists projects, w. split; [reflexivity|]. repeat (split; [reflexivity|]).
    clear Hnodup. induction projects as [|project projects IHp]; constructor; [|exact IHp].
    exists (syncProject_afterDate project). split; [now rewrite withAfterDate_same|].
    split; [|reflexivity].
    intros before entry after Heq. now destruct before.
  - set (projects1 := setAfterDate (syncProjectName e) (result_afterDate e) projects).
    assert (Hnodup1 : List.NoDup (map syncProject_name projects1)).
    { unfold projects1. now rewrite setAfterDate_names. }
    assert (Hrun : exists w1,
               overrideAfterDates (e :: rest) projects w = overrideAfterDates rest projects1 w1
               /\ env w1 = env w /\ jira w1 = jira w /\ repo w1 = repo w).
    { simpl.
      destruct (JS.find _ projects) as [project|] eqn:Hfind.
      - unfold bind at 1. unfold log, emit. eexists. split; [reflexivity|]. now repeat split.
      - exists w. split; [|now repeat split].
        unfold projects1. rewrite setAfterDate_absent; [reflexivity|].
        now apply find_project_absent. }
    destruct Hrun as [w1 [Hrun [Henv1 [Hjira1 Hrepo1]]]].
    destruct (IH projects1 w1 Hnodup1) as [projects' [w' [Hrest [Henv [Hjira [Hrepo Hrel]]]]]].
    exists projects', w'. split; [now rewrite Hrun|].
    split; [congruence|]. split; [congruence|]. split; [congruence|].
    pose proof (setAfterDate_spec (syncProjectName e) (result_afterDate e) projects Hnodup)
      as Hfirst.
    fold projects1 in Hfirst. clear Hrun Hrest Hnodup Hnodup1.
    revert projects' Hrel. induction Hfirst as [|project project1 projects projects1' H1 _ IHf];
      intros projects' Hrel; inversion Hrel as [|? project' ? projects'' H2 Hrel']; subst;
      constructor; [|now apply IHf].
    destruct H2 as [afterDate [-> [Hlast Hnone]]]. simpl in Hlast, Hnone.
    exists afterDate. split; [reflexivity|]. split.
    + intros before entry after Heq Hname Hlater.
      destruct before as [|e0 before]; simpl in Heq; injection Heq as He Hrest.
      * subst entry after. rewrite Hnone by exact Hlater.
        apply String.eqb_eq in Hname. rewrite String.eqb_sym in Hname. now rewrite Hname.
      * now apply (Hlast before entry after).
    + intros Habsent. rewrite Hnone by (intros entry Hentry; apply Habsent; now right).
      destruct (String.eqb (syncProject_name project) (syncProjectName e)) eqn:Heq;
        [|reflexivity].
      apply String.eqb_eq in Heq. exfalso. apply (Habsent e); [now left|now symmetry].
Qed.

End ConfigurationFacts.

(** X24 - Persisted dates.  With distinct project names, [init] leaves
    the projects of the configuration as they are, in their order, except
    for their start dates: a project for which the state file has entries
    under its name starts from the date of the last of them; a project
    without entry keeps the date of the configuration file. *)
Theorem persisted_dates_override_the_start_dates {be : Backend}
    (c : Configuration) (w : World) :
  let entries := match conf_syncStateYaml c with
                 | Some state => state_syncProjects state
                 | None => []
                 end in
  List.NoDup (map syncProject_name (yaml_syncProjects (conf_syncYaml c))) ->
  exists c' w',
    init c w = (Ok c', w')
    /\ Forall2 (fun project project' =>
                  exists afterDate,
                    project' = withAfterDate project afterDate
                    /\ (forall before entry after,
                           entries = (before ++ entry :: after)%list ->
                           syncProjectName entry = syncProject_name project ->
                           (forall later, In later after ->
                                          syncProjectName later <> syncProject_name project) ->
                           afterDate = result_afterDate entry)
                    /\ ((forall entry, In entry entries ->
                                       syncProjectName entry <> syncProject_name project) ->
                        afterDate = syncProject_afterDate project))
               (yaml_syncProjects (conf_syncYaml c)) (yaml_syncProjects (conf_syncYaml c')).
Proof.
  intros entries Hnodup. unfold init.
  destruct (conf_syncStateYaml c) as [state|] eqn:Hstate.
  - destruct (overrideAfterDates_Ok (state_syncProjects state) _ w Hnodup)
      as [projects' [w' [Hrun [_ [_ [_ Hrel]]]]]].
    eexists. exists w'. unfold bind. rewrite Hrun. unfold ret. split; [reflexivity|].
    exact Hrel.
  - destruct (overrideAfterDates_Ok [] _ w Hnodup)
      as [projects' [w' [Hrun [_ [_ [_ Hrel]]]]]].
    simpl in Hrun. unfold ret in Hrun. injection Hrun as <- <-.
    eexists. exists w. unfold bind, ret. split; [reflexivity|]. exact Hrel.
Qed.

Lemma persisted_dates_override_the_start_dates_witness :
  map syncProject_afterDate
      (match fst (init (be:=Fixture.tracker) Samples.configuration
                       (Fixture.world (Fixture.healthy []))) with
       | Ok c' => yaml_syncProjects (conf_syncYaml c')
       | _ => []
       end)
  = ["2024-01-01T00:00:00.000Z"; "2024-01-04T00:00:00Z"]
  /\ exists c' w',
       init (be:=Fixture.tracker) Samples.configuration (Fixture.world (Fixture.healthy []))
       = (Ok c', w').
Proof.
  split; [vm_compute; reflexivity|].
  destruct (persisted_dates_override_the_start_dates (be:=Fixture.tracker)
              Samples.configuration (Fixture.world (Fixture.healthy [])))
    as [c' [w' [Hrun _]]].
  - simpl. repeat constructor; simpl; intuition discriminate.
  - now exists c', w'.
Defined.

Section ConfigurationTables.

Context {be : Backend}.

Variable moment : string -> Moment.

Lemma mapThrowing_Ok {A B : Type} (f : A -> Result B) (l : list A) (ys : list B) :
  mapThrowing f l = Ok ys -> Forall2 (fun x y => f x = Ok y) l ys.
Proof.
  revert ys. induction l as [|x l IH]; simpl; intros ys Hmap.
  - injection Hmap as <-. constructor.
  - destruct (f x) as [y|e|] eqn:Hx; try discriminate.
    destruct (mapThrowing f l) as [ys'|e|]; try discriminate.
    injection Hmap as <-. constructor; [exact Hx|now apply IH].
Qed.

(** A name bound in a map built by the loops of [init] is bound to the
  table of the last mapping of that name. *)
Lemma built_map_lookup {A V : Type} (name : A -> string) (value : A -> V)
      (l : list A) (m : gmap string V) (k : string) (v : V) :
  fold_left (fun acc x => <[name x := value x]> acc) l m !! k = Some v ->
  (exists before x after,
      l = (before ++ x :: after)%list /\ name x = k /\ value x = v
      /\ forall y, In y after -> name y <> k)
  \/ (m !! k = Some v /\ forall y, In y l -> name y <> k).
Proof.
  revert m. induction l as [|x l IH]; simpl; intros m Hlookup.
  - right. split; [exact Hlookup|intros y []].
  - destruct (IH _ Hlookup) as [(before & y & after & -> & Hname & Hvalue & Hlast)
                               | [Hhere Hnone]].
    + left. exists (x :: before), y, after. now repeat split.
    + destruct (String.eqb (name x) k) eqn:Heq.
      * apply String.eqb_eq in Heq. subst k. rewrite lookup_insert_eq in Hhere.
        injection Hhere as <-. left. exists [], x, l. now repeat split.
      * apply String.eqb_neq in Heq. rewrite lookup_insert_ne in Hhere by exact Heq.
        right. split; [exact Hhere|]. intros y [<- | Hy]; [exact Heq|now apply Hnone].
Qed.

Lemma init_inv (c c' : Configuration) (w w' : World) :
  init c w = (Ok c', w') ->
  conf_githubReadToken c' = conf_githubReadToken c
  /\ conf_jiraHost c' = conf_jiraHost c
  /\ conf_jiraWriteToken c' = conf_jiraWriteToken c
  /\ yaml_issuesTypeMappings (conf_syncYaml c') = yaml_issuesTypeMappings (conf_syncYaml c)
  /\ yaml_statusTypeMappings (conf_syncYaml c') = yaml_statusTypeMappings (conf_syncYaml c)
  /\ conf_issueTypeMappings c'
     = fold_left (fun acc x => <[issuesMapping_name x := issuesMapping_mapping x]> acc)
                 (yaml_issuesTypeMappings (conf_syncYaml c)) (conf_issueTypeMappings c)
  /\ conf_statusTypeMappings c'
     = fold_left (fun acc x => <[statusMapping_name x := statusMapping_mapping x]> acc)
                 (yaml_statusTypeMappings (conf_syncYaml c)) (conf_statusTypeMappings c).
Proof.
  unfold init. intros Hrun.
  apply bind_Ok in Hrun. destruct Hrun as [projects [w1 [_ Hrun]]].
  unfold ret in Hrun. injection Hrun as <- _. simpl. now repeat split.
Qed.

End ConfigurationTables.

(** X25 - Project configurations.  When [getProjectConfigurations]
    returns, on a configuration built by [new Configuration] and [init],
    it returns one configuration per project of the configuration file, in
    their order, each with the name, the batch cap and the start date of
    its project (the date after the overrides of [init]); its default
    issue type and default status are not empty; its two tables are
    those of mappings declared in the file under the names the project
    uses, the last ones so named, and its two defaults those of the first
    mappings so named. *)
Theorem returned_configurations_are_complete {be : Backend}
    (moment : string -> Moment) (githubReadToken jiraHost jiraWriteToken : string)
    (syncYaml : SyncYaml) (syncStateYaml : option SyncStateYaml)
    (c : Configuration) (w w' : World) (cfgs : list ProjectConfiguration) :
  init (new_Configuration githubReadToken jiraHost jiraWriteToken syncYaml syncStateYaml) w
  = (Ok c, w') ->
  getProjectConfigurations moment c = Ok cfgs ->
  Forall2
    (fun project cfg =>
       cfg_name cfg = syncProject_name project
       /\ maxBatchNumberIssues cfg = syncProject_maxBatchSize project
       /\ gh_startDate (cfg_github cfg) = moment (syncProject_afterDate project)
       /\ issueTypeDefault cfg <> ""
       /\ statusTypeDefault cfg <> ""
       /\ (exists before mapping after,
              yaml_issuesTypeMappings syncYaml = (before ++ mapping :: after)%list
              /\ issuesMapping_name mapping = syncProject_issueType project
              /\ issueTypeMapping cfg = issuesMapping_mapping mapping
              /\ forall later, In later after ->
                               issuesMapping_name later <> syncProject_issueType project)
       /\ (exists before mapping after,
              yaml_statusTypeMappings syncYaml = (before ++ mapping :: after)%list
              /\ statusMapping_name mapping = syncProject_statusType project
              /\ statusTypeMapping cfg = statusMapping_mapping mapping
              /\ forall later, In later after ->
                               statusMapping_name later <> syncProject_statusType project)
       /\ (exists before mapping after,
              yaml_issuesTypeMappings syncYaml = (before ++ mapping :: after)%list
              /\ issuesMapping_name mapping = syncProject_issueType project
              /\ issueTypeDefault cfg = issuesMapping_default mapping
              /\ forall earlier, In earlier before ->
                                 issuesMapping_name earlier <> syncProject_issueType project)
       /\ (exists before mapping after,
              yaml_statusTypeMappings syncYaml = (before ++ mapping :: after)%list
              /\ statusMapping_name mapping = syncProject_statusType project
              /\ statusTypeDefault cfg = statusMapping_default mapping
              /\ forall earlier, In earlier before ->
                                 statusMapping_name earlier <> syncProject_statusType project))
    (yaml_syncProjects (conf_syncYaml c)) cfgs.
Proof.
  intros Hinit Hget.
  destruct (init_inv _ _ _ _ Hinit)
    as (_ & _ & _ & Hissues & Hstatuses & Hissuemap & Hstatusmap).
  simpl in Hissues, Hstatuses, Hissuemap, Hstatusmap.
  unfold getProjectConfigurations in Hget. apply mapThrowing_Ok in Hget.
  eapply Forall2_impl; [exact Hget|].
  intros project cfg Hcfg. simpl in Hcfg.
  unfold projectConfigurationOf in Hcfg.
  destruct (projectFieldsOf _) as [projectFields|e|]; try discriminate.
  destruct (conf_issueTypeMappings c !! syncProject_issueType project)
    as [issueTable|] eqn:Hissue; [|discriminate].
  destruct (conf_statusTypeMappings c !! syncProject_statusType project)
    as [statusTable|] eqn:Hstatus; [|discriminate].
  rewrite Hissues, Hstatuses in Hcfg.
  destruct (JS.find _ (yaml_statusTypeMappings syncYaml)) as [statusFirst|] eqn:Hsfirst;
    [|discriminate].
  destruct (JS.find _ (yaml_issuesTypeMappings syncYaml)) as [issueFirst|] eqn:Hifirst;
    [|simpl in Hcfg; destruct (negb _); discriminate].
  simpl in Hcfg.
  destruct (JS.truthy_string (statusMapping_default statusFirst)) eqn:Hsdefault;
    [|discriminate].
  destruct (JS.truthy_string (issuesMapping_default issueFirst)) eqn:Hidefault;
    [|discriminate].
  simpl in Hcfg. injection Hcfg as <-. simpl.
  split; [reflexivity|]. split; [reflexivity|]. split; [reflexivity|].
  split. { unfold JS.truthy_string in Hidefault. apply negb_true_iff in Hidefault.
           now apply String.eqb_neq. }
  split. { unfold JS.truthy_string in Hsdefault. apply negb_true_iff in Hsdefault.
           now apply String.eqb_neq. }
  split.
  { rewrite Hissuemap in Hissue. apply built_map_lookup in Hissue.
    destruct Hissue as [(before & x & after & Heq & Hname & Hvalue & Hlast) | [Hempty _]].
    - exists before, x, after. now repeat split.
    - rewrite lookup_empty in Hempty. discriminate. }
  split.
  { rewrite Hstatusmap in Hstatus. apply built_map_lookup in Hstatus.
    destruct Hstatus as [(before & x & after & Heq & Hname & Hvalue & Hlast) | [Hempty _]].
    - exists before, x, after. now repeat split.
    - rewrite lookup_empty in Hempty. discriminate. }
  split.
  - apply List.find_some in Hifirst as Hhere. destruct Hhere as [_ Hname].
    apply String.eqb_eq in Hname.
    unfold JS.find in Hifirst.
    assert (Hsplit : exists before after,
               yaml_issuesTypeMappings syncYaml = (before ++ issueFirst :: after)%list
               /\ forall earlier, In earlier before ->
                    issuesMapping_name earlier <> syncProject_issueType project).
    { clear -Hifirst. induction (yaml_issuesTypeMappings syncYaml) as [|x l IH];
        simpl in Hifirst; [discriminate|].
      destruct (String.eqb (issuesMapping_name x) (syncProject_issueType project)) eqn:Hx.
      - injection Hifirst as <-. exists [], l. split; [reflexivity|intros y []].
      - destruct (IH Hifirst) as [before [after [-> Hearlier]]].
        exists (x :: before), after. split; [reflexivity|].
        intros y [<- | Hy]; [now apply String.eqb_neq|now apply Hearlier]. }
    destruct Hsplit as [before [after [Heq Hearlier]]].
    exists before, issueFirst, after. now repeat split.
  - apply List.find_some in Hsfirst as Hhere. destruct Hhere as [_ Hname].
    apply String.eqb_eq in Hname.
    unfold JS.find in Hsfirst.
    assert (Hsplit : exists before after,
               yaml_statusTypeMappings syncYaml = (before ++ statusFirst :: after)%list
               /\ forall earlier, In earlier before ->
                    statusMapping_name earlier <> syncProject_statusType project).
    { clear -Hsfirst. induction (yaml_statusTypeMappings syncYaml) as [|x l IH];
        simpl in Hsfirst; [discriminate|].
      destruct (String.eqb (statusMapping_name x) (syncProject_statusType project)) eqn:Hx.
      - injection Hsfirst as <-. exists [], l. split; [reflexivity|intros y []].
      - destruct (IH Hsfirst) as [before [after [-> Hearlier]]].
        exists (x :: before), after. split; [reflexivity|].
        intros y [<- | Hy]; [now apply String.eqb_neq|now apply Hearlier]. }
    destruct Hsplit as [before [after [Heq Hearlier]]].
    exists before, statusFirst, after. now repeat split.
Qed.

Lemma returned_configurations_are_complete_witness :
  exists c cfgs,
    fst (init (be:=Fixture.tracker) Samples.configuration
              (Fixture.world (Fixture.healthy []))) = Ok c
    /\ getProjectConfigurations Samples.moment c = Ok cfgs
    /\ map cfg_name cfgs = ["P"; "Q"]
    /\ Forall (fun cfg => issueTypeDefault cfg <> "" /\ statusTypeDefault cfg <> "") cfgs.
Proof.
  pose (run := init (be:=Fixture.tracker) Samples.configuration
                    (Fixture.world (Fixture.healthy []))).
  assert (Hinit : exists c, run = (Ok c, snd run)
                            /\ exists cfgs, getProjectConfigurations Samples.moment c = Ok cfgs
                                            /\ map cfg_name cfgs = ["P"; "Q"]).
  { eexists. split; [vm_compute; reflexivity|].
    eexists. split; [vm_compute; reflexivity|reflexivity]. }
  destruct Hinit as [c [Hinit [cfgs [Hget Hnames]]]].
  exists c, cfgs. split; [fold run; now rewrite Hinit|]. split; [exact Hget|].
  split; [exact Hnames|].
  pose proof (returned_configurations_are_complete (be:=Fixture.tracker) Samples.moment
                "token" "https://jira.example" "secret" Samples.syncYaml
                (Some Samples.syncStateYaml) c (Fixture.world (Fixture.healthy [])) (snd run)
                cfgs Hinit Hget) as Hall.
  clear -Hall. induction Hall as [|project cfg projects cfgs Hcfg _ IH]; constructor.
  - destruct Hcfg as (_ & _ & _ & Hissue & Hstatus & _). now split.
  - exact IH.
Defined.

(** X26 - Undeclared mapping.  On a configuration built by
    [new Configuration] and [init], when a project uses an issue type
    mapping that the configuration file does not declare under that name,
    [getProjectConfigurations] does not return; when that project is the
    first of the file, the error thrown is "Issue type mapping not found
    for <project name>", unless a field type of its board is unknown, in
    which case it is "Unknown field type". *)
Theorem undeclared_mapping_stops_the_configuration {be : Backend}
    (moment : string -> Moment) (githubReadToken jiraHost jiraWriteToken : string)
    (syncYaml : SyncYaml) (syncStateYaml : option SyncStateYaml)
    (c : Configuration) (w w' : World) (project : SyncYamlSyncProject) :
  init (new_Configuration githubReadToken jiraHost jiraWriteToken syncYaml syncStateYaml) w
  = (Ok c, w') ->
  In project (yaml_syncProjects (conf_syncYaml c)) ->
  (forall mapping, In mapping (yaml_issuesTypeMappings syncYaml) ->
                   issuesMapping_name mapping <> syncProject_issueType project) ->
  (forall cfgs, getProjectConfigurations moment c <> Ok cfgs)
  /\ (forall others,
         yaml_syncProjects (conf_syncYaml c) = project :: others ->
         getProjectConfigurations moment c = Throw (Error "Unknown field type")
         \/ getProjectConfigurations moment c
            = Throw (Error ("Issue type mapping not found for " ++ syncProject_name project))).
Proof.
  intros Hinit Hproject Hundeclared.
  destruct (init_inv _ _ _ _ Hinit) as (_ & _ & _ & _ & _ & Hissuemap & _).
  simpl in Hissuemap.
  assert (Hnone : conf_issueTypeMappings c !! syncProject_issueType project = None).
  { destruct (conf_issueTypeMappings c !! syncProject_issueType project) as [table|] eqn:Hlookup;
      [|reflexivity].
    rewrite Hissuemap in Hlookup. apply built_map_lookup in Hlookup.
    destruct Hlookup as [(before & x & after & Heq & Hname & _) | [Hempty _]].
    - exfalso. apply (Hundeclared x); [|exact Hname].
      rewrite Heq. apply in_or_app. right. now left.
    - rewrite lookup_empty in Hempty. discriminate. }
  assert (Hthrows : projectConfigurationOf moment c project = Throw (Error "Unknown field type")
                    \/ projectConfigurationOf moment c project
                       = Throw (Error ("Issue type mapping not found for "
                                       ++ syncProject_name project))).
  { unfold projectConfigurationOf. rewrite Hnone.
    unfold projectFieldsOf, pushProjectField, getFieldTypeFromYaml.
    destruct (conf_githubProjects c !! syncProject_project project) as [agile|];
      [|now right].
    destruct (githubProject_storyPoints agile) as [f1|];
      [destruct (String.eqb (yaml_type f1) "number");
       [|destruct (String.eqb (yaml_type f1) "singleSelect");
         [|destruct (String.eqb (yaml_type f1) "iteration"); [|now left]]]|];
      (destruct (githubProject_status agile) as [f2|];
       [destruct (String.eqb (yaml_type f2) "number");
        [|destruct (String.eqb (yaml_type f2) "singleSelect");
          [|destruct (String.eqb (yaml_type f2) "iteration"); [|now left]]]|];
       (destruct (githubProject_sprint agile) as [f3|];
        [destruct (String.eqb (yaml_type f3) "number");
         [|destruct (String.eqb (yaml_type f3) "singleSelect");
           [|destruct (String.eqb (yaml_type f3) "iteration"); [|now left]]]|];
        now right)). }
  split.
  - intros cfgs Hget. unfold getProjectConfigurations in Hget. apply mapThrowing_Ok in Hget.
    clear -Hget Hproject Hthrows.
    induction Hget as [|p cfg projects cfgs Hp _ IH]; [destruct Hproject|].
    destruct Hproject as [-> | Hin]; [|now apply IH].
    destruct Hthrows as [Ht | Ht]; rewrite Ht in Hp; discriminate.
  - intros others Hfirst. unfold getProjectConfigurations. rewrite Hfirst. simpl.
    destruct Hthrows as [-> | ->]; [now left|now right].
Qed.

Lemma undeclared_mapping_stops_the_configuration_witness :
  let yaml := {| yaml_githubProjects := [];
                 yaml_statusTypeMappings := yaml_statusTypeMappings Samples.syncYaml;
                 yaml_issuesTypeMappings := [];
                 yaml_syncProjects := yaml_syncProjects Samples.syncYaml |} in
  exists c w',
    init (be:=Fixture.tracker)
         (new_Configuration "token" "https://jira.example" "secret" yaml None)
         (Fixture.world (Fixture.healthy []))
    = (Ok c, w')
    /\ forall cfgs, getProjectConfigurations Samples.moment c <> Ok cfgs.
Proof.
  intros yaml.
  pose (run := init (be:=Fixture.tracker)
                    (new_Configuration "token" "https://jira.example" "secret" yaml None)
                    (Fixture.world (Fixture.healthy []))).
  assert (Hinit : exists c,
             run = (Ok c, snd run)
             /\ In (Samples.syncProject "P" "2024-01-01T00:00:00.000Z")
                   (yaml_syncProjects (conf_syncYaml c))).
  { eexists. split; [vm_compute; reflexivity|]. left. reflexivity. }
  destruct Hinit as [c [Hinit Hproject]].
  exists c, (snd run). split; [exact Hinit|].
  apply (undeclared_mapping_stops_the_configuration (be:=Fixture.tracker) Samples.moment
           "token" "https://jira.example" "secret" yaml None c
           (Fixture.world (Fixture.healthy [])) (snd run)
           (Samples.syncProject "P" "2024-01-01T00:00:00.000Z") Hinit Hproject).
  intros mapping [].
Defined.

Section StateRoundTrip.

Context {be : Backend}.

Lemma dates_of_distinct_entries (entries : list SyncProjectResult) :
  List.NoDup (map syncProjectName entries) ->
  forall rest done projects projects',
    entries = (done ++ rest)%list ->
    map syncProjectName rest = map syncProject_name projects ->
    Forall2 (fun project project' =>
               exists afterDate,
                 project' = withAfterDate project afterDate
                 /\ (forall before entry after,
                        entries = (before ++ entry :: after)%list ->
                        syncProjectName entry = syncProject_name project ->
                        (forall later, In later after ->
                                       syncProjectName later <> syncProject_name project) ->
                        afterDate = result_afterDate entry)
                 /\ ((forall entry, In entry entries ->
                                    syncProjectName entry <> syncProject_name project) ->
                     afterDate = syncProject_afterDate project))
            projects projects' ->
    Forall2 (fun project' result =>
               syncProject_name project' = syncProjectName result
               /\ syncProject_afterDate project' = result_afterDate result)
            projects' rest.
Proof.
  intros Hnodup rest. induction rest as [|r rest IH];
    intros done projects projects' Hentries Hnames Hrel.
  - destruct projects; [|discriminate]. inversion Hrel. constructor.
  - destruct projects as [|p projects]; [discriminate|].
    simpl in Hnames. injection Hnames as Hname Hnames.
    assert (Hsplit : List.NoDup (map syncProjectName (done ++ r :: rest)))
      by (rewrite <- Hentries; exact Hnodup).
    rewrite map_app in Hsplit. simpl in Hsplit. apply List.NoDup_remove_2 in Hsplit.
    inversion Hrel as [|? p' ? projects'' Hp Hrel']; subst projects'.
    constructor.
    + destruct Hp as [afterDate [-> [Hlast _]]]. simpl. split; [now symmetry|].
      apply (Hlast done r rest); [assumption|assumption|].
      intros later Hlater Hsame.
      apply Hsplit.
      apply in_or_app. right. rewrite Hname, <- Hsame. now apply in_map.
    + apply (IH (done ++ [r])%list projects); [|exact Hnames|exact Hrel'].
      now rewrite <- app_assoc.
Qed.

Lemma overrideAfterDates_names (entries : list SyncProjectResult) :
  forall projects w projects' w',
    overrideAfterDates entries projects w = (Ok projects', w') ->
    map syncProject_name projects' = map syncProject_name projects.
Proof.
  induction entries as [|e rest IH]; intros projects w projects' w' Hrun; simpl in Hrun.
  - unfold ret in Hrun. now injection Hrun as <- _.
  - destruct (JS.find _ projects) as [project|].
    + apply bind_Ok in Hrun. destruct Hrun as [[] [w1 [_ Hrun]]].
      rewrite (IH _ _ _ _ Hrun). apply setAfterDate_names.
    + exact (IH _ _ _ _ Hrun).
Qed.

Lemma init_names (c c' : Configuration) (w w' : World) :
  init c w = (Ok c', w') ->
  map syncProject_name (yaml_syncProjects (conf_syncYaml c'))
  = map syncProject_name (yaml_syncProjects (conf_syncYaml c)).
Proof.
  unfold init. intros Hrun.
  apply bind_Ok in Hrun. destruct Hrun as [projects [w1 [Hoverride Hrun]]].
  unfold ret in Hrun. injection Hrun as <- _. simpl.
  destruct (conf_syncStateYaml c) as [state|].
  - exact (overrideAfterDates_names _ _ _ _ _ Hoverride).
  - unfold ret in Hoverride. now injection Hoverride as <- _.
Qed.

Lemma getProjectConfigurations_names (moment : string -> Moment) (c : Configuration)
      (cfgs : list ProjectConfiguration) :
  getProjectConfigurations moment c = Ok cfgs ->
  map cfg_name cfgs = map syncProject_name (yaml_syncProjects (conf_syncYaml c)).
Proof.
  unfold getProjectConfigurations. intros Hget. apply mapThrowing_Ok in Hget.
  induction Hget as [|project cfg projects cfgs Hcfg _ IH]; [reflexivity|].
  simpl. rewrite IH. f_equal.
  unfold projectConfigurationOf in Hcfg.
  destruct (projectFieldsOf _); try discriminate.
  destruct (conf_issueTypeMappings c !! _); [|discriminate].
  destruct (conf_statusTypeMappings c !! _); [|discriminate].
  destruct (negb _); [discriminate|]. destruct (negb _); [discriminate|].
  now injection Hcfg as <-.
Qed.

End StateRoundTrip.

(** X27 - From one run to the next.  Let a run over projects of distinct
    names complete: the configuration is built and initialised, its
    project configurations are synchronised one after the other.  Let the
    state handed to the next run be the one written from the results.
    After [init], every project of the next run starts from the date that
    the pass over it returned in the completed run. *)
Theorem next_run_starts_from_the_returned_dates {rt : JsRuntime} {be : Backend}
    (moment : string -> Moment) (githubReadToken jiraHost jiraWriteToken : string)
    (syncYaml : SyncYaml) (syncStateYaml : option SyncStateYaml)
    (c : Configuration) (cfgs : list ProjectConfiguration)
    (fuel : nat) (w0 w1 w' w2 : World) (results : list SyncProjectResult) :
  List.NoDup (map syncProject_name (yaml_syncProjects syncYaml)) ->
  init (new_Configuration githubReadToken jiraHost jiraWriteToken syncYaml syncStateYaml) w0
  = (Ok c, w1) ->
  getProjectConfigurations moment c = Ok cfgs ->
  Sync_start fuel cfgs w1 = (Ok results, w') ->
  exists c' w3,
    init (new_Configuration githubReadToken jiraHost jiraWriteToken syncYaml
            (Some (syncStateYamlToWrite results))) w2
    = (Ok c', w3)
    /\ Forall2 (fun project' result =>
                  syncProject_name project' = syncProjectName result
                  /\ syncProject_afterDate project' = result_afterDate result)
               (yaml_syncProjects (conf_syncYaml c')) results.
Proof.
  intros Hnodup Hinit Hget Hrun.
  pose proof (getProjectConfigurations_names _ _ _ Hget) as Hcfgs.
  rewrite (init_names _ _ _ _ Hinit) in Hcfgs. simpl in Hcfgs.
  unfold Sync_start in Hrun.
  destruct (Sync_loop_results fuel cfgs _ _ _ _ Hrun) as [more [-> Hmore]].
  simpl in *.
  assert (Hnames : map syncProjectName more = map syncProject_name (yaml_syncProjects syncYaml)).
  { rewrite <- Hcfgs. clear -Hmore.
    induction Hmore as [|cfg result cfgs more [Hname _] _ IH]; [reflexivity|].
    simpl. now rewrite Hname, IH. }
  destruct (overrideAfterDates_Ok more (yaml_syncProjects syncYaml) w2 Hnodup)
    as [projects' [w3 [Hoverride [_ [_ [_ Hrel]]]]]].
  eexists. exists w3. unfold init. simpl. unfold bind. rewrite Hoverride. unfold ret.
  split; [reflexivity|]. simpl.
  apply (dates_of_distinct_entries more) with (done := []) (projects := yaml_syncProjects syncYaml).
  - now rewrite Hnames.
  - reflexivity.
  - exact Hnames.
  - exact Hrel.
Qed.

Lemma next_run_starts_from_the_returned_dates_witness :
  let w0 := Fixture.world (Fixture.healthy Fixture.two_pages) in
  exists results c' w3,
    init (be:=Fixture.tracker)
         (new_Configuration "token" "https://jira.example" "secret" Samples.syncYaml
                            (Some (syncStateYamlToWrite results))) w0
    = (Ok c', w3)
    /\ map syncProject_afterDate (yaml_syncProjects (conf_syncYaml c'))
       = map result_afterDate results
    /\ map result_afterDate results = ["2024-01-04T00:00:00Z"; "2024-01-04T00:00:00Z"].
Proof.
  intros w0.
  pose (first := init (be:=Fixture.tracker) Samples.configuration w0).
  assert (Hfirst : exists c cfgs results w',
             first = (Ok c, snd first)
             /\ getProjectConfigurations Samples.moment c = Ok cfgs
             /\ Sync_start (rt:=Fixture.runtime) (be:=Fixture.tracker) 3 cfgs (snd first)
                = (Ok results, w')
             /\ map result_afterDate results
                = ["2024-01-04T00:00:00Z"; "2024-01-04T00:00:00Z"]).
  { eexists. eexists. eexists. eexists. split; [vm_compute; reflexivity|].
    split; [vm_compute; reflexivity|]. split; [vm_compute; reflexivity|reflexivity]. }
  destruct Hfirst as [c [cfgs [results [w' [Hinit [Hget [Hrun Hdates]]]]]]].
  destruct (next_run_starts_from_the_returned_dates (rt:=Fixture.runtime) (be:=Fixture.tracker)
              Samples.moment "token" "https://jira.example" "secret" Samples.syncYaml
              (Some Samples.syncStateYaml) c cfgs 3 w0 (snd first) w' w0 results)
    as [c' [w3 [Hnext Hstart]]].
  - simpl. repeat constructor; simpl; intuition discriminate.
  - exact Hinit.
  - exact Hget.
  - exact Hrun.
  - exists results, c', w3. split; [exact Hnext|]. split; [|exact Hdates].
    clear -Hstart. induction Hstart as [|project result projects results [_ Hdate] _ IH];
      [reflexivity|].
    simpl. now rewrite Hdate, IH.
Defined.

(** ** Further properties: the batch fetcher *)

Section FetcherPages.

Context {rt : JsRuntime} {be : Backend}.

Variable cfg : ProjectConfiguration.

Lemma searches_app (evs1 evs2 : list Event) :
  searches (evs1 ++ evs2) = (searches evs1 ++ searches evs2)%list.
Proof. unfold searches. apply flat_map_app. Qed.

(** Under the cap, every page is asked for, once, and nothing is
  dropped. *)
Lemma fetch_under_the_cap :
  forall e cursor pages, Serves cfg e cursor pages ->
  forall fuel previousIssues w,
    env w = e -> length pages <= fuel ->
    let acc := default [] previousIssues in
    (Z.of_nat (length (acc ++ records pages)) < maxBatchNumberIssues cfg)%Z ->
    exists w' evs,
      doGetIssuesUpdatedAfterBatch cfg fuel cursor previousIssues w
      = (Ok (acc ++ records pages)%list, w')
      /\ added w w' evs
      /\ searches evs = map (searchQuery cfg) (page_cursors cursor pages).
Proof.
  intros e cursor pages Hserves.
  induction Hserves as [e e' cursor page Hpage Hlast
                       |e e' cursor page pages Hpage Hnext Hserves IH];
    intros fuel previousIssues w Henv Hfuel acc Hunder.
  - destruct fuel as [|fuel]; [simpl in Hfuel; lia|]. subst e.
    rewrite (doGetIssuesUpdatedAfterBatch_round cfg fuel cursor previousIssues w page e' Hpage).
    assert (Hall : match previousIssues with
                   | Some previous => (previous ++ concat (search_edges page))%list
                   | None => concat (search_edges page)
                   end = (acc ++ records [page])%list).
    { unfold acc, records. simpl. rewrite app_nil_r. now destruct previousIssues. }
    rewrite Hall.
    destruct (Z.of_nat (length (acc ++ records [page])) >=? maxBatchNumberIssues cfg)%Z eqn:Hcap;
      [apply Z.geb_le in Hcap; lia|].
    rewrite Hlast. eexists. eexists. split; [reflexivity|]. split.
    + unfold added, after_log, after_query. simpl. rewrite <- app_assoc. reflexivity.
    + reflexivity.
  - destruct fuel as [|fuel]; [simpl in Hfuel; lia|]. subst e.
    rewrite (doGetIssuesUpdatedAfterBatch_round cfg fuel cursor previousIssues w page e' Hpage).
    assert (Hall : match previousIssues with
                   | Some previous => (previous ++ concat (search_edges page))%list
                   | None => concat (search_edges page)
                   end = (acc ++ concat (search_edges page))%list).
    { unfold acc. now destruct previousIssues. }
    rewrite Hall. rewrite records_cons in Hunder. rewrite app_assoc in Hunder.
    destruct (Z.of_nat (length (acc ++ concat (search_edges page)))
              >=? maxBatchNumberIssues cfg)%Z eqn:Hcap.
    { apply Z.geb_le in Hcap. rewrite length_app in Hunder. lia. }
    rewrite Hnext.
    match goal with
    | |- context [doGetIssuesUpdatedAfterBatch cfg fuel ?c ?p ?w1] =>
        destruct (IH fuel p w1 eq_refl ltac:(simpl in Hfuel; lia) Hunder)
          as [w' [evs [Hrun [Hadd Hsearches]]]]
    end.
    exists w'. eexists. split; [|split].
    + rewrite Hrun. simpl. now rewrite records_cons, app_assoc.
    + eapply added_trans; [|exact Hadd].
      unfold added, after_log, after_query. simpl. rewrite <- !app_assoc. reflexivity.
    + rewrite searches_app, Hsearches. reflexivity.
Qed.

End FetcherPages.

(** X28 - Fetch under the cap.  When the source serves fewer records
    than the cap on a finite sequence of pages, the fetch returns all the
    records of all the pages, in order; it asks for each page once, the
    first without cursor and each next one with the cursor at which the
    page before ended. *)
Theorem fetch_under_the_cap_returns_every_page {rt : JsRuntime} {be : Backend}
    (cfg : ProjectConfiguration) (pages : list GraphQLSearchIssuesResponse)
    (fuel : nat) (w : World) :
  Serves cfg (env w) None pages ->
  length pages <= fuel ->
  (Z.of_nat (length (records pages)) < maxBatchNumberIssues cfg)%Z ->
  exists w' evs,
    doGetIssuesUpdatedAfterBatch cfg fuel None None w = (Ok (records pages), w')
    /\ added w w' evs
    /\ searches evs = map (searchQuery cfg) (page_cursors None pages).
Proof.
  intros Hserves Hfuel Hunder.
  exact (fetch_under_the_cap cfg _ _ _ Hserves fuel None w eq_refl Hfuel Hunder).
Qed.

Lemma fetch_under_the_cap_returns_every_page_witness :
  exists w' evs,
    doGetIssuesUpdatedAfterBatch (rt:=Fixture.runtime) (be:=Fixture.tracker)
      (Fixture.config "P" 10) 2 None None (Fixture.world (Fixture.healthy Fixture.two_pages))
    = (Ok [Fixture.issue1; Fixture.issue2; Fixture.issue3], w')
    /\ added (Fixture.world (Fixture.healthy Fixture.two_pages)) w' evs
    /\ map search_cursorAfter (searches evs) = [None; Some "c1"].
Proof.
  destruct (fetch_under_the_cap_returns_every_page (rt:=Fixture.runtime) (be:=Fixture.tracker)
              (Fixture.config "P" 10) (map snd Fixture.two_pages) 2
              (Fixture.world (Fixture.healthy Fixture.two_pages)))
    as [w' [evs [Hrun [Hadd Hsearches]]]].
  - eapply (Serves_next (be:=Fixture.tracker)); [reflexivity | reflexivity |].
    eapply (Serves_last (be:=Fixture.tracker)); reflexivity.
  - simpl. lia.
  - vm_compute. reflexivity.
  - exists w', evs. split; [exact Hrun|]. split; [exact Hadd|]. now rewrite Hsearches.
Defined.

(** X29 - Negative cap.  With a cap below 0, the fetch stops after its
    first search, whatever the page announces, and returns the records of
    that page without the last ones, as many as the cap is below 0. *)
Theorem negative_cap_drops_the_end_of_the_first_page {rt : JsRuntime} {be : Backend}
    (cfg : ProjectConfiguration) (fuel : nat) (w : World)
    (page : GraphQLSearchIssuesResponse) (e' : Env) :
  (maxBatchNumberIssues cfg < 0)%Z ->
  graphql (searchQuery cfg None) (env w) = (Ok page, e') ->
  let entries := concat (search_edges page) in
  doGetIssuesUpdatedAfterBatch cfg (S fuel) None None w
  = (Ok (firstn (length entries - Z.to_nat (- maxBatchNumberIssues cfg)) entries),
     after_query cfg w None e').
Proof.
  intros Hcap Hpage entries.
  rewrite (doGetIssuesUpdatedAfterBatch_round cfg fuel None None w page e' Hpage).
  fold entries.
  destruct (Z.of_nat (length entries) >=? maxBatchNumberIssues cfg)%Z eqn:Hge;
    [|rewrite Z.geb_leb in Hge; apply Z.leb_gt in Hge; lia].
  unfold JS.slice0.
  destruct (maxBatchNumberIssues cfg <? 0)%Z eqn:Hneg; [|apply Z.ltb_ge in Hneg; lia].
  do 3 f_equal. lia.
Qed.

Lemma negative_cap_drops_the_end_of_the_first_page_witness :
  doGetIssuesUpdatedAfterBatch (rt:=Fixture.runtime) (be:=Fixture.tracker)
    (Fixture.config "P" (-1)) 1 None None (Fixture.world (Fixture.healthy Fixture.two_pages))
  = (Ok [Fixture.issue1],
     after_query (Fixture.config "P" (-1)) (Fixture.world (Fixture.healthy Fixture.two_pages))
                 None (Fixture.healthy Fixture.two_pages)).
Proof.
  apply (negative_cap_drops_the_end_of_the_first_page (rt:=Fixture.runtime) (be:=Fixture.tracker)
           (Fixture.config "P" (-1)) 0 (Fixture.world (Fixture.healthy Fixture.two_pages))
           (Fixture.page [Fixture.issue1; Fixture.issue2] "c1" true)
           (Fixture.healthy Fixture.two_pages)).
  - reflexivity.
  - reflexivity.
Defined.
